(** * School Account Sync: organisational-unit derivation and sync engine

    A shallow embedding of [src/ou-manager.ts] (class [OUManager]) and
    [src/sync-engine.ts] (class [SyncEngine]) together with the records of
    [src/types.ts], followed by the properties established about them.
    The roster parser of [src/csv-parser.ts] (class [CSVParser]) and the
    methods of [src/google-api.ts] (class [GoogleAPIClient]) that the engine
    calls before it plans are embedded after the sample data.

    Conventions of the embedding.
    - A JavaScript string is a [string], one character per code unit. The
      embedding is exact on ASCII strings: [toLowerCase] folds the letters
      A-Z and treats every other code unit as caseless.
    - A JavaScript number holding an integer is a [Z]. Numbers are IEEE 754
      doubles: every integer of magnitude up to 2^53 is a number, a larger
      one is a number when it has at most 53 significant bits ([isNumber]).
      [numberToString] prints the shortest decimal that reads back as the
      number, in plain notation below 10^21 and in exponent notation from
      there on, and [parseInt] rounds what it reads to the nearest number.
      Arithmetic is exact, which it is in the source as long as the
      results stay below 2^53 in magnitude; [Infinity], which the source
      gets from 2^1024 on, is not modelled.
    - An optional field [f?: T] is an [option T]; truthiness tests of the
      source ([if (student.email)], [!user.suspended], [a || b]) are written
      out by the helper functions of module [Js].
    - [new Date()] is an explicit argument [now : JsDate].
    - A [throw] is the constructor [Throw] of [Result]. *)

From Stdlib Require Import ZArith Lia List String Ascii Bool.
From Stdlib Require Import DecimalString DecimalPos DecimalZ.
From stdpp Require Import gmap strings list.

Open Scope string_scope.
Open Scope list_scope.
Open Scope Z_scope.

(** ** JavaScript built-ins used by the source *)

Module Js.

Inductive Result (A : Type) : Type :=
| Ok (value : A)
| Throw (message : string).
Arguments Ok {A} value.
Arguments Throw {A} message.

Record JsDate : Type := mkDate {
  getFullYear : Z;   (* four-digit calendar year *)
  getMonth : Z       (* zero-based month, January = 0 *)
}.

(** Truthiness of an optional string: [undefined] and [''] are falsy. *)
Definition truthy (o : option string) : bool :=
  match o with
  | Some s => negb (String.eqb s "")
  | None => false
  end.

(** Truthiness of an optional boolean. *)
Definition truthyb (o : option bool) : bool :=
  match o with
  | Some b => b
  | None => false
  end.

(** [o || d] for an optional string [o] and a string [d]. *)
Definition orElse (o : option string) (d : string) : string :=
  match o with
  | Some s => if String.eqb s "" then d else s
  | None => d
  end.

(** How a template literal prints an optional string. *)
Definition show (o : option string) : string :=
  match o with
  | Some s => s
  | None => "undefined"
  end.

Definition isUpper (c : ascii) : bool :=
  (Ascii.leb "A" c && Ascii.leb c "Z")%char.

Definition isLower (c : ascii) : bool :=
  (Ascii.leb "a" c && Ascii.leb c "z")%char.

Definition isDigit (c : ascii) : bool :=
  (Ascii.leb "0" c && Ascii.leb c "9")%char.

Definition isLowerOrDigit (c : ascii) : bool := isLower c || isDigit c.

Definition lowerChar (c : ascii) : ascii :=
  if isUpper c then ascii_of_nat (nat_of_ascii c + 32) else c.

(** [s.toLowerCase()] *)
Fixpoint toLowerCase (s : string) : string :=
  match s with
  | EmptyString => EmptyString
  | String c r => String (lowerChar c) (toLowerCase r)
  end.

(** [s.replace(/[^...]/g, '')]: only the characters of the class [keep]
    survive. *)
Fixpoint keepChars (keep : ascii -> bool) (s : string) : string :=
  match s with
  | EmptyString => EmptyString
  | String c r =>
      if keep c then String c (keepChars keep r) else keepChars keep r
  end.

(** [s.startsWith(p)] *)
Fixpoint startsWith (s p : string) {struct p} : bool :=
  match p, s with
  | EmptyString, _ => true
  | String _ _, EmptyString => false
  | String a p', String b s' => Ascii.eqb a b && startsWith s' p'
  end.

(** [s.substring(n)] for [0 <= n] *)
Fixpoint substring (s : string) (n : nat) : string :=
  match n, s with
  | O, _ => s
  | S _, EmptyString => EmptyString
  | S n', String _ r => substring r n'
  end.

(** [s.includes(p)] *)
Fixpoint includes (s p : string) : bool :=
  startsWith s p ||
  match s with
  | EmptyString => false
  | String _ r => includes r p
  end.

(** [s.split(sep)] for a one-character separator *)
Fixpoint split (sep : ascii) (s : string) : list string :=
  match s with
  | EmptyString => [EmptyString]
  | String c r =>
      if Ascii.eqb c sep then EmptyString :: split sep r
      else match split sep r with
           | h :: t => String c h :: t
           | [] => [String c EmptyString]
           end
  end.

(** [parts.filter((p) => p)] on an array of strings *)
Definition filterTruthy (parts : list string) : list string :=
  List.filter (fun p => negb (String.eqb p "")) parts.

(** The decimal expansion of an integer. *)
Definition digitsOf (n : Z) : string :=
  NilZero.string_of_int (Z.to_int n).

(** The number nearest to the integer [v >= 0]: [v] itself when it has at
    most 53 significant bits, and otherwise the nearer of the two
    neighbouring multiples of 2^e that have, a tie going to the one with
    the even significand. *)
Definition nearestNumber (v : Z) : Z :=
  let e := Z.log2 v - 52 in
  if e <=? 0 then v
  else
    let ulp := 2 ^ e in
    let q := v / ulp in
    let r := v mod ulp in
    let q' :=
      if 2 * r <? ulp then q
      else if ulp <? 2 * r then q + 1
      else if Z.even q then q else q + 1 in
    q' * ulp.

(** The integers that are numbers: at most 53 significant bits, and a
    magnitude below 2^1024. *)
Definition isNumber (n : Z) : Prop :=
  nearestNumber (Z.abs n) = Z.abs n /\ Z.abs n < 2 ^ 1024.

(** The decimal [s * 10^t] with [k] digits [s] that reads back as the
    number [x], if there is one: of the two multiples of [10^t] around [x],
    the one that reads back as [x], the closer one when both do, and the
    one with the even [s] when they are equally close. *)
Definition withDigits (x : Z) (k : nat) : option Z :=
  let unit := 10 ^ Z.of_nat (String.length (digitsOf x) - k) in
  let below := x / unit * unit in
  let above := below + unit in
  match nearestNumber below =? x, nearestNumber above =? x with
  | true, true =>
      Some (if x - below <? above - x then below
            else if above - x <? x - below then above
            else if Z.even (below / unit) then below else above)
  | true, false => Some below
  | false, true => Some above
  | false, false => None
  end.

(** The decimal with the fewest digits, from [k] digits on, that reads back
    as [x]; seventeen digits are enough for every number. *)
Fixpoint shortestFrom (x : Z) (k remaining : nat) : Z :=
  match remaining with
  | O => x
  | S remaining' =>
      match withDigits x k with
      | Some c => c
      | None => shortestFrom x (S k) remaining'
      end
  end.

Definition shortestDecimal (x : Z) : Z := shortestFrom x 1 17.

Fixpoint dropTrailingZeros (s : string) : string :=
  match s with
  | EmptyString => EmptyString
  | String c r =>
      match dropTrailingZeros r with
      | EmptyString =>
          if Ascii.eqb c "0" then EmptyString else String c EmptyString
      | r' => String c r'
      end
  end.

(** Exponent notation of a decimal given by its digits: [d.ddde+n], and
    [de+n] when one digit is significant. *)
Definition exponential (digits : string) : string :=
  match digits with
  | EmptyString => EmptyString
  | String d rest =>
      let fraction := dropTrailingZeros rest in
      String d
        ((if String.eqb fraction "" then "" else "." +:+ fraction)
         +:+ "e+" +:+ digitsOf (Z.of_nat (String.length rest)))
  end.

(** [Number::toString] on a number that is an integer [x >= 0] *)
Definition naturalToString (x : Z) : string :=
  let c := shortestDecimal x in
  if c <? 10 ^ 21 then digitsOf c else exponential (digitsOf c).

(** [n.toString()] and [`${n}`] for an integer [n] *)
Definition numberToString (n : Z) : string :=
  if n <? 0 then "-" +:+ naturalToString (- n) else naturalToString n.

Definition isWhiteSpace (c : ascii) : bool :=
  let n := nat_of_ascii c in
  (Nat.leb 9 n && Nat.leb n 13) || Nat.eqb n 32 || Nat.eqb n 160.

Fixpoint trimStart (s : string) : string :=
  match s with
  | String c r => if isWhiteSpace c then trimStart r else s
  | EmptyString => EmptyString
  end.

Definition digitValue (c : ascii) : Z :=
  Z.of_nat (nat_of_ascii c) - 48.

(** The longest prefix of decimal digits, read with accumulator [acc];
    [seen] records whether a digit was consumed. *)
Fixpoint parseDigits (s : string) (seen : bool) (acc : Z) : option Z :=
  match s with
  | String c r =>
      if isDigit c then parseDigits r true (10 * acc + digitValue c)
      else if seen then Some acc else None
  | EmptyString => if seen then Some acc else None
  end.

(** [parseInt(s, 10)]: the number nearest to the integer that the digits
    spell; [None] stands for [NaN]. *)
Definition parseInt (s : string) : option Z :=
  match trimStart s with
  | String "-" r =>
      option_map (fun v => - nearestNumber v) (parseDigits r false 0)
  | String "+" r => option_map nearestNumber (parseDigits r false 0)
  | t => option_map nearestNumber (parseDigits t false 0)
  end.

(** [s.slice(-n)]: the last [n] characters, the whole of a shorter string *)
Definition sliceFromEnd (n : nat) (s : string) : string :=
  substring s (String.length s - n)%nat.

Fixpoint repeatChar (c : ascii) (n : nat) : string :=
  match n with
  | O => EmptyString
  | S n' => String c (repeatChar c n')
  end.

(** [s.padStart(n, c)] for a one-character filler *)
Definition padStart (n : nat) (c : ascii) (s : string) : string :=
  repeatChar c (n - String.length s)%nat +:+ s.

(** [s.charAt(i)]: a one-character string, empty out of range *)
Fixpoint charAt (s : string) (i : nat) : string :=
  match s, i with
  | EmptyString, _ => EmptyString
  | String c _, O => String c EmptyString
  | String _ r, S i' => charAt r i'
  end.

(** The first occurrence of [p] in [s]: what precedes and what follows it. *)
Fixpoint findFirst (s p : string) : option (string * string) :=
  if startsWith s p then Some (EmptyString, substring s (String.length p))
  else match s with
       | EmptyString => None
       | String c r =>
           match findFirst r p with
           | Some (before, after) => Some (String c before, after)
           | None => None
           end
       end.

(** The abstract operation GetSubstitution for a string pattern (there are
    no capture groups): [$$], [$&], [$`] and [$'] are expanded, any other
    [$] stays. *)
Fixpoint getSubstitution (matched before after template : string) : string :=
  match template with
  | EmptyString => EmptyString
  | String c t =>
      if Ascii.eqb c "$" then
        match t with
        | String d r =>
            if Ascii.eqb d "$" then
              String "$" (getSubstitution matched before after r)
            else if Ascii.eqb d "&" then
              matched +:+ getSubstitution matched before after r
            else if Ascii.eqb d "`" then
              before +:+ getSubstitution matched before after r
            else if Ascii.eqb d "'" then
              after +:+ getSubstitution matched before after r
            else String c (getSubstitution matched before after t)
        | EmptyString => String c EmptyString
        end
      else String c (getSubstitution matched before after t)
  end.

(** [s.replace(p, replacement)] for a string pattern [p]: the first
    occurrence only. *)
Definition replace (s p replacement : string) : string :=
  match findFirst s p with
  | None => s
  | Some (before, after) =>
      before +:+ getSubstitution p before after replacement +:+ after
  end.

(** An index argument of [Array.prototype.slice] made absolute. *)
Definition relativeIndex (len i : Z) : Z :=
  if i <? 0 then Z.max (len + i) 0 else Z.min i len.

(** [l.slice(start, stop)] *)
Definition slice {A : Type} (l : list A) (start stop : Z) : list A :=
  let len := Z.of_nat (List.length l) in
  let from := relativeIndex len start in
  let to := relativeIndex len stop in
  firstn (Z.to_nat (to - from)) (skipn (Z.to_nat from) l).

End Js.

Import Js.

(** ** Records of [src/types.ts] *)

Inductive Status : Type := active | transferred | graduated.

Definition statusString (s : Status) : string :=
  match s with
  | active => "active"
  | transferred => "transferred"
  | graduated => "graduated"
  end.

Record Student : Type := mkStudent {
  studentId : string;
  firstName : string;
  lastName : string;
  grade : string;
  email : option string;
  graduationYear : Z;
  enrollmentDate : option string;
  parentEmail : option string;
  status : option Status;
  deviceSerial : option string
}.

Inductive SchoolLevel : Type := elementary | middle | high.

Definition schoolLevelString (l : SchoolLevel) : string :=
  match l with
  | elementary => "elementary"
  | middle => "middle"
  | high => "high"
  end.

(** ** [OUManager] *)

Module OUManager.

(** The default of the constructor argument [ouRoot]. *)
Definition defaultOuRoot : string := "/org/student".

(** The object literal [gradeMapping]: grade code, school level and
    grade number. Only its own keys are looked up. *)
Definition gradeTable : list (string * (SchoolLevel * Z)) :=
  [ ("4K", (elementary, -1)); ("K", (elementary, 0));
    ("1", (elementary, 1)); ("2", (elementary, 2));
    ("3", (elementary, 3)); ("4", (elementary, 4));
    ("5", (elementary, 5)); ("6", (middle, 6));
    ("7", (middle, 7)); ("8", (middle, 8));
    ("9", (high, 9)); ("10", (high, 10));
    ("11", (high, 11)); ("12", (high, 12)) ].

(** [this.gradeMapping[grade]] on the keys of the object literal itself.
    The lookup of the source also finds the names that every object
    inherits ([constructor], [toString], ...), with a value that has no
    [schoolLevel] and no [gradeNumber]; they are not modelled. *)
Definition gradeMapping (grade : string) : option (SchoolLevel * Z) :=
  option_map snd
    (List.find (fun entry => String.eqb (fst entry) grade) gradeTable).

Definition getSchoolLevel (grade : string) : Result SchoolLevel :=
  match gradeMapping grade with
  | None => Throw ("Invalid grade: " +:+ grade)
  | Some mapping => Ok (fst mapping)
  end.

(** The school year in progress: it turns over in June. *)
Definition currentSchoolYear (now : JsDate) : Z :=
  let currentYear := getFullYear now in
  let currentMonth := getMonth now + 1 in
  let isBeforeSchoolYearEnd := currentMonth <? 6 in
  if isBeforeSchoolYearEnd then currentYear - 1 else currentYear.

Definition getSchoolLevelFromGradYear (now : JsDate) (graduationYear : Z)
  : SchoolLevel :=
  let yearsUntilGraduation := graduationYear - currentSchoolYear now in
  if yearsUntilGraduation <=? 4 then high
  else if yearsUntilGraduation <=? 7 then middle
  else elementary.

Definition generateStudentOUName (student : Student) : string :=
  let firstName := keepChars isLowerOrDigit (toLowerCase (firstName student)) in
  let lastName := keepChars isLowerOrDigit (toLowerCase (lastName student)) in
  firstName +:+ "." +:+ lastName.

Definition getStudentOUPath (baseStudentOU : string) (now : JsDate)
    (student : Student) : string :=
  let schoolLevel := getSchoolLevelFromGradYear now (graduationYear student) in
  let graduationYear := graduationYear student in
  let studentName := generateStudentOUName student in
  baseStudentOU +:+ "/" +:+ schoolLevelString schoolLevel +:+ "/"
    +:+ numberToString graduationYear +:+ "/" +:+ studentName.

Definition getSchoolLevelOUPath (baseStudentOU : string)
    (schoolLevel : SchoolLevel) : string :=
  baseStudentOU +:+ "/" +:+ schoolLevelString schoolLevel.

Definition getGraduationYearOUPath (baseStudentOU : string)
    (schoolLevel : SchoolLevel) (graduationYear : Z) : string :=
  baseStudentOU +:+ "/" +:+ schoolLevelString schoolLevel +:+ "/"
    +:+ numberToString graduationYear.

(** [isValidSchoolLevel] together with the cast [as SchoolLevel]. *)
Definition parseSchoolLevel (level : string) : option SchoolLevel :=
  if String.eqb level "elementary" then Some elementary
  else if String.eqb level "middle" then Some middle
  else if String.eqb level "high" then Some high
  else None.

Definition isValidSchoolLevel (level : string) : bool :=
  match parseSchoolLevel level with
  | Some _ => true
  | None => false
  end.

(** The object returned by [parseOUPath]; an absent key is [None]. *)
Record ParsedOUPath : Type := mkParsed {
  parsedSchoolLevel : option SchoolLevel;
  parsedGraduationYear : option Z;
  parsedStudentId : option string
}.

Definition emptyParsed : ParsedOUPath := mkParsed None None None.

Definition parseOUPath (baseStudentOU : string) (ouPath : string)
  : ParsedOUPath :=
  if negb (startsWith ouPath baseStudentOU) then emptyParsed
  else
    let relativePath := substring ouPath (String.length baseStudentOU) in
    let parts := filterTruthy (split "/" relativePath) in
    match parts with
    | [] => emptyParsed
    | schoolLevel :: rest =>
        mkParsed
          (if isValidSchoolLevel schoolLevel then parseSchoolLevel schoolLevel
           else None)
          (match rest with
           | year :: _ => parseInt year
           | [] => None
           end)
          (match rest with
           | _ :: leaf :: _ => Some leaf
           | _ => None
           end)
    end.

Definition shouldMoveStudent (baseStudentOU : string) (now : JsDate)
    (student : Student) (currentOUPath : option string) : bool :=
  if negb (truthy currentOUPath) then true
  else
    let expectedPath := getStudentOUPath baseStudentOU now student in
    negb (String.eqb (orElse currentOUPath "") expectedPath).

Definition calculateGraduationYear (grade : string) (currentDate : JsDate)
  : Result Z :=
  match gradeMapping grade with
  | None => Throw ("Invalid grade: " +:+ grade)
  | Some mapping =>
      let yearsUntilGraduation := 12 - snd mapping in
      let graduationYear :=
        currentSchoolYear currentDate + yearsUntilGraduation + 1 in
      Ok graduationYear
  end.

(** [generateEmailAddress(student, domain)]: the method declares two
    parameters. *)
Definition generateEmailAddress (student : Student) (domain : string)
  : string :=
  let firstName := keepChars isLower (toLowerCase (firstName student)) in
  let lastName := keepChars isLower (toLowerCase (lastName student)) in
  let year := graduationYear student in
  firstName +:+ "." +:+ lastName +:+ numberToString year +:+ "@" +:+ domain.

Definition getHiddenAliasOUPath (baseStudentOU : string) : string :=
  baseStudentOU +:+ "/hidden_aliases".

Definition isStudentOU (baseStudentOU : string) (ouPath : string) : bool :=
  startsWith ouPath baseStudentOU.

Definition isActiveStudentOU (baseStudentOU : string) (ouPath : string)
  : bool :=
  if negb (isStudentOU baseStudentOU ouPath) then false
  else negb (includes ouPath "hidden_aliases")
       && negb (includes ouPath "archived")
       && negb (includes ouPath "suspended").

Definition getStudentStatus (now : JsDate) (student : Student) : Status :=
  match status student with
  | Some s => s
  | None =>
      let currentYear := getFullYear now in
      let currentMonth := getMonth now + 1 in
      let hasGraduated :=
        (graduationYear student <? currentYear)
        || ((graduationYear student =? currentYear) && (6 <=? currentMonth)) in
      if hasGraduated then graduated else active
  end.

End OUManager.

(** ** Remaining records of [src/types.ts]

    Of [GoogleUser] and [ChromeDevice] the fields the engine reads or writes
    are kept; the wall-clock fields of [SyncSummary] are left out. *)

Record ExternalId : Type := mkExternalId {
  extValue : string;
  extType : string;
  extCustomType : option string
}.

Record GoogleUser : Type := mkGoogleUser {
  userId : option string;
  primaryEmail : string;
  givenName : string;
  familyName : string;
  suspended : option bool;
  changePasswordAtNextLogin : option bool;
  orgUnitPath : option string;
  externalIds : option (list ExternalId);
  customSchemas : option (list (string * list (string * string)));
  password : option string
}.

Record ChromeDevice : Type := mkChromeDevice {
  deviceId : option string;
  serialNumber : option string;
  deviceOrgUnitPath : option string
}.

Inductive ActionType : Type := Create | Move | Deactivate | Update | MoveDevice.

Definition actionTypeString (t : ActionType) : string :=
  match t with
  | Create => "create"
  | Move => "move"
  | Deactivate => "deactivate"
  | Update => "update"
  | MoveDevice => "move_device"
  end.

Record SyncAction : Type := mkAction {
  actionType : ActionType;
  student : Student;
  currentUser : option GoogleUser;
  currentDevice : option ChromeDevice;
  targetOUPath : string;
  reason : string
}.

Record SyncResult : Type := mkResult {
  success : bool;
  action : SyncAction;
  error : option string
}.

Record SyncSummary : Type := mkSummary {
  totalProcessed : Z;
  created : Z;
  moved : Z;
  deactivated : Z;
  updated : Z;
  errors : Z;
  results : list SyncResult
}.

Inductive YearFormat : Type := two_digit | four_digit.

Record EmailConfig : Type := mkEmailConfig {
  graduationYearFormat : YearFormat;
  separator : option string
}.

Inductive PasswordType : Type :=
| prefix_studentid
| random
| custom_function
| other_type (name : string).

Record PasswordConfig : Type := mkPasswordConfig {
  passwordType : PasswordType;
  pwPrefix : option string;
  pwLength : option Z;
  includeUppercase : option bool;
  includeLowercase : option bool;
  includeNumbers : option bool;
  includeSymbols : option bool;
  customPattern : option string
}.

Record Config : Type := mkConfig {
  googleDomain : string;
  dryRun : bool;
  maxConcurrentRequests : Z;
  requireConfirmationThreshold : Z;
  createOnly : option bool;
  moveOnly : option bool;
  deactivateOnly : option bool;
  passwordConfig : option PasswordConfig;
  emailConfig : option EmailConfig;
  passwordPrefix : option string
}.

#[global] Instance Status_eq_dec : EqDecision Status.
Proof. solve_decision. Defined.

#[global] Instance Student_eq_dec : EqDecision Student.
Proof. solve_decision. Defined.

#[global] Instance ExternalId_eq_dec : EqDecision ExternalId.
Proof. solve_decision. Defined.

#[global] Instance GoogleUser_eq_dec : EqDecision GoogleUser.
Proof. solve_decision. Defined.

#[global] Instance ChromeDevice_eq_dec : EqDecision ChromeDevice.
Proof. solve_decision. Defined.

#[global] Instance ActionType_eq_dec : EqDecision ActionType.
Proof. solve_decision. Defined.

(** ** [SyncEngine]: the planner

    The engine holds [config] and an [OUManager] built on [baseStudentOU];
    both are arguments here, as is the date [now] that the manager reads. *)

Module SyncEngine.

Import OUManager.

Definition isActive (s : Status) : bool :=
  match s with
  | active => true
  | _ => false
  end.

Definition isType (t : ActionType) (a : SyncAction) : bool :=
  bool_decide (actionType a = t).

(** The two indexes built by the first loop of [determineActions]. *)
Definition indexStudents (students : list Student)
  : gmap string Student * gmap string Student :=
  foldl
    (fun '(studentsByEmail, studentsByStudentId) student =>
       ((match email student with
         | Some e =>
             if truthy (Some e)
             then <[toLowerCase e := student]> studentsByEmail
             else studentsByEmail
         | None => studentsByEmail
         end),
        <[studentId student := student]> studentsByStudentId))
    (∅, ∅) students.

(** The loop of [findStudentByExternalId]. *)
Fixpoint findInExternalIds (ids : list ExternalId)
    (studentsByStudentId : gmap string Student) : option Student :=
  match ids with
  | [] => None
  | externalId :: rest =>
      if String.eqb (extType externalId) "custom"
         && bool_decide (extCustomType externalId = Some "student_id")
      then match studentsByStudentId !! extValue externalId with
           | Some student => Some student
           | None => findInExternalIds rest studentsByStudentId
           end
      else findInExternalIds rest studentsByStudentId
  end.

Definition findStudentByExternalId (user : GoogleUser)
    (studentsByStudentId : gmap string Student) : option Student :=
  match externalIds user with
  | None => None
  | Some ids => findInExternalIds ids studentsByStudentId
  end.

Definition createPlaceholderStudent (user : GoogleUser) : Student :=
  {| studentId := orElse (userId user) "unknown";
     firstName := givenName user;
     lastName := familyName user;
     grade := "unknown";
     email := Some (primaryEmail user);
     graduationYear := 0;
     enrollmentDate := None;
     parentEmail := None;
     status := None;
     deviceSerial := None |}.

(** The roster record of an account:
    [studentsByEmail.get(email) || this.findStudentByExternalId(user, ...)]. *)
Definition matchStudent (studentsByEmail studentsByStudentId : gmap string Student)
    (user : GoogleUser) : option Student :=
  match studentsByEmail !! toLowerCase (primaryEmail user) with
  | Some s => Some s
  | None => findStudentByExternalId user studentsByStudentId
  end.

(** The body of the loop over [existingUsers]: the state is the array
    [actions] and the set [processedEmails]. *)
Definition userStep (baseStudentOU : string) (now : JsDate)
    (studentsByEmail studentsByStudentId : gmap string Student)
    (st : list SyncAction * gset string) (user : GoogleUser)
  : list SyncAction * gset string :=
  let '(actions, processedEmails) := st in
  let email := toLowerCase (primaryEmail user) in
  let processedEmails := {[ email ]} ∪ processedEmails in
  let student := matchStudent studentsByEmail studentsByStudentId user in
  match student with
  | Some student =>
      let status := getStudentStatus now student in
      if isActive status then
        let targetOU := getStudentOUPath baseStudentOU now student in
        if shouldMoveStudent baseStudentOU now student (orgUnitPath user) then
          (actions ++
             [ {| actionType := Move;
                  student := student;
                  currentUser := Some user;
                  currentDevice := None;
                  targetOUPath := targetOU;
                  reason := "Move from " +:+ show (orgUnitPath user)
                              +:+ " to " +:+ targetOU |} ],
           processedEmails)
        else (actions, processedEmails)
      else
        if negb (truthyb (suspended user)) then
          (actions ++
             [ {| actionType := Deactivate;
                  student := student;
                  currentUser := Some user;
                  currentDevice := None;
                  targetOUPath := orElse (orgUnitPath user) "";
                  reason := "Student " +:+ statusString status |} ],
           processedEmails)
        else (actions, processedEmails)
  | None =>
      if isActiveStudentOU baseStudentOU (orElse (orgUnitPath user) "")
         && negb (truthyb (suspended user))
      then
        (actions ++
           [ {| actionType := Deactivate;
                student := createPlaceholderStudent user;
                currentUser := Some user;
                currentDevice := None;
                targetOUPath := orElse (orgUnitPath user) "";
                reason := "Not found in enrollment data" |} ],
         processedEmails)
      else (actions, processedEmails)
  end.

(** The body of the second loop over [students]. *)
Definition studentStep (baseStudentOU : string) (now : JsDate)
    (processedEmails : gset string)
    (actions : list SyncAction) (student : Student) : list SyncAction :=
  let status := getStudentStatus now student in
  if isActive status
     && truthy (email student)
     && negb (bool_decide (toLowerCase (orElse (email student) "") ∈ processedEmails))
  then
    actions ++
      [ {| actionType := Create;
           student := student;
           currentUser := None;
           currentDevice := None;
           targetOUPath := getStudentOUPath baseStudentOU now student;
           reason := "New student" |} ]
  else actions.

(** The body of the loop of [addDeviceSyncActions]. *)
Definition deviceStep (baseStudentOU : string) (now : JsDate)
    (existingDevices : gmap string ChromeDevice)
    (actions : list SyncAction) (student : Student) : list SyncAction :=
  if negb (truthy (deviceSerial student)) then actions
  else
    match existingDevices !! orElse (deviceSerial student) "" with
    | None => actions
    | Some device =>
        let status := getStudentStatus now student in
        if negb (isActive status) then actions
        else
          let targetOUPath := getStudentOUPath baseStudentOU now student in
          if negb (bool_decide (deviceOrgUnitPath device = Some targetOUPath))
          then
            actions ++
              [ {| actionType := MoveDevice;
                   student := student;
                   currentUser := None;
                   currentDevice := Some device;
                   targetOUPath := targetOUPath;
                   reason := "Move device from "
                               +:+ orElse (deviceOrgUnitPath device) "unknown"
                               +:+ " to " +:+ targetOUPath |} ]
          else actions
    end.

(** [addDeviceSyncActions] pushes onto the array it is handed; the array
    after the call is returned. *)
Definition addDeviceSyncActions (baseStudentOU : string) (now : JsDate)
    (actions : list SyncAction) (students : list Student)
    (existingDevices : gmap string ChromeDevice) : list SyncAction :=
  foldl (deviceStep baseStudentOU now existingDevices) actions students.

Definition determineActions (config : Config) (baseStudentOU : string)
    (now : JsDate) (students : list Student) (existingUsers : list GoogleUser)
    (existingDevices : gmap string ChromeDevice) : list SyncAction :=
  let '(studentsByEmail, studentsByStudentId) := indexStudents students in
  let '(actions, processedEmails) :=
    foldl (userStep baseStudentOU now studentsByEmail studentsByStudentId)
      ([], ∅) existingUsers in
  let actions :=
    foldl (studentStep baseStudentOU now processedEmails) actions students in
  let actions :=
    addDeviceSyncActions baseStudentOU now actions students existingDevices in
  if truthyb (createOnly config) then List.filter (isType Create) actions
  else if truthyb (moveOnly config) then List.filter (isType Move) actions
  else if truthyb (deactivateOnly config)
       then List.filter (isType Deactivate) actions
  else actions.

(** [simulateActions]: the plan of a dry run. *)
Definition simulateStep (baseStudentOU : string) (now : JsDate)
    (actions : list SyncAction) (student : Student) : list SyncAction :=
  let status := getStudentStatus now student in
  if isActive status then
    let actions :=
      actions ++
        [ {| actionType := Create;
             student := student;
             currentUser := None;
             currentDevice := None;
             targetOUPath := getStudentOUPath baseStudentOU now student;
             reason := "New student (simulated)" |} ] in
    if truthy (deviceSerial student) then
      actions ++
        [ {| actionType := MoveDevice;
             student := student;
             currentUser := None;
             currentDevice := None;
             targetOUPath := getStudentOUPath baseStudentOU now student;
             reason := "Move device " +:+ show (deviceSerial student)
                         +:+ " to student OU (simulated)" |} ]
    else actions
  else
    actions ++
      [ {| actionType := Deactivate;
           student := student;
           currentUser := None;
           currentDevice := None;
           targetOUPath := getStudentOUPath baseStudentOU now student;
           reason := "Student " +:+ statusString status +:+ " (simulated)" |} ].

Definition simulateActions (baseStudentOU : string) (now : JsDate)
    (students : list Student) : list SyncAction :=
  foldl (simulateStep baseStudentOU now) [] students.

End SyncEngine.

(** ** [SyncEngine]: the executor and [sync]

    The directory client, [Math.random] and the confirmation prompt are the
    environment [Env]. What the engine asks of it is recorded, in order, in
    the trace of the [World]. Within a batch the handlers are started in
    array order and each issues at most one request, so the requests of a
    batch are issued in array order whatever the order of the replies, and
    [Promise.all] hands the results back in array order. A handler runs up
    to its request when it is started, so what it throws before the request
    (a missing current user, a password that cannot be generated) is thrown
    before the earlier requests of its batch are answered; the trace holds
    the requests, not the throws, and is the same. The reply to a
    request is an arbitrary function of the requests made so far and of the
    request itself, so that every assignment of outcomes to the requests of
    a run is the behaviour of some environment. *)

Inductive ApiCall : Type :=
| ApiCreateUser (user : GoogleUser)
| ApiMoveUserToOU (userKey : string) (path : string)
| ApiSuspendUser (userKey : string)
| ApiUpdateUser (userKey : string) (ids : list ExternalId)
| ApiMoveChromeDeviceToOU (device : string) (path : string).

Inductive Event : Type :=
| EvApi (call : ApiCall)
| EvConfirm (count : Z).

Record Env : Type := mkEnv {
  (** the reply of the directory to a request, given what happened before:
      [None] when the promise resolves, [Some message] when it rejects *)
  respond : list Event -> ApiCall -> option string;
  (** the [k]-th draw of [Math.random], as a natural number that is scaled
      to the length of the character set *)
  mathRandom : nat -> nat;
  (** the outcome of [confirmBulkDeactivation(count)] *)
  confirmBulkDeactivation : list Event -> Z -> bool;
  (** [new Date().toISOString().split('T')[0]] *)
  today : string
}.

Record World : Type := mkWorld {
  trace : list Event;
  draws : nat
}.

Definition initialWorld : World := mkWorld [] 0.

Module Executor.

Import OUManager SyncEngine.

(** A request to the directory client. *)
Definition callApi (env : Env) (call : ApiCall) (w : World)
  : Result unit * World :=
  let w' := mkWorld (trace w ++ [EvApi call]) (draws w) in
  match respond env (trace w) call with
  | None => (Ok tt, w')
  | Some message => (Throw message, w')
  end.

Definition getDefaultPasswordConfig (config : Config) : PasswordConfig :=
  {| passwordType := prefix_studentid;
     pwPrefix := Some (orElse (passwordPrefix config) "lh00");
     pwLength := None;
     includeUppercase := None;
     includeLowercase := None;
     includeNumbers := None;
     includeSymbols := None;
     customPattern := None |}.

Definition generatePrefixStudentIdPassword (studentId : string)
    (config : PasswordConfig) : string :=
  let numericPart := keepChars isDigit studentId in
  let last4Digits := padStart 4 "0" (sliceFromEnd 4 numericPart) in
  let prefix := orElse (pwPrefix config) "lh00" in
  prefix +:+ last4Digits.

(** [flag !== false] *)
Definition notFalse (flag : option bool) : bool :=
  match flag with
  | Some false => false
  | _ => true
  end.

Definition buildCharacterSet (config : PasswordConfig) : string :=
  let chars := "" in
  let chars :=
    if notFalse (includeUppercase config)
    then chars +:+ "ABCDEFGHIJKLMNOPQRSTUVWXYZ" else chars in
  let chars :=
    if notFalse (includeLowercase config)
    then chars +:+ "abcdefghijklmnopqrstuvwxyz" else chars in
  let chars :=
    if notFalse (includeNumbers config)
    then chars +:+ "0123456789" else chars in
  let chars :=
    if truthyb (includeSymbols config)
    then chars +:+ "!@#$%^&*()_+-=[]{}|;:,.<>?" else chars in
  chars.

(** The loop of [generateRandomPassword]: [n] more characters. *)
Fixpoint drawChars (env : Env) (chars : string) (n : nat)
    (password : string) (w : World) : string * World :=
  match n with
  | O => (password, w)
  | S n' =>
      let index := (mathRandom env (draws w) mod String.length chars)%nat in
      drawChars env chars n' (password +:+ charAt chars index)
        (mkWorld (trace w) (S (draws w)))
  end.

Definition generateRandomPassword (env : Env) (config : PasswordConfig)
    (w : World) : Result string * World :=
  let length :=
    match pwLength config with
    | Some n => if n =? 0 then 12 else n
    | None => 12
    end in
  let chars := buildCharacterSet config in
  if (String.length chars =? 0)%nat then
    (Throw "No character sets enabled for random password generation", w)
  else
    let '(password, w') := drawChars env chars (Z.to_nat length) "" w in
    (Ok password, w').

Definition generateCustomPatternPassword (student : Student)
    (config : PasswordConfig) : Result string :=
  if negb (truthy (customPattern config)) then
    Throw "Custom pattern not provided for custom_function password type"
  else
    let s := orElse (customPattern config) "" in
    let s := replace s "{firstName}" (toLowerCase (firstName student)) in
    let s := replace s "{lastName}" (toLowerCase (lastName student)) in
    let s := replace s "{studentId}" (studentId student) in
    let s := replace s "{graduationYear}"
               (numberToString (graduationYear student)) in
    let s := replace s "{firstInitial}"
               (toLowerCase (charAt (firstName student) 0)) in
    let s := replace s "{lastInitial}"
               (toLowerCase (charAt (lastName student) 0)) in
    Ok s.

Definition generatePassword (env : Env) (config : Config) (student : Student)
    (w : World) : Result string * World :=
  let passwordConfig :=
    match passwordConfig config with
    | Some pc => pc
    | None => getDefaultPasswordConfig config
    end in
  match passwordType passwordConfig with
  | prefix_studentid =>
      (Ok (generatePrefixStudentIdPassword (studentId student) passwordConfig), w)
  | random => generateRandomPassword env passwordConfig w
  | custom_function => (generateCustomPatternPassword student passwordConfig, w)
  | other_type _ =>
      (Ok (generatePrefixStudentIdPassword (studentId student)
             (getDefaultPasswordConfig config)), w)
  end.

Definition setEmail (student : Student) (e : string) : Student :=
  {| studentId := studentId student;
     firstName := firstName student;
     lastName := lastName student;
     grade := grade student;
     email := Some e;
     graduationYear := graduationYear student;
     enrollmentDate := enrollmentDate student;
     parentEmail := parentEmail student;
     status := status student;
     deviceSerial := deviceSerial student |}.

Definition setStudent (action : SyncAction) (s : Student) : SyncAction :=
  {| actionType := actionType action;
     student := s;
     currentUser := currentUser action;
     currentDevice := currentDevice action;
     targetOUPath := targetOUPath action;
     reason := reason action |}.

Definition studentIdExternalId (student : Student) : ExternalId :=
  {| extValue := studentId student;
     extType := "custom";
     extCustomType := Some "student_id" |}.

(** The object [newUser] of [createUser]. *)
Definition newUser (env : Env) (student : Student) (targetOUPath : string)
    (password : string) : GoogleUser :=
  {| userId := None;
     primaryEmail := orElse (email student) "";
     givenName := firstName student;
     familyName := lastName student;
     suspended := None;
     changePasswordAtNextLogin := Some true;
     orgUnitPath := Some targetOUPath;
     externalIds := Some [studentIdExternalId student];
     customSchemas :=
       Some [ ("student_info",
               [ ("graduation_year", numberToString (graduationYear student));
                 ("enrollment_date", orElse (enrollmentDate student) (today env));
                 ("parent_email", orElse (parentEmail student) "") ]) ];
     password := Some password |}.

(** [createUser] assigns [student.email] when it is missing; the action as
    it stands afterwards is returned next to the outcome. The source
    assigns on the student object, which other actions of the plan may hold
    as well (a [move_device] for the same student), and a result holds its
    action object: the email that is read from the result of such another
    action after the run is the assigned one. The embedding has values,
    not objects, so it gives the assigned email in the result of the
    [create] only; the requests and the outcomes are not affected, since
    the address assigned is a function of fields that nothing assigns. The
    call of [generateEmailAddress] passes [config.emailConfig] as a third
    argument, for which the method has no parameter. *)
Definition createUser (env : Env) (config : Config) (action : SyncAction)
    (w : World) : (SyncAction * Result unit) * World :=
  let student0 := student action in
  let student1 :=
    if negb (truthy (email student0))
    then setEmail student0
           (generateEmailAddress student0 (googleDomain config))
    else student0 in
  let action1 := setStudent action student1 in
  match generatePassword env config student1 w with
  | (Throw message, w1) => ((action1, Throw message), w1)
  | (Ok password, w1) =>
      let '(r, w2) :=
        callApi env
          (ApiCreateUser (newUser env student1 (targetOUPath action) password))
          w1 in
      ((action1, r), w2)
  end.

Definition moveUser (env : Env) (action : SyncAction) (w : World)
  : Result unit * World :=
  match currentUser action with
  | None => (Throw "Current user not provided for move action", w)
  | Some user =>
      callApi env (ApiMoveUserToOU (primaryEmail user) (targetOUPath action)) w
  end.

Definition deactivateUser (env : Env) (action : SyncAction) (w : World)
  : Result unit * World :=
  match currentUser action with
  | None => (Throw "Current user not provided for deactivate action", w)
  | Some user => callApi env (ApiSuspendUser (primaryEmail user)) w
  end.

Definition updateUser (env : Env) (action : SyncAction) (w : World)
  : Result unit * World :=
  match currentUser action with
  | None => (Throw "Current user not provided for update action", w)
  | Some user =>
      callApi env
        (ApiUpdateUser (primaryEmail user)
           [studentIdExternalId (student action)]) w
  end.

Definition moveDevice (env : Env) (action : SyncAction) (w : World)
  : Result unit * World :=
  match currentDevice action with
  | Some device =>
      if truthy (deviceId device) then
        callApi env
          (ApiMoveChromeDeviceToOU (orElse (deviceId device) "")
             (targetOUPath action)) w
      else
        (Throw "Current device or device ID not provided for move device action",
         w)
  | None =>
      (Throw "Current device or device ID not provided for move device action",
       w)
  end.

(** [executeAction]: the handler chosen by the tag runs inside [try]; what
    it throws becomes the [error] of a failed result. *)
Definition executeAction (env : Env) (config : Config) (action : SyncAction)
    (w : World) : SyncResult * World :=
  let '((action', outcome), w') :=
    match actionType action with
    | Create => createUser env config action w
    | Move => let '(r, w') := moveUser env action w in ((action, r), w')
    | Deactivate =>
        let '(r, w') := deactivateUser env action w in ((action, r), w')
    | Update => let '(r, w') := updateUser env action w in ((action, r), w')
    | MoveDevice =>
        let '(r, w') := moveDevice env action w in ((action, r), w')
    end in
  match outcome with
  | Ok _ => ({| success := true; action := action'; error := None |}, w')
  | Throw message =>
      ({| success := false; action := action'; error := Some message |}, w')
  end.

(** One batch: [batch.map((action) => this.executeAction(action))] followed
    by [Promise.all], which keeps the order of the array. *)
Fixpoint executeBatch (env : Env) (config : Config) (batch : list SyncAction)
    (w : World) : list SyncResult * World :=
  match batch with
  | [] => ([], w)
  | action :: rest =>
      let '(r, w1) := executeAction env config action w in
      let '(rs, w2) := executeBatch env config rest w1 in
      (r :: rs, w2)
  end.

(** The [for] loop of [executeActions], from index [i] with the results so
    far; [fuel] bounds the number of iterations and [None] means that it
    ran out. *)
Fixpoint executeLoop (fuel : nat) (env : Env) (config : Config)
    (actions : list SyncAction) (i : Z) (results : list SyncResult)
    (w : World) : option (list SyncResult * World) :=
  match fuel with
  | O => None
  | S fuel' =>
      let batchSize := maxConcurrentRequests config in
      if i <? Z.of_nat (List.length actions) then
        let batch := slice actions i (i + batchSize) in
        let '(batchResults, w') := executeBatch env config batch w in
        executeLoop fuel' env config actions (i + batchSize)
          (results ++ batchResults) w'
      else Some (results, w)
  end.

Definition executeActions (fuel : nat) (env : Env) (config : Config)
    (actions : list SyncAction) (w : World)
  : option (list SyncResult * World) :=
  executeLoop fuel env config actions 0 [] w.

Definition emptySummary : SyncSummary :=
  {| totalProcessed := 0; created := 0; moved := 0; deactivated := 0;
     updated := 0; errors := 0; results := [] |}.

(** The body of the loop over [results] in [sync]. *)
Definition tally (summary : SyncSummary) (result : SyncResult) : SyncSummary :=
  let results' := results summary ++ [result] in
  let total' := totalProcessed summary + 1 in
  if success result then
    match actionType (action result) with
    | Create =>
        mkSummary total' (created summary + 1) (moved summary)
          (deactivated summary) (updated summary) (errors summary) results'
    | Move =>
        mkSummary total' (created summary) (moved summary + 1)
          (deactivated summary) (updated summary) (errors summary) results'
    | Deactivate =>
        mkSummary total' (created summary) (moved summary)
          (deactivated summary + 1) (updated summary) (errors summary) results'
    | Update =>
        mkSummary total' (created summary) (moved summary)
          (deactivated summary) (updated summary + 1) (errors summary) results'
    | MoveDevice =>
        mkSummary total' (created summary) (moved summary)
          (deactivated summary) (updated summary) (errors summary) results'
    end
  else
    mkSummary total' (created summary) (moved summary)
      (deactivated summary) (updated summary) (errors summary + 1) results'.

(** [sync]. The three awaited steps that precede planning
    ([fetchExistingUsers], [fetchExistingDevices], [ensureRequiredOUs]) are
    the argument [fetched]: either the two snapshots, or the error that
    [sync] rethrows. [None] means that [fuel] ran out in [executeActions]. *)
Definition sync (fuel : nat) (env : Env) (config : Config)
    (baseStudentOU : string) (now : JsDate) (students : list Student)
    (fetched : Result (list GoogleUser * gmap string ChromeDevice))
    (w : World) : option (Result SyncSummary * World) :=
  let summary := emptySummary in
  if dryRun config then
    let simulatedActions := simulateActions baseStudentOU now students in
    Some (Ok (mkSummary (Z.of_nat (List.length simulatedActions))
                (created summary) (moved summary) (deactivated summary)
                (updated summary) (errors summary) (results summary)), w)
  else
    match fetched with
    | Throw message => Some (Throw message, w)
    | Ok (existingUsers, existingDevices) =>
        let actions :=
          determineActions config baseStudentOU now students existingUsers
            existingDevices in
        let deactivateCount :=
          Z.of_nat (List.length (List.filter (isType Deactivate) actions)) in
        let run (w : World) :=
          match executeActions fuel env config actions w with
          | None => None
          | Some (results, w') => Some (Ok (foldl tally summary results), w')
          end in
        if requireConfirmationThreshold config <? deactivateCount then
          let confirmed :=
            confirmBulkDeactivation env (trace w) deactivateCount in
          let w1 := mkWorld (trace w ++ [EvConfirm deactivateCount]) (draws w) in
          if negb confirmed then Some (Ok summary, w1) else run w1
        else run w
    end.

End Executor.

(** ** Vocabulary of the properties *)

Import Js OUManager SyncEngine Executor.

(** Every character of [s] satisfies [P]. *)
Fixpoint allChars (P : ascii -> bool) (s : string) : bool :=
  match s with
  | EmptyString => true
  | String c r => P c && allChars P r
  end.

Definition notSlash (c : ascii) : bool := negb (Ascii.eqb c "/").

(** The order elementary, middle, high. *)
Definition levelRank (l : SchoolLevel) : Z :=
  match l with
  | elementary => 0
  | middle => 1
  | high => 2
  end.

(** The action as its handler leaves it: [createUser] assigns the email of
    a student that has none; the other handlers change nothing. *)
Definition actionAsExecuted (config : Config) (a : SyncAction) : SyncAction :=
  match actionType a with
  | Create =>
      setStudent a
        (if negb (truthy (email (student a)))
         then setEmail (student a)
                (generateEmailAddress (student a) (googleDomain config))
         else student a)
  | _ => a
  end.

(** The result recorded for an action whose handler threw [message]. *)
Definition failedResult (config : Config) (a : SyncAction) (message : string)
  : SyncResult :=
  {| success := false; action := actionAsExecuted config a;
     error := Some message |}.


(** An action without the email of its student, the one field that
    [createUser] assigns. *)
Definition clearEmail (s : Student) : Student :=
  {| studentId := studentId s;
     firstName := firstName s;
     lastName := lastName s;
     grade := grade s;
     email := None;
     graduationYear := graduationYear s;
     enrollmentDate := enrollmentDate s;
     parentEmail := parentEmail s;
     status := status s;
     deviceSerial := deviceSerial s |}.

Definition withoutEmail (a : SyncAction) : SyncAction :=
  setStudent a (clearEmail (student a)).


(** The random-password strategy with every character class switched
    off. *)
Definition noCharacterSets (config : Config) : Prop :=
  exists pc : PasswordConfig,
    passwordConfig config = Some pc
    /\ passwordType pc = random
    /\ includeUppercase pc = Some false
    /\ includeLowercase pc = Some false
    /\ includeNumbers pc = Some false
    /\ truthyb (includeSymbols pc) = false.

Definition noCharacterSetsMessage : string :=
  "No character sets enabled for random password generation".

Definition isCreateUserCall (e : Event) : bool :=
  match e with
  | EvApi (ApiCreateUser _) => true
  | _ => false
  end.

Definition isSuspendUserCall (e : Event) : bool :=
  match e with
  | EvApi (ApiSuspendUser _) => true
  | _ => false
  end.

Definition isConfirm (e : Event) : bool :=
  match e with
  | EvConfirm _ => true
  | EvApi _ => false
  end.

(** A run of [sync] that ends in a thrown error before any request was made
    and before any result was recorded. *)
Definition raisedBeforeAnyAction
    (outcome : option (Result SyncSummary * World)) (w : World) : Prop :=
  exists (message : string) (w' : World),
    outcome = Some (Throw message, w') /\ trace w' = trace w.

(** The number of results that satisfy [p], as a JavaScript number. *)
Definition countResults (p : SyncResult -> bool) (rs : list SyncResult) : Z :=
  Z.of_nat (List.length (List.filter p rs)).

Definition failed (r : SyncResult) : bool := negb (success r).

Definition succeededAs (t : ActionType) (r : SyncResult) : bool :=
  success r && bool_decide (actionType (action r) = t).

(** *** The planner, pass by pass *)

(** What the loop over [existingUsers] pushes for one account. *)
Definition userActions (baseStudentOU : string) (now : JsDate)
    (studentsByEmail studentsByStudentId : gmap string Student)
    (user : GoogleUser) : list SyncAction :=
  fst (userStep baseStudentOU now studentsByEmail studentsByStudentId
         ([], ∅) user).

(** What the second loop over [students] pushes for one record. *)
Definition studentActions (baseStudentOU : string) (now : JsDate)
    (processedEmails : gset string) (s : Student) : list SyncAction :=
  studentStep baseStudentOU now processedEmails [] s.

(** What [addDeviceSyncActions] pushes for one record. *)
Definition deviceActions (baseStudentOU : string) (now : JsDate)
    (existingDevices : gmap string ChromeDevice) (s : Student)
  : list SyncAction :=
  deviceStep baseStudentOU now existingDevices [] s.

(** The lower-cased addresses of the accounts: [processedEmails] after the
    loop over [existingUsers]. *)
Definition processed (users : list GoogleUser) : gset string :=
  list_to_set (map (fun u => toLowerCase (primaryEmail u)) users).

(** The plan before the mode filter: the three passes one after another. *)
Definition fullPlan (baseStudentOU : string) (now : JsDate)
    (students : list Student) (users : list GoogleUser)
    (devices : gmap string ChromeDevice) : list SyncAction :=
  flat_map (userActions baseStudentOU now (fst (indexStudents students))
              (snd (indexStudents students))) users
  ++ flat_map (studentActions baseStudentOU now (processed users)) students
  ++ flat_map (deviceActions baseStudentOU now devices) students.

(** The mode filter that ends [determineActions]. *)
Definition modeFilter (config : Config) (actions : list SyncAction)
  : list SyncAction :=
  if truthyb (createOnly config) then List.filter (isType Create) actions
  else if truthyb (moveOnly config) then List.filter (isType Move) actions
  else if truthyb (deactivateOnly config)
       then List.filter (isType Deactivate) actions
  else actions.

(** Whether the mode of [config] keeps actions of type [t]. *)
Definition keeps (config : Config) (t : ActionType) : bool :=
  if truthyb (createOnly config) then bool_decide (t = Create)
  else if truthyb (moveOnly config) then bool_decide (t = Move)
  else if truthyb (deactivateOnly config) then bool_decide (t = Deactivate)
  else true.

(** The action was derived from the account [u]. *)
Definition isFor (u : GoogleUser) (a : SyncAction) : bool :=
  bool_decide (currentUser a = Some u).

(** The keys under which the roster is indexed by address, and the device
    serials it carries. *)
Definition emailKey (s : Student) : option string :=
  if truthy (email s) then Some (toLowerCase (orElse (email s) "")) else None.

Definition serialKey (s : Student) : option string :=
  if truthy (deviceSerial s) then deviceSerial s else None.

Definition emailKeys (students : list Student) : list string :=
  omap emailKey students.

Definition serialKeys (students : list Student) : list string :=
  omap serialKey students.

(** The actions that the loop over [existingUsers] pushes. *)
Definition moveAction (baseStudentOU : string) (now : JsDate) (s : Student)
    (u : GoogleUser) : SyncAction :=
  {| actionType := Move; student := s; currentUser := Some u;
     currentDevice := None;
     targetOUPath := getStudentOUPath baseStudentOU now s;
     reason := "Move from " +:+ show (orgUnitPath u) +:+ " to "
                 +:+ getStudentOUPath baseStudentOU now s |}.

Definition deactivateMatched (s : Student) (u : GoogleUser) (why : string)
  : SyncAction :=
  {| actionType := Deactivate; student := s; currentUser := Some u;
     currentDevice := None; targetOUPath := orElse (orgUnitPath u) "";
     reason := why |}.

Definition deactivateUnmatched (u : GoogleUser) : SyncAction :=
  deactivateMatched (createPlaceholderStudent u) u
    "Not found in enrollment data".

(** *** The directory after a plan was carried out

    [accountsAfterApplyingPlan] and [devicesAfterApplyingPlan] are the
    snapshots that reflect every action of a plan: the account from which a
    [move] was derived is at the target path, the account from which a
    [deactivate] was derived is suspended, every [create] has added an
    account with the address of its student, at the target path, not
    suspended and carrying the student identifier, and the device entry of
    the student of a [move_device] is at the target path. *)

Definition setOrgUnitPath (u : GoogleUser) (path : string) : GoogleUser :=
  {| userId := userId u; primaryEmail := primaryEmail u;
     givenName := givenName u; familyName := familyName u;
     suspended := suspended u;
     changePasswordAtNextLogin := changePasswordAtNextLogin u;
     orgUnitPath := Some path; externalIds := externalIds u;
     customSchemas := customSchemas u; password := password u |}.

Definition setSuspended (u : GoogleUser) : GoogleUser :=
  {| userId := userId u; primaryEmail := primaryEmail u;
     givenName := givenName u; familyName := familyName u;
     suspended := Some true;
     changePasswordAtNextLogin := changePasswordAtNextLogin u;
     orgUnitPath := orgUnitPath u; externalIds := externalIds u;
     customSchemas := customSchemas u; password := password u |}.

Definition setDevicePath (path : string) (d : ChromeDevice) : ChromeDevice :=
  {| deviceId := deviceId d; serialNumber := serialNumber d;
     deviceOrgUnitPath := Some path |}.

(** The effect of one action on the account [u0], whose present state is
    [u]. *)
Definition applyToAccount (u0 : GoogleUser) (u : GoogleUser) (a : SyncAction)
  : GoogleUser :=
  if isFor u0 a then
    match actionType a with
    | Move => setOrgUnitPath u (targetOUPath a)
    | Deactivate => setSuspended u
    | _ => u
    end
  else u.

Definition accountAfter (plan : list SyncAction) (u : GoogleUser) : GoogleUser :=
  foldl (applyToAccount u) u plan.

(** The action moves the device entry under the serial [k]. *)
Definition touches (k : string) (a : SyncAction) : bool :=
  isType MoveDevice a && bool_decide (serialKey (student a) = Some k).

(** The account [u] as the actions derived from it and kept by the mode
    leave it. *)
Definition ownEffect (config : Config) (baseStudentOU : string) (now : JsDate)
    (students : list Student) (u : GoogleUser) : GoogleUser :=
  foldl (applyToAccount u) u
    (List.filter (fun a => keeps config (actionType a))
       (userActions baseStudentOU now (fst (indexStudents students))
          (snd (indexStudents students)) u)).

(** The account that a [create] action adds. *)
Definition createdAccount (a : SyncAction) : GoogleUser :=
  {| userId := None;
     primaryEmail := orElse (email (student a)) "";
     givenName := firstName (student a);
     familyName := lastName (student a);
     suspended := Some false;
     changePasswordAtNextLogin := Some true;
     orgUnitPath := Some (targetOUPath a);
     externalIds := Some [studentIdExternalId (student a)];
     customSchemas := None;
     password := None |}.

Definition accountsAfterApplyingPlan (plan : list SyncAction)
    (users : list GoogleUser) : list GoogleUser :=
  map (accountAfter plan) users
  ++ map createdAccount (List.filter (isType Create) plan).

Definition applyToDevices (devices : gmap string ChromeDevice)
    (a : SyncAction) : gmap string ChromeDevice :=
  match actionType a, serialKey (student a) with
  | MoveDevice, Some serial =>
      alter (setDevicePath (targetOUPath a)) serial devices
  | _, _ => devices
  end.

Definition devicesAfterApplyingPlan (plan : list SyncAction)
    (devices : gmap string ChromeDevice) : gmap string ChromeDevice :=
  foldl applyToDevices devices plan.

(** ** Sample data, after the fixtures of [tests/] *)

Definition johnDoe : Student :=
  {| studentId := "STU001"; firstName := "John"; lastName := "Doe";
     grade := "9"; email := None; graduationYear := 2028;
     enrollmentDate := None; parentEmail := None; status := None;
     deviceSerial := None |}.

(** The same student with the graduation year 10^21. *)
Definition farFuture : Student :=
  {| studentId := "STU001"; firstName := "John"; lastName := "Doe";
     grade := "9"; email := None; graduationYear := 1000000000000000000000;
     enrollmentDate := None; parentEmail := None; status := None;
     deviceSerial := None |}.

Definition september2024 : JsDate := mkDate 2024 8.

Definition twoDigitDot : EmailConfig :=
  {| graduationYearFormat := two_digit; separator := Some "." |}.

(** The configuration of [tests/sync-engine.test.ts], live rather than dry,
    for the domain [school.edu] and with a chosen [emailConfig]. *)
Definition schoolConfig (emailConfig : option EmailConfig) : Config :=
  {| googleDomain := "school.edu"; dryRun := false;
     maxConcurrentRequests := 1; requireConfirmationThreshold := 5;
     createOnly := None; moveOnly := None; deactivateOnly := None;
     passwordConfig := None; emailConfig := emailConfig;
     passwordPrefix := Some "lh00" |}.

Definition createAction (s : Student) (target : string) : SyncAction :=
  {| actionType := Create; student := s; currentUser := None;
     currentDevice := None; targetOUPath := target; reason := "New student" |}.

(** A directory that accepts every request, a fixed sequence of random
    draws, and a prompt that is never answered with yes. *)
Definition quietEnv : Env :=
  {| respond := fun _ _ => None;
     mathRandom := fun k => (7 * k + 3)%nat;
     confirmBulkDeactivation := fun _ _ => false;
     today := "2024-09-01" |}.


Definition withEmail (s : Student) (e : string) : Student := setEmail s e.

Definition johnEnrolled : Student :=
  withEmail johnDoe "john.doe2028@school.edu".

Definition janeRoe : Student :=
  {| studentId := "STU002"; firstName := "Jane"; lastName := "Roe";
     grade := "6"; email := Some "jane.roe2031@school.edu";
     graduationYear := 2031; enrollmentDate := None; parentEmail := None;
     status := None; deviceSerial := Some "CHR002345678" |}.

(** An account of the directory with nothing but an address and a place. *)
Definition accountAt (address : string) (path : string) : GoogleUser :=
  {| userId := None; primaryEmail := address; givenName := "";
     familyName := ""; suspended := None; changePasswordAtNextLogin := None;
     orgUnitPath := Some path; externalIds := None; customSchemas := None;
     password := None |}.

Definition deviceAt (serial : string) (path : string) : ChromeDevice :=
  {| deviceId := Some ("id-" +:+ serial); serialNumber := Some serial;
     deviceOrgUnitPath := Some path |}.

(** The random strategy with every character class switched off. *)
Definition noClassesConfig : Config :=
  {| googleDomain := "school.edu"; dryRun := false;
     maxConcurrentRequests := 1; requireConfirmationThreshold := 5;
     createOnly := None; moveOnly := None; deactivateOnly := None;
     passwordConfig :=
       Some {| passwordType := random; pwPrefix := None; pwLength := Some 12;
               includeUppercase := Some false; includeLowercase := Some false;
               includeNumbers := Some false; includeSymbols := Some false;
               customPattern := None |};
     emailConfig := None; passwordPrefix := None |}.

(** The configuration of the tests with a threshold of zero. *)
Definition strictConfig : Config :=
  {| googleDomain := "school.edu"; dryRun := false;
     maxConcurrentRequests := 1; requireConfirmationThreshold := 0;
     createOnly := None; moveOnly := None; deactivateOnly := None;
     passwordConfig := None; emailConfig := None;
     passwordPrefix := Some "lh00" |}.

(** A student of the class of 2024, graduated by September 2024, and the
    account of the directory under the same address. *)
Definition classOf2024 : Student :=
  {| studentId := "STU024"; firstName := "Ann"; lastName := "Lee";
     grade := "12"; email := Some "ann.lee2024@school.edu";
     graduationYear := 2024; enrollmentDate := None; parentEmail := None;
     status := None; deviceSerial := None |}.

Definition annAccount : GoogleUser :=
  accountAt "ann.lee2024@school.edu" "/org/student/high/2024/ann.lee".

(** The number of times the account [u] is listed in a snapshot. *)
Definition occurrences (u : GoogleUser) (users : list GoogleUser) : nat :=
  List.length (List.filter (fun v => bool_decide (v = u)) users).

(** The configuration of the tests with the flag [--create-only]. *)
Definition createOnlyConfig : Config :=
  {| googleDomain := "school.edu"; dryRun := false;
     maxConcurrentRequests := 1; requireConfirmationThreshold := 5;
     createOnly := Some true; moveOnly := None; deactivateOnly := None;
     passwordConfig := None; emailConfig := None;
     passwordPrefix := Some "lh00" |}.

(** Two rosters with a shared key. In the first, two students carry the
    same device serial; the device is where the first of them belongs. In
    the second, an enrolled student and a graduated one carry the same
    address. *)
Definition benAdams : Student :=
  {| studentId := "STU010"; firstName := "Ben"; lastName := "Adams";
     grade := "9"; email := None; graduationYear := 2028;
     enrollmentDate := None; parentEmail := None; status := None;
     deviceSerial := Some "CHR000000001" |}.

Definition cleoBaker : Student :=
  {| studentId := "STU011"; firstName := "Cleo"; lastName := "Baker";
     grade := "6"; email := None; graduationYear := 2031;
     enrollmentDate := None; parentEmail := None; status := None;
     deviceSerial := Some "CHR000000001" |}.

Definition sharedDevice : gmap string ChromeDevice :=
  {[ "CHR000000001" :=
       deviceAt "CHR000000001" "/org/student/high/2028/ben.adams" ]}.

Definition danCole : Student :=
  {| studentId := "STU020"; firstName := "Dan"; lastName := "Cole";
     grade := "9"; email := Some "d.cole@school.edu"; graduationYear := 2028;
     enrollmentDate := None; parentEmail := None; status := None;
     deviceSerial := None |}.

Definition dinaCole : Student :=
  {| studentId := "STU021"; firstName := "Dina"; lastName := "Cole";
     grade := "12"; email := Some "d.cole@school.edu"; graduationYear := 2024;
     enrollmentDate := None; parentEmail := None; status := Some graduated;
     deviceSerial := None |}.


(** ** [OUManager.getRequiredOUs]

    A [Set] is the list of its elements in insertion order, without
    repetition; the [Map] from school levels to sets of years is a function
    whose value is the empty set for a level that was never entered. *)

#[global] Instance SchoolLevel_eq_dec : EqDecision SchoolLevel.
Proof. solve_decision. Defined.

Module RequiredOUs.

Import OUManager.

(** [set.add(x)] *)
Definition setAdd {A : Type} `{EqDecision A} (x : A) (set : list A) : list A :=
  if bool_decide (x ∈ set) then set else set ++ [x].

(** The three collections that the loop over [students] fills. *)
Record Collected : Type := mkCollected {
  requiredOUs : list string;
  schoolLevels : list SchoolLevel;
  yearsBySchool : SchoolLevel -> list Z
}.

Definition nothingCollected : Collected :=
  mkCollected [] [] (fun _ => []).

(** The body of the loop over [students]; [getSchoolLevel] may throw. *)
Definition collectStep (baseStudentOU : string) (now : JsDate)
    (st : Collected) (student : Student) : Result Collected :=
  match getSchoolLevel (grade student) with
  | Throw message => Throw message
  | Ok schoolLevel =>
      Ok {| schoolLevels := setAdd schoolLevel (schoolLevels st);
            yearsBySchool :=
              (fun level =>
                 if bool_decide (level = schoolLevel)
                 then setAdd (graduationYear student) (yearsBySchool st level)
                 else yearsBySchool st level);
            requiredOUs :=
              setAdd (getStudentOUPath baseStudentOU now student)
                (requiredOUs st) |}
  end.

Fixpoint collect (baseStudentOU : string) (now : JsDate) (st : Collected)
    (students : list Student) : Result Collected :=
  match students with
  | [] => Ok st
  | student :: rest =>
      match collectStep baseStudentOU now st student with
      | Throw message => Throw message
      | Ok st' => collect baseStudentOU now st' rest
      end
  end.

(** The body of the loop over [schoolLevels]. *)
Definition addSchoolLevel (baseStudentOU : string)
    (years : SchoolLevel -> list Z) (required : list string)
    (schoolLevel : SchoolLevel) : list string :=
  foldl
    (fun required year =>
       setAdd (getGraduationYearOUPath baseStudentOU schoolLevel year)
         required)
    (setAdd (getSchoolLevelOUPath baseStudentOU schoolLevel) required)
    (years schoolLevel).

Definition getRequiredOUs (baseStudentOU : string) (now : JsDate)
    (students : list Student) : Result (list string) :=
  match collect baseStudentOU now nothingCollected students with
  | Throw message => Throw message
  | Ok st =>
      Ok (foldl (addSchoolLevel baseStudentOU (yearsBySchool st))
            (requiredOUs st) (schoolLevels st))
  end.

End RequiredOUs.

(** ** [GoogleAPIClient]: the retry loop of [makeAPIRequest]

    One iteration of the loop comes to one of three things: the response
    has status 429; something is thrown inside the [try] block (by [fetch],
    by [response.json()], or the [Error] built for a response that is not
    [ok]); or the body of an [ok] response is returned. The replies are
    given by the number of the call of [fetch]. The access token is taken
    as obtained. *)

Module GoogleAPIClient.

Inductive Attempt (T : Type) : Type :=
| RateLimited (retryAfter : option string)
| Failed (message : string)
| Succeeded (body : T).
Arguments RateLimited {T} retryAfter.
Arguments Failed {T} message.
Arguments Succeeded {T} body.

(** How a request ended: its outcome, the number of calls of [fetch] and
    the arguments of [setTimeout] in milliseconds ([None] for [NaN]). *)
Record Ended (T : Type) : Type := mkEnded {
  outcome : Result T;
  fetches : nat;
  timeouts : list (option Z)
}.
Arguments mkEnded {T} outcome fetches timeouts.
Arguments outcome {T} e.
Arguments fetches {T} e.
Arguments timeouts {T} e.

(** [parseInt(response.headers.get('Retry-After') || '60', 10) * 1000] *)
Definition retryAfterDelay (header : option string) : option Z :=
  option_map (fun retryAfter => retryAfter * 1000)
    (parseInt (orElse header "60")).

(** [Math.pow(2, attempt) * 1000] *)
Definition backoffDelay (attempt : Z) : Z := 2 ^ attempt * 1000.

(** The loop [for (attempt = 0; attempt <= retries; attempt++)], by the
    number [remaining] of iterations that the guard still allows. *)
Fixpoint retryLoop {T : Type} (remaining : nat) (retries attempt : Z)
    (fetch : nat -> Attempt T) (made : nat) (slept : list (option Z))
  : Ended T :=
  match remaining with
  | O => mkEnded (Throw "Max retries exceeded") made slept
  | S remaining' =>
      match fetch made with
      | RateLimited header =>
          retryLoop remaining' retries (attempt + 1) fetch (S made)
            (slept ++ [retryAfterDelay header])
      | Failed message =>
          if attempt =? retries then mkEnded (Throw message) (S made) slept
          else
            retryLoop remaining' retries (attempt + 1) fetch (S made)
              (slept ++ [Some (backoffDelay attempt)])
      | Succeeded body => mkEnded (Ok body) (S made) slept
      end
  end.

Definition makeAPIRequest {T : Type} (retries : Z) (fetch : nat -> Attempt T)
  : Ended T :=
  retryLoop (Z.to_nat (retries + 1)) retries 0 fetch 0 [].

(** The default of the parameter [retries]; no caller passes another. *)
Definition defaultRetries : Z := 3.

End GoogleAPIClient.

(** ** More of the JavaScript vocabulary *)

Module JsText.

(** [s.trimEnd()] *)
Fixpoint trimEnd (s : string) : string :=
  match s with
  | EmptyString => EmptyString
  | String c r =>
      match trimEnd r with
      | EmptyString => if isWhiteSpace c then EmptyString else String c EmptyString
      | t => String c t
      end
  end.

(** [s.trim()] *)
Definition trim (s : string) : string := trimStart (trimEnd s).

(** [parts.join(sep)] *)
Fixpoint join (sep : string) (parts : list string) : string :=
  match parts with
  | [] => EmptyString
  | [p] => p
  | p :: rest => p +:+ sep +:+ join sep rest
  end.

(** Regular expressions without groups, matched against a whole string by
    derivatives: a pattern between [^] and [$]. *)
Inductive Regex : Type :=
| Never
| Empty
| Class (member : ascii -> bool)
| Seq (a b : Regex)
| Alt (a b : Regex)
| Star (a : Regex).

(** [a+] *)
Definition Plus (a : Regex) : Regex := Seq a (Star a).

Fixpoint nullable (r : Regex) : bool :=
  match r with
  | Never => false
  | Empty => true
  | Class _ => false
  | Seq a b => nullable a && nullable b
  | Alt a b => nullable a || nullable b
  | Star _ => true
  end.

Fixpoint derivative (c : ascii) (r : Regex) : Regex :=
  match r with
  | Never => Never
  | Empty => Never
  | Class member => if member c then Empty else Never
  | Seq a b =>
      if nullable a then Alt (Seq (derivative c a) b) (derivative c b)
      else Seq (derivative c a) b
  | Alt a b => Alt (derivative c a) (derivative c b)
  | Star a => Seq (derivative c a) (Star a)
  end.

(** [/^r$/.test(s)] *)
Fixpoint test (r : Regex) (s : string) : bool :=
  match s with
  | EmptyString => nullable r
  | String c rest => test (derivative c r) rest
  end.

End JsText.

(** ** [CSVParser] *)

Module CSVParser.

Import JsText.

(** A small error monad for the functions that throw. *)
Definition bind {A B : Type} (r : Result A) (k : A -> Result B) : Result B :=
  match r with
  | Ok a => k a
  | Throw message => Throw message
  end.

Notation "x <- r ;; k" := (bind r (fun x => k))
  (at level 100, r at next level, right associativity).

Definition expectedColumnCount : Z := 12.

(** The members of the enumeration [CSVColumns] that [transformRow]
    reads. *)
Definition STU_LEGAL_FIRST : nat := 1.
Definition STU_LEGAL_LAST : nat := 2.
Definition STUDENT_ID : nat := 6.
Definition SCHL_EMAIL_ADDR : nat := 7.
Definition GRADUATED : nat := 8.
Definition STUDENT_GRADE : nat := 9.
Definition PROP_GRAD_DATE : nat := 10.
Definition STU_GRAD_YR : nat := 11.
Definition DEVICE_SERIAL : nat := 12.

(** The loop of [parseLine] over the characters that remain; a doubled
    quote inside quotes consumes two of them. *)
Fixpoint parseLineFrom (line : string) (current : string) (inQuotes : bool)
    (result : list string) : list string :=
  match line with
  | EmptyString => result ++ [trim current]
  | String char rest =>
      if Ascii.eqb char "034" then
        match rest with
        | String next rest' =>
            if inQuotes && Ascii.eqb next "034" then
              parseLineFrom rest' (current +:+ String "034" EmptyString)
                inQuotes result
            else parseLineFrom rest current (negb inQuotes) result
        | EmptyString => parseLineFrom rest current (negb inQuotes) result
        end
      else if Ascii.eqb char "," && negb inQuotes then
        parseLineFrom rest EmptyString inQuotes (result ++ [trim current])
      else
        parseLineFrom rest (current +:+ String char EmptyString) inQuotes
          result
  end.

Definition parseLine (line : string) : list string :=
  parseLineFrom line EmptyString false [].

Definition validateRowLength (row : list string) (rowNumber : Z)
  : Result unit :=
  if Z.of_nat (List.length row) <? expectedColumnCount then
    Throw ("Row " +:+ numberToString rowNumber +:+ ": Expected "
             +:+ numberToString expectedColumnCount +:+ " columns, got "
             +:+ numberToString (Z.of_nat (List.length row)))
  else Ok tt.

Definition validateRequired (value : option string) (fieldName : string)
  : Result string :=
  if negb (truthy value) || String.eqb (trim (orElse value "")) "" then
    Throw (fieldName +:+ " is required")
  else Ok (trim (orElse value "")).

Definition parseGraduationYear (now : JsDate) (year : option string)
  : Result Z :=
  match match year with Some y => parseInt y | None => None end with
  | None => Throw ("Invalid graduation year: " +:+ show year)
  | Some graduationYear =>
      let currentYear := getFullYear now in
      let minYear := currentYear in
      let maxYear := currentYear + 15 in
      if (graduationYear <? minYear) || (maxYear <? graduationYear) then
        Throw ("Graduation year " +:+ numberToString graduationYear
                 +:+ " is out of range (" +:+ numberToString minYear +:+ "-"
                 +:+ numberToString maxYear +:+ ")")
      else Ok graduationYear
  end.

(** The class [[^\s@]]. *)
Definition notSpaceNorAt (c : ascii) : bool :=
  negb (isWhiteSpace c) && negb (Ascii.eqb c "@").

(** [/^[^\s@]+@[^\s@]+\.[^\s@]+$/] *)
Definition emailRegex : Regex :=
  Seq (Plus (Class notSpaceNorAt))
    (Seq (Class (Ascii.eqb "@"))
       (Seq (Plus (Class notSpaceNorAt))
          (Seq (Class (Ascii.eqb "."))
             (Plus (Class notSpaceNorAt))))).

Definition validateEmail (email : string) : Result string :=
  let trimmed := toLowerCase (trim email) in
  if negb (test emailRegex trimmed) then
    Throw ("Invalid email format: " +:+ email)
  else Ok trimmed.

(** [row[i] && row[i].trim()] as a condition *)
Definition filled (cell : option string) : bool :=
  truthy cell && negb (String.eqb (trim (orElse cell "")) "").

Definition transformRow (now : JsDate) (row : list string) : Result Student :=
  studentId <- validateRequired (row !! STUDENT_ID) "Student ID" ;;
  firstName <- validateRequired (row !! STU_LEGAL_FIRST) "Stu Legal First" ;;
  lastName <- validateRequired (row !! STU_LEGAL_LAST) "Stu Legal Last" ;;
  let grade := orElse (row !! STUDENT_GRADE) "unknown" in
  graduationYear <- parseGraduationYear now (row !! STU_GRAD_YR) ;;
  email <-
    (if filled (row !! SCHL_EMAIL_ADDR)
     then e <- validateEmail (orElse (row !! SCHL_EMAIL_ADDR) "") ;; Ok (Some e)
     else Ok None) ;;
  let enrollmentDate :=
    if filled (row !! PROP_GRAD_DATE) then row !! PROP_GRAD_DATE else None in
  let status :=
    if filled (row !! GRADUATED) then
      let graduated' := toLowerCase (orElse (row !! GRADUATED) "") in
      if String.eqb graduated' "true" || String.eqb graduated' "yes"
         || String.eqb graduated' "1"
      then Some graduated else None
    else None in
  let deviceSerial :=
    if filled (row !! DEVICE_SERIAL)
    then Some (trim (orElse (row !! DEVICE_SERIAL) "")) else None in
  Ok {| studentId := studentId; firstName := firstName; lastName := lastName;
        grade := grade; email := email; graduationYear := graduationYear;
        enrollmentDate := enrollmentDate; parentEmail := None;
        status := status; deviceSerial := deviceSerial |}.

(** The callback of [dataLines.map] in [parseCSVContent]. *)
Definition parseRow (now : JsDate) (hasHeaders : bool) (index : nat)
    (line : string) : Result Student :=
  let rowNumber := Z.of_nat index + (if hasHeaders then 2 else 1) in
  let attempt :=
    let row := parseLine line in
    _ <- validateRowLength row rowNumber ;;
    transformRow now row in
  match attempt with
  | Ok student => Ok student
  | Throw message =>
      Throw ("Error parsing row " +:+ numberToString rowNumber +:+ ": "
               +:+ message)
  end.

(** [dataLines.map(...)] from the line numbered [index]: the first throw
    ends it. *)
Fixpoint parseRows (now : JsDate) (hasHeaders : bool) (index : nat)
    (dataLines : list string) : Result (list Student) :=
  match dataLines with
  | [] => Ok []
  | line :: rest =>
      student <- parseRow now hasHeaders index line ;;
      students <- parseRows now hasHeaders (S index) rest ;;
      Ok (student :: students)
  end.

Definition parseCSVContent (now : JsDate) (content : string)
    (hasHeaders : bool) : Result (list Student) :=
  let lines := split "010" (trim content) in
  if (List.length lines =? 0)%nat then Throw "CSV file is empty"
  else
    let dataLines := if hasHeaders then skipn 1 lines else lines in
    if (List.length dataLines =? 0)%nat then Throw "No data rows found in CSV"
    else parseRows now hasHeaders 0 dataLines.

(** [generateSampleCSV] *)
Definition sampleHeaders : list string :=
  [ "Cur School Name"; "Stu Legal First"; "Stu Legal Last";
    "Cur School Name"; "Cur School Code"; "Entity ID"; "Student ID";
    "Schl Email Addr"; "Graduated"; "Student Grade"; "Prop Grad Date";
    "Stu Grad Yr"; "Device Serial" ].

Definition sampleData : list (list string) :=
  [ [ "Example Elementary"; "John"; "Doe"; "Example Elementary"; "EE01";
      "ENT001"; "STU001"; "john.doe2028@school.edu"; "false"; "9";
      "2028-06-15"; "2028"; "CHR001234567" ];
    [ "Example Middle"; "Jane"; "Smith"; "Example Middle"; "EM01";
      "ENT002"; "STU002"; "jane.smith2031@school.edu"; "false"; "6";
      "2031-06-15"; "2031"; "CHR002345678" ];
    [ "Example High"; "Bob"; "Johnson"; "Example High"; "EH01";
      "ENT003"; "STU003"; "bob.johnson2025@school.edu"; "false"; "12";
      "2025-06-15"; "2025"; "CHR003456789" ];
    [ "Example Elementary"; "Alice"; "Williams"; "Example Elementary";
      "EE01"; "ENT004"; "STU004"; ""; "false"; "4K"; "2038-06-15"; "2038";
      "" ] ].

Definition generateSampleCSV : string :=
  let lines := sampleHeaders :: sampleData in
  join (String "010" EmptyString) (map (join ",") lines).

End CSVParser.

(** ** [GoogleAPIClient]: the methods that [sync] calls before it plans

    Each method hands one request at a time to [makeAPIRequest]. The
    outcome of a request, after the retries, is a function of the requests
    made so far and of the request itself; the requests are recorded in
    order. The parameters [domain], [maxResults] and [customerId] are the
    same in every request and are left out. *)

Module DirectoryClient.

Import JsText.

(** The body of a response to [GET /users]. *)
Record UsersPage : Type := mkUsersPage {
  pageUsers : option (list GoogleUser);
  nextPageToken : option string
}.

Inductive Request : Type :=
| GetUsers (query : option string) (pageToken : option string)
| GetChromeDevices (query : option string)
| GetOrgUnits (orgUnitPath : option string)
| PostOrgUnit (name : option string) (parentOrgUnitPath : string).

Record Service : Type := mkService {
  getUsers : list Request -> option string -> option string -> Result UsersPage;
  (** the member [chromeosdevices] of the body *)
  getChromeDevices :
    list Request -> option string -> Result (option (list ChromeDevice));
  (** the member [organizationUnits] of the body, each unit by its
      [orgUnitPath] *)
  getOrgUnits :
    list Request -> option string -> Result (option (list (option string)));
  (** [None] when the unit was created, the error otherwise *)
  postOrgUnit : list Request -> option string -> string -> option string
}.

(** [param ? param : absent] for a parameter that is appended when it is
    truthy *)
Definition whenTruthy (param : option string) : option string :=
  if truthy param then param else None.

(** The [do ... while (pageToken)] loop of [listUsers]; [fuel] bounds the
    number of pages and [None] means that it ran out. *)
Fixpoint listUsersFrom (fuel : nat) (svc : Service) (query : option string)
    (users : list GoogleUser) (pageToken : option string)
    (log : list Request) : option (Result (list GoogleUser) * list Request) :=
  match fuel with
  | O => None
  | S fuel' =>
      let request := GetUsers (whenTruthy query) (whenTruthy pageToken) in
      match getUsers svc log (whenTruthy query) (whenTruthy pageToken) with
      | Throw message => Some (Throw message, log ++ [request])
      | Ok response =>
          let users :=
            match pageUsers response with
            | Some more => users ++ more
            | None => users
            end in
          let pageToken := nextPageToken response in
          if truthy pageToken
          then listUsersFrom fuel' svc query users pageToken (log ++ [request])
          else Some (Ok users, log ++ [request])
      end
  end.

Definition listUsers (fuel : nat) (svc : Service) (query : option string)
    (log : list Request) : option (Result (list GoogleUser) * list Request) :=
  listUsersFrom fuel svc query [] None log.

Definition listChromeDevices (svc : Service) (query : option string)
    (log : list Request) : Result (list ChromeDevice) * list Request :=
  let request := GetChromeDevices (whenTruthy query) in
  match getChromeDevices svc log (whenTruthy query) with
  | Throw message => (Throw message, log ++ [request])
  | Ok chromeosdevices =>
      (Ok (match chromeosdevices with Some devices => devices | None => [] end),
       log ++ [request])
  end.

Definition getChromeDeviceBySerial (svc : Service) (serial : string)
    (log : list Request) : Result (option ChromeDevice) * list Request :=
  match listChromeDevices svc (Some ("id:" +:+ serial)) log with
  | (Throw message, log') => (Throw message, log')
  | (Ok devices, log') =>
      (Ok (List.find
             (fun device => bool_decide (serialNumber device = Some serial))
             devices),
       log')
  end.

(** One batch of [batchGetChromeDevices]: the lookups are started in array
    order, a lookup that fails counts as [null]. *)
Fixpoint getBatch (svc : Service) (batch : list string) (log : list Request)
  : list (option ChromeDevice) * list Request :=
  match batch with
  | [] => ([], log)
  | serial :: rest =>
      let '(found, log1) := getChromeDeviceBySerial svc serial log in
      let device :=
        match found with
        | Ok device => device
        | Throw _ => None
        end in
      let '(results, log2) := getBatch svc rest log1 in
      (device :: results, log2)
  end.

(** The callback of [results.forEach]. *)
Definition setFound (deviceMap : gmap string ChromeDevice)
    (entry : string * option ChromeDevice) : gmap string ChromeDevice :=
  match entry with
  | (serial, Some device) =>
      if truthy (serialNumber device) then <[serial := device]> deviceMap
      else deviceMap
  | (_, None) => deviceMap
  end.

(** The loop [for (i = 0; i < serialNumbers.length; i += batchSize)] with
    [batchSize = 10]. The index grows by ten in each iteration, so the
    loop ends within as many iterations as the array has elements, which
    is the bound [iterations]. *)
Fixpoint batchLoop (iterations : nat) (svc : Service)
    (serialNumbers : list string) (i : Z)
    (deviceMap : gmap string ChromeDevice) (log : list Request)
  : gmap string ChromeDevice * list Request :=
  match iterations with
  | O => (deviceMap, log)
  | S iterations' =>
      let batchSize := 10 in
      if i <? Z.of_nat (List.length serialNumbers) then
        let batch := slice serialNumbers i (i + batchSize) in
        let '(results, log') := getBatch svc batch log in
        batchLoop iterations' svc serialNumbers (i + batchSize)
          (foldl setFound deviceMap (zip batch results)) log'
      else (deviceMap, log)
  end.

Definition batchGetChromeDevices (svc : Service) (serialNumbers : list string)
    (log : list Request) : gmap string ChromeDevice * list Request :=
  batchLoop (List.length serialNumbers) svc serialNumbers 0 ∅ log.

Definition listOrganizationalUnits (svc : Service)
    (parentOrgUnitPath : option string) (log : list Request)
  : Result (list (option string)) * list Request :=
  let request := GetOrgUnits (whenTruthy parentOrgUnitPath) in
  match getOrgUnits svc log (whenTruthy parentOrgUnitPath) with
  | Throw message => (Throw message, log ++ [request])
  | Ok organizationUnits =>
      (Ok (match organizationUnits with Some ous => ous | None => [] end),
       log ++ [request])
  end.

Definition createOrganizationalUnit (svc : Service) (name : option string)
    (parentOrgUnitPath : string) (log : list Request)
  : Result unit * list Request :=
  let request := PostOrgUnit name parentOrgUnitPath in
  match postOrgUnit svc log name parentOrgUnitPath with
  | Some message => (Throw message, log ++ [request])
  | None => (Ok tt, log ++ [request])
  end.

End DirectoryClient.

(** ** [SyncEngine]: reading and preparing the directory *)

Module Preparation.

Import JsText OUManager RequiredOUs DirectoryClient SyncEngine Executor.

Definition fetchExistingUsers (fuel : nat) (svc : Service)
    (baseStudentOU : string) (log : list Request)
  : option (Result (list GoogleUser) * list Request) :=
  let studentOUPath :=
    replace (getSchoolLevelOUPath baseStudentOU elementary) "/elementary" "" in
  let query := "orgUnitPath='" +:+ studentOUPath +:+ "'" in
  listUsers fuel svc (Some query) log.

Definition fetchExistingDevices (svc : Service) (students : list Student)
    (log : list Request) : gmap string ChromeDevice * list Request :=
  let serialNumbers :=
    map (fun student => orElse (deviceSerial student) "")
      (List.filter (fun student => truthy (deviceSerial student)) students) in
  if (List.length serialNumbers =? 0)%nat then (∅, log)
  else batchGetChromeDevices svc serialNumbers log.

(** The number of segments that [split('/')] gives. *)
Definition depth (path : string) : Z :=
  Z.of_nat (List.length (split "/" path)).

(** [missingOUs.sort((a, b) => depth(a) - depth(b))]: the sort is stable,
    so each path goes behind the paths that are not deeper. *)
Fixpoint insertByDepth (path : string) (sorted : list string) : list string :=
  match sorted with
  | [] => [path]
  | other :: rest =>
      if depth path <? depth other then path :: other :: rest
      else other :: insertByDepth path rest
  end.

Definition sortByDepth (paths : list string) : list string :=
  foldl (fun sorted path => insertByDepth path sorted) [] paths.

(** The loop over [missingOUs]; a creation that throws ends it. *)
Fixpoint createMissing (svc : Service) (config : Config)
    (missingOUs : list string) (log : list Request)
  : Result unit * list Request :=
  match missingOUs with
  | [] => (Ok tt, log)
  | ouPath :: rest =>
      let parts := filterTruthy (split "/" ouPath) in
      let name := last parts in
      let parentPath := "/" +:+ join "/" (slice parts 0 (-1)) in
      if negb (dryRun config) then
        match createOrganizationalUnit svc name parentPath log with
        | (Throw message, log') => (Throw message, log')
        | (Ok _, log') => createMissing svc config rest log'
        end
      else createMissing svc config rest log
  end.

Definition ensureRequiredOUs (svc : Service) (config : Config)
    (baseStudentOU : string) (now : JsDate) (students : list Student)
    (log : list Request) : Result unit * list Request :=
  match getRequiredOUs baseStudentOU now students with
  | Throw message => (Throw message, log)
  | Ok requiredOUs =>
      match listOrganizationalUnits svc None log with
      | (Throw message, log') => (Throw message, log')
      | (Ok existingOUs, log') =>
          let missingOUs :=
            List.filter
              (fun path => negb (bool_decide (Some path ∈ existingOUs)))
              requiredOUs in
          createMissing svc config (sortByDepth missingOUs) log'
      end
  end.

(** The three awaited steps of [sync] that precede planning. *)
Definition prepare (fuel : nat) (svc : Service) (config : Config)
    (baseStudentOU : string) (now : JsDate) (students : list Student)
    (log : list Request)
  : option (Result (list GoogleUser * gmap string ChromeDevice)
            * list Request) :=
  match fetchExistingUsers fuel svc baseStudentOU log with
  | None => None
  | Some (Throw message, log1) => Some (Throw message, log1)
  | Some (Ok existingUsers, log1) =>
      let '(existingDevices, log2) :=
        fetchExistingDevices svc students log1 in
      match
        ensureRequiredOUs svc config baseStudentOU now students log2
      with
      | (Throw message, log3) => Some (Throw message, log3)
      | (Ok _, log3) => Some (Ok (existingUsers, existingDevices), log3)
      end
  end.

(** [sync] on the directory: a dry run returns before the directory is
    read, so the snapshots that it is handed are not looked at. *)
Definition syncWithDirectory (fuel : nat) (svc : Service) (env : Env)
    (config : Config) (baseStudentOU : string) (now : JsDate)
    (students : list Student) (w : World)
  : option (Result SyncSummary * World * list Request) :=
  if dryRun config then
    match
      sync fuel env config baseStudentOU now students (Ok ([], ∅)) w
    with
    | Some (outcome, w') => Some (outcome, w', [])
    | None => None
    end
  else
    match prepare fuel svc config baseStudentOU now students [] with
    | None => None
    | Some (fetched, log) =>
        match sync fuel env config baseStudentOU now students fetched w with
        | Some (outcome, w') => Some (outcome, w', log)
        | None => None
        end
    end.

End Preparation.

(** ** Vocabulary of the further properties *)

(** The configuration with the three mode flags cleared. *)
Definition unrestricted (config : Config) : Config :=
  {| googleDomain := googleDomain config; dryRun := dryRun config;
     maxConcurrentRequests := maxConcurrentRequests config;
     requireConfirmationThreshold := requireConfirmationThreshold config;
     createOnly := None; moveOnly := None; deactivateOnly := None;
     passwordConfig := passwordConfig config;
     emailConfig := emailConfig config;
     passwordPrefix := passwordPrefix config |}.

(** The [move_device] action that [addDeviceSyncActions] pushes. *)
Definition moveDeviceAction (baseStudentOU : string) (now : JsDate)
    (s : Student) (d : ChromeDevice) : SyncAction :=
  {| actionType := MoveDevice; student := s; currentUser := None;
     currentDevice := Some d;
     targetOUPath := getStudentOUPath baseStudentOU now s;
     reason := "Move device from " +:+ orElse (deviceOrgUnitPath d) "unknown"
                 +:+ " to " +:+ getStudentOUPath baseStudentOU now s |}.

(** An account under another address that carries the identifier of
    [janeRoe]. *)
Definition janeByIdentifier : GoogleUser :=
  {| userId := None; primaryEmail := "j.roe@school.edu"; givenName := "Jane";
     familyName := "Roe"; suspended := None;
     changePasswordAtNextLogin := None;
     orgUnitPath := Some "/org/student/middle/2031/jane.roe";
     externalIds :=
       Some [ {| extValue := "x"; extType := "organization";
                 extCustomType := None |};
              {| extValue := "STU002"; extType := "custom";
                 extCustomType := Some "student_id" |} ];
     customSchemas := None; password := None |}.

(** The result that [executeAction] records for an action whose single
    request got the reply [reply]. *)
Definition resultOfReply (a : SyncAction) (reply : option string)
  : SyncResult :=
  match reply with
  | None => {| success := true; action := a; error := None |}
  | Some message => {| success := false; action := a; error := Some message |}
  end.

(** The world after one more request. *)
Definition afterCall (w : World) (call : ApiCall) : World :=
  mkWorld (trace w ++ [EvApi call]) (draws w).

(** The roster records for which a dry run lists a device move. *)
Definition hasDeviceToSimulate (now : JsDate) (s : Student) : bool :=
  isActive (getStudentStatus now s) && truthy (deviceSerial s).

(** A configuration of the tests with a batch size of zero. *)
Definition zeroBatchConfig : Config :=
  {| googleDomain := "school.edu"; dryRun := false;
     maxConcurrentRequests := 0; requireConfirmationThreshold := 5;
     createOnly := None; moveOnly := None; deactivateOnly := None;
     passwordConfig := None; emailConfig := None;
     passwordPrefix := Some "lh00" |}.

(** A batch size of zero with a threshold of zero, and an environment in
    which the operator confirms. *)
Definition zeroBatchStrictConfig : Config :=
  {| googleDomain := "school.edu"; dryRun := false;
     maxConcurrentRequests := 0; requireConfirmationThreshold := 0;
     createOnly := None; moveOnly := None; deactivateOnly := None;
     passwordConfig := None; emailConfig := None;
     passwordPrefix := Some "lh00" |}.

Definition consentingEnv : Env :=
  {| respond := fun _ _ => None;
     mathRandom := fun k => (7 * k + 3)%nat;
     confirmBulkDeactivation := fun _ _ => true;
     today := "2024-09-01" |}.

(** The configuration of [tests/sync-engine.test.ts] as it is there: a dry
    run. *)
Definition dryRunConfig : Config :=
  {| googleDomain := "school.edu"; dryRun := true;
     maxConcurrentRequests := 1; requireConfirmationThreshold := 5;
     createOnly := None; moveOnly := None; deactivateOnly := None;
     passwordConfig := None; emailConfig := None;
     passwordPrefix := Some "lh00" |}.

(** The account of [janeRoe] at the path of another class. *)
Definition janeMisplaced : GoogleUser :=
  accountAt "jane.roe2031@school.edu" "/org/student/middle/2030/jane.roe".

(** The device of [janeRoe] at the root of the student tree. *)
Definition janeDevice : gmap string ChromeDevice :=
  {[ "CHR002345678" := deviceAt "CHR002345678" "/org/student" ]}.

(** A roster of two, a snapshot with the misplaced account of the first and
    an account that the roster does not know, and the device of the first
    record outside its place. *)
Definition smallRoster : list Student := [janeRoe; johnEnrolled].

Definition smallSnapshot : list GoogleUser := [janeMisplaced; annAccount].

(** The characters of a string. *)
Definition chars (s : string) : list ascii := list_ascii_of_string s.

(** The random strategy of [config/config.example.json]: sixteen
    characters, every class but the symbols. *)
Definition randomSixteen : PasswordConfig :=
  {| passwordType := random; pwPrefix := None; pwLength := Some 16;
     includeUppercase := Some true; includeLowercase := Some true;
     includeNumbers := Some true; includeSymbols := Some false;
     customPattern := None |}.

(** An account that the roster does not know, parked under the hidden
    aliases. *)
Definition parkedAccount : GoogleUser :=
  accountAt "old.alias@school.edu" "/org/student/hidden_aliases/old.alias".

(** A grade code of the table. *)
Definition validGrade (s : Student) : Prop := gradeMapping (grade s) <> None.

(** The names that an object literal inherits from [Object.prototype]. The
    source looks a grade code up in an object literal, which finds these
    names although they are no grade codes; [gradeTable] holds the own keys
    of the literal, and what is said of a roster with a grade code outside
    the table is said of rosters whose grade codes are none of these
    names. *)
Definition inheritedKeys : list string :=
  ["constructor"; "__defineGetter__"; "__defineSetter__"; "hasOwnProperty";
   "__lookupGetter__"; "__lookupSetter__"; "isPrototypeOf";
   "propertyIsEnumerable"; "toString"; "valueOf"; "__proto__";
   "toLocaleString"].

Definition plainGrade (s : Student) : Prop :=
  existsb (String.eqb (grade s)) inheritedKeys = false.

(** A record as the roster parser leaves it when the grade column is
    empty. *)
Definition ungraded : Student :=
  {| studentId := "STU030"; firstName := "Eve"; lastName := "Moss";
     grade := "unknown"; email := None; graduationYear := 2030;
     enrollmentDate := None; parentEmail := None; status := None;
     deviceSerial := None |}.

(** The timeout that follows the attempt numbered [i] of a request, if
    any. *)
Definition pauseAfter {T : Type} (retries : Z) (i : nat)
    (reply : GoogleAPIClient.Attempt T) : option (option Z) :=
  match reply with
  | GoogleAPIClient.RateLimited header =>
      Some (GoogleAPIClient.retryAfterDelay header)
  | GoogleAPIClient.Failed _ =>
      if Z.of_nat i =? retries then None
      else Some (Some (GoogleAPIClient.backoffDelay (Z.of_nat i)))
  | GoogleAPIClient.Succeeded _ => None
  end.

Definition isSucceeded {T : Type} (reply : GoogleAPIClient.Attempt T) : bool :=
  match reply with
  | GoogleAPIClient.Succeeded _ => true
  | _ => false
  end.

(** A service that rejects every request with status 404. *)
Definition alwaysNotFound : nat -> GoogleAPIClient.Attempt unit :=
  fun _ => GoogleAPIClient.Failed "API Error 404: Not Found".

(** The strings that a regular expression denotes. *)
Inductive Matches : JsText.Regex -> string -> Prop :=
| MatchesEmpty : Matches JsText.Empty ""
| MatchesClass (member : ascii -> bool) (c : ascii) :
    member c = true -> Matches (JsText.Class member) (String c "")
| MatchesSeq (a b : JsText.Regex) (s t : string) :
    Matches a s -> Matches b t -> Matches (JsText.Seq a b) (s +:+ t)
| MatchesAltL (a b : JsText.Regex) (s : string) :
    Matches a s -> Matches (JsText.Alt a b) s
| MatchesAltR (a b : JsText.Regex) (s : string) :
    Matches b s -> Matches (JsText.Alt a b) s
| MatchesStarNil (a : JsText.Regex) : Matches (JsText.Star a) ""
| MatchesStarStep (a : JsText.Regex) (s t : string) :
    Matches a s -> Matches (JsText.Star a) t ->
    Matches (JsText.Star a) (s +:+ t).

(** An address of the shape that [validateEmail] accepts: a local part, an
    at sign, and a domain with an inner dot, all three pieces non-empty and
    free of white space and of further at signs. *)
Definition wellFormedAddress (s : string) : Prop :=
  exists a b c : string,
    s = a +:+ "@" +:+ b +:+ "." +:+ c
    /\ a <> "" /\ b <> "" /\ c <> ""
    /\ allChars CSVParser.notSpaceNorAt a = true
    /\ allChars CSVParser.notSpaceNorAt b = true
    /\ allChars CSVParser.notSpaceNorAt c = true.

(** A field between quotes, with its quotes doubled. *)
Fixpoint doubleQuotes (field : string) : string :=
  match field with
  | EmptyString => EmptyString
  | String c rest =>
      if Ascii.eqb c "034" then String "034" (String "034" (doubleQuotes rest))
      else String c (doubleQuotes rest)
  end.

Definition quoteField (field : string) : string :=
  String "034" (doubleQuotes field +:+ String "034" EmptyString).

(** Neither a quote nor a comma. *)
Definition plainChar (c : ascii) : bool :=
  negb (Ascii.eqb c "034") && negb (Ascii.eqb c ",").

(** The record that [transformRow] builds once its required fields, its
    graduation year and its address are there. *)
Definition recordOfRow (row : list string) (studentId firstName lastName : string)
    (graduationYear : Z) (email : option string) : Student :=
  {| studentId := studentId; firstName := firstName; lastName := lastName;
     grade := orElse (row !! CSVParser.STUDENT_GRADE) "unknown";
     email := email; graduationYear := graduationYear;
     enrollmentDate :=
       if CSVParser.filled (row !! CSVParser.PROP_GRAD_DATE)
       then row !! CSVParser.PROP_GRAD_DATE else None;
     parentEmail := None;
     status :=
       if CSVParser.filled (row !! CSVParser.GRADUATED) then
         let flag := toLowerCase (orElse (row !! CSVParser.GRADUATED) "") in
         if String.eqb flag "true" || String.eqb flag "yes"
            || String.eqb flag "1"
         then Some graduated else None
       else None;
     deviceSerial :=
       if CSVParser.filled (row !! CSVParser.DEVICE_SERIAL)
       then Some (JsText.trim (orElse (row !! CSVParser.DEVICE_SERIAL) ""))
       else None |}.

(** A row with an empty grade cell. *)
Definition rowWithoutGrade : list string :=
  [ "Example High"; "Eve"; "Moss"; "Example High"; "EH01"; "ENT030";
    "STU030"; ""; ""; ""; ""; "2030" ].

(** The request by which a device is looked up. *)
Definition deviceLookup (serial : string) : DirectoryClient.Request :=
  DirectoryClient.GetChromeDevices (Some ("id:" +:+ serial)).

(** One device looked up and entered in the map, by itself. *)
Definition lookupOne (svc : DirectoryClient.Service)
    (st : gmap string ChromeDevice * list DirectoryClient.Request)
    (serial : string)
  : gmap string ChromeDevice * list DirectoryClient.Request :=
  let '(found, log') :=
    DirectoryClient.getChromeDeviceBySerial svc serial (snd st) in
  (DirectoryClient.setFound (fst st)
     (serial, match found with Ok device => device | Throw _ => None end),
   log').

(** A service whose replies about devices do not depend on what was asked
    before. *)
Definition devicesStateless (svc : DirectoryClient.Service) : Prop :=
  forall history query,
    DirectoryClient.getChromeDevices svc history query
    = DirectoryClient.getChromeDevices svc [] query.

(** What such a service knows under a serial number. *)
Definition knownDevice (svc : DirectoryClient.Service) (serial : string)
  : option ChromeDevice :=
  match DirectoryClient.getChromeDevices svc [] (Some ("id:" +:+ serial)) with
  | Ok (Some devices) =>
      List.find (fun device => bool_decide (serialNumber device = Some serial))
        devices
  | _ => None
  end.

(** A directory with one page of accounts, the device of [janeRoe], and no
    organisational unit. *)
Definition smallDirectory : DirectoryClient.Service :=
  {| DirectoryClient.getUsers :=
       fun _ _ _ =>
         Ok {| DirectoryClient.pageUsers := Some smallSnapshot;
               DirectoryClient.nextPageToken := None |};
     DirectoryClient.getChromeDevices :=
       fun _ query =>
         if bool_decide (query = Some "id:CHR002345678")
         then Ok (Some [deviceAt "CHR002345678" "/org/student"])
         else Ok None;
     DirectoryClient.getOrgUnits := fun _ _ => Ok None;
     DirectoryClient.postOrgUnit := fun _ _ _ => None |}.

(** The pages that [listUsers] walks through: from the page token [token]
    and the log [log], the replies [pages] up to the first one without a
    next page, and the log afterwards. *)
Inductive Paged (svc : DirectoryClient.Service) (query : option string)
  : option string -> list DirectoryClient.Request
    -> list DirectoryClient.UsersPage -> list DirectoryClient.Request
    -> Prop :=
| PagedLast (token : option string) (log : list DirectoryClient.Request)
    (page : DirectoryClient.UsersPage) :
    DirectoryClient.getUsers svc log query (DirectoryClient.whenTruthy token)
    = Ok page ->
    truthy (DirectoryClient.nextPageToken page) = false ->
    Paged svc query token log [page]
      (log ++ [DirectoryClient.GetUsers query
                 (DirectoryClient.whenTruthy token)])
| PagedNext (token : option string) (log : list DirectoryClient.Request)
    (page : DirectoryClient.UsersPage)
    (pages : list DirectoryClient.UsersPage)
    (log' : list DirectoryClient.Request) :
    DirectoryClient.getUsers svc log query (DirectoryClient.whenTruthy token)
    = Ok page ->
    truthy (DirectoryClient.nextPageToken page) = true ->
    Paged svc query (DirectoryClient.nextPageToken page)
      (log ++ [DirectoryClient.GetUsers query
                 (DirectoryClient.whenTruthy token)])
      pages log' ->
    Paged svc query token log (page :: pages) log'.

(** The pages that [listUsers] turns: from the page token [token] and the
    log [log], replies that each carry the token of a next page, up to the
    token [token'] of the page that would be asked for next and the log
    [log'] at that point. *)
Inductive Turned (svc : DirectoryClient.Service) (query : option string)
  : option string -> list DirectoryClient.Request
    -> list DirectoryClient.UsersPage
    -> option string -> list DirectoryClient.Request -> Prop :=
| TurnedNone (token : option string) (log : list DirectoryClient.Request) :
    Turned svc query token log [] token log
| TurnedPage (token : option string) (log : list DirectoryClient.Request)
    (page : DirectoryClient.UsersPage)
    (pages : list DirectoryClient.UsersPage)
    (token' : option string) (log' : list DirectoryClient.Request) :
    DirectoryClient.getUsers svc log query (DirectoryClient.whenTruthy token)
    = Ok page ->
    truthy (DirectoryClient.nextPageToken page) = true ->
    Turned svc query (DirectoryClient.nextPageToken page)
      (log ++ [DirectoryClient.GetUsers query
                 (DirectoryClient.whenTruthy token)])
      pages token' log' ->
    Turned svc query token log (page :: pages) token' log'.

(** A directory that hands out its accounts on two pages, and one whose
    second page fails. *)
Definition twoPages (second : Result DirectoryClient.UsersPage)
  : DirectoryClient.Service :=
  {| DirectoryClient.getUsers :=
       fun _ _ token =>
         match token with
         | None =>
             Ok {| DirectoryClient.pageUsers := Some [janeMisplaced];
                   DirectoryClient.nextPageToken := Some "page-2" |}
         | Some _ => second
         end;
     DirectoryClient.getChromeDevices := fun _ _ => Ok None;
     DirectoryClient.getOrgUnits := fun _ _ => Ok None;
     DirectoryClient.postOrgUnit := fun _ _ _ => None |}.

Definition lastPage : DirectoryClient.UsersPage :=
  {| DirectoryClient.pageUsers := Some [annAccount];
     DirectoryClient.nextPageToken := None |}.

(** The accounts of a page. *)
Definition usersOf (page : DirectoryClient.UsersPage) : list GoogleUser :=
  match DirectoryClient.pageUsers page with
  | Some users => users
  | None => []
  end.

(** The query for the accounts under a root. *)
Definition underRoot (baseStudentOU : string) : string :=
  "orgUnitPath='" +:+ baseStudentOU +:+ "'".

(** The request by which the loop of [ensureRequiredOUs] creates a unit. *)
Definition creationRequest (ouPath : string) : DirectoryClient.Request :=
  let parts := filterTruthy (split "/" ouPath) in
  DirectoryClient.PostOrgUnit (last parts)
    ("/" +:+ JsText.join "/" (slice parts 0 (-1))).

(** The reply of the directory to the creation of the unit [ouPath] after
    the requests [history]: [None] when the unit is created, the error
    otherwise. *)
Definition creationReply (svc : DirectoryClient.Service)
    (history : list DirectoryClient.Request) (ouPath : string)
  : option string :=
  let parts := filterTruthy (split "/" ouPath) in
  DirectoryClient.postOrgUnit svc history (last parts)
    ("/" +:+ JsText.join "/" (slice parts 0 (-1))).

(** The directory creates the units of [paths], asked for one after
    another after the requests [history]. *)
Fixpoint accepted (svc : DirectoryClient.Service)
    (history : list DirectoryClient.Request) (paths : list string) : Prop :=
  match paths with
  | [] => True
  | ouPath :: rest =>
      creationReply svc history ouPath = None
      /\ accepted svc (history ++ [creationRequest ouPath]) rest
  end.

(** A directory that creates no unit named [2031]. *)
Definition reluctantDirectory : DirectoryClient.Service :=
  {| DirectoryClient.getUsers :=
       fun _ _ _ =>
         Ok {| DirectoryClient.pageUsers := Some smallSnapshot;
               DirectoryClient.nextPageToken := None |};
     DirectoryClient.getChromeDevices := fun _ _ => Ok None;
     DirectoryClient.getOrgUnits := fun _ _ => Ok None;
     DirectoryClient.postOrgUnit :=
       fun _ name _ =>
         if bool_decide (name = Some "2031") then Some "Invalid name"
         else None |}.

(** The required paths that the directory does not list. *)
Definition notListed (existing : list (option string)) (path : string) : bool :=
  negb (bool_decide (Some path ∈ existing)).

(** No path of the list is deeper than one that follows it. *)
Fixpoint ascending (paths : list string) : Prop :=
  match paths with
  | [] => True
  | path :: rest =>
      Forall (fun later => Preparation.depth path <= Preparation.depth later)
        rest
      /\ ascending rest
  end.

(** A path segment: not empty and without a slash; and the absolute path
    with the given segments. *)
Definition segment (s : string) : Prop :=
  s <> "" /\ allChars notSlash s = true.

Definition pathOf (segments : list string) : string :=
  "/" +:+ JsText.join "/" segments.

(** * Properties *)

(** ** Strings and numbers *)

Lemma append_String (c : ascii) (a b : string) :
  String c a +:+ b = String c (a +:+ b).
Proof. reflexivity. Qed.

Lemma startsWith_append (a b : string) : startsWith (a +:+ b) a = true.
Proof.
  induction a as [|c a IH]; [reflexivity|].
  rewrite append_String. cbn [startsWith].
  rewrite Ascii.eqb_refl. exact IH.
Qed.

Lemma substring_append (a b : string) :
  substring (a +:+ b) (String.length a) = b.
Proof.
  induction a as [|c a IH]; [destruct b; reflexivity|].
  rewrite append_String. cbn [String.length substring]. exact IH.
Qed.

Lemma allChars_append (P : ascii -> bool) (a b : string) :
  allChars P (a +:+ b) = allChars P a && allChars P b.
Proof.
  induction a as [|c a IH]; [reflexivity|].
  rewrite append_String. cbn [allChars]. rewrite IH.
  now rewrite andb_assoc.
Qed.

Lemma allChars_weaken (P Q : ascii -> bool) (s : string) :
  (forall c, P c = true -> Q c = true) ->
  allChars P s = true -> allChars Q s = true.
Proof.
  intros HPQ. induction s as [|c s IH]; [reflexivity|].
  cbn [allChars]. intros [Hc Hs]%andb_prop.
  rewrite (HPQ _ Hc), (IH Hs). reflexivity.
Qed.

Lemma allChars_keepChars (P : ascii -> bool) (s : string) :
  allChars P (keepChars P s) = true.
Proof.
  induction s as [|c s IH]; [reflexivity|].
  cbn [keepChars]. destruct (P c) eqn:Hc; [|exact IH].
  cbn [allChars]. now rewrite Hc, IH.
Qed.

Lemma split_no_separator (sep : ascii) (s : string) :
  allChars (fun c => negb (Ascii.eqb c sep)) s = true ->
  split sep s = [s].
Proof.
  induction s as [|c s IH]; [reflexivity|].
  cbn [allChars split]. intros [Hc Hs]%andb_prop.
  apply negb_true_iff in Hc. rewrite Hc, (IH Hs). reflexivity.
Qed.

Lemma split_append (sep : ascii) (a b : string) :
  allChars (fun c => negb (Ascii.eqb c sep)) a = true ->
  split sep (a +:+ String sep b) = a :: split sep b.
Proof.
  induction a as [|c a IH].
  - intros _. change (split sep (String sep b) = "" :: split sep b).
    cbn [split]. now rewrite Ascii.eqb_refl.
  - cbn [allChars]. intros [Hc Ha]%andb_prop.
    apply negb_true_iff in Hc.
    rewrite append_String. cbn [split]. rewrite Hc, (IH Ha). reflexivity.
Qed.

Lemma isDigit_notSlash (c : ascii) : isDigit c = true -> notSlash c = true.
Proof.
  unfold isDigit, notSlash. intros [H1 H2]%andb_prop.
  destruct (Ascii.eqb_spec c "/") as [->|]; [discriminate H1|reflexivity].
Qed.

Lemma isLowerOrDigit_notSlash (c : ascii) :
  isLowerOrDigit c = true -> notSlash c = true.
Proof.
  unfold isLowerOrDigit, isLower, isDigit, notSlash. intros H.
  destruct (Ascii.eqb_spec c "/") as [->|]; [discriminate H|reflexivity].
Qed.

(** The digits of a decimal numeral, as [parseInt] reads them back. *)
Lemma parseDigits_of_uint_acc (d : Decimal.uint) (acc : positive) :
  parseDigits (NilEmpty.string_of_uint d) true (Z.pos acc)
  = Some (Z.pos (Pos.of_uint_acc d acc)).
Proof.
  revert acc.
  induction d as [|d IH|d IH|d IH|d IH|d IH|d IH|d IH|d IH|d IH|d IH];
    intros acc; cbn [NilEmpty.string_of_uint parseDigits Pos.of_uint_acc];
    [reflexivity|..];
    match goal with
    | |- context [isDigit ?c] => change (isDigit c) with true
    end; cbv iota; rewrite <- IH; f_equal;
    match goal with
    | |- context [digitValue ?c] =>
        let v := eval vm_compute in (digitValue c) in
        change (digitValue c) with v
    end; lia.
Qed.

Lemma parseDigits_of_uint (d : Decimal.uint) :
  parseDigits (NilEmpty.string_of_uint d) true 0
  = Some (Z.of_N (Pos.of_uint d)).
Proof.
  induction d as [|d IH|d IH|d IH|d IH|d IH|d IH|d IH|d IH|d IH|d IH];
    cbn [NilEmpty.string_of_uint parseDigits Pos.of_uint];
    [reflexivity|exact IH|..];
    match goal with
    | |- context [isDigit ?c] => change (isDigit c) with true
    end; cbv iota; apply (parseDigits_of_uint_acc d).
Qed.

Lemma allChars_digits_of_uint (d : Decimal.uint) :
  allChars isDigit (NilEmpty.string_of_uint d) = true.
Proof.
  induction d; cbn [NilEmpty.string_of_uint allChars]; [reflexivity|..];
    exact IHd.
Qed.

Lemma to_uint_not_Nil (p : positive) : Pos.to_uint p <> Decimal.Nil.
Proof.
  intros H. pose proof (DecimalPos.Unsigned.of_to p) as E.
  rewrite H in E. discriminate E.
Qed.

Lemma digitsOf_pos (p : positive) :
  digitsOf (Z.pos p) = NilEmpty.string_of_uint (Pos.to_uint p).
Proof.
  unfold digitsOf. cbn [Z.to_int NilZero.string_of_int].
  unfold NilZero.string_of_uint.
  pose proof (to_uint_not_Nil p). destruct (Pos.to_uint p); congruence.
Qed.

Lemma digitsOf_neg (p : positive) :
  digitsOf (Z.neg p) = String "-" (NilEmpty.string_of_uint (Pos.to_uint p)).
Proof.
  unfold digitsOf. cbn [Z.to_int NilZero.string_of_int].
  unfold NilZero.string_of_uint.
  pose proof (to_uint_not_Nil p). destruct (Pos.to_uint p); congruence.
Qed.

Lemma parseDigits_first_digit (s : string) (acc : Z) :
  s <> "" -> allChars isDigit s = true ->
  parseDigits s false acc = parseDigits s true acc.
Proof.
  destruct s as [|c s]; [congruence|].
  cbn [allChars parseDigits]. intros _ [-> _]%andb_prop. reflexivity.
Qed.

Lemma parseInt_digits (s : string) :
  s <> "" -> allChars isDigit s = true ->
  parseInt s = option_map nearestNumber (parseDigits s true 0).
Proof.
  intros Hne Hd. rewrite <- (parseDigits_first_digit s 0 Hne Hd).
  destruct s as [|c s]; [congruence|].
  cbn [allChars] in Hd. apply andb_prop in Hd as [Hc _].
  unfold parseInt. cbn [trimStart].
  assert (isWhiteSpace c = false) as ->.
  { unfold isDigit in Hc. apply andb_prop in Hc as [H1 H2].
    unfold isWhiteSpace.
    destruct c as [[] [] [] [] [] [] [] []]; try reflexivity; discriminate. }
  destruct (Ascii.eqb_spec c "-") as [->|Hm]; [discriminate Hc|].
  destruct (Ascii.eqb_spec c "+") as [->|Hp]; [discriminate Hc|].
  destruct c as [[] [] [] [] [] [] [] []]; try reflexivity; congruence.
Qed.

Lemma string_of_uint_not_empty (d : Decimal.uint) :
  d <> Decimal.Nil -> NilEmpty.string_of_uint d <> "".
Proof. destruct d; cbn; congruence. Qed.

(** *** Numbers: rounding, printing and reading back *)

(** An integer below 2^53 is a number. *)
Lemma nearestNumber_small (v : Z) : v < 2 ^ 53 -> nearestNumber v = v.
Proof.
  intros Hv. unfold nearestNumber. cbv zeta.
  destruct (Z.leb_spec (Z.log2 v - 52) 0) as [_|He]; [reflexivity|].
  exfalso. destruct (Z.le_gt_cases v 0) as [Hn|Hp].
  - rewrite (Z.log2_nonpos v Hn) in He. lia.
  - apply (Z.log2_lt_pow2 v 53 Hp) in Hv. lia.
Qed.

Lemma isNumber_small (n : Z) : Z.abs n < 2 ^ 53 -> isNumber n.
Proof.
  intros H. split; [now apply nearestNumber_small|].
  assert (2 ^ 53 < 2 ^ 1024) by (apply Z.pow_lt_mono_r; lia). lia.
Qed.

Lemma nearestNumber_lower (v : Z) : 0 < v -> 2 ^ Z.log2 v <= nearestNumber v.
Proof.
  intros Hv. pose proof (Z.log2_spec v Hv) as [Hlow _].
  unfold nearestNumber. cbv zeta.
  destruct (Z.leb_spec (Z.log2 v - 52) 0) as [_|He]; [exact Hlow|].
  set (e := Z.log2 v - 52) in *.
  assert (Z.log2 v = 52 + e) as El by (unfold e; lia).
  rewrite El in *. rewrite Z.pow_add_r in * by lia.
  assert (0 < 2 ^ e) as Hu by (apply Z.pow_pos_nonneg; lia).
  set (ulp := 2 ^ e) in *.
  assert (2 ^ 52 <= v / ulp) as Hq
    by (apply Z.div_le_lower_bound; [exact Hu|lia]).
  set (q := v / ulp) in *.
  destruct (2 * (v mod ulp) <? ulp); [nia|].
  destruct (ulp <? 2 * (v mod ulp)); [nia|].
  destruct (Z.even q); nia.
Qed.

(** Rounding does not take an integer from 10^21 on below 10^21, which is
    a number. *)
Lemma nearestNumber_exponent (v : Z) :
  10 ^ 21 <= v -> 10 ^ 21 <= nearestNumber v.
Proof.
  intros Hv. destruct (Z.lt_ge_cases v (2 ^ 70)) as [Hlt|Hge].
  - assert (Z.log2 v = 69) as El.
    { apply Z.log2_unique; [lia|]. split; [|exact Hlt].
      change (2 ^ 69) with 590295810358705651712.
      change (10 ^ 21) with 1000000000000000000000 in Hv. lia. }
    unfold nearestNumber. cbv zeta. rewrite El.
    change (69 - 52 <=? 0) with false. cbv iota.
    change (69 - 52) with 17. change (2 ^ 17) with 131072.
    change (10 ^ 21) with (131072 * 7629394531250000) in *.
    assert (7629394531250000 <= v / 131072) as Hq
      by (apply Z.div_le_lower_bound; lia).
    set (q := v / 131072) in *.
    destruct (2 * (v mod 131072) <? 131072); [lia|].
    destruct (131072 <? 2 * (v mod 131072)); [lia|].
    destruct (Z.even q); lia.
  - assert (0 < v) as Hp.
    { change (2 ^ 70) with 1180591620717411303424 in Hge. lia. }
    pose proof (nearestNumber_lower v Hp) as Hl.
    assert (70 <= Z.log2 v) as H70 by (apply Z.log2_le_pow2; assumption).
    assert (2 ^ 70 <= 2 ^ Z.log2 v) by (apply Z.pow_le_mono_r; lia).
    change (2 ^ 70) with 1180591620717411303424 in *.
    change (10 ^ 21) with 1000000000000000000000. lia.
Qed.

(** What [withDigits] finds reads back as the number. *)
Lemma withDigits_reads (x : Z) (k : nat) (c : Z) :
  withDigits x k = Some c -> nearestNumber c = x.
Proof.
  unfold withDigits. cbv zeta.
  set (unit := 10 ^ Z.of_nat (String.length (digitsOf x) - k)).
  set (below := x / unit * unit). set (above := below + unit).
  destruct (Z.eqb_spec (nearestNumber below) x) as [Eb|_];
    destruct (Z.eqb_spec (nearestNumber above) x) as [Ea|_];
    intros [= <-]; try assumption.
  destruct (_ <? _); [assumption|].
  destruct (_ <? _); [assumption|].
  destruct (Z.even _); assumption.
Qed.

Lemma shortestFrom_reads (x : Z) (remaining k : nat) :
  nearestNumber x = x -> nearestNumber (shortestFrom x k remaining) = x.
Proof.
  intros Hx. revert k.
  induction remaining as [|remaining IH]; intros k; cbn [shortestFrom];
    [exact Hx|].
  destruct (withDigits x k) as [c|] eqn:E; [|apply IH].
  exact (withDigits_reads x k c E).
Qed.

(** Below 10^21 a number is printed as the digits of an integer that reads
    back as the number. *)
Lemma naturalToString_reads (x : Z) :
  0 <= x < 10 ^ 21 -> nearestNumber x = x ->
  exists c : Z,
    0 <= c /\ naturalToString x = digitsOf c /\ nearestNumber c = x.
Proof.
  intros [H0 H21] Hx. unfold naturalToString. cbv zeta.
  pose proof (shortestFrom_reads x 17 1 Hx) as Hc.
  fold (shortestDecimal x) in Hc.
  set (c := shortestDecimal x) in *. exists c.
  assert (c < 10 ^ 21) as Hlt.
  { destruct (Z.lt_ge_cases c (10 ^ 21)) as [H|H]; [exact H|].
    pose proof (nearestNumber_exponent c H). lia. }
  assert (0 <= c) as Hnn.
  { destruct (Z.le_gt_cases 0 c) as [H|H]; [exact H|].
    rewrite nearestNumber_small in Hc; [lia|].
    change (2 ^ 53) with 9007199254740992. lia. }
  split; [exact Hnn|]. split; [|exact Hc].
  destruct (Z.ltb_spec c (10 ^ 21)); [reflexivity|lia].
Qed.

(** An integer below 2^53 is printed as its own digits. *)
Lemma naturalToString_small (x : Z) :
  0 <= x < 2 ^ 53 -> naturalToString x = digitsOf x.
Proof.
  intros [H0 H53].
  assert (x < 10 ^ 21) as H21.
  { change (2 ^ 53) with 9007199254740992 in H53.
    change (10 ^ 21) with 1000000000000000000000. lia. }
  destruct (naturalToString_reads x (conj H0 H21)
              (nearestNumber_small x H53)) as (c & Hc & -> & Hr).
  f_equal. destruct (Z.lt_ge_cases c (2 ^ 53)) as [Hlt|Hge].
  - rewrite nearestNumber_small in Hr; assumption.
  - assert (0 < c) as Hp
      by (change (2 ^ 53) with 9007199254740992 in Hge; lia).
    pose proof (nearestNumber_lower c Hp) as Hl.
    assert (53 <= Z.log2 c) by (apply Z.log2_le_pow2; assumption).
    assert (2 ^ 53 <= 2 ^ Z.log2 c) by (apply Z.pow_le_mono_r; lia).
    lia.
Qed.

Lemma digitsOf_notSlash (n : Z) : allChars notSlash (digitsOf n) = true.
Proof.
  assert (forall d, allChars notSlash (NilEmpty.string_of_uint d) = true)
    as Hd.
  { intros d. apply (allChars_weaken isDigit notSlash);
      [exact isDigit_notSlash|apply allChars_digits_of_uint]. }
  destruct n as [|p|p].
  - reflexivity.
  - rewrite digitsOf_pos. apply Hd.
  - rewrite digitsOf_neg. cbn [allChars]. rewrite Hd. reflexivity.
Qed.

Lemma digitsOf_not_empty (n : Z) : digitsOf n <> "".
Proof.
  destruct n as [|p|p].
  - discriminate.
  - rewrite digitsOf_pos. apply string_of_uint_not_empty, to_uint_not_Nil.
  - rewrite digitsOf_neg. discriminate.
Qed.

Lemma dropTrailingZeros_allChars (P : ascii -> bool) (s : string) :
  allChars P s = true -> allChars P (dropTrailingZeros s) = true.
Proof.
  induction s as [|c s IH]; [reflexivity|].
  cbn [allChars dropTrailingZeros]. intros [Hc Hs]%andb_prop.
  specialize (IH Hs). destruct (dropTrailingZeros s) as [|d r].
  - destruct (Ascii.eqb c "0"); [reflexivity|].
    cbn [allChars]. rewrite Hc. reflexivity.
  - cbn [allChars] in *. rewrite Hc, IH. reflexivity.
Qed.

Lemma exponential_notSlash (digits : string) :
  allChars notSlash digits = true ->
  allChars notSlash (exponential digits) = true.
Proof.
  destruct digits as [|d rest]; [reflexivity|].
  cbn [allChars exponential]. intros [Hd Hr]%andb_prop. rewrite Hd.
  cbn [andb]. rewrite !allChars_append, digitsOf_notSlash.
  destruct (String.eqb (dropTrailingZeros rest) "").
  - reflexivity.
  - rewrite allChars_append, (dropTrailingZeros_allChars _ _ Hr). reflexivity.
Qed.

Lemma naturalToString_notSlash (x : Z) :
  allChars notSlash (naturalToString x) = true.
Proof.
  unfold naturalToString. cbv zeta. destruct (_ <? _).
  - apply digitsOf_notSlash.
  - apply exponential_notSlash, digitsOf_notSlash.
Qed.

Lemma naturalToString_not_empty (x : Z) : naturalToString x <> "".
Proof.
  unfold naturalToString. cbv zeta. destruct (_ <? _).
  - apply digitsOf_not_empty.
  - pose proof (digitsOf_not_empty (shortestDecimal x)) as H.
    destruct (digitsOf (shortestDecimal x)); [congruence|discriminate].
Qed.

(** Whatever the number, what is printed for it holds no slash and is not
    empty. *)
Lemma numberToString_notSlash (n : Z) :
  allChars notSlash (numberToString n) = true.
Proof.
  unfold numberToString. destruct (n <? 0).
  - change ("-" +:+ naturalToString (- n))
      with (String "-" (naturalToString (- n))).
    cbn [allChars]. rewrite naturalToString_notSlash. reflexivity.
  - apply naturalToString_notSlash.
Qed.

Lemma numberToString_not_empty (n : Z) : numberToString n <> "".
Proof.
  unfold numberToString. destruct (n <? 0).
  - discriminate.
  - apply naturalToString_not_empty.
Qed.

(** An integer below 2^53 in magnitude is printed as its own digits. *)
Lemma numberToString_small (n : Z) :
  Z.abs n < 2 ^ 53 -> numberToString n = digitsOf n.
Proof.
  intros H. unfold numberToString. destruct (Z.ltb_spec n 0) as [Hn|Hn].
  - rewrite naturalToString_small by lia.
    destruct n as [|p|p]; try lia.
    change (- Z.neg p) with (Z.pos p). rewrite digitsOf_pos, digitsOf_neg.
    reflexivity.
  - apply naturalToString_small. lia.
Qed.

(** [parseInt] reads the digits of a natural integer as the nearest
    number. *)
Lemma parseInt_digitsOf (c : Z) :
  0 <= c -> parseInt (digitsOf c) = Some (nearestNumber c).
Proof.
  intros Hc. destruct c as [|p|p]; try lia.
  - reflexivity.
  - rewrite digitsOf_pos, parseInt_digits.
    + rewrite parseDigits_of_uint, DecimalPos.Unsigned.of_to. reflexivity.
    + apply string_of_uint_not_empty, to_uint_not_Nil.
    + apply allChars_digits_of_uint.
Qed.

Lemma parseInt_minus_digitsOf (c : Z) :
  0 < c -> parseInt ("-" +:+ digitsOf c) = Some (- nearestNumber c).
Proof.
  intros Hc. destruct c as [|p|p]; try lia.
  rewrite digitsOf_pos. unfold parseInt.
  change (trimStart ("-" +:+ ?r)) with (String "-" r). cbv iota.
  rewrite parseDigits_first_digit.
  - rewrite parseDigits_of_uint, DecimalPos.Unsigned.of_to. reflexivity.
  - apply string_of_uint_not_empty, to_uint_not_Nil.
  - apply allChars_digits_of_uint.
Qed.

(** [parseInt] reads back the number that the template literal printed, as
    long as it was printed in plain notation. *)
Lemma parseInt_numberToString_any (n : Z) :
  Z.abs n < 10 ^ 21 -> isNumber n ->
  parseInt (numberToString n) = Some n.
Proof.
  intros Hb [Hn _]. unfold numberToString.
  destruct (Z.ltb_spec n 0) as [Hneg|Hnn].
  - rewrite Z.abs_neq in Hb, Hn by lia.
    destruct (naturalToString_reads (- n) ltac:(lia) Hn)
      as (c & Hc & -> & Hr).
    assert (0 < c) as Hp.
    { destruct (Z.eq_dec c 0) as [->|]; [|lia].
      change (nearestNumber 0) with 0 in Hr. lia. }
    rewrite (parseInt_minus_digitsOf c Hp), Hr. f_equal. lia.
  - rewrite Z.abs_eq in Hb, Hn by lia.
    destruct (naturalToString_reads n ltac:(lia) Hn) as (c & Hc & -> & Hr).
    rewrite (parseInt_digitsOf c Hc), Hr. reflexivity.
Qed.

Lemma parseInt_numberToString (n : Z) :
  0 < n < 10 ^ 21 -> isNumber n -> parseInt (numberToString n) = Some n.
Proof. intros H. apply parseInt_numberToString_any. lia. Qed.

(** *** What the engine prints and reads, on numbers of every size *)

Example numberToString_plain :
  map numberToString
    [2028; 0; -5; 9007199254740991; 9007199254740992;
     1152921504606846976; 18446744073709551616; 999999999999999868928]
  = ["2028"; "0"; "-5"; "9007199254740991"; "9007199254740992";
     "1152921504606847000"; "18446744073709552000";
     "999999999999999900000"].
Proof. vm_compute. reflexivity. Qed.

Example numberToString_exponent :
  map numberToString
    [1000000000000000000000; 1500000000000000000000;
     1000000000000000131072; 1180591620717411303424;
     -1208925819614629174706176; 1267650600228229401496703205376]
  = ["1e+21"; "1.5e+21"; "1.0000000000000001e+21";
     "1.1805916207174113e+21"; "-1.2089258196146292e+24";
     "1.2676506002282294e+30"].
Proof. vm_compute. reflexivity. Qed.

Example parseInt_samples :
  map parseInt
    ["2028"; " 42abc"; "-12"; "+7"; "abc"; ""; "1e+21";
     "9007199254740993"; "18446744073709551615"]
  = [Some 2028; Some 42; Some (-12); Some 7; None; None; Some 1;
     Some 9007199254740992; Some 18446744073709551616].
Proof. vm_compute. reflexivity. Qed.

Example nearestNumber_ties :
  map nearestNumber
    [9007199254740993; 9007199254740995; 18014398509481986;
     18014398509481990; 100000000000000000000000]
  = [9007199254740992; 9007199254740996; 18014398509481984;
     18014398509481992; 99999999999999991611392].
Proof. vm_compute. reflexivity. Qed.

(** ** The assertions of [tests/] on the embedding *)

Example test_getStudentOUPath :
  getStudentOUPath defaultOuRoot september2024 johnDoe
  = "/org/student/high/2028/john.doe".
Proof. reflexivity. Qed.

Example test_calculateGraduationYear :
  map (fun g => calculateGraduationYear g september2024)
    ["4K"; "K"; "1"; "6"; "9"; "12"]
  = [Ok 2038; Ok 2037; Ok 2036; Ok 2031; Ok 2028; Ok 2025].
Proof. reflexivity. Qed.

Example test_getSchoolLevel_invalid :
  getSchoolLevel "13" = Throw "Invalid grade: 13".
Proof. reflexivity. Qed.

Example test_parseOUPath_container :
  parseOUPath defaultOuRoot "/org/student/middle/2031"
  = {| parsedSchoolLevel := Some middle;
       parsedGraduationYear := Some 2031;
       parsedStudentId := None |}.
Proof. reflexivity. Qed.

Example test_shouldMoveStudent :
  map (shouldMoveStudent defaultOuRoot september2024 johnDoe)
    [None; Some "/org/student/high/2028/john.doe";
     Some "/org/student/middle/2028/john.doe";
     Some "/org/student/high/2027/john.doe"]
  = [true; false; true; true].
Proof. reflexivity. Qed.

Example test_generatePassword :
  fst (generatePassword quietEnv (schoolConfig None) johnDoe initialWorld)
  = Ok "lh000001"
  /\ map (fun id => generatePrefixStudentIdPassword id
                      (getDefaultPasswordConfig (schoolConfig None)))
       ["STU0001"; "STU12345"; "12345"; "1"; "99"; "NO_NUMBERS"; "";
        "1234567890"]
     = ["lh000001"; "lh002345"; "lh002345"; "lh000001"; "lh000099";
        "lh000000"; "lh000000"; "lh007890"].
Proof. split; reflexivity. Qed.

(** ** School level and grade table *)

Lemma getSchoolLevelFromGradYear_cases (now : JsDate) (Y : Z) :
  let d := Y - currentSchoolYear now in
  (d <= 4 /\ getSchoolLevelFromGradYear now Y = high)
  \/ (5 <= d <= 7 /\ getSchoolLevelFromGradYear now Y = middle)
  \/ (8 <= d /\ getSchoolLevelFromGradYear now Y = elementary).
Proof.
  unfold getSchoolLevelFromGradYear. cbv zeta.
  destruct (Z.leb_spec (Y - currentSchoolYear now) 4);
    [left; split; [lia|reflexivity]|].
  destruct (Z.leb_spec (Y - currentSchoolYear now) 7);
    [right; left|right; right]; (split; [lia|reflexivity]).
Qed.

(** C4. With the school year turning over in June, the level derived from a
    graduation year [Y] is high exactly when at most 4 years remain, middle
    exactly when 5 to 7 remain, elementary otherwise; 4, 5 and 8 years
    remaining give high, middle and elementary; and fewer years remaining
    never give a lower level. *)
Theorem C4_school_level_classification (now : JsDate) (Y : Z) :
  let csy := currentSchoolYear now in
  csy = (if getMonth now + 1 <? 6 then getFullYear now - 1 else getFullYear now)
  /\ (getSchoolLevelFromGradYear now Y = high <-> Y - csy <= 4)
  /\ (getSchoolLevelFromGradYear now Y = middle <-> 5 <= Y - csy <= 7)
  /\ (getSchoolLevelFromGradYear now Y = elementary <-> 8 <= Y - csy)
  /\ getSchoolLevelFromGradYear now (csy + 4) = high
  /\ getSchoolLevelFromGradYear now (csy + 5) = middle
  /\ getSchoolLevelFromGradYear now (csy + 8) = elementary
  /\ (forall Y' : Z,
        Y' - csy < Y - csy ->
        levelRank (getSchoolLevelFromGradYear now Y)
        <= levelRank (getSchoolLevelFromGradYear now Y')).
Proof.
  cbv zeta.
  assert (forall d,
            getSchoolLevelFromGradYear now (currentSchoolYear now + d)
            = if d <=? 4 then high else if d <=? 7 then middle else elementary)
    as Hplus.
  { intros d. unfold getSchoolLevelFromGradYear. cbv zeta.
    replace (currentSchoolYear now + d - currentSchoolYear now) with d by lia.
    reflexivity. }
  assert (forall Y' : Z,
            Y' - currentSchoolYear now < Y - currentSchoolYear now ->
            levelRank (getSchoolLevelFromGradYear now Y)
            <= levelRank (getSchoolLevelFromGradYear now Y')) as Hmono.
  { intros Y' Hlt.
    pose proof (getSchoolLevelFromGradYear_cases now Y) as HY.
    pose proof (getSchoolLevelFromGradYear_cases now Y') as HY'.
    cbv zeta in HY, HY'.
    destruct HY as [[? ->]|[[? ->]|[? ->]]];
      destruct HY' as [[? ->]|[[? ->]|[? ->]]]; cbn; lia. }
  pose proof (getSchoolLevelFromGradYear_cases now Y) as HY. cbv zeta in HY.
  refine (conj eq_refl (conj _ (conj _ (conj _
            (conj (Hplus 4) (conj (Hplus 5) (conj (Hplus 8) Hmono))))))).
  - destruct HY as [[? ->]|[[? ->]|[? ->]]];
      (split; [intros E; (discriminate E || lia)|intros ?; (reflexivity || lia)]).
  - destruct HY as [[? ->]|[[? ->]|[? ->]]];
      (split; [intros E; (discriminate E || lia)|intros ?; (reflexivity || lia)]).
  - destruct HY as [[? ->]|[[? ->]|[? ->]]];
      (split; [intros E; (discriminate E || lia)|intros ?; (reflexivity || lia)]).
Qed.

(** C4 at the first of September 2024 for the class of 2028, which is
    below the class of 2031. *)
Lemma C4_witness :
  getSchoolLevelFromGradYear september2024 2028 = high
  /\ levelRank (getSchoolLevelFromGradYear september2024 2031)
     <= levelRank (getSchoolLevelFromGradYear september2024 2028).
Proof.
  pose proof (C4_school_level_classification september2024 2031) as H.
  cbv zeta in H.
  destruct H as (_ & _ & _ & _ & _ & _ & _ & Hmono).
  split; [reflexivity|].
  apply Hmono. vm_compute. reflexivity.
Defined.

(** C6. For every entry of the grade table and every date, the graduation
    year computed from the grade code is
    [currentSchoolYear + (12 - gradeNumber) + 1], and the level derived from
    that year at the same date is the level the table gives. *)
Theorem C6_grade_table_agrees_with_graduation_year
    (now : JsDate) (gradeCode : string) (level : SchoolLevel) (gradeNumber : Z) :
  In (gradeCode, (level, gradeNumber)) gradeTable ->
  getSchoolLevel gradeCode = Ok level
  /\ calculateGraduationYear gradeCode now
     = Ok (currentSchoolYear now + (12 - gradeNumber) + 1)
  /\ getSchoolLevelFromGradYear now
       (currentSchoolYear now + (12 - gradeNumber) + 1) = level.
Proof.
  intros Hin.
  assert (forall d, getSchoolLevelFromGradYear now (currentSchoolYear now + d)
                    = if d <=? 4 then high
                      else if d <=? 7 then middle else elementary) as Hlvl.
  { intros d. unfold getSchoolLevelFromGradYear. cbv zeta.
    replace (currentSchoolYear now + d - currentSchoolYear now) with d by lia.
    reflexivity. }
  unfold gradeTable in Hin. cbn [In] in Hin.
  repeat (destruct Hin as [Hin|Hin];
          [injection Hin as <- <- <-;
           split; [reflexivity|split; [reflexivity|]];
           rewrite <- Z.add_assoc, Hlvl; reflexivity|]).
  contradiction.
Qed.

(** C6 for grade 9 at the first of September 2024. *)
Lemma C6_witness :
  getSchoolLevel "9" = Ok high
  /\ calculateGraduationYear "9" september2024
     = Ok (currentSchoolYear september2024 + (12 - 9) + 1)
  /\ getSchoolLevelFromGradYear september2024
       (currentSchoolYear september2024 + (12 - 9) + 1) = high.
Proof.
  apply (C6_grade_table_agrees_with_graduation_year september2024 "9" high 9).
  vm_compute. tauto.
Defined.

(** ** Organisational paths *)

Lemma parseSchoolLevel_schoolLevelString (l : SchoolLevel) :
  parseSchoolLevel (schoolLevelString l) = Some l.
Proof. destruct l; reflexivity. Qed.

Lemma schoolLevelString_notSlash (l : SchoolLevel) :
  allChars notSlash (schoolLevelString l) = true.
Proof. destruct l; reflexivity. Qed.

Lemma generateStudentOUName_notSlash (s : Student) :
  allChars notSlash (generateStudentOUName s) = true.
Proof.
  unfold generateStudentOUName. cbv zeta.
  assert (forall t, allChars notSlash (keepChars isLowerOrDigit t) = true)
    as Hkeep.
  { intros t. apply (allChars_weaken isLowerOrDigit notSlash).
    - exact isLowerOrDigit_notSlash.
    - apply allChars_keepChars. }
  rewrite !allChars_append, !Hkeep. reflexivity.
Qed.

Lemma append_String_not_empty (a b : string) (c : ascii) :
  String.eqb (a +:+ String c b) "" = false.
Proof. destruct a; reflexivity. Qed.

Lemma eqb_empty_false (s : string) : s <> "" -> String.eqb s "" = false.
Proof. intros H. destruct s; [congruence|reflexivity]. Qed.

Lemma getStudentOUPath_not_empty (base : string) (now : JsDate) (s : Student) :
  String.eqb (getStudentOUPath base now s) "" = false.
Proof. unfold getStudentOUPath. cbv zeta. apply append_String_not_empty. Qed.

(** The segments that [parseOUPath] sees in a derived path. *)
Lemma split_student_path (level year name : string) :
  allChars notSlash level = true ->
  allChars notSlash year = true ->
  allChars notSlash name = true ->
  split "/" ("/" +:+ level +:+ "/" +:+ year +:+ "/" +:+ name)
  = [""; level; year; name].
Proof.
  intros Hl Hy Hn.
  change (split "/" (String "/" (level +:+ String "/" (year +:+ String "/" name)))
          = [""; level; year; name]).
  cbn [split]. change (Ascii.eqb "/" "/") with true. cbv iota.
  rewrite (split_append "/" level) by exact Hl.
  rewrite (split_append "/" year) by exact Hy.
  rewrite (split_no_separator "/" name) by exact Hn.
  reflexivity.
Qed.

(** C5. For a student whose graduation year is a number that is a
    positive integer below 10^21 and for any root, parsing the derived path
    gives back the school level, the graduation year and the leaf segment
    from which the path was built; and a path that does not start with the
    root parses to the empty result. *)
Theorem C5_path_round_trip
    (baseStudentOU : string) (now : JsDate) (s : Student) (other : string) :
  (0 < graduationYear s < 10 ^ 21 ->
   isNumber (graduationYear s) ->
   parseOUPath baseStudentOU (getStudentOUPath baseStudentOU now s)
   = {| parsedSchoolLevel :=
          Some (getSchoolLevelFromGradYear now (graduationYear s));
        parsedGraduationYear := Some (graduationYear s);
        parsedStudentId := Some (generateStudentOUName s) |})
  /\ (startsWith other baseStudentOU = false ->
      parseOUPath baseStudentOU other = emptyParsed).
Proof.
  split.
  - intros Hyear Hnumber.
    unfold parseOUPath, getStudentOUPath. cbv zeta.
    rewrite startsWith_append. cbn [negb].
    rewrite substring_append.
    rewrite split_student_path;
      [|apply schoolLevelString_notSlash|apply numberToString_notSlash
       |apply generateStudentOUName_notSlash].
    assert (String.eqb (numberToString (graduationYear s)) "" = false)
      as Hyne by apply eqb_empty_false, numberToString_not_empty.
    assert (String.eqb
              (schoolLevelString
                 (getSchoolLevelFromGradYear now (graduationYear s))) ""
            = false) as Hlne.
    { destruct (getSchoolLevelFromGradYear now (graduationYear s));
        reflexivity. }
    assert (String.eqb (generateStudentOUName s) "" = false) as Hnne.
    { unfold generateStudentOUName. cbv zeta.
      apply append_String_not_empty. }
    unfold filterTruthy. cbn [List.filter String.eqb negb].
    rewrite Hlne, Hyne, Hnne. cbn [negb].
    unfold isValidSchoolLevel.
    rewrite parseSchoolLevel_schoolLevelString.
    rewrite (parseInt_numberToString _ Hyear Hnumber).
    reflexivity.
  - intros Hno. unfold parseOUPath. rewrite Hno. reflexivity.
Qed.

(** C5 for the fixture of [tests/ou-manager.test.ts] under the root
    [/test], and for a path under another root. *)
Lemma C5_witness :
  parseOUPath "/test" (getStudentOUPath "/test" september2024 johnDoe)
  = {| parsedSchoolLevel := Some high;
       parsedGraduationYear := Some 2028;
       parsedStudentId := Some "john.doe" |}
  /\ parseOUPath "/test" "/org/student/high/2028/john.doe" = emptyParsed.
Proof.
  destruct (C5_path_round_trip "/test" september2024 johnDoe
              "/org/student/high/2028/john.doe") as [H1 H2].
  split; [apply H1|apply H2; reflexivity].
  - vm_compute. split; reflexivity.
  - vm_compute. split; reflexivity.
Defined.

(** C5 as the specification words it does not hold for every positive
    integer year. The number 10^21 is printed in exponent notation, so the
    year segment of the derived path is [1e+21], of which [parseInt] reads
    the leading digit: the year that comes back is 1. *)
Lemma C5_counterexample :
  let s := farFuture in
  0 < graduationYear s
  /\ isNumber (graduationYear s)
  /\ getStudentOUPath "/org/student" september2024 s
     = "/org/student/elementary/1e+21/john.doe"
  /\ parsedGraduationYear
       (parseOUPath "/org/student"
          (getStudentOUPath "/org/student" september2024 s))
     = Some 1
  /\ parsedGraduationYear
       (parseOUPath "/org/student"
          (getStudentOUPath "/org/student" september2024 s))
     <> Some (graduationYear s).
Proof.
  cbv zeta. split; [reflexivity|]. split; [vm_compute; split; reflexivity|].
  split; [vm_compute; reflexivity|]. split; [vm_compute; reflexivity|].
  vm_compute. discriminate.
Qed.

(** ** Email derivation *)

(** The action as [createUser] leaves it. *)
Lemma createUser_action (env : Env) (config : Config) (a : SyncAction)
    (w : World) :
  fst (fst (createUser env config a w))
  = setStudent a
      (if negb (truthy (email (student a)))
       then setEmail (student a)
              (generateEmailAddress (student a) (googleDomain config))
       else student a).
Proof.
  unfold createUser. cbv zeta.
  destruct (generatePassword env config _ w) as [[pw|msg] w1];
    [|reflexivity].
  unfold callApi. destruct (respond env (trace w1) _); reflexivity.
Qed.

(** C2. The method under [src/] declares the parameters [student] and
    [domain] only: for John Doe of the class of 2028 at [school.edu] it
    returns [john.doe2028@school.edu], and the address that [createUser]
    assigns is that one whatever [emailConfig] holds; under the two-digit
    format with separator [.] it is not [john.doe.28@school.edu]. *)
Theorem C2_email_format_is_ignored :
  generateEmailAddress johnDoe "school.edu" = "john.doe2028@school.edu"
  /\ (forall (env : Env) (emailConfig : option EmailConfig) (w : World),
        email (student (fst (fst
          (createUser env (schoolConfig emailConfig)
             (createAction johnDoe "/org/student/high/2028/john.doe") w))))
        = Some "john.doe2028@school.edu")
  /\ (forall (env : Env) (w : World),
        email (student (fst (fst
          (createUser env (schoolConfig (Some twoDigitDot))
             (createAction johnDoe "/org/student/high/2028/john.doe") w))))
        <> Some "john.doe.28@school.edu").
Proof.
  split; [reflexivity|]. split.
  - intros env emailConfig w. rewrite createUser_action. reflexivity.
  - intros env w. rewrite createUser_action. discriminate.
Qed.

(** ** The executor *)

Lemma slice_batch {A : Type} (l : list A) (i b : Z) :
  0 <= i < Z.of_nat (List.length l) -> 0 < b ->
  slice l i (i + b) = firstn (Z.to_nat b) (skipn (Z.to_nat i) l).
Proof.
  intros Hi Hb. unfold slice, relativeIndex. cbv zeta.
  destruct (Z.ltb_spec i 0); [lia|].
  destruct (Z.ltb_spec (i + b) 0); [lia|].
  rewrite (Z.min_l i) by lia.
  destruct (Z.le_gt_cases (i + b) (Z.of_nat (List.length l))) as [Hle|Hgt].
  - rewrite Z.min_l by lia. f_equal. lia.
  - rewrite Z.min_r by lia.
    rewrite !firstn_all2; [reflexivity| |]; rewrite length_skipn; lia.
Qed.

Lemma executeBatch_app (env : Env) (config : Config)
    (l1 l2 : list SyncAction) (w : World) :
  executeBatch env config (l1 ++ l2) w
  = let '(r1, w1) := executeBatch env config l1 w in
    let '(r2, w2) := executeBatch env config l2 w1 in
    (r1 ++ r2, w2).
Proof.
  revert w. induction l1 as [|a l1 IH]; intros w.
  - cbn [app executeBatch]. destruct (executeBatch env config l2 w).
    reflexivity.
  - cbn [app executeBatch].
    destruct (executeAction env config a w) as [r w1].
    rewrite IH.
    destruct (executeBatch env config l1 w1) as [r1 w2].
    destruct (executeBatch env config l2 w2) as [r2 w3].
    reflexivity.
Qed.

(** With a positive batch size and enough fuel the loop of [executeActions]
    does what one pass over the remaining actions does. *)
Lemma executeLoop_enough (env : Env) (config : Config)
    (actions : list SyncAction) (fuel : nat) :
  0 < maxConcurrentRequests config ->
  forall (i : Z) (results : list SyncResult) (w : World),
    0 <= i ->
    (Z.to_nat (Z.of_nat (List.length actions) - i) < fuel)%nat ->
    executeLoop fuel env config actions i results w
    = Some (results
              ++ fst (executeBatch env config (skipn (Z.to_nat i) actions) w),
            snd (executeBatch env config (skipn (Z.to_nat i) actions) w)).
Proof.
  intros Hb. induction fuel as [|fuel IH]; intros i results w Hi Hfuel;
    [lia|].
  cbn [executeLoop]. cbv zeta.
  destruct (Z.ltb_spec i (Z.of_nat (List.length actions))) as [Hlt|Hge].
  - rewrite slice_batch by lia.
    set (rest := skipn (Z.to_nat i) actions).
    set (b := Z.to_nat (maxConcurrentRequests config)).
    assert (skipn (Z.to_nat (i + maxConcurrentRequests config)) actions
            = skipn b rest) as Hskip.
    { unfold rest, b. rewrite skipn_skipn. f_equal. lia. }
    rewrite <- (firstn_skipn b rest) at 2 3.
    rewrite executeBatch_app.
    destruct (executeBatch env config (firstn b rest) w) as [r1 w1].
    rewrite IH by lia. rewrite Hskip.
    destruct (executeBatch env config (skipn b rest) w1) as [r2 w2].
    cbn [fst snd]. now rewrite app_assoc.
  - rewrite skipn_all2 by lia. cbn [executeBatch fst snd].
    now rewrite app_nil_r.
Qed.

Lemma executeActions_enough (env : Env) (config : Config)
    (actions : list SyncAction) (fuel : nat) (w : World) :
  0 < maxConcurrentRequests config ->
  (List.length actions < fuel)%nat ->
  executeActions fuel env config actions w
  = Some (executeBatch env config actions w).
Proof.
  intros Hb Hfuel. unfold executeActions.
  rewrite (executeLoop_enough env config actions fuel Hb 0 [] w); [|lia|lia].
  change (skipn (Z.to_nat 0) actions) with actions.
  destruct (executeBatch env config actions w). reflexivity.
Qed.

Lemma executeAction_action (env : Env) (config : Config) (a : SyncAction)
    (w : World) :
  action (fst (executeAction env config a w)) = actionAsExecuted config a.
Proof.
  unfold executeAction, actionAsExecuted.
  destruct (actionType a) eqn:Ht.
  - rewrite <- (createUser_action env config a w).
    destruct (createUser env config a w) as [[a' [u|m]] w']; reflexivity.
  - destruct (moveUser env a w) as [[u|m] w']; reflexivity.
  - destruct (deactivateUser env a w) as [[u|m] w']; reflexivity.
  - destruct (updateUser env a w) as [[u|m] w']; reflexivity.
  - destruct (moveDevice env a w) as [[u|m] w']; reflexivity.
Qed.


Lemma executeBatch_Forall2 (env : Env) (config : Config)
    (actions : list SyncAction) (w : World) :
  Forall2 (fun a r => exists wa, r = fst (executeAction env config a wa))
    actions (fst (executeBatch env config actions w)).
Proof.
  revert w. induction actions as [|a actions IH]; intros w.
  - constructor.
  - cbn [executeBatch].
    destruct (executeAction env config a w) as [r w1] eqn:Ea.
    specialize (IH w1).
    destruct (executeBatch env config actions w1) as [rs w2].
    cbn [fst] in *. constructor; [|exact IH].
    exists w. now rewrite Ea.
Qed.


(** *** What the executor asks of the environment *)

Lemma drawChars_trace (env : Env) (chars : string) (n : nat)
    (password : string) (w : World) :
  trace (snd (drawChars env chars n password w)) = trace w.
Proof.
  revert password w. induction n as [|n IH]; intros password w;
    [reflexivity|].
  cbn [drawChars]. cbv zeta. rewrite IH. reflexivity.
Qed.

Lemma generatePassword_trace (env : Env) (config : Config) (s : Student)
    (w : World) :
  trace (snd (generatePassword env config s w)) = trace w.
Proof.
  unfold generatePassword. cbv zeta.
  destruct (passwordType _); try reflexivity.
  unfold generateRandomPassword. cbv zeta.
  destruct (String.length _ =? 0)%nat; [reflexivity|].
  match goal with
  | |- context [drawChars ?e ?c ?n ?p ?w0] =>
      pose proof (drawChars_trace e c n p w0) as H;
      destruct (drawChars e c n p w0) as [pw w1]
  end.
  exact H.
Qed.

(** The requests of one action: none of them is a confirmation prompt, and
    only a [create] action whose password was generated asks for an
    account. *)
Lemma executeAction_events (env : Env) (config : Config) (a : SyncAction)
    (w : World) :
  exists evs : list Event,
    trace (snd (executeAction env config a w)) = trace w ++ evs
    /\ Forall (fun e => isConfirm e = false) evs
    /\ Forall (fun e =>
                 isCreateUserCall e = true ->
                 actionType a = Create
                 /\ exists pw w1,
                      generatePassword env config
                        (student (actionAsExecuted config a)) w = (Ok pw, w1))
         evs.
Proof.
  assert (forall c w0,
            trace (snd (callApi env c w0)) = trace w0 ++ [EvApi c]) as Hcall.
  { intros c w0. unfold callApi. destruct (respond env (trace w0) c);
      reflexivity. }
  unfold executeAction, actionAsExecuted.
  destruct (actionType a) eqn:Ht.
  - unfold createUser. cbv zeta.
    pose proof (generatePassword_trace env config
      (if negb (truthy (email (student a)))
       then setEmail (student a)
              (generateEmailAddress (student a) (googleDomain config))
       else student a) w) as Hgen.
    cbn [student setStudent].
    destruct (generatePassword env config _ w) as [[pw|m] w1] eqn:Epw.
    + match goal with
      | |- context [callApi env ?c w1] =>
          pose proof (Hcall c w1) as Hc;
          destruct (callApi env c w1) as [[u|m] w2]
      end; cbn [fst snd] in *;
        (eexists; split; [rewrite Hc, Hgen; reflexivity|];
         split; repeat constructor; eauto).
    + exists []. cbn [fst snd] in *. rewrite app_nil_r.
      split; [exact Hgen|split; constructor].
  - unfold moveUser. destruct (currentUser a) as [u|].
    + match goal with
      | |- context [callApi env ?c w] =>
          pose proof (Hcall c w) as Hc;
          destruct (callApi env c w) as [[x|m] w2]
      end; cbn [fst snd] in *;
        (eexists; split; [exact Hc|split; repeat constructor; discriminate]).
    + exists []. cbn. rewrite app_nil_r. repeat constructor.
  - unfold deactivateUser. destruct (currentUser a) as [u|].
    + match goal with
      | |- context [callApi env ?c w] =>
          pose proof (Hcall c w) as Hc;
          destruct (callApi env c w) as [[x|m] w2]
      end; cbn [fst snd] in *;
        (eexists; split; [exact Hc|split; repeat constructor; discriminate]).
    + exists []. cbn. rewrite app_nil_r. repeat constructor.
  - unfold updateUser. destruct (currentUser a) as [u|].
    + match goal with
      | |- context [callApi env ?c w] =>
          pose proof (Hcall c w) as Hc;
          destruct (callApi env c w) as [[x|m] w2]
      end; cbn [fst snd] in *;
        (eexists; split; [exact Hc|split; repeat constructor; discriminate]).
    + exists []. cbn. rewrite app_nil_r. repeat constructor.
  - unfold moveDevice. destruct (currentDevice a) as [d|].
    + destruct (truthy (deviceId d)).
      * match goal with
        | |- context [callApi env ?c w] =>
            pose proof (Hcall c w) as Hc;
            destruct (callApi env c w) as [[x|m] w2]
        end; cbn [fst snd] in *;
          (eexists; split; [exact Hc|split; repeat constructor; discriminate]).
      * exists []. cbn. rewrite app_nil_r. repeat constructor.
    + exists []. cbn. rewrite app_nil_r. repeat constructor.
Qed.

Lemma executeBatch_events (env : Env) (config : Config) (P : Event -> Prop) :
  (forall a w, exists evs,
      trace (snd (executeAction env config a w)) = trace w ++ evs
      /\ Forall P evs) ->
  forall (actions : list SyncAction) (w : World),
  exists evs : list Event,
    trace (snd (executeBatch env config actions w)) = trace w ++ evs
    /\ Forall P evs.
Proof.
  intros Hone actions. induction actions as [|a actions IH]; intros w.
  - exists []. cbn. rewrite app_nil_r. split; constructor.
  - cbn [executeBatch].
    destruct (Hone a w) as (evs1 & E1 & F1).
    destruct (executeAction env config a w) as [r w1].
    destruct (IH w1) as (evs2 & E2 & F2).
    destruct (executeBatch env config actions w1) as [rs w2].
    cbn [fst snd] in *. exists (evs1 ++ evs2). split.
    + rewrite E2, E1, app_assoc. reflexivity.
    + apply Forall_app. split; assumption.
Qed.

Lemma executeBatch_no_confirm (env : Env) (config : Config)
    (actions : list SyncAction) (w : World) :
  exists evs : list Event,
    trace (snd (executeBatch env config actions w)) = trace w ++ evs
    /\ Forall (fun e => isConfirm e = false) evs.
Proof.
  apply executeBatch_events. intros a w0.
  destruct (executeAction_events env config a w0) as (evs & E & F & _).
  eauto.
Qed.

Lemma executeBatch_length (env : Env) (config : Config)
    (actions : list SyncAction) (w : World) :
  List.length (fst (executeBatch env config actions w)) = List.length actions.
Proof.
  pose proof (executeBatch_Forall2 env config actions w) as H.
  symmetry. eapply Forall2_length. exact H.
Qed.

Lemma executeBatch_actions (env : Env) (config : Config)
    (actions : list SyncAction) (w : World) :
  map action (fst (executeBatch env config actions w))
  = map (actionAsExecuted config) actions.
Proof.
  pose proof (executeBatch_Forall2 env config actions w) as H.
  induction H as [|a r actions rs [wa ->] _ IH]; [reflexivity|].
  cbn [map]. rewrite IH, executeAction_action. reflexivity.
Qed.

(** The handlers leave an action as it was submitted, up to the email of
    its student. *)
Lemma withoutEmail_actionAsExecuted (config : Config) (a : SyncAction) :
  withoutEmail (actionAsExecuted config a) = withoutEmail a.
Proof.
  unfold actionAsExecuted.
  destruct (actionType a) eqn:Et; try reflexivity.
  destruct (negb (truthy (email (student a)))); reflexivity.
Qed.





(** ** [sync] *)

(** A live run whose snapshots were fetched, with its loop given fuel. *)
Lemma sync_live (fuel : nat) (env : Env) (config : Config)
    (baseStudentOU : string) (now : JsDate) (students : list Student)
    (users : list GoogleUser) (devices : gmap string ChromeDevice)
    (w : World) :
  let actions :=
    determineActions config baseStudentOU now students users devices in
  let count :=
    Z.of_nat (List.length (List.filter (isType Deactivate) actions)) in
  let w1 := mkWorld (trace w ++ [EvConfirm count]) (draws w) in
  let run (w0 : World) :=
    Some (Ok (foldl tally emptySummary
                (fst (executeBatch env config actions w0))),
          snd (executeBatch env config actions w0)) in
  dryRun config = false ->
  0 < maxConcurrentRequests config ->
  (List.length actions < fuel)%nat ->
  sync fuel env config baseStudentOU now students (Ok (users, devices)) w
  = if requireConfirmationThreshold config <? count then
      if confirmBulkDeactivation env (trace w) count then run w1
      else Some (Ok emptySummary, w1)
    else run w.
Proof.
  cbv zeta. intros Hdry Hb Hfuel. unfold sync. rewrite Hdry. cbv zeta.
  rewrite !(executeActions_enough env config _ fuel _ Hb Hfuel).
  destruct (_ <? _); [destruct (confirmBulkDeactivation _ _ _)|];
    cbn [negb]; try reflexivity;
    match goal with
    | |- context [executeBatch ?e ?c ?a ?w0] =>
        destruct (executeBatch e c a w0)
    end; reflexivity.
Qed.

(** The counters after the loop over the results. *)
Lemma tally_counts (rs : list SyncResult) (s0 : SyncSummary) :
  let s := foldl tally s0 rs in
  results s = results s0 ++ rs
  /\ totalProcessed s = totalProcessed s0 + Z.of_nat (List.length rs)
  /\ errors s = errors s0 + countResults failed rs
  /\ created s = created s0 + countResults (succeededAs Create) rs
  /\ moved s = moved s0 + countResults (succeededAs Move) rs
  /\ deactivated s = deactivated s0 + countResults (succeededAs Deactivate) rs
  /\ updated s = updated s0 + countResults (succeededAs Update) rs.
Proof.
  revert s0. induction rs as [|r rs IH]; intros s0; cbv zeta.
  - cbn. rewrite app_nil_r. unfold countResults. cbn. repeat split; lia.
  - cbn [foldl]. specialize (IH (tally s0 r)). cbv zeta in IH.
    destruct IH as (Hr & Ht & He & Hc & Hm & Hd & Hu).
    rewrite Hr, Ht, He, Hc, Hm, Hd, Hu. clear Hr Ht He Hc Hm Hd Hu.
    unfold countResults, failed, succeededAs, tally. cbn [List.filter].
    destruct (success r); [destruct (actionType (action r))|];
      cbn [results totalProcessed errors created moved deactivated updated
           negb andb bool_decide List.length];
      rewrite <- ?app_assoc; cbn [app];
      repeat match goal with
             | |- context [bool_decide ?P] =>
                 destruct (bool_decide_reflect P); try congruence
             end;
      cbn [List.length]; repeat split; lia.
Qed.

(** Every result is a failure or a success of exactly one kind. *)
Lemma results_partition (rs : list SyncResult) :
  Z.of_nat (List.length rs)
  = countResults failed rs
    + countResults (succeededAs Create) rs
    + countResults (succeededAs Move) rs
    + countResults (succeededAs Deactivate) rs
    + countResults (succeededAs Update) rs
    + countResults (succeededAs MoveDevice) rs.
Proof.
  unfold countResults. induction rs as [|r rs IH]; [reflexivity|].
  cbn [List.filter List.length]. unfold failed, succeededAs in *.
  destruct (success r); [destruct (actionType (action r))|];
    cbn [negb andb];
    repeat match goal with
           | |- context [bool_decide ?P] =>
               destruct (bool_decide_reflect P); try congruence
           end;
    cbn [List.length]; lia.
Qed.

(** C10. A run whose snapshots were fetched produces (given a positive
    batch size and fuel for the executor) a summary whose [results] are, in
    a live run, the results that [executeActions] returned for the plan, in
    their order, and none when the confirmation was asked for and denied.
    In the summary [errors] is the number of failed results and [created],
    [moved], [deactivated] and [updated] count the successful results of
    their kinds, a successful [move_device] being in none of them. When the
    run is live, [totalProcessed] is the number of results, and the five
    counters together with the successful [move_device] results add up to
    it. In every run the five counters add up to at most [totalProcessed],
    and to less as soon as one [move_device] succeeded. (A dry run executes
    nothing: its [results] are empty and its [totalProcessed] is the size
    of the simulated plan.) *)
Theorem C10_summary_counters
    (fuel : nat) (env : Env) (config : Config) (baseStudentOU : string)
    (now : JsDate) (students : list Student) (users : list GoogleUser)
    (devices : gmap string ChromeDevice) (w : World) :
  0 < maxConcurrentRequests config ->
  (List.length
     (determineActions config baseStudentOU now students users devices)
   < fuel)%nat ->
  exists (s : SyncSummary) (w' : World),
    sync fuel env config baseStudentOU now students (Ok (users, devices)) w
    = Some (Ok s, w')
    /\ (dryRun config = false ->
        let actions :=
          determineActions config baseStudentOU now students users devices in
        let count :=
          Z.of_nat (List.length (List.filter (isType Deactivate) actions)) in
        let w1 := mkWorld (trace w ++ [EvConfirm count]) (draws w) in
        if requireConfirmationThreshold config <? count then
          if confirmBulkDeactivation env (trace w) count
          then executeActions fuel env config actions w1
               = Some (results s, w')
          else s = emptySummary /\ w' = w1
        else executeActions fuel env config actions w = Some (results s, w'))
    /\ (dryRun config = true ->
        results s = []
        /\ totalProcessed s
           = Z.of_nat (List.length
                         (simulateActions baseStudentOU now students))
        /\ w' = w)
    /\ (dryRun config = false ->
        totalProcessed s = Z.of_nat (List.length (results s)))
    /\ errors s = countResults failed (results s)
    /\ created s = countResults (succeededAs Create) (results s)
    /\ moved s = countResults (succeededAs Move) (results s)
    /\ deactivated s = countResults (succeededAs Deactivate) (results s)
    /\ updated s = countResults (succeededAs Update) (results s)
    /\ (dryRun config = false ->
        created s + moved s + deactivated s + updated s + errors s
        + countResults (succeededAs MoveDevice) (results s)
        = totalProcessed s)
    /\ created s + moved s + deactivated s + updated s + errors s
       <= totalProcessed s
    /\ (0 < countResults (succeededAs MoveDevice) (results s) ->
        created s + moved s + deactivated s + updated s + errors s
        < totalProcessed s).
Proof.
  intros Hb Hfuel.
  destruct (dryRun config) eqn:Hdry.
  { unfold sync. rewrite Hdry. cbv zeta.
    eexists; eexists; split; [reflexivity|].
    cbn [totalProcessed errors created moved deactivated updated results
         emptySummary].
    unfold countResults. cbn [List.filter List.length].
    split; [discriminate|]. split; [intros _; repeat split|].
    repeat split; try discriminate; lia. }
  rewrite (sync_live fuel env config baseStudentOU now students users devices
             w Hdry Hb Hfuel).
  assert (forall rs,
            let s := foldl tally emptySummary rs in
            results s = rs
            /\ (false = true ->
                results s = []
                /\ totalProcessed s
                   = Z.of_nat (List.length
                                 (simulateActions baseStudentOU now students))
                /\ w = w)
            /\ (false = false ->
                totalProcessed s = Z.of_nat (List.length (results s)))
            /\ errors s = countResults failed (results s)
            /\ created s = countResults (succeededAs Create) (results s)
            /\ moved s = countResults (succeededAs Move) (results s)
            /\ deactivated s
               = countResults (succeededAs Deactivate) (results s)
            /\ updated s = countResults (succeededAs Update) (results s)
            /\ (false = false ->
                created s + moved s + deactivated s + updated s + errors s
                + countResults (succeededAs MoveDevice) (results s)
                = totalProcessed s)
            /\ created s + moved s + deactivated s + updated s + errors s
               <= totalProcessed s
            /\ (0 < countResults (succeededAs MoveDevice) (results s) ->
                created s + moved s + deactivated s + updated s + errors s
                < totalProcessed s)) as Hsum.
  { intros rs. cbv zeta.
    destruct (tally_counts rs emptySummary) as (Hr & Ht & He & Hc & Hm & Hd & Hu).
    cbn [results totalProcessed errors created moved deactivated updated
         emptySummary app] in *.
    rewrite Hr, Ht, He, Hc, Hm, Hd, Hu.
    pose proof (results_partition rs) as Hp.
    assert (0 <= countResults (succeededAs MoveDevice) rs)
      by (unfold countResults; lia).
    split; [reflexivity|]. split; [discriminate|].
    repeat split; lia. }
  cbv zeta.
  set (actions :=
         determineActions config baseStudentOU now students users devices)
    in *.
  set (count :=
         Z.of_nat (List.length (List.filter (isType Deactivate) actions))).
  destruct (requireConfirmationThreshold config <? count);
    [destruct (confirmBulkDeactivation env (trace w) count)|];
    eexists; eexists; (split; [reflexivity|]).
  - destruct (Hsum (fst (executeBatch env config actions
                           (mkWorld (trace w ++ [EvConfirm count]) (draws w)))))
      as (Hr & _ & Hrest).
    split.
    + intros _. rewrite Hr.
      rewrite (executeActions_enough env config actions fuel _ Hb Hfuel).
      destruct (executeBatch env config actions _); reflexivity.
    + split; [discriminate|exact Hrest].
  - split; [intros _; split; reflexivity|].
    split; [discriminate|]. apply (Hsum []).
  - destruct (Hsum (fst (executeBatch env config actions w)))
      as (Hr & _ & Hrest).
    split.
    + intros _. rewrite Hr.
      rewrite (executeActions_enough env config actions fuel _ Hb Hfuel).
      destruct (executeBatch env config actions _); reflexivity.
    + split; [discriminate|exact Hrest].
Qed.

(** C10 on a run whose only action, a [move_device], succeeds: the one
    result of the executor is in the summary and in none of the five
    counters. *)
Lemma C10_witness :
  exists (s : SyncSummary) (w' : World),
    sync 2 quietEnv (schoolConfig None) "/org/student" september2024
      [janeRoe]
      (Ok ([accountAt "jane.roe2031@school.edu"
              "/org/student/middle/2031/jane.roe"],
           {[ "CHR002345678" := deviceAt "CHR002345678" "/org/student" ]}))
      initialWorld
    = Some (Ok s, w')
    /\ map success (results s) = [true]
    /\ map (fun r => actionType (action r)) (results s) = [MoveDevice]
    /\ totalProcessed s = 1
    /\ created s + moved s + deactivated s + updated s + errors s
       < totalProcessed s.
Proof.
  destruct (C10_summary_counters 2 quietEnv (schoolConfig None) "/org/student"
              september2024 [janeRoe]
              [accountAt "jane.roe2031@school.edu"
                 "/org/student/middle/2031/jane.roe"]
              {[ "CHR002345678" := deviceAt "CHR002345678" "/org/student" ]}
              initialWorld)
    as (s & w' & E & Hrun & _ & Ht & _ & _ & _ & _ & _ & _ & _ & Hstrict).
  - reflexivity.
  - vm_compute. lia.
  - specialize (Hrun eq_refl). specialize (Ht eq_refl).
    remember (results s) as rs eqn:Ers.
    vm_compute in Hrun. injection Hrun as Hr _.
    exists s, w'. split; [exact E|].
    rewrite <- Ers. split; [rewrite <- Hr; reflexivity|].
    split; [rewrite <- Hr; reflexivity|].
    split; [rewrite Ht, <- Hr; reflexivity|].
    apply Hstrict. rewrite <- Hr. reflexivity.
Defined.

(** ** The bulk-deactivation gate *)

(** C7. In a live run (snapshots fetched, positive batch size, fuel for the
    executor): when the plan holds more [deactivate] actions than the
    threshold, the confirmation is asked for before anything else, and when
    it is denied the run ends there, with no request to the directory and
    the empty summary, while when it is granted the plan is executed; when
    the count is at or below the threshold no confirmation is asked for and
    the plan is executed directly. Hence a suspension request is only ever
    made when the count is within the threshold or the confirmation was
    granted. *)
Theorem C7_bulk_deactivation_gate
    (fuel : nat) (env : Env) (config : Config) (baseStudentOU : string)
    (now : JsDate) (students : list Student) (users : list GoogleUser)
    (devices : gmap string ChromeDevice) (w : World) :
  let actions :=
    determineActions config baseStudentOU now students users devices in
  let count :=
    Z.of_nat (List.length (List.filter (isType Deactivate) actions)) in
  let w1 := mkWorld (trace w ++ [EvConfirm count]) (draws w) in
  let granted := confirmBulkDeactivation env (trace w) count in
  dryRun config = false ->
  0 < maxConcurrentRequests config ->
  (List.length actions < fuel)%nat ->
  exists (s : SyncSummary) (w' : World) (evs : list Event),
    sync fuel env config baseStudentOU now students (Ok (users, devices)) w
    = Some (Ok s, w')
    /\ trace w' = trace w ++ evs
    /\ (requireConfirmationThreshold config < count ->
        granted = false ->
        s = emptySummary /\ evs = [EvConfirm count])
    /\ (requireConfirmationThreshold config < count ->
        granted = true ->
        (exists calls, evs = EvConfirm count :: calls
                       /\ Forall (fun e => isConfirm e = false) calls)
        /\ s = foldl tally emptySummary
                 (fst (executeBatch env config actions w1))
        /\ w' = snd (executeBatch env config actions w1))
    /\ (count <= requireConfirmationThreshold config ->
        Forall (fun e => isConfirm e = false) evs
        /\ s = foldl tally emptySummary
                 (fst (executeBatch env config actions w))
        /\ w' = snd (executeBatch env config actions w))
    /\ (Exists (fun e => isSuspendUserCall e = true) evs ->
        count <= requireConfirmationThreshold config \/ granted = true).
Proof.
  cbv zeta. intros Hdry Hb Hfuel.
  rewrite (sync_live fuel env config baseStudentOU now students users devices
             w Hdry Hb Hfuel).
  set (actions :=
         determineActions config baseStudentOU now students users devices).
  set (count := Z.of_nat (List.length (List.filter (isType Deactivate) actions))).
  destruct (Z.ltb_spec (requireConfirmationThreshold config) count)
    as [Hover|Hwithin].
  - destruct (confirmBulkDeactivation env (trace w) count) eqn:Hc.
    + destruct (executeBatch_no_confirm env config actions
                  (mkWorld (trace w ++ [EvConfirm count]) (draws w)))
        as (calls & Ecalls & Fcalls).
      cbn [trace] in Ecalls.
      eexists; eexists; exists (EvConfirm count :: calls).
      split; [reflexivity|].
      split; [rewrite Ecalls, <- app_assoc; reflexivity|].
      split; [discriminate|].
      split; [intros _ _; split; [eauto|split; reflexivity]|].
      split; [lia|]. intros _. right. reflexivity.
    + eexists; eexists; exists [EvConfirm count].
      split; [reflexivity|]. split; [reflexivity|].
      split; [intros _ _; split; reflexivity|].
      split; [discriminate|]. split; [lia|].
      intros Hex. apply Exists_cons in Hex as [Hex|Hex];
        [discriminate Hex|inversion Hex].
  - destruct (executeBatch_no_confirm env config actions w)
      as (calls & Ecalls & Fcalls).
    eexists; eexists; exists calls.
    split; [reflexivity|]. split; [exact Ecalls|].
    split; [lia|]. split; [lia|].
    split; [intros _; split; [exact Fcalls|split; reflexivity]|].
    intros _. left. exact Hwithin.
Qed.

(** C7 on a roster from which the only account of the directory is
    missing, with a threshold of zero and a prompt that is not answered
    with yes: the confirmation is asked for and nothing else happens. *)
Lemma C7_witness :
  exists (w' : World),
    sync 3 quietEnv strictConfig "/org/student" september2024 [janeRoe]
      (Ok ([accountAt "gone@school.edu" "/org/student/high/2025/gone.away"],
           ∅))
      initialWorld
    = Some (Ok emptySummary, w')
    /\ trace w' = [EvConfirm 1].
Proof.
  destruct (C7_bulk_deactivation_gate 3 quietEnv strictConfig "/org/student"
              september2024 [janeRoe]
              [accountAt "gone@school.edu" "/org/student/high/2025/gone.away"]
              ∅ initialWorld)
    as (s & w' & evs & E & Et & Hdenied & _).
  - reflexivity.
  - reflexivity.
  - vm_compute. lia.
  - destruct Hdenied as [-> ->]; [vm_compute; reflexivity|reflexivity|].
    exists w'. split; [exact E|exact Et].
Defined.

(** ** The random-password strategy without character classes *)

Lemma generatePassword_no_character_sets (env : Env) (config : Config)
    (s : Student) (w : World) :
  noCharacterSets config ->
  generatePassword env config s w = (Throw noCharacterSetsMessage, w).
Proof.
  intros (pc & Hpc & Ht & Hu & Hl & Hn & Hs).
  unfold generatePassword. rewrite Hpc. cbv zeta. rewrite Ht.
  unfold generateRandomPassword, buildCharacterSet. cbv zeta.
  rewrite Hu, Hl, Hn, Hs. reflexivity.
Qed.

Lemma executeAction_create_no_character_sets (env : Env) (config : Config)
    (a : SyncAction) (w : World) :
  noCharacterSets config -> actionType a = Create ->
  executeAction env config a w
  = (failedResult config a noCharacterSetsMessage, w).
Proof.
  intros Hno Ht. unfold executeAction, failedResult, actionAsExecuted.
  rewrite Ht. unfold createUser. cbv zeta.
  rewrite (generatePassword_no_character_sets env config _ w Hno).
  reflexivity.
Qed.

Lemma actionType_actionAsExecuted (config : Config) (a : SyncAction) :
  actionType (actionAsExecuted config a) = actionType a.
Proof. unfold actionAsExecuted. destruct (actionType a) eqn:E; auto. Qed.

Lemma executeBatch_no_character_sets (env : Env) (config : Config)
    (actions : list SyncAction) (w : World) :
  noCharacterSets config ->
  Forall (fun r =>
            actionType (action r) = Create ->
            success r = false /\ error r = Some noCharacterSetsMessage)
    (fst (executeBatch env config actions w))
  /\ exists evs : list Event,
       trace (snd (executeBatch env config actions w)) = trace w ++ evs
       /\ Forall (fun e => isCreateUserCall e = false) evs.
Proof.
  intros Hno. split.
  - pose proof (executeBatch_Forall2 env config actions w) as HF.
    induction HF as [|a r acts rs [wa ->] _ IH]; constructor; [|exact IH].
    intros Ht. rewrite executeAction_action, actionType_actionAsExecuted in Ht.
    rewrite (executeAction_create_no_character_sets env config a wa Hno Ht).
    split; reflexivity.
  - apply executeBatch_events. intros a w0.
    destruct (executeAction_events env config a w0) as (evs & E & _ & F).
    exists evs. split; [exact E|].
    eapply Forall_impl; [exact F|]. cbv beta. intros e He.
    destruct (isCreateUserCall e); [|reflexivity].
    destruct (He eq_refl) as (_ & pw & w1 & Epw).
    rewrite (generatePassword_no_character_sets env config _ w0 Hno) in Epw.
    discriminate Epw.
Qed.

Lemma executeBatch_same_actions (env : Env) (config : Config)
    (actions : list SyncAction) (w : World) :
  Forall2 (fun a r => withoutEmail (action r) = withoutEmail a) actions
    (fst (executeBatch env config actions w)).
Proof.
  pose proof (executeBatch_Forall2 env config actions w) as HF.
  induction HF as [|a r acts rs [wa ->] _ IH]; constructor; [|exact IH].
  rewrite executeAction_action. apply withoutEmail_actionAsExecuted.
Qed.

(** C3, as the code has it. Under the random strategy with every character
    class switched off a live run does not throw: it returns a summary.
    Unless the confirmation was asked for and denied, the summary holds
    one result for each action of the plan, in the order of the plan. The
    error is raised inside the handler of each [create] action and is
    recorded as the error of that action's failed result; no request to
    create an account is made and [created] stays at zero. *)
Theorem C3_no_character_sets_fails_each_create
    (fuel : nat) (env : Env) (config : Config) (baseStudentOU : string)
    (now : JsDate) (students : list Student) (users : list GoogleUser)
    (devices : gmap string ChromeDevice) (w : World) :
  noCharacterSets config ->
  dryRun config = false ->
  0 < maxConcurrentRequests config ->
  (List.length
     (determineActions config baseStudentOU now students users devices)
   < fuel)%nat ->
  exists (s : SyncSummary) (w' : World) (evs : list Event),
    sync fuel env config baseStudentOU now students (Ok (users, devices)) w
    = Some (Ok s, w')
    /\ (let actions :=
          determineActions config baseStudentOU now students users devices in
        let count :=
          Z.of_nat (List.length (List.filter (isType Deactivate) actions)) in
        (requireConfirmationThreshold config < count
         /\ confirmBulkDeactivation env (trace w) count = false
         /\ s = emptySummary)
        \/ Forall2 (fun a r => withoutEmail (action r) = withoutEmail a)
             actions (results s))
    /\ Forall (fun r =>
                 actionType (action r) = Create ->
                 success r = false /\ error r = Some noCharacterSetsMessage)
         (results s)
    /\ created s = 0
    /\ trace w' = trace w ++ evs
    /\ Forall (fun e => isCreateUserCall e = false) evs.
Proof.
  intros Hno Hdry Hb Hfuel.
  rewrite (sync_live fuel env config baseStudentOU now students users devices
             w Hdry Hb Hfuel).
  cbv zeta.
  set (actions :=
         determineActions config baseStudentOU now students users devices)
    in *.
  set (count :=
         Z.of_nat (List.length (List.filter (isType Deactivate) actions))).
  assert (forall w0,
            let rs := fst (executeBatch env config actions w0) in
            let s := foldl tally emptySummary rs in
            Forall2 (fun a r => withoutEmail (action r) = withoutEmail a)
              actions (results s)
            /\ Forall (fun r =>
                         actionType (action r) = Create ->
                         success r = false
                         /\ error r = Some noCharacterSetsMessage) (results s)
            /\ created s = 0) as Hrun.
  { intros w0. cbv zeta.
    destruct (executeBatch_no_character_sets env config actions w0 Hno)
      as [HF _].
    destruct (tally_counts (fst (executeBatch env config actions w0))
                emptySummary)
      as (Hr & _ & _ & Hc & _).
    cbn [results created emptySummary app] in Hr, Hc.
    rewrite Hr, Hc. split; [apply executeBatch_same_actions|].
    split; [exact HF|].
    unfold countResults.
    match goal with
    | |- 0 + Z.of_nat (List.length ?l) = 0 =>
        assert (l = []) as ->; [|reflexivity]
    end.
    clear -HF. induction HF as [|r rs Hr' _ IH]; [reflexivity|].
    cbn [List.filter]. unfold succeededAs at 1.
    destruct (success r) eqn:Es; [|exact IH].
    destruct (bool_decide_reflect (actionType (action r) = Create)) as [Et|];
      [|exact IH].
    destruct (Hr' Et) as [Hfalse _]. congruence. }
  destruct (Z.ltb_spec (requireConfirmationThreshold config) count)
    as [Hlt|Hge];
    [destruct (confirmBulkDeactivation env (trace w) count) eqn:Econfirm|].
  - destruct (executeBatch_no_character_sets env config actions
                (mkWorld (trace w ++ [EvConfirm count]) (draws w)) Hno)
      as [_ (evs & Et & Fe)].
    cbn [trace] in Et.
    eexists; eexists; eexists. split; [reflexivity|].
    split; [right; apply Hrun|].
    split; [apply Hrun|]. split; [apply Hrun|].
    split; [rewrite Et, <- app_assoc; reflexivity|].
    constructor; [reflexivity|exact Fe].
  - eexists; eexists; eexists. split; [reflexivity|].
    split; [left; auto|].
    split; [constructor|]. split; [reflexivity|].
    split; [reflexivity|]. repeat constructor.
  - destruct (executeBatch_no_character_sets env config actions w Hno)
      as [_ (evs & Et & Fe)].
    eexists; eexists; eexists. split; [reflexivity|].
    split; [right; apply Hrun|].
    split; [apply Hrun|]. split; [apply Hrun|].
    split; [exact Et|exact Fe].
Qed.

(** C3 on a plan of one [move] and one [create]: the failed [create] is
    recorded and nothing is created. *)
Lemma C3_witness :
  exists (s : SyncSummary) (w' : World),
    sync 3 quietEnv noClassesConfig "/org/student" september2024
      [johnEnrolled; janeRoe]
      (Ok ([accountAt "john.doe2028@school.edu"
              "/org/student/middle/2028/john.doe"], ∅))
      initialWorld
    = Some (Ok s, w')
    /\ List.length (results s) = 2%nat
    /\ created s = 0.
Proof.
  destruct (C3_no_character_sets_fails_each_create 3 quietEnv noClassesConfig
              "/org/student" september2024 [johnEnrolled; janeRoe]
              [accountAt "john.doe2028@school.edu"
                 "/org/student/middle/2028/john.doe"] ∅ initialWorld)
    as (s & w' & evs & E & Hall & _ & Hc & _).
  - eexists. repeat split; reflexivity.
  - reflexivity.
  - reflexivity.
  - vm_compute. lia.
  - exists s, w'. split; [exact E|]. split; [|exact Hc].
    cbv zeta in Hall. destruct Hall as [(Hlt & _)|Hall].
    + vm_compute in Hlt. discriminate Hlt.
    + apply Forall2_length in Hall. rewrite <- Hall. reflexivity.
Defined.

(** C3 as the specification words it does not hold. With the random
    strategy and every character class switched off, a plan of one [move]
    followed by one [create] is run to its end: the account is moved and the
    success recorded, then the [create] fails and the failure is recorded,
    and [sync] returns its summary instead of throwing. *)
Lemma C3_counterexample :
  let outcome :=
    sync 3 quietEnv noClassesConfig "/org/student" september2024
      [johnEnrolled; janeRoe]
      (Ok ([accountAt "john.doe2028@school.edu"
              "/org/student/middle/2028/john.doe"], ∅))
      initialWorld in
  noCharacterSets noClassesConfig
  /\ (exists (s : SyncSummary) (w' : World),
        outcome = Some (Ok s, w')
        /\ map success (results s) = [true; false]
        /\ map (fun r => actionType (action r)) (results s) = [Move; Create]
        /\ moved s = 1 /\ errors s = 1
        /\ trace w'
           = [EvApi (ApiMoveUserToOU "john.doe2028@school.edu"
                       "/org/student/high/2028/john.doe")])
  /\ ~ raisedBeforeAnyAction outcome initialWorld.
Proof.
  cbv zeta. split; [eexists; repeat split; reflexivity|].
  split.
  - eexists. eexists. split; [vm_compute; reflexivity|].
    repeat split; reflexivity.
  - intros (m & w' & E & _). vm_compute in E. discriminate E.
Qed.

(** ** Lists *)

Lemma filter_none {A : Type} (p : A -> bool) (l : list A) :
  (forall a, In a l -> p a = false) -> List.filter p l = [].
Proof.
  induction l as [|a l IH]; [reflexivity|]. intros H.
  cbn [List.filter]. rewrite (H a) by (left; reflexivity).
  apply IH. intros b Hb. apply H. now right.
Qed.

Lemma filter_all {A : Type} (p : A -> bool) (l : list A) :
  (forall a, In a l -> p a = true) -> List.filter p l = l.
Proof.
  induction l as [|a l IH]; [reflexivity|]. intros H.
  cbn [List.filter]. rewrite (H a) by (left; reflexivity).
  f_equal. apply IH. intros b Hb. apply H. now right.
Qed.

Lemma filter_flat_map_each {A B : Type} (p : B -> bool) (f : A -> list B)
    (l : list A) :
  List.filter p (flat_map f l) = flat_map (fun x => List.filter p (f x)) l.
Proof.
  induction l as [|a l IH]; [reflexivity|].
  cbn [flat_map]. now rewrite List.filter_app, IH.
Qed.

Lemma flat_map_nil {A B : Type} (f : A -> list B) (l : list A) :
  (forall a, In a l -> f a = []) -> flat_map f l = [].
Proof.
  induction l as [|a l IH]; [reflexivity|]. intros H.
  cbn [flat_map]. rewrite (H a) by (left; reflexivity).
  apply IH. intros b Hb. apply H. now right.
Qed.

Lemma filter_filter_comm {A : Type} (p q : A -> bool) (l : list A) :
  List.filter p (List.filter q l) = List.filter q (List.filter p l).
Proof.
  induction l as [|a l IH]; [reflexivity|].
  cbn [List.filter]. destruct (p a) eqn:Hp, (q a) eqn:Hq;
    cbn [List.filter]; rewrite ?Hp, ?Hq, IH; reflexivity.
Qed.

(** ** The planner *)

Section Planner.

Variables (baseStudentOU : string) (now : JsDate).

Lemma userStep_userActions
    (byEmail byId : gmap string Student) (actions : list SyncAction)
    (processedEmails : gset string) (u : GoogleUser) :
  userStep baseStudentOU now byEmail byId (actions, processedEmails) u
  = (actions ++ userActions baseStudentOU now byEmail byId u,
     {[ toLowerCase (primaryEmail u) ]} ∪ processedEmails).
Proof.
  unfold userActions, userStep. cbv zeta.
  destruct (matchStudent byEmail byId u) as [s|].
  - destruct (isActive _).
    + destruct (shouldMoveStudent _ _ _ _); cbn [fst];
        rewrite ?app_nil_r; reflexivity.
    + destruct (negb _); cbn [fst]; rewrite ?app_nil_r; reflexivity.
  - destruct (_ && _); cbn [fst]; rewrite ?app_nil_r; reflexivity.
Qed.

Lemma foldl_userStep
    (byEmail byId : gmap string Student) (users : list GoogleUser)
    (actions : list SyncAction) (processedEmails : gset string) :
  foldl (userStep baseStudentOU now byEmail byId) (actions, processedEmails)
    users
  = (actions ++ flat_map (userActions baseStudentOU now byEmail byId) users,
     processed users ∪ processedEmails).
Proof.
  revert actions processedEmails.
  induction users as [|u users IH]; intros actions processedEmails.
  - cbn. rewrite app_nil_r. f_equal. unfold processed. cbn.
    now rewrite union_empty_l_L.
  - cbn [foldl flat_map]. rewrite userStep_userActions, IH.
    rewrite <- app_assoc. f_equal. unfold processed. cbn [map list_to_set].
    rewrite (assoc_L (∪)). f_equal. apply (comm_L (∪)).
Qed.

Lemma studentStep_studentActions (processedEmails : gset string)
    (actions : list SyncAction) (s : Student) :
  studentStep baseStudentOU now processedEmails actions s
  = actions ++ studentActions baseStudentOU now processedEmails s.
Proof.
  unfold studentActions, studentStep. cbv zeta.
  destruct (_ && _); rewrite ?app_nil_r; reflexivity.
Qed.

Lemma foldl_studentStep (processedEmails : gset string)
    (students : list Student) (actions : list SyncAction) :
  foldl (studentStep baseStudentOU now processedEmails) actions students
  = actions
    ++ flat_map (studentActions baseStudentOU now processedEmails) students.
Proof.
  revert actions. induction students as [|s students IH]; intros actions.
  - cbn. now rewrite app_nil_r.
  - cbn [foldl flat_map]. rewrite studentStep_studentActions, IH.
    now rewrite <- app_assoc.
Qed.

Lemma deviceStep_deviceActions (devices : gmap string ChromeDevice)
    (actions : list SyncAction) (s : Student) :
  deviceStep baseStudentOU now devices actions s
  = actions ++ deviceActions baseStudentOU now devices s.
Proof.
  unfold deviceActions, deviceStep. cbv zeta.
  destruct (negb (truthy _)); [now rewrite app_nil_r|].
  destruct (devices !! _) as [d|]; [|now rewrite app_nil_r].
  destruct (negb (isActive _)); [now rewrite app_nil_r|].
  destruct (negb (bool_decide _)); rewrite ?app_nil_r; reflexivity.
Qed.

Lemma foldl_deviceStep (devices : gmap string ChromeDevice)
    (students : list Student) (actions : list SyncAction) :
  foldl (deviceStep baseStudentOU now devices) actions students
  = actions ++ flat_map (deviceActions baseStudentOU now devices) students.
Proof.
  revert actions. induction students as [|s students IH]; intros actions.
  - cbn. now rewrite app_nil_r.
  - cbn [foldl flat_map]. rewrite deviceStep_deviceActions, IH.
    now rewrite <- app_assoc.
Qed.

Lemma determineActions_passes (config : Config) (students : list Student)
    (users : list GoogleUser) (devices : gmap string ChromeDevice) :
  determineActions config baseStudentOU now students users devices
  = modeFilter config (fullPlan baseStudentOU now students users devices).
Proof.
  unfold determineActions, fullPlan, addDeviceSyncActions, modeFilter.
  destruct (indexStudents students) as [byEmail byId]. cbn [fst snd].
  rewrite foldl_userStep. cbn [app].
  rewrite foldl_studentStep, foldl_deviceStep.
  rewrite !union_empty_r_L, <- !app_assoc. reflexivity.
Qed.

(** *** What each pass emits *)

Lemma userActions_currentUser (byEmail byId : gmap string Student)
    (u : GoogleUser) (a : SyncAction) :
  In a (userActions baseStudentOU now byEmail byId u) ->
  currentUser a = Some u
  /\ (actionType a = Move \/ actionType a = Deactivate).
Proof.
  unfold userActions, userStep. cbv zeta.
  destruct (matchStudent byEmail byId u) as [s|].
  - destruct (isActive _).
    + destruct (shouldMoveStudent _ _ _ _); cbn [fst app In];
        intros H; [destruct H as [<-|[]]|destruct H]; cbn; auto.
    + destruct (negb _); cbn [fst app In];
        intros H; [destruct H as [<-|[]]|destruct H]; cbn; auto.
  - destruct (_ && _); cbn [fst app In];
      intros H; [destruct H as [<-|[]]|destruct H]; cbn; auto.
Qed.

Lemma studentActions_spec (processedEmails : gset string) (s : Student) :
  studentActions baseStudentOU now processedEmails s
  = if isActive (getStudentStatus now s)
       && truthy (email s)
       && negb (bool_decide
                  (toLowerCase (orElse (email s) "") ∈ processedEmails))
    then [createAction s (getStudentOUPath baseStudentOU now s)]
    else [].
Proof.
  unfold studentActions, studentStep. cbv zeta.
  destruct (_ && _); reflexivity.
Qed.

Lemma studentActions_In (processedEmails : gset string) (s : Student)
    (a : SyncAction) :
  In a (studentActions baseStudentOU now processedEmails s) ->
  a = createAction s (getStudentOUPath baseStudentOU now s).
Proof.
  rewrite studentActions_spec.
  destruct (_ && _); cbn [In]; intros H; [destruct H as [<-|[]]|destruct H].
  reflexivity.
Qed.

Lemma deviceActions_In (devices : gmap string ChromeDevice) (s : Student)
    (a : SyncAction) :
  In a (deviceActions baseStudentOU now devices s) ->
  actionType a = MoveDevice /\ currentUser a = None /\ student a = s
  /\ targetOUPath a = getStudentOUPath baseStudentOU now s.
Proof.
  unfold deviceActions, deviceStep. cbv zeta.
  destruct (negb (truthy _)); [intros []|].
  destruct (devices !! _) as [d|]; [|intros []].
  destruct (negb (isActive _)); [intros []|].
  destruct (negb (bool_decide _)); cbn [app In];
    intros H; [destruct H as [<-|[]]|destruct H].
  cbn. auto.
Qed.

(** The actions of the plan that were derived from the account [u]. *)
Lemma filter_isFor_fullPlan (students : list Student)
    (users : list GoogleUser) (devices : gmap string ChromeDevice)
    (u : GoogleUser) :
  List.filter (isFor u) (fullPlan baseStudentOU now students users devices)
  = flat_map
      (fun v =>
         if bool_decide (v = u)
         then userActions baseStudentOU now (fst (indexStudents students))
                (snd (indexStudents students)) u
         else [])
      users.
Proof.
  unfold fullPlan. rewrite !List.filter_app, !filter_flat_map_each.
  rewrite (flat_map_nil (fun s => List.filter (isFor u) (studentActions _ _ _ s))).
  2:{ intros s _. apply filter_none. intros a ->%studentActions_In.
      reflexivity. }
  rewrite (flat_map_nil (fun s => List.filter (isFor u) (deviceActions _ _ _ s))).
  2:{ intros s _. apply filter_none.
      intros a (_ & Hc & _)%deviceActions_In.
      unfold isFor. apply bool_decide_eq_false. congruence. }
  rewrite !app_nil_r. apply flat_map_ext. intros v.
  destruct (bool_decide_reflect (v = u)) as [->|Hne].
  - apply filter_all. intros a [Ha _]%userActions_currentUser.
    unfold isFor. now apply bool_decide_eq_true.
  - apply filter_none. intros a [Ha _]%userActions_currentUser.
    unfold isFor. apply bool_decide_eq_false. congruence.
Qed.

End Planner.

(** ** Deactivation of graduated students *)

(** C9, as the code has it. When the mode is unrestricted or
    deactivate-only, every listing of an account that is matched to a roster
    record of status graduated and is not suspended yields one [deactivate]
    action derived from it and no other action, exactly one for an account
    listed once; the reason of that action is [Student graduated]. *)
Theorem C9_graduated_account_is_deactivated
    (config : Config) (baseStudentOU : string) (now : JsDate)
    (students : list Student) (users : list GoogleUser)
    (devices : gmap string ChromeDevice) (u : GoogleUser) (s : Student) :
  matchStudent (fst (indexStudents students)) (snd (indexStudents students)) u
  = Some s ->
  getStudentStatus now s = graduated ->
  truthyb (suspended u) = false ->
  truthyb (createOnly config) = false ->
  truthyb (moveOnly config) = false ->
  List.filter (isFor u)
    (determineActions config baseStudentOU now students users devices)
  = repeat (deactivateMatched s u "Student graduated") (occurrences u users).
Proof.
  intros Hmatch Hstatus Hsusp Hcreate Hmove.
  assert (userActions baseStudentOU now (fst (indexStudents students))
            (snd (indexStudents students)) u
          = [deactivateMatched s u "Student graduated"]) as Hu.
  { unfold userActions, userStep. cbv zeta.
    rewrite Hmatch, Hstatus, Hsusp. reflexivity. }
  assert (List.filter (isFor u)
            (fullPlan baseStudentOU now students users devices)
          = repeat (deactivateMatched s u "Student graduated")
              (occurrences u users)) as Hfull.
  { rewrite filter_isFor_fullPlan, Hu. unfold occurrences.
    induction users as [|v l IH]; [reflexivity|].
    cbn [flat_map List.filter]. rewrite IH.
    destruct (bool_decide (v = u)); reflexivity. }
  rewrite determineActions_passes. unfold modeFilter.
  rewrite Hcreate, Hmove.
  destruct (truthyb (deactivateOnly config)); [|exact Hfull].
  rewrite filter_filter_comm, Hfull.
  apply filter_all. intros a Ha. apply repeat_spec in Ha as ->. reflexivity.
Qed.

(** C9 for Ann Lee of the class of 2024 in September 2024. *)
Lemma C9_witness :
  List.filter (isFor annAccount)
    (determineActions (schoolConfig None) "/org/student" september2024
       [classOf2024] [annAccount] ∅)
  = [deactivateMatched classOf2024 annAccount "Student graduated"].
Proof.
  apply (C9_graduated_account_is_deactivated (schoolConfig None)
           "/org/student" september2024 [classOf2024] [annAccount] ∅
           annAccount classOf2024); reflexivity.
Defined.

(** C9 as the specification words it does not hold: the account of a
    graduated student yields one [deactivate] action, whose reason is
    [Student graduated] and not [graduated]; and in create-only mode it
    yields none. *)
Lemma C9_counterexample :
  let plan :=
    determineActions (schoolConfig None) "/org/student" september2024
      [classOf2024] [annAccount] ∅ in
  matchStudent (fst (indexStudents [classOf2024]))
    (snd (indexStudents [classOf2024])) annAccount = Some classOf2024
  /\ getStudentStatus september2024 classOf2024 = graduated
  /\ truthyb (suspended annAccount) = false
  /\ plan = [deactivateMatched classOf2024 annAccount "Student graduated"]
  /\ ~ (exists a : SyncAction,
          List.filter (isFor annAccount) plan = [a]
          /\ actionType a = Deactivate
          /\ reason a = "graduated")
  /\ determineActions createOnlyConfig "/org/student" september2024
       [classOf2024] [annAccount] ∅ = [].
Proof.
  cbv zeta. repeat split; try reflexivity.
  intros (a & Ha & _ & Hr). vm_compute in Ha. injection Ha as <-.
  discriminate Hr.
Qed.

(** ** Idempotence of the planner *)

(** *** The index by address *)

Lemma indexStudents_fst (students : list Student)
    (byEmail byId : gmap string Student) :
  fst (foldl
         (fun '(studentsByEmail, studentsByStudentId) student =>
            ((match email student with
              | Some e =>
                  if truthy (Some e)
                  then <[toLowerCase e := student]> studentsByEmail
                  else studentsByEmail
              | None => studentsByEmail
              end),
             <[studentId student := student]> studentsByStudentId))
         (byEmail, byId) students)
  = foldl (fun m s => match emailKey s with
                      | Some k => <[k := s]> m
                      | None => m
                      end) byEmail students.
Proof.
  revert byEmail byId.
  induction students as [|s l IH]; intros byEmail byId; [reflexivity|].
  cbn [foldl]. rewrite IH. f_equal.
  unfold emailKey. destruct (email s) as [e|]; [|reflexivity].
  cbn [orElse truthy]. destruct (String.eqb e ""); reflexivity.
Qed.

Lemma index_lookup_other (l : list Student) (m : gmap string Student)
    (k : string) :
  ~ In k (emailKeys l) ->
  foldl (fun m s => match emailKey s with
                    | Some k => <[k := s]> m
                    | None => m
                    end) m l !! k = m !! k.
Proof.
  revert m. induction l as [|s l IH]; intros m Hk; [reflexivity|].
  cbn [foldl]. unfold emailKeys in *. simpl in Hk.
  destruct (emailKey s) as [k'|] eqn:Ek; simpl in Hk.
  - rewrite IH by tauto.
    apply lookup_insert_ne. intros ->. apply Hk. now left.
  - apply IH. exact Hk.
Qed.

(** With pairwise distinct keys, a roster record is what its key finds. *)
Lemma indexStudents_lookup (students : list Student) (s : Student)
    (k : string) :
  NoDup (emailKeys students) ->
  In s students -> emailKey s = Some k ->
  fst (indexStudents students) !! k = Some s.
Proof.
  unfold indexStudents. rewrite indexStudents_fst.
  generalize (∅ : gmap string Student) as m.
  induction students as [|s0 l IH]; intros m Hnd Hin Hk; [destruct Hin|].
  cbn [foldl]. unfold emailKeys in Hnd. simpl in Hnd.
  destruct Hin as [->|Hin].
  - rewrite Hk in *. simpl in Hnd. apply NoDup_cons in Hnd as [Hnot _].
    rewrite index_lookup_other.
    + apply lookup_insert_eq.
    + intros H. apply Hnot. now apply list_elem_of_In.
  - apply IH; [|exact Hin|exact Hk].
    destruct (emailKey s0); simpl in Hnd; [|exact Hnd].
    now apply NoDup_cons in Hnd as [_ Hnd].
Qed.

(** *** The mode filter as one filter *)

Lemma modeFilter_keeps (config : Config) (l : list SyncAction) :
  modeFilter config l
  = List.filter (fun a => keeps config (actionType a)) l.
Proof.
  unfold modeFilter, keeps.
  destruct (truthyb (createOnly config)); [reflexivity|].
  destruct (truthyb (moveOnly config)); [reflexivity|].
  destruct (truthyb (deactivateOnly config)); [reflexivity|].
  symmetry. apply filter_all. reflexivity.
Qed.

Lemma keeps_MoveDevice (config : Config) :
  keeps config MoveDevice = true -> forall t, keeps config t = true.
Proof.
  unfold keeps.
  destruct (truthyb (createOnly config)); [discriminate|].
  destruct (truthyb (moveOnly config)); [discriminate|].
  destruct (truthyb (deactivateOnly config)); [discriminate|].
  reflexivity.
Qed.

(** *** Accounts after the plan *)

Lemma foldl_applyToAccount_filter (u x : GoogleUser) (l : list SyncAction) :
  foldl (applyToAccount u) x l
  = foldl (applyToAccount u) x (List.filter (isFor u) l).
Proof.
  revert x. induction l as [|a l IH]; intros x; [reflexivity|].
  cbn [foldl List.filter]. unfold applyToAccount at 2.
  destruct (isFor u a) eqn:E.
  - cbn [foldl]. unfold applyToAccount at 3. rewrite E. apply IH.
  - apply IH.
Qed.

Lemma foldl_applyToAccount_idempotent (u x : GoogleUser)
    (l : list SyncAction) :
  (List.length l <= 1)%nat ->
  foldl (applyToAccount u) (foldl (applyToAccount u) x l) l
  = foldl (applyToAccount u) x l.
Proof.
  destruct l as [|a [|b l]]; cbn [List.length]; try lia; intros _;
    [reflexivity|].
  cbn [foldl]. unfold applyToAccount.
  destruct (isFor u a); [|reflexivity].
  destruct (actionType a); reflexivity.
Qed.

Lemma foldl_applyToAccount_copies (u : GoogleUser) (L : list SyncAction)
    (users : list GoogleUser) :
  (List.length L <= 1)%nat ->
  In u users ->
  forall x,
    foldl (applyToAccount u) x
      (flat_map (fun v => if bool_decide (v = u) then L else []) users)
    = foldl (applyToAccount u) x L.
Proof.
  intros HL. induction users as [|v users IH]; intros Hin x; [destruct Hin|].
  cbn [flat_map]. rewrite foldl_app.
  destruct (in_dec GoogleUser_eq_dec u users) as [Hrest|Hrest].
  - rewrite (IH Hrest).
    destruct (bool_decide (v = u)); [|reflexivity].
    now apply foldl_applyToAccount_idempotent.
  - rewrite (flat_map_nil _ users).
    + destruct (bool_decide_reflect (v = u)) as [_|Hne]; [reflexivity|].
      destruct Hin as [Hin|Hin]; [contradiction|contradiction].
    + intros v' Hv'. destruct (bool_decide_reflect (v' = u)) as [->|];
        [contradiction|reflexivity].
Qed.

Lemma primaryEmail_foldl_applyToAccount (u x : GoogleUser)
    (l : list SyncAction) :
  primaryEmail (foldl (applyToAccount u) x l) = primaryEmail x
  /\ externalIds (foldl (applyToAccount u) x l) = externalIds x.
Proof.
  revert x. induction l as [|a l IH]; intros x; [split; reflexivity|].
  cbn [foldl]. destruct (IH (applyToAccount u x a)) as [-> ->].
  unfold applyToAccount. destruct (isFor u a); [|split; reflexivity].
  destruct (actionType a); split; reflexivity.
Qed.

Lemma NoDup_omap_inj {A : Type} (f : A -> option string) (l : list A)
    (x y : A) (k : string) :
  NoDup (omap f l) -> In x l -> In y l -> f x = Some k -> f y = Some k ->
  x = y.
Proof.
  induction l as [|a l IH]; intros Hnd Hx Hy Fx Fy; [destruct Hx|].
  simpl in Hnd.
  assert (forall z, In z l -> f z = Some k -> In k (omap f l)) as Hmem.
  { intros z Hz Fz. apply list_elem_of_In. apply list_elem_of_omap.
    exists z. split; [now apply list_elem_of_In|exact Fz]. }
  destruct Hx as [->|Hx], Hy as [->|Hy]; [reflexivity| | |].
  - rewrite Fx in Hnd. apply NoDup_cons in Hnd as [Hnot _].
    exfalso. apply Hnot. apply list_elem_of_In. eauto.
  - rewrite Fy in Hnd. apply NoDup_cons in Hnd as [Hnot _].
    exfalso. apply Hnot. apply list_elem_of_In. eauto.
  - apply IH; try assumption.
    destruct (f a); [now apply NoDup_cons in Hnd as [_ Hnd]|exact Hnd].
Qed.

(** *** Devices after the plan *)

Lemma devicesAfter_lookup (l : list SyncAction)
    (devices : gmap string ChromeDevice) (k T : string) :
  (forall a, In a l -> touches k a = true -> targetOUPath a = T) ->
  devicesAfterApplyingPlan l devices !! k
  = (fun d => if existsb (touches k) l then setDevicePath T d else d)
      <$> devices !! k.
Proof.
  unfold devicesAfterApplyingPlan. revert devices.
  induction l as [|a l IH]; intros devices HT.
  - cbn. now destruct (devices !! k).
  - cbn [foldl existsb].
    rewrite IH by (intros b Hb; apply HT; now right).
    destruct (touches k a) eqn:Ea.
    + pose proof (HT a (or_introl eq_refl) Ea) as HTa.
      unfold touches, isType in Ea. apply andb_prop in Ea as [Et Ek].
      apply bool_decide_eq_true in Et, Ek.
      unfold applyToDevices. rewrite Et, Ek, HTa, lookup_alter_eq.
      destruct (devices !! k) as [d|]; [|reflexivity].
      cbn. destruct (existsb (touches k) l); reflexivity.
    + cbn [orb].
      assert (applyToDevices devices a !! k = devices !! k) as ->;
        [|reflexivity].
      unfold applyToDevices.
      destruct (actionType a) eqn:Et; try reflexivity.
      destruct (serialKey (student a)) as [k'|] eqn:Ek; [|reflexivity].
      apply lookup_alter_ne. intros ->.
      unfold touches, isType in Ea. rewrite Et, Ek in Ea.
      rewrite !bool_decide_eq_true_2 in Ea by reflexivity. discriminate Ea.
Qed.

Section Idempotence.

Variables (config : Config) (baseStudentOU : string) (now : JsDate).
Variable students : list Student.

Let byEmail : gmap string Student := fst (indexStudents students).
Let byId : gmap string Student := snd (indexStudents students).
Let kept (a : SyncAction) : bool := keeps config (actionType a).

Lemma matchStudent_same (u u' : GoogleUser) :
  primaryEmail u' = primaryEmail u -> externalIds u' = externalIds u ->
  matchStudent byEmail byId u' = matchStudent byEmail byId u.
Proof.
  intros He Hx. unfold matchStudent, findStudentByExternalId.
  now rewrite He, Hx.
Qed.

Lemma shouldMoveStudent_at_target (s : Student) :
  shouldMoveStudent baseStudentOU now s
    (Some (getStudentOUPath baseStudentOU now s)) = false.
Proof.
  unfold shouldMoveStudent. cbn [truthy orElse].
  rewrite getStudentOUPath_not_empty. cbn [negb].
  now rewrite String.eqb_refl.
Qed.

Lemma userActions_eq (u : GoogleUser) :
  userActions baseStudentOU now byEmail byId u
  = match matchStudent byEmail byId u with
    | Some s =>
        if isActive (getStudentStatus now s) then
          if shouldMoveStudent baseStudentOU now s (orgUnitPath u)
          then [moveAction baseStudentOU now s u] else []
        else
          if negb (truthyb (suspended u))
          then [deactivateMatched s u
                  ("Student " +:+ statusString (getStudentStatus now s))]
          else []
    | None =>
        if isActiveStudentOU baseStudentOU (orElse (orgUnitPath u) "")
           && negb (truthyb (suspended u))
        then [deactivateUnmatched u] else []
    end.
Proof.
  unfold userActions, userStep. cbv zeta.
  destruct (matchStudent byEmail byId u) as [s|].
  - destruct (isActive _).
    + destruct (shouldMoveStudent _ _ _ _); reflexivity.
    + destruct (negb _); reflexivity.
  - destruct (_ && _); reflexivity.
Qed.

Lemma userActions_length (u : GoogleUser) :
  (List.length (userActions baseStudentOU now byEmail byId u) <= 1)%nat.
Proof.
  rewrite userActions_eq.
  destruct (matchStudent byEmail byId u) as [s|].
  - destruct (isActive _).
    + destruct (shouldMoveStudent _ _ _ _); cbn; lia.
    + destruct (negb _); cbn; lia.
  - destruct (_ && _); cbn; lia.
Qed.

Lemma applyToAccount_own (u : GoogleUser) (a : SyncAction) :
  currentUser a = Some u ->
  applyToAccount u u a
  = match actionType a with
    | Move => setOrgUnitPath u (targetOUPath a)
    | Deactivate => setSuspended u
    | _ => u
    end.
Proof.
  intros H. unfold applyToAccount, isFor.
  now rewrite bool_decide_eq_true_2.
Qed.

(** Replanning an account that its own kept actions have reached gives
    nothing that the mode keeps. *)
Lemma userActions_ownEffect (u : GoogleUser) :
  List.filter kept
    (userActions baseStudentOU now byEmail byId
       (ownEffect config baseStudentOU now students u)) = [].
Proof.
  unfold ownEffect. fold byEmail byId.
  rewrite (userActions_eq u).
  destruct (matchStudent byEmail byId u) as [s|] eqn:Em.
  - destruct (isActive (getStudentStatus now s)) eqn:Ea.
    + destruct (shouldMoveStudent baseStudentOU now s (orgUnitPath u)) eqn:Es.
      * cbn [List.filter actionType moveAction].
        destruct (keeps config Move) eqn:Ek.
        -- cbn [foldl]. rewrite applyToAccount_own by reflexivity.
           cbn [actionType targetOUPath moveAction].
           rewrite userActions_eq.
           rewrite (matchStudent_same u (setOrgUnitPath u _)), Em, Ea
             by reflexivity.
           cbn [orgUnitPath setOrgUnitPath].
           rewrite shouldMoveStudent_at_target. reflexivity.
        -- cbn [foldl]. rewrite userActions_eq, Em, Ea, Es.
           cbn [List.filter]. unfold kept.
           cbn [actionType moveAction]. rewrite Ek. reflexivity.
      * cbn [List.filter foldl]. rewrite userActions_eq, Em, Ea, Es.
        reflexivity.
    + destruct (negb (truthyb (suspended u))) eqn:Es.
      * cbn [List.filter actionType deactivateMatched].
        destruct (keeps config Deactivate) eqn:Ek.
        -- cbn [foldl]. rewrite applyToAccount_own by reflexivity.
           cbn [actionType deactivateMatched].
           rewrite userActions_eq.
           rewrite (matchStudent_same u (setSuspended u)), Em, Ea
             by reflexivity.
           reflexivity.
        -- cbn [foldl]. rewrite userActions_eq, Em, Ea, Es.
           cbn [List.filter]. unfold kept.
           cbn [actionType deactivateMatched]. rewrite Ek. reflexivity.
      * cbn [List.filter foldl]. rewrite userActions_eq, Em, Ea, Es.
        reflexivity.
  - destruct (isActiveStudentOU baseStudentOU (orElse (orgUnitPath u) "")
              && negb (truthyb (suspended u))) eqn:Ec.
    + unfold deactivateUnmatched.
      cbn [List.filter actionType deactivateMatched].
      destruct (keeps config Deactivate) eqn:Ek.
      * cbn [foldl]. rewrite applyToAccount_own by reflexivity.
        cbn [actionType deactivateMatched].
        rewrite userActions_eq.
        rewrite (matchStudent_same u (setSuspended u)), Em by reflexivity.
        cbn [suspended setSuspended truthyb negb].
        rewrite andb_false_r. reflexivity.
      * cbn [foldl]. rewrite userActions_eq, Em, Ec.
        cbn [List.filter]. unfold kept, deactivateUnmatched.
        cbn [actionType deactivateMatched]. rewrite Ek. reflexivity.
    + cbn [List.filter foldl]. rewrite userActions_eq, Em, Ec. reflexivity.
Qed.

Variables (users : list GoogleUser) (devices : gmap string ChromeDevice).

Let plan : list SyncAction :=
  determineActions config baseStudentOU now students users devices.

Lemma plan_filter :
  plan = List.filter kept (fullPlan baseStudentOU now students users devices).
Proof.
  unfold plan. rewrite determineActions_passes. apply modeFilter_keeps.
Qed.

(** An account of the snapshot is left as its own kept actions leave it. *)
Lemma accountAfter_ownEffect (u : GoogleUser) :
  In u users ->
  accountAfter plan u = ownEffect config baseStudentOU now students u.
Proof.
  intros Hin. unfold accountAfter, ownEffect. fold byEmail byId.
  rewrite foldl_applyToAccount_filter, plan_filter.
  rewrite filter_filter_comm, filter_isFor_fullPlan.
  rewrite filter_flat_map_each.
  rewrite (flat_map_ext _
             (fun v => if bool_decide (v = u)
                       then List.filter kept
                              (userActions baseStudentOU now byEmail byId u)
                       else [])).
  2:{ intros v. destruct (bool_decide (v = u)); reflexivity. }
  apply foldl_applyToAccount_copies; [|exact Hin].
  etransitivity; [apply List.filter_length_le|apply userActions_length].
Qed.

(** Where a [create] action of the plan comes from. *)
Lemma create_in_plan (a : SyncAction) :
  In a plan -> actionType a = Create ->
  exists s : Student,
    In s students
    /\ a = createAction s (getStudentOUPath baseStudentOU now s)
    /\ isActive (getStudentStatus now s) = true
    /\ truthy (email s) = true.
Proof.
  rewrite plan_filter. intros [Hin _]%filter_In Ht.
  unfold fullPlan in Hin. apply in_app_or in Hin as [Hin|Hin];
    [|apply in_app_or in Hin as [Hin|Hin]].
  - apply in_flat_map in Hin as (u & _ & Hu).
    apply userActions_currentUser in Hu as [_ [Hu|Hu]]; congruence.
  - apply in_flat_map in Hin as (s & Hs & Ha).
    rewrite studentActions_spec in Ha.
    destruct (isActive (getStudentStatus now s)) eqn:E1; [|destruct Ha].
    destruct (truthy (email s)) eqn:E2; [|destruct Ha].
    destruct (negb _); [|destruct Ha].
    destruct Ha as [<-|[]]. exists s. auto.
  - apply in_flat_map in Hin as (s & _ & Ha).
    apply deviceActions_In in Ha as (Hd & _). congruence.
Qed.

Hypothesis distinctEmails : NoDup (emailKeys students).

(** Replanning an account that a [create] action has added. *)
Lemma userActions_created (s : Student) :
  In s students ->
  isActive (getStudentStatus now s) = true ->
  truthy (email s) = true ->
  userActions baseStudentOU now byEmail byId
    (createdAccount (createAction s (getStudentOUPath baseStudentOU now s)))
  = [].
Proof.
  intros Hs Ha He. rewrite userActions_eq.
  assert (matchStudent byEmail byId
            (createdAccount
               (createAction s (getStudentOUPath baseStudentOU now s)))
          = Some s) as ->.
  { unfold matchStudent. cbn [primaryEmail createdAccount student createAction].
    unfold byEmail.
    rewrite (indexStudents_lookup students s _ distinctEmails Hs);
      [reflexivity|].
    unfold emailKey. now rewrite He. }
  rewrite Ha.
  cbn [orgUnitPath createdAccount targetOUPath createAction].
  now rewrite shouldMoveStudent_at_target.
Qed.

Lemma processed_app (l1 l2 : list GoogleUser) :
  processed (l1 ++ l2) = processed l1 ∪ processed l2.
Proof. unfold processed. now rewrite map_app, list_to_set_app_L. Qed.

Lemma processed_accountAfter :
  processed (map (accountAfter plan) users) = processed users.
Proof.
  unfold processed. rewrite map_map. f_equal. apply map_ext. intros u.
  unfold accountAfter.
  now destruct (primaryEmail_foldl_applyToAccount u u plan) as [-> _].
Qed.

Lemma elem_of_processed (k : string) (l : list GoogleUser) :
  k ∈ processed l <-> exists u, In u l /\ toLowerCase (primaryEmail u) = k.
Proof.
  unfold processed. rewrite elem_of_list_to_set, list_elem_of_In, in_map_iff.
  split; intros (u & H1 & H2); exists u; auto.
Qed.

(** Replanning the roster pass. *)
Lemma studentActions_after (s : Student) :
  In s students ->
  List.filter kept
    (studentActions baseStudentOU now
       (processed (accountsAfterApplyingPlan plan users)) s) = [].
Proof.
  intros Hs. rewrite studentActions_spec.
  destruct (isActive (getStudentStatus now s)) eqn:Ea; [|reflexivity].
  destruct (truthy (email s)) eqn:Ee; [|reflexivity].
  cbn [andb].
  destruct (bool_decide_reflect
              (toLowerCase (orElse (email s) "")
               ∈ processed (accountsAfterApplyingPlan plan users)))
    as [Hin|Hnot]; [reflexivity|].
  cbn [negb List.filter]. unfold kept at 1. cbn [actionType createAction].
  destruct (keeps config Create) eqn:Ek; [|reflexivity].
  exfalso. apply Hnot.
  unfold accountsAfterApplyingPlan.
  rewrite processed_app, processed_accountAfter.
  destruct (bool_decide_reflect
              (toLowerCase (orElse (email s) "") ∈ processed users))
    as [Hp|Hp]; [apply elem_of_union_l; exact Hp|].
  apply elem_of_union_r. apply elem_of_processed.
  exists (createdAccount
            (createAction s (getStudentOUPath baseStudentOU now s))).
  split; [|reflexivity].
  apply in_map. apply filter_In. split; [|reflexivity].
  rewrite plan_filter. apply filter_In. split.
  - unfold fullPlan. apply in_or_app. right. apply in_or_app. left.
    apply in_flat_map. exists s. split; [exact Hs|].
    rewrite studentActions_spec, Ea, Ee.
    rewrite bool_decide_eq_false_2 by exact Hp. now left.
  - exact Ek.
Qed.

Hypothesis distinctSerials : NoDup (serialKeys students).

(** Replanning the device pass. *)
Lemma deviceActions_after (s : Student) :
  In s students ->
  List.filter kept
    (deviceActions baseStudentOU now
       (devicesAfterApplyingPlan plan devices) s) = [].
Proof.
  intros Hs.
  destruct (keeps config MoveDevice) eqn:Ek.
  2:{ apply filter_none. intros a (Ht & _)%deviceActions_In.
      unfold kept. now rewrite Ht. }
  assert (plan = fullPlan baseStudentOU now students users devices) as Hplan.
  { rewrite plan_filter. apply filter_all. intros a _.
    now apply keeps_MoveDevice. }
  assert (List.filter kept
            (deviceActions baseStudentOU now
               (devicesAfterApplyingPlan plan devices) s)
          = deviceActions baseStudentOU now
              (devicesAfterApplyingPlan plan devices) s) as ->.
  { apply filter_all. intros a _. now apply keeps_MoveDevice. }
  unfold deviceActions at 1, deviceStep. cbv zeta.
  destruct (truthy (deviceSerial s)) eqn:Et; [|reflexivity].
  cbn [negb].
  set (k := orElse (deviceSerial s) "").
  assert (serialKey s = Some k) as Hk.
  { unfold serialKey, k. rewrite Et.
    destruct (deviceSerial s) as [x|]; [|discriminate Et].
    cbn in Et |- *. now destruct (String.eqb x ""). }
  rewrite (devicesAfter_lookup plan devices k
             (getStudentOUPath baseStudentOU now s)).
  2:{ intros a Ha Hta. unfold touches, isType in Hta.
      apply andb_prop in Hta as [Hty Hka].
      apply bool_decide_eq_true in Hty, Hka.
      rewrite Hplan in Ha. unfold fullPlan in Ha.
      apply in_app_or in Ha as [Ha|Ha];
        [|apply in_app_or in Ha as [Ha|Ha]].
      - apply in_flat_map in Ha as (u & _ & Hu).
        apply userActions_currentUser in Hu as [_ [Hu|Hu]]; congruence.
      - apply in_flat_map in Ha as (s' & _ & Hs').
        apply studentActions_In in Hs'. subst a. discriminate Hty.
      - apply in_flat_map in Ha as (s' & Hs' & Ha).
        apply deviceActions_In in Ha as (_ & _ & Hst & Htg).
        rewrite Htg. f_equal. rewrite Hst in Hka.
        exact (NoDup_omap_inj serialKey students s' s k distinctSerials
                 Hs' Hs Hka Hk). }
  destruct (devices !! k) as [d|] eqn:Ed; [|reflexivity].
  cbn [fmap option_fmap option_map].
  destruct (isActive (getStudentStatus now s)) eqn:Ea; [|reflexivity].
  cbn [negb].
  destruct (existsb (touches k) plan) eqn:Ex.
  - cbn [deviceOrgUnitPath setDevicePath].
    now rewrite bool_decide_eq_true_2.
  - destruct (bool_decide_reflect
                (deviceOrgUnitPath d
                 = Some (getStudentOUPath baseStudentOU now s)))
      as [_|Hne]; [reflexivity|].
    exfalso.
    assert (existsb (touches k) plan = true) as Hex; [|congruence].
    apply existsb_exists.
    eexists. split.
    + rewrite Hplan. unfold fullPlan. apply in_or_app. right.
      apply in_or_app. right. apply in_flat_map. exists s.
      split; [exact Hs|].
      unfold deviceActions, deviceStep. cbv zeta.
      rewrite Et. cbn [negb]. fold k. rewrite Ed, Ea. cbn [negb].
      rewrite bool_decide_eq_false_2 by exact Hne. cbn [negb app].
      left. reflexivity.
    + unfold touches, isType. cbn [actionType student].
      rewrite Hk. now rewrite !bool_decide_eq_true_2.
Qed.

(** The plan of the directory that reflects the plan is empty. *)
Lemma determineActions_after_plan :
  determineActions config baseStudentOU now students
    (accountsAfterApplyingPlan plan users)
    (devicesAfterApplyingPlan plan devices) = [].
Proof.
  rewrite determineActions_passes, modeFilter_keeps. unfold fullPlan.
  fold byEmail byId kept.
  rewrite !List.filter_app, !filter_flat_map_each.
  rewrite (flat_map_nil
             (fun u => List.filter kept
                         (userActions baseStudentOU now byEmail byId u))).
  2:{ intros u' Hu'. unfold accountsAfterApplyingPlan in Hu'.
      apply in_app_or in Hu' as [Hu'|Hu'].
      - apply in_map_iff in Hu' as (u & <- & Hu).
        rewrite (accountAfter_ownEffect u Hu).
        apply userActions_ownEffect.
      - apply in_map_iff in Hu' as (a & <- & Ha).
        apply filter_In in Ha as [Ha Hty].
        apply bool_decide_eq_true in Hty.
        destruct (create_in_plan a Ha Hty) as (s & Hs & -> & Hact & Hem).
        now rewrite (userActions_created s Hs Hact Hem). }
  rewrite (flat_map_nil
             (fun s => List.filter kept (studentActions _ _ _ s)))
    by (intros s Hs; now apply studentActions_after).
  rewrite (flat_map_nil
             (fun s => List.filter kept (deviceActions _ _ _ s)))
    by (intros s Hs; now apply deviceActions_after).
  reflexivity.
Qed.

End Idempotence.

(** C1, as the code has it. For a roster in which no two records share an
    address (compared without regard to case) and no two records share a
    device serial, for every account snapshot, device snapshot, mode and
    date: planning again on the snapshots that reflect every action of the
    plan gives the empty plan; and planning again on the unchanged
    snapshots gives the same plan, the snapshots being arguments that the
    planner only reads. *)
Theorem C1_planner_idempotence
    (config : Config) (baseStudentOU : string) (now : JsDate)
    (students : list Student) (users : list GoogleUser)
    (devices : gmap string ChromeDevice) :
  NoDup (emailKeys students) ->
  NoDup (serialKeys students) ->
  let plan :=
    determineActions config baseStudentOU now students users devices in
  determineActions config baseStudentOU now students
    (accountsAfterApplyingPlan plan users)
    (devicesAfterApplyingPlan plan devices) = []
  /\ determineActions config baseStudentOU now students users devices = plan.
Proof.
  intros He Hs plan. split; [|reflexivity].
  exact (determineActions_after_plan config baseStudentOU now students users
           devices He Hs).
Qed.

(** C1 on a roster of two, one account to move, one account unknown to the
    roster, one student to create and one device to move. *)
Lemma C1_witness :
  let users :=
    [accountAt "john.doe2028@school.edu" "/org/student/middle/2028/john.doe";
     accountAt "gone@school.edu" "/org/student/high/2025/gone.away"] in
  let devices : gmap string ChromeDevice :=
    {[ "CHR002345678" := deviceAt "CHR002345678" "/org/student" ]} in
  let plan :=
    determineActions (schoolConfig None) "/org/student" september2024
      [johnEnrolled; janeRoe] users devices in
  map actionType plan = [Move; Deactivate; Create; MoveDevice]
  /\ determineActions (schoolConfig None) "/org/student" september2024
       [johnEnrolled; janeRoe]
       (accountsAfterApplyingPlan plan users)
       (devicesAfterApplyingPlan plan devices) = [].
Proof.
  cbv zeta. split; [reflexivity|].
  apply (C1_planner_idempotence (schoolConfig None) "/org/student"
           september2024 [johnEnrolled; janeRoe]).
  - apply (bool_decide_unpack _). vm_compute. exact I.
  - apply (bool_decide_unpack _). vm_compute. exact I.
Defined.

(** C1 as the specification words it does not hold for every roster. When
    two students carry the same device serial, the one plan moves the
    device to the second student and the next plan moves it back to the
    first; when an enrolled and a graduated student carry the same address,
    the account created for the first is matched to the second and the next
    plan deactivates it. In both cases the second snapshot reflects every
    action of the first plan. *)
Lemma C1_counterexample :
  let config := schoolConfig None in
  let plan1 :=
    determineActions config "/org/student" september2024
      [benAdams; cleoBaker] [] sharedDevice in
  let plan2 :=
    determineActions config "/org/student" september2024
      [danCole; dinaCole] [] ∅ in
  (map (fun a => (actionType a, student a, targetOUPath a)) plan1
   = [(MoveDevice, cleoBaker, "/org/student/middle/2031/cleo.baker")]
   /\ devicesAfterApplyingPlan plan1 sharedDevice
      = {[ "CHR000000001" :=
             deviceAt "CHR000000001" "/org/student/middle/2031/cleo.baker" ]}
   /\ map (fun a => (actionType a, student a, targetOUPath a))
        (determineActions config "/org/student" september2024
           [benAdams; cleoBaker]
           (accountsAfterApplyingPlan plan1 [])
           (devicesAfterApplyingPlan plan1 sharedDevice))
      = [(MoveDevice, benAdams, "/org/student/high/2028/ben.adams")])
  /\ (map (fun a => (actionType a, student a, targetOUPath a)) plan2
      = [(Create, danCole, "/org/student/high/2028/dan.cole")]
      /\ map (fun u => (primaryEmail u, orgUnitPath u, suspended u))
           (accountsAfterApplyingPlan plan2 [])
         = [("d.cole@school.edu", Some "/org/student/high/2028/dan.cole",
             Some false)]
      /\ map (fun a => (actionType a, student a, reason a))
           (determineActions config "/org/student" september2024
              [danCole; dinaCole]
              (accountsAfterApplyingPlan plan2 [])
              (devicesAfterApplyingPlan plan2 ∅))
         = [(Deactivate, dinaCole, "Student graduated")]).
Proof.
  cbv zeta. repeat split; vm_compute; reflexivity.
Qed.

(** * Further properties of the planner *)

Section PlanContents.

Variables (config : Config) (baseStudentOU : string) (now : JsDate).
Variables (students : list Student) (users : list GoogleUser).
Variable devices : gmap string ChromeDevice.

Let byEmail : gmap string Student := fst (indexStudents students).
Let byId : gmap string Student := snd (indexStudents students).
Let plan : list SyncAction :=
  determineActions config baseStudentOU now students users devices.

Lemma In_plan (a : SyncAction) :
  In a plan
  <-> keeps config (actionType a) = true
      /\ In a (fullPlan baseStudentOU now students users devices).
Proof.
  unfold plan. rewrite determineActions_passes, modeFilter_keeps, filter_In.
  tauto.
Qed.

Lemma In_fullPlan (a : SyncAction) :
  In a (fullPlan baseStudentOU now students users devices)
  <-> (exists u, In u users
                 /\ In a (userActions baseStudentOU now byEmail byId u))
      \/ (exists s, In s students
                    /\ In a (studentActions baseStudentOU now
                               (processed users) s))
      \/ (exists s, In s students
                    /\ In a (deviceActions baseStudentOU now devices s)).
Proof.
  unfold fullPlan. rewrite !in_app_iff, !in_flat_map. reflexivity.
Qed.

Lemma isActive_active (st : Status) : isActive st = true <-> st = active.
Proof. destruct st; cbn; split; congruence. Qed.

Lemma shouldMoveStudent_true (s : Student) (path : option string) :
  shouldMoveStudent baseStudentOU now s path = true
  <-> path <> Some (getStudentOUPath baseStudentOU now s).
Proof.
  unfold shouldMoveStudent.
  pose proof (getStudentOUPath_not_empty baseStudentOU now s) as Hne.
  destruct path as [p|]; cbn [truthy orElse negb].
  - destruct (String.eqb_spec p "") as [->|Hp]; cbn [negb].
    + split; [|reflexivity]. intros _ [= E]. rewrite <- E in Hne.
      discriminate Hne.
    + destruct (String.eqb_spec p (getStudentOUPath baseStudentOU now s))
        as [->|Hq]; cbn; split; congruence.
  - split; [discriminate|reflexivity].
Qed.

Lemma deviceActions_eq (s : Student) :
  deviceActions baseStudentOU now devices s
  = match serialKey s with
    | None => []
    | Some k =>
        match devices !! k with
        | None => []
        | Some d =>
            if isActive (getStudentStatus now s)
               && negb (bool_decide
                          (deviceOrgUnitPath d
                           = Some (getStudentOUPath baseStudentOU now s)))
            then [moveDeviceAction baseStudentOU now s d]
            else []
        end
    end.
Proof.
  unfold deviceActions, deviceStep, serialKey. cbv zeta.
  destruct (deviceSerial s) as [x|]; cbn [truthy negb orElse];
    [|reflexivity].
  destruct (String.eqb x ""); cbn [negb]; [reflexivity|].
  destruct (devices !! x) as [d|]; [|reflexivity].
  destruct (isActive _); cbn [negb andb]; [|reflexivity].
  destruct (negb (bool_decide _)); reflexivity.
Qed.

(** X1. Every [move] action of a plan is the move of an account of the
    snapshot to the derived path of its roster record; and the plan holds
    the move of account [u] for record [s] exactly when the mode keeps
    moves, [u] is in the snapshot, [u] is matched to [s], the status of [s]
    is active and [u] is not at the derived path of [s] already. *)
Theorem X1_move_actions_of_a_plan :
  (forall a, In a plan -> actionType a = Move ->
     exists u s, In u users /\ a = moveAction baseStudentOU now s u)
  /\ (forall u s,
        In (moveAction baseStudentOU now s u) plan
        <-> keeps config Move = true
            /\ In u users
            /\ matchStudent byEmail byId u = Some s
            /\ getStudentStatus now s = active
            /\ orgUnitPath u <> Some (getStudentOUPath baseStudentOU now s)).
Proof.
  assert (forall a u, In a (userActions baseStudentOU now byEmail byId u) ->
            actionType a = Move ->
            exists s, a = moveAction baseStudentOU now s u
                      /\ matchStudent byEmail byId u = Some s
                      /\ getStudentStatus now s = active
                      /\ orgUnitPath u
                         <> Some (getStudentOUPath baseStudentOU now s))
    as Huser.
  { intros a u Ha Ht. unfold byEmail, byId in *.
    rewrite userActions_eq in Ha.
    destruct (matchStudent _ _ u) as [s|] eqn:Em.
    - destruct (isActive (getStudentStatus now s)) eqn:Ea.
      + destruct (shouldMoveStudent baseStudentOU now s (orgUnitPath u))
          eqn:Es; [|destruct Ha].
        destruct Ha as [<-|[]]. exists s.
        apply isActive_active in Ea. apply shouldMoveStudent_true in Es.
        auto.
      + destruct (negb _); [|destruct Ha].
        destruct Ha as [<-|[]]. discriminate Ht.
    - destruct (_ && _); [|destruct Ha].
      destruct Ha as [<-|[]]. discriminate Ht. }
  split.
  - intros a [_ Ha]%In_plan Ht. apply In_fullPlan in Ha as [Ha|[Ha|Ha]].
    + destruct Ha as (u & Hu & Ha).
      destruct (Huser a u Ha Ht) as (s & -> & _). eauto.
    + destruct Ha as (s & _ & ->%studentActions_In). discriminate Ht.
    + destruct Ha as (s & _ & (Hd & _)%deviceActions_In). congruence.
  - intros u s. rewrite In_plan. cbn [actionType moveAction]. split.
    + intros [Hk Ha]. split; [exact Hk|].
      apply In_fullPlan in Ha as [Ha|[Ha|Ha]].
      * destruct Ha as (v & Hv & Ha).
        pose proof (userActions_currentUser baseStudentOU now _ _ v _ Ha)
          as [[= <-] _].
        destruct (Huser _ u Ha eq_refl) as (s' & E & Hm & Hs & Hp).
        assert (s' = s) as -> by (now injection E).
        auto.
      * destruct Ha as (s' & _ & [=]%studentActions_In).
      * destruct Ha as (s' & _ & ([=] & _)%deviceActions_In).
    + intros (Hk & Hu & Hm & Hs & Hp). split; [exact Hk|].
      apply In_fullPlan. left. exists u. split; [exact Hu|].
      unfold byEmail, byId in *. rewrite userActions_eq, Hm, Hs.
      cbn [isActive].
      apply shouldMoveStudent_true in Hp. rewrite Hp. now left.
Qed.

(** X2. Every [create] action of a plan is the creation, at the derived
    path, of an account for a roster record; and the plan holds the
    creation for record [s] exactly when the mode keeps creations, [s] is
    in the roster, its status is active, it has an address, and no account
    of the snapshot has that address (compared without regard to case). *)
Theorem X2_create_actions_of_a_plan :
  (forall a, In a plan -> actionType a = Create ->
     exists s, In s students
               /\ a = createAction s (getStudentOUPath baseStudentOU now s))
  /\ (forall s,
        In (createAction s (getStudentOUPath baseStudentOU now s)) plan
        <-> keeps config Create = true
            /\ In s students
            /\ getStudentStatus now s = active
            /\ truthy (email s) = true
            /\ (forall u, In u users ->
                   toLowerCase (primaryEmail u)
                   <> toLowerCase (orElse (email s) ""))).
Proof.
  assert (forall s,
            In (createAction s (getStudentOUPath baseStudentOU now s))
              (studentActions baseStudentOU now (processed users) s)
            <-> getStudentStatus now s = active
                /\ truthy (email s) = true
                /\ (forall u, In u users ->
                       toLowerCase (primaryEmail u)
                       <> toLowerCase (orElse (email s) ""))) as Hone.
  { intros s. rewrite studentActions_spec.
    destruct (isActive (getStudentStatus now s)) eqn:Ea.
    2:{ cbn [andb In]. split; [intros []|].
        intros (Hs%isActive_active & _). congruence. }
    apply isActive_active in Ea.
    destruct (truthy (email s)) eqn:Ee.
    2:{ cbn [andb In]. split; [intros []|]. intros (_ & ? & _). congruence. }
    cbn [andb].
    destruct (bool_decide_reflect
                (toLowerCase (orElse (email s) "") ∈ processed users))
      as [Hin|Hnot]; cbn [negb In].
    - split; [intros []|]. intros (_ & _ & Hall).
      apply elem_of_processed in Hin as (u & Hu & E).
      exact (Hall u Hu E).
    - split; [|now left]. intros _. repeat split; try assumption.
      intros u Hu E. apply Hnot. apply elem_of_processed. eauto. }
  split.
  - intros a [_ Ha]%In_plan Ht. apply In_fullPlan in Ha as [Ha|[Ha|Ha]].
    + destruct Ha as (u & _ & Ha).
      apply userActions_currentUser in Ha as [_ [Ha|Ha]]; congruence.
    + destruct Ha as (s & Hs & ->%studentActions_In). eauto.
    + destruct Ha as (s & _ & (Hd & _)%deviceActions_In). congruence.
  - intros s. rewrite In_plan. cbn [actionType createAction]. split.
    + intros [Hk Ha]. split; [exact Hk|].
      apply In_fullPlan in Ha as [Ha|[Ha|Ha]].
      * destruct Ha as (u & _ & Ha).
        apply userActions_currentUser in Ha as [[=] _].
      * destruct Ha as (s' & Hs' & Ha).
        pose proof (studentActions_In baseStudentOU now _ _ _ Ha) as E.
        assert (s' = s) as -> by (now injection E).
        split; [exact Hs'|]. now apply Hone.
      * destruct Ha as (s' & _ & ([=] & _)%deviceActions_In).
    + intros (Hk & Hs & Hrest). split; [exact Hk|].
      apply In_fullPlan. right. left. exists s. split; [exact Hs|].
      now apply Hone.
Qed.

Lemma statusString_inj (a b : Status) :
  statusString a = statusString b -> a = b.
Proof. destruct a, b; cbn; congruence. Qed.

(** What the loop over the accounts pushes that is a [deactivate]. *)
Lemma userActions_deactivate (a : SyncAction) (u : GoogleUser) :
  In a (userActions baseStudentOU now byEmail byId u) ->
  actionType a = Deactivate ->
  truthyb (suspended u) = false
  /\ ((exists s, matchStudent byEmail byId u = Some s
                 /\ getStudentStatus now s <> active
                 /\ a = deactivateMatched s u
                          ("Student " +:+ statusString (getStudentStatus now s)))
      \/ (matchStudent byEmail byId u = None
          /\ isActiveStudentOU baseStudentOU (orElse (orgUnitPath u) "")
             = true
          /\ a = deactivateUnmatched u)).
Proof.
  intros Ha Ht. unfold byEmail, byId in *. rewrite userActions_eq in Ha.
  destruct (matchStudent _ _ u) as [s|] eqn:Em.
  - destruct (isActive (getStudentStatus now s)) eqn:Ea.
    + destruct (shouldMoveStudent _ _ _ _); [|destruct Ha].
      destruct Ha as [<-|[]]. discriminate Ht.
    + destruct (negb (truthyb (suspended u))) eqn:Es; [|destruct Ha].
      destruct Ha as [<-|[]]. apply negb_true_iff in Es.
      split; [exact Es|]. left. exists s. repeat split.
      intros E%isActive_active. congruence.
  - destruct (isActiveStudentOU baseStudentOU (orElse (orgUnitPath u) ""))
      eqn:Eo; [|destruct Ha].
    destruct (negb (truthyb (suspended u))) eqn:Es; [|destruct Ha].
    destruct Ha as [<-|[]]. apply negb_true_iff in Es. auto.
Qed.

(** X3. Every [deactivate] action of a plan concerns an account of the
    snapshot that is not suspended: either the account is matched to a
    roster record whose status is not active, and the reason is [Student]
    followed by that status, or it is matched to none and lies in an active
    student unit, and the reason is [Not found in enrollment data]. When
    the mode keeps deactivations, every such account has its action in the
    plan. *)
Theorem X3_deactivate_actions_of_a_plan :
  (forall a, In a plan -> actionType a = Deactivate ->
     exists u,
       In u users /\ truthyb (suspended u) = false
       /\ ((exists s, matchStudent byEmail byId u = Some s
                      /\ getStudentStatus now s <> active
                      /\ a = deactivateMatched s u
                               ("Student "
                                +:+ statusString (getStudentStatus now s)))
           \/ (matchStudent byEmail byId u = None
               /\ isActiveStudentOU baseStudentOU
                    (orElse (orgUnitPath u) "") = true
               /\ a = deactivateUnmatched u)))
  /\ (forall u s,
        keeps config Deactivate = true -> In u users ->
        truthyb (suspended u) = false ->
        matchStudent byEmail byId u = Some s ->
        getStudentStatus now s <> active ->
        In (deactivateMatched s u
              ("Student " +:+ statusString (getStudentStatus now s))) plan)
  /\ (forall u,
        keeps config Deactivate = true -> In u users ->
        truthyb (suspended u) = false ->
        matchStudent byEmail byId u = None ->
        isActiveStudentOU baseStudentOU (orElse (orgUnitPath u) "") = true ->
        In (deactivateUnmatched u) plan).
Proof.
  split; [|split].
  - intros a [_ Ha]%In_plan Ht. apply In_fullPlan in Ha as [Ha|[Ha|Ha]].
    + destruct Ha as (u & Hu & Ha). exists u. split; [exact Hu|].
      now apply userActions_deactivate.
    + destruct Ha as (s & _ & ->%studentActions_In). discriminate Ht.
    + destruct Ha as (s & _ & (Hd & _)%deviceActions_In). congruence.
  - intros u s Hk Hu Hs Hm Hst. apply In_plan. split; [exact Hk|].
    apply In_fullPlan. left. exists u. split; [exact Hu|].
    unfold byEmail, byId in *. rewrite userActions_eq, Hm.
    destruct (isActive (getStudentStatus now s)) eqn:Ea;
      [apply isActive_active in Ea; contradiction|].
    rewrite Hs. now left.
  - intros u Hk Hu Hs Hm Ho. apply In_plan. split; [exact Hk|].
    apply In_fullPlan. left. exists u. split; [exact Hu|].
    unfold byEmail, byId in *. rewrite userActions_eq, Hm, Ho, Hs.
    now left.
Qed.

(** X4. Every [move_device] action of a plan moves the device that the
    snapshot holds under the serial of a roster record to the derived path
    of that record; and the plan holds that action exactly when no mode
    flag is set, the record is in the roster with a serial under which the
    snapshot holds the device, its status is active and the device is not
    at the derived path already. A serial that the snapshot does not hold
    gives no action. *)
Theorem X4_move_device_actions_of_a_plan :
  (forall a, In a plan -> actionType a = MoveDevice ->
     exists s d, In s students
                 /\ a = moveDeviceAction baseStudentOU now s d)
  /\ (forall s d,
        In (moveDeviceAction baseStudentOU now s d) plan
        <-> keeps config MoveDevice = true
            /\ In s students
            /\ (exists k, serialKey s = Some k /\ devices !! k = Some d)
            /\ getStudentStatus now s = active
            /\ deviceOrgUnitPath d
               <> Some (getStudentOUPath baseStudentOU now s))
  /\ (keeps config MoveDevice = true
      <-> truthyb (createOnly config) = false
          /\ truthyb (moveOnly config) = false
          /\ truthyb (deactivateOnly config) = false).
Proof.
  assert (forall s d,
            In (moveDeviceAction baseStudentOU now s d)
              (deviceActions baseStudentOU now devices s)
            <-> (exists k, serialKey s = Some k /\ devices !! k = Some d)
                /\ getStudentStatus now s = active
                /\ deviceOrgUnitPath d
                   <> Some (getStudentOUPath baseStudentOU now s)) as Hone.
  { intros s d. rewrite deviceActions_eq.
    destruct (serialKey s) as [k|].
    2:{ split; [intros []|]. intros ((k & [=] & _) & _). }
    destruct (devices !! k) as [d'|] eqn:Ed.
    2:{ split; [intros []|]. intros ((k' & [= <-] & E) & _). congruence. }
    destruct (isActive (getStudentStatus now s)) eqn:Ea.
    2:{ cbn [andb]. split; [intros []|].
        intros (_ & E%isActive_active & _). congruence. }
    apply isActive_active in Ea. cbn [andb].
    destruct (bool_decide_reflect
                (deviceOrgUnitPath d'
                 = Some (getStudentOUPath baseStudentOU now s)))
      as [Hp|Hp]; cbn [negb In].
    - split; [intros []|]. intros ((k' & [= <-] & E) & _ & Hne).
      rewrite Ed in E. injection E as ->. contradiction.
    - split.
      + intros [E|[]]. assert (d' = d) as -> by (now injection E).
        split; [eauto|]. split; assumption.
      + intros ((k' & [= <-] & E) & _). rewrite Ed in E.
        injection E as ->. now left. }
  split; [|split].
  - intros a [_ Ha]%In_plan Ht. apply In_fullPlan in Ha as [Ha|[Ha|Ha]].
    + destruct Ha as (u & _ & Ha).
      apply userActions_currentUser in Ha as [_ [Ha|Ha]]; congruence.
    + destruct Ha as (s & _ & ->%studentActions_In). discriminate Ht.
    + destruct Ha as (s & Hs & Ha). rewrite deviceActions_eq in Ha.
      destruct (serialKey s) as [k|]; [|destruct Ha].
      destruct (devices !! k) as [d|]; [|destruct Ha].
      destruct (_ && _); [|destruct Ha].
      destruct Ha as [<-|[]]. eauto.
  - intros s d. rewrite In_plan. cbn [actionType moveDeviceAction]. split.
    + intros [Hk Ha]. split; [exact Hk|].
      apply In_fullPlan in Ha as [Ha|[Ha|Ha]].
      * destruct Ha as (u & _ & Ha).
        apply userActions_currentUser in Ha as [[=] _].
      * destruct Ha as (s' & _ & [=]%studentActions_In).
      * destruct Ha as (s' & Hs' & Ha).
        pose proof (deviceActions_In baseStudentOU now _ _ _ Ha)
          as (_ & _ & E & _).
        cbn [student moveDeviceAction] in E. subst s'.
        split; [exact Hs'|]. now apply Hone.
    + intros (Hk & Hs & Hrest). split; [exact Hk|].
      apply In_fullPlan. right. right. exists s. split; [exact Hs|].
      now apply Hone.
  - unfold keeps.
    destruct (truthyb (createOnly config)); [cbn; intuition discriminate|].
    destruct (truthyb (moveOnly config)); [cbn; intuition discriminate|].
    destruct (truthyb (deactivateOnly config)); cbn; intuition discriminate.
Qed.

(** *** The order and the size of a plan *)

Lemma sublist_flat_map_singleton {A B : Type} (f : A -> list B)
    (g : B -> A) (l : list A) :
  (forall x b, In b (f x) -> g b = x) ->
  (forall x, (List.length (f x) <= 1)%nat) ->
  sublist (map g (flat_map f l)) l.
Proof.
  intros Hg Hlen. induction l as [|x l IH]; [constructor|].
  cbn [flat_map]. rewrite map_app.
  pose proof (Hlen x) as Hx. pose proof (Hg x) as Hgx.
  destruct (f x) as [|b [|c r]]; cbn [List.length] in Hx; try lia.
  - cbn. now apply sublist_cons.
  - cbn. rewrite (Hgx b) by now left. now apply sublist_skip.
Qed.

Lemma sublist_filter_map {A B : Type} (p : B -> bool) (g : B -> A)
    (l : list B) :
  sublist (map g (List.filter p l)) (map g l).
Proof.
  induction l as [|b l IH]; [constructor|].
  cbn [List.filter map]. destruct (p b); cbn [map].
  - now apply sublist_skip.
  - now apply sublist_cons.
Qed.

Lemma studentActions_length (P : gset string) (s : Student) :
  (List.length (studentActions baseStudentOU now P s) <= 1)%nat.
Proof. rewrite studentActions_spec. destruct (_ && _); cbn; lia. Qed.

Lemma deviceActions_length (s : Student) :
  (List.length (deviceActions baseStudentOU now devices s) <= 1)%nat.
Proof.
  rewrite deviceActions_eq.
  destruct (serialKey s); [|cbn; lia].
  destruct (devices !! _); [|cbn; lia].
  destruct (_ && _); cbn; lia.
Qed.

Lemma plan_blocks :
  exists l1 l2 l3 : list SyncAction,
    plan = l1 ++ l2 ++ l3
    /\ Forall (fun a => actionType a = Move \/ actionType a = Deactivate) l1
    /\ sublist (map currentUser l1) (map Some users)
    /\ Forall (fun a => actionType a = Create) l2
    /\ sublist (map student l2) students
    /\ Forall (fun a => actionType a = MoveDevice) l3
    /\ sublist (map student l3) students.
Proof.
  set (kept := fun a : SyncAction => keeps config (actionType a)).
  set (A := flat_map (userActions baseStudentOU now byEmail byId) users).
  set (B := flat_map (studentActions baseStudentOU now (processed users))
              students).
  set (C := flat_map (deviceActions baseStudentOU now devices) students).
  assert (plan = List.filter kept A ++ List.filter kept B
                 ++ List.filter kept C) as Hplan.
  { unfold plan. rewrite determineActions_passes, modeFilter_keeps.
    unfold fullPlan. now rewrite !List.filter_app. }
  assert (Forall (fun a => actionType a = Move \/ actionType a = Deactivate)
            (List.filter kept A)) as H1.
  { apply Forall_forall. intros a [Ha _]%list_elem_of_In%filter_In.
    apply in_flat_map in Ha as (u & _ & Ha).
    now apply userActions_currentUser in Ha as [_ Ha]. }
  assert (Forall (fun a => actionType a = Create) (List.filter kept B))
    as H2.
  { apply Forall_forall. intros a [Ha _]%list_elem_of_In%filter_In.
    apply in_flat_map in Ha as (s & _ & ->%studentActions_In).
    reflexivity. }
  assert (Forall (fun a => actionType a = MoveDevice) (List.filter kept C))
    as H3.
  { apply Forall_forall. intros a [Ha _]%list_elem_of_In%filter_In.
    apply in_flat_map in Ha as (s & _ & Ha).
    now apply deviceActions_In in Ha as (Ha & _). }
  assert (sublist (map currentUser (List.filter kept A)) (map Some users))
    as S1.
  { etransitivity; [apply sublist_filter_map|].
    unfold A. rewrite flat_map_concat_map.
    clear. induction users as [|u l IH]; [constructor|].
    cbn [map concat]. rewrite map_app.
    pose proof (userActions_length baseStudentOU now students u) as Hlen.
    pose proof (userActions_currentUser baseStudentOU now byEmail byId u)
      as Hcur.
    fold byEmail byId in Hlen.
    destruct (userActions baseStudentOU now byEmail byId u) as [|a [|b r]];
      cbn [List.length] in Hlen; try lia.
    - cbn. now apply sublist_cons.
    - cbn. destruct (Hcur a (or_introl eq_refl)) as [-> _].
      now apply sublist_skip. }
  assert (sublist (map student (List.filter kept B)) students) as S2.
  { etransitivity; [apply sublist_filter_map|].
    apply sublist_flat_map_singleton.
    - intros s a ->%studentActions_In. reflexivity.
    - intros s. apply studentActions_length. }
  assert (sublist (map student (List.filter kept C)) students) as S3.
  { etransitivity; [apply sublist_filter_map|].
    apply sublist_flat_map_singleton.
    - intros s a (_ & _ & E & _)%deviceActions_In. exact E.
    - intros s. apply deviceActions_length. }
  exists (List.filter kept A), (List.filter kept B), (List.filter kept C).
  repeat (split; [assumption|]). assumption.
Qed.

Lemma plan_bound :
  Forall (fun a => actionType a <> Update) plan
  /\ (List.length plan <= List.length users + 2 * List.length students)%nat.
Proof.
  destruct plan_blocks as (l1 & l2 & l3 & -> & H1 & S1 & H2 & S2 & H3 & S3).
  split.
  - rewrite !Forall_app. repeat split;
      (eapply Forall_impl; [eassumption|]); cbv beta;
      intros a E; try destruct E as [E|E]; rewrite E; discriminate.
  - rewrite !length_app. apply sublist_length in S1, S2, S3.
    rewrite !length_map in S1, S2, S3.
    rewrite (length_map Some users) in S1. lia.
Qed.

(** X5. A plan falls into three consecutive parts: the moves and
    deactivations, whose accounts follow the order of the account snapshot
    with at most one action per listed account; the creations, whose
    records follow the order of the roster with at most one per record; and
    the device moves, likewise in roster order. It holds no [update]
    action, and no more than one action per account plus two per roster
    record. *)
Theorem X5_order_and_size_of_a_plan :
  exists l1 l2 l3 : list SyncAction,
    plan = l1 ++ l2 ++ l3
    /\ Forall (fun a => actionType a = Move \/ actionType a = Deactivate) l1
    /\ sublist (map currentUser l1) (map Some users)
    /\ Forall (fun a => actionType a = Create) l2
    /\ sublist (map student l2) students
    /\ Forall (fun a => actionType a = MoveDevice) l3
    /\ sublist (map student l3) students
    /\ Forall (fun a => actionType a <> Update) plan
    /\ (List.length plan
        <= List.length users + 2 * List.length students)%nat.
Proof.
  destruct plan_blocks as (l1 & l2 & l3 & E & H1 & S1 & H2 & S2 & H3 & S3).
  exists l1, l2, l3. repeat (split; [assumption|]).
  rewrite E. split.
  - rewrite !Forall_app. repeat split.
    + eapply Forall_impl; [exact H1|]. cbv beta.
      intros a [Ea|Ea]; rewrite Ea; discriminate.
    + eapply Forall_impl; [exact H2|]. cbv beta.
      intros a Ea; rewrite Ea; discriminate.
    + eapply Forall_impl; [exact H3|]. cbv beta.
      intros a Ea; rewrite Ea; discriminate.
  - rewrite !length_app.
    pose proof (sublist_length _ _ S1) as L1.
    pose proof (sublist_length _ _ S2) as L2.
    pose proof (sublist_length _ _ S3) as L3.
    rewrite !length_map in L1, L2, L3.
    rewrite (length_map Some users) in L1. lia.
Qed.

(** X9. The mode flags filter the plan of the unrestricted mode, and
    [createOnly] comes first: when it is set the plan is the creations of
    the unrestricted plan whatever the other two flags say; otherwise
    [moveOnly] decides, and only then [deactivateOnly]. *)
Theorem X9_mode_flags_filter_the_unrestricted_plan :
  let full :=
    determineActions (unrestricted config) baseStudentOU now students users
      devices in
  (truthyb (createOnly config) = true ->
   plan = List.filter (isType Create) full)
  /\ (truthyb (createOnly config) = false ->
      truthyb (moveOnly config) = true ->
      plan = List.filter (isType Move) full)
  /\ (truthyb (createOnly config) = false ->
      truthyb (moveOnly config) = false ->
      truthyb (deactivateOnly config) = true ->
      plan = List.filter (isType Deactivate) full)
  /\ (truthyb (createOnly config) = false ->
      truthyb (moveOnly config) = false ->
      truthyb (deactivateOnly config) = false ->
      plan = full).
Proof.
  cbv zeta. unfold plan. rewrite !determineActions_passes.
  unfold modeFilter. cbn [createOnly moveOnly deactivateOnly unrestricted
                          truthyb].
  repeat split; intros; repeat match goal with
                               | H : truthyb _ = _ |- _ => rewrite H; clear H
                               end; reflexivity.
Qed.

End PlanContents.

(** ** The identity matcher *)

Lemma indexStudents_snd (students : list Student)
    (byEmail byId : gmap string Student) :
  snd (foldl
         (fun '(studentsByEmail, studentsByStudentId) student =>
            ((match email student with
              | Some e =>
                  if truthy (Some e)
                  then <[toLowerCase e := student]> studentsByEmail
                  else studentsByEmail
              | None => studentsByEmail
              end),
             <[studentId student := student]> studentsByStudentId))
         (byEmail, byId) students)
  = foldl (fun m s => match Some (studentId s) with
                      | Some k => <[k := s]> m
                      | None => m
                      end) byId students.
Proof.
  revert byEmail byId.
  induction students as [|s l IH]; intros byEmail byId; [reflexivity|].
  cbn [foldl]. now rewrite IH.
Qed.

Lemma index_lookup_Some (key : Student -> option string)
    (l : list Student) (m : gmap string Student) (k : string) (s : Student) :
  foldl (fun m s => match key s with
                    | Some k => <[k := s]> m
                    | None => m
                    end) m l !! k = Some s ->
  m !! k = Some s \/ (In s l /\ key s = Some k).
Proof.
  revert m. induction l as [|s0 l IH]; intros m H; [now left|].
  cbn [foldl] in H. apply IH in H as [H|[H1 H2]].
  - destruct (key s0) as [k0|] eqn:E; [|now left].
    destruct (decide (k0 = k)) as [->|Hne].
    + rewrite lookup_insert_eq in H. injection H as ->.
      right. split; [now left|exact E].
    + rewrite lookup_insert_ne in H by exact Hne. now left.
  - right. split; [now right|exact H2].
Qed.

Lemma findInExternalIds_Some (ids : list ExternalId)
    (byId : gmap string Student) (s : Student) :
  findInExternalIds ids byId = Some s ->
  exists x, In x ids /\ extType x = "custom"
            /\ extCustomType x = Some "student_id"
            /\ byId !! extValue x = Some s.
Proof.
  induction ids as [|x ids IH]; [discriminate|].
  cbn [findInExternalIds].
  destruct (String.eqb_spec (extType x) "custom") as [Et|];
    [|intros (y & ? & ?)%IH; exists y; split; [now right|assumption]].
  destruct (bool_decide_reflect (extCustomType x = Some "student_id"))
    as [Ec|]; cbn [andb];
    [|intros (y & ? & ?)%IH; exists y; split; [now right|assumption]].
  destruct (byId !! extValue x) as [s'|] eqn:El.
  - intros [= ->]. exists x. split; [now left|]. auto.
  - intros (y & ? & ?)%IH. exists y. split; [now right|assumption].
Qed.

(** X6. The roster record that the matcher gives for an account is a record
    of the roster, and either its address is the address of the account
    (compared without regard to case), or no record has that address and
    the account carries an external identifier of type [custom] /
    [student_id] whose value is the identifier of the record. *)
Theorem X6_matched_record_is_in_the_roster
    (students : list Student) (u : GoogleUser) (s : Student) :
  matchStudent (fst (indexStudents students)) (snd (indexStudents students)) u
  = Some s ->
  In s students
  /\ (emailKey s = Some (toLowerCase (primaryEmail u))
      \/ (fst (indexStudents students) !! toLowerCase (primaryEmail u) = None
          /\ exists ids x,
               externalIds u = Some ids /\ In x ids
               /\ extType x = "custom"
               /\ extCustomType x = Some "student_id"
               /\ extValue x = studentId s)).
Proof.
  unfold matchStudent.
  destruct (fst (indexStudents students) !! toLowerCase (primaryEmail u))
    as [s'|] eqn:El.
  - intros [= ->]. unfold indexStudents in El.
    rewrite indexStudents_fst in El.
    apply index_lookup_Some in El as [El|[H1 H2]];
      [rewrite lookup_empty in El; discriminate El|].
    auto.
  - unfold findStudentByExternalId.
    destruct (externalIds u) as [ids|] eqn:Ei; [|discriminate].
    intros (x & Hx & Ht & Hc & Hl)%findInExternalIds_Some.
    unfold indexStudents in Hl. rewrite indexStudents_snd in Hl.
    apply (index_lookup_Some (fun s => Some (studentId s))) in Hl
      as [Hl|[H1 H2]];
      [rewrite lookup_empty in Hl; discriminate Hl|].
    injection H2 as H2.
    split; [exact H1|]. right. split; [reflexivity|].
    exists ids, x. auto.
Qed.

(** X6 on an account that is found through its student identifier. *)
Lemma X6_witness :
  In janeRoe [johnEnrolled; janeRoe]
  /\ (emailKey janeRoe = Some (toLowerCase (primaryEmail janeByIdentifier))
      \/ (fst (indexStudents [johnEnrolled; janeRoe])
            !! toLowerCase (primaryEmail janeByIdentifier) = None
          /\ exists ids x,
               externalIds janeByIdentifier = Some ids /\ In x ids
               /\ extType x = "custom"
               /\ extCustomType x = Some "student_id"
               /\ extValue x = studentId janeRoe)).
Proof.
  apply (X6_matched_record_is_in_the_roster [johnEnrolled; janeRoe]
           janeByIdentifier janeRoe).
  reflexivity.
Defined.

(** * The executor on the actions of a plan *)

Lemma countResults_none (p : SyncResult -> bool) (rs : list SyncResult) :
  Forall (fun r => p r = false) rs -> countResults p rs = 0.
Proof.
  intros H. unfold countResults.
  rewrite (filter_none p rs); [reflexivity|].
  intros r Hr. rewrite Forall_forall in H. apply H.
  apply list_elem_of_In. exact Hr.
Qed.

Lemma simulateActions_app (baseStudentOU : string) (now : JsDate)
    (students : list Student) (acc : list SyncAction) :
  foldl (simulateStep baseStudentOU now) acc students
  = acc ++ flat_map (simulateStep baseStudentOU now []) students.
Proof.
  revert acc. induction students as [|s l IH]; intros acc.
  - cbn. now rewrite app_nil_r.
  - cbn [foldl flat_map]. rewrite IH, app_assoc. f_equal.
    unfold simulateStep. cbv zeta.
    destruct (isActive _); [destruct (truthy _)|];
      cbn [app]; rewrite <- ?app_assoc; reflexivity.
Qed.

Lemma simulateActions_length (baseStudentOU : string) (now : JsDate)
    (students : list Student) :
  List.length (simulateActions baseStudentOU now students)
  = (List.length students
     + List.length (List.filter (hasDeviceToSimulate now) students))%nat.
Proof.
  unfold simulateActions. rewrite simulateActions_app. cbn [app].
  induction students as [|s l IH]; [reflexivity|].
  cbn [flat_map List.filter]. rewrite length_app, IH.
  unfold simulateStep, hasDeviceToSimulate. cbv zeta.
  destruct (isActive _); [destruct (truthy _)|]; cbn; lia.
Qed.

Lemma executeLoop_stuck (env : Env) (config : Config)
    (actions : list SyncAction) (fuel : nat) :
  maxConcurrentRequests config <= 0 ->
  actions <> [] ->
  forall (i : Z) (results : list SyncResult) (w : World),
    i <= 0 ->
    executeLoop fuel env config actions i results w = None.
Proof.
  intros Hb Hne. induction fuel as [|fuel IH]; intros i results w Hi;
    [reflexivity|].
  cbn [executeLoop]. cbv zeta.
  assert (0 < Z.of_nat (List.length actions)) as Hlen
      by (destruct actions; [congruence|cbn [List.length]; lia]).
  destruct (Z.ltb_spec i (Z.of_nat (List.length actions))) as [_|Hge];
    [|lia].
  destruct (executeBatch env config _ w) as [batchResults w'].
  apply IH. lia.
Qed.

Section PlanExecution.

Variables (env : Env) (config : Config) (baseStudentOU : string).
Variables (now : JsDate) (students : list Student) (users : list GoogleUser).
Variable devices : gmap string ChromeDevice.

Let plan : list SyncAction :=
  determineActions config baseStudentOU now students users devices.

Lemma plan_action_cases (a : SyncAction) :
  In a plan ->
  (exists u, In u users /\ currentUser a = Some u
             /\ (actionType a = Move \/ actionType a = Deactivate))
  \/ (exists s, In s students
                /\ a = createAction s (getStudentOUPath baseStudentOU now s)
                /\ truthy (email s) = true)
  \/ (exists s d k, In s students /\ serialKey s = Some k
                    /\ devices !! k = Some d
                    /\ a = moveDeviceAction baseStudentOU now s d).
Proof.
  intros [_ Ha]%In_plan. apply In_fullPlan in Ha as [Ha|[Ha|Ha]].
  - destruct Ha as (u & Hu & Ha). left. exists u. split; [exact Hu|].
    exact (userActions_currentUser baseStudentOU now _ _ u a Ha).
  - destruct Ha as (s & Hs & Ha). right. left. exists s.
    split; [exact Hs|].
    rewrite studentActions_spec in Ha.
    destruct (isActive _); [|destruct Ha].
    destruct (truthy (email s)); [|destruct Ha].
    destruct (negb _); [|destruct Ha].
    destruct Ha as [<-|[]]. split; reflexivity.
  - destruct Ha as (s & Hs & Ha). right. right.
    rewrite deviceActions_eq in Ha.
    destruct (serialKey s) as [k|] eqn:Ek; [|destruct Ha].
    destruct (devices !! k) as [d|] eqn:Ed; [|destruct Ha].
    destruct (_ && _); [|destruct Ha].
    destruct Ha as [<-|[]]. exists s, d, k.
    split; [exact Hs|]. split; [exact Ek|]. split; [exact Ed|reflexivity].
Qed.

(** X10. Carrying out a [move] or a [deactivate] action of a plan makes
    exactly one request: to move, respectively to suspend, the account of
    the snapshot from which the action was planned, under its primary
    address. The result succeeds when the request is accepted and carries
    the message of the rejection otherwise; the handler never fails for
    want of an account. *)
Theorem X10_planned_account_actions_make_one_request
    (a : SyncAction) (w : World) :
  In a plan ->
  actionType a = Move \/ actionType a = Deactivate ->
  exists u : GoogleUser,
    In u users /\ currentUser a = Some u
    /\ let call :=
         match actionType a with
         | Move => ApiMoveUserToOU (primaryEmail u) (targetOUPath a)
         | _ => ApiSuspendUser (primaryEmail u)
         end in
       executeAction env config a w
       = (resultOfReply a (respond env (trace w) call), afterCall w call).
Proof.
  intros Ha Ht.
  destruct (plan_action_cases a Ha) as [(u & Hu & Hc & _)|[H|H]].
  - exists u. split; [exact Hu|]. split; [exact Hc|]. cbv zeta.
    unfold executeAction, moveUser, deactivateUser, callApi, afterCall.
    destruct Ht as [Ht|Ht]; rewrite Ht, Hc;
      destruct (respond env (trace w) _); reflexivity.
  - destruct H as (s & _ & -> & _). destruct Ht as [Ht|Ht]; discriminate Ht.
  - destruct H as (s & d & k & _ & _ & _ & ->).
    destruct Ht as [Ht|Ht]; discriminate Ht.
Qed.


(** X12. A [move_device] action of a plan carries the device entry that the
    snapshot holds under the serial number of the record. Its one request
    names the device by the identifier of that entry and asks for the
    derived path of the record; when the entry has no identifier the action
    fails without a request. *)
Theorem X12_planned_device_move_names_the_device_id
    (a : SyncAction) (w : World) :
  In a plan ->
  actionType a = MoveDevice ->
  exists (s : Student) (d : ChromeDevice) (k : string),
    In s students /\ serialKey s = Some k /\ devices !! k = Some d
    /\ a = moveDeviceAction baseStudentOU now s d
    /\ (forall id,
          deviceId d = Some id -> id <> "" ->
          let call :=
            ApiMoveChromeDeviceToOU id
              (getStudentOUPath baseStudentOU now s) in
          executeAction env config a w
          = (resultOfReply a (respond env (trace w) call), afterCall w call))
    /\ (truthy (deviceId d) = false ->
        executeAction env config a w
        = ({| success := false; action := a;
              error :=
                Some "Current device or device ID not provided for move device action" |},
           w)).
Proof.
  intros Ha Ht.
  destruct (plan_action_cases a Ha) as [(u & _ & _ & [H|H])|[H|H]];
    try congruence.
  - destruct H as (s & _ & -> & _). discriminate Ht.
  - destruct H as (s & d & k & Hs & Hk & Hd & ->).
    exists s, d, k. do 4 (split; [auto; fail|]).
    unfold executeAction, moveDevice.
    cbn [actionType moveDeviceAction currentDevice targetOUPath].
    split.
    + intros id Hid Hne. cbv zeta. rewrite Hid. cbn [truthy orElse].
      apply String.eqb_neq in Hne. rewrite Hne. cbn [negb].
      unfold callApi, afterCall.
      destruct (respond env (trace w) _); reflexivity.
    + intros Hf. destruct (deviceId d) as [id|]; [|reflexivity].
      rewrite Hf. reflexivity.
Qed.

(** X7. With a positive batch size, [sync] returns a summary as soon as the
    iteration bound exceeds the number of listed accounts plus twice the
    number of roster records, whatever the directory answers. That sum
    bounds [totalProcessed], and the [updated] counter stays at zero, since
    no plan holds an [update] action. *)
Theorem X7_sync_returns_within_a_roster_bound
    (fuel : nat) (w : World) :
  0 < maxConcurrentRequests config ->
  (List.length users + 2 * List.length students < fuel)%nat ->
  exists (s : SyncSummary) (w' : World),
    sync fuel env config baseStudentOU now students (Ok (users, devices)) w
    = Some (Ok s, w')
    /\ updated s = 0
    /\ Forall (fun r => actionType (action r) <> Update) (results s)
    /\ 0 <= totalProcessed s
       <= Z.of_nat (List.length users + 2 * List.length students).
Proof.
  intros Hb Hfuel.
  destruct (dryRun config) eqn:Edry.
  - unfold sync. rewrite Edry. cbv zeta. eexists _, w.
    split; [reflexivity|]. cbn [updated results totalProcessed emptySummary].
    split; [reflexivity|]. split; [constructor|].
    rewrite simulateActions_length.
    pose proof (filter_length_le (hasDeviceToSimulate now) students).
    lia.
  - destruct (plan_bound config baseStudentOU now students users devices)
      as (Hno & Hlen).
    fold plan in Hno, Hlen.
    pose proof (sync_live fuel env config baseStudentOU now students users
                  devices w Edry Hb) as Hsync.
    cbv zeta in Hsync. fold plan in Hsync. rewrite Hsync by lia. clear Hsync.
    assert (forall w0,
              let s := foldl tally emptySummary
                         (fst (executeBatch env config plan w0)) in
              updated s = 0
              /\ Forall (fun r => actionType (action r) <> Update) (results s)
              /\ 0 <= totalProcessed s
                 <= Z.of_nat (List.length users + 2 * List.length students))
      as Hrun.
    { intros w0. cbv zeta.
      destruct (tally_counts (fst (executeBatch env config plan w0))
                  emptySummary)
        as (Hres & Htot & _ & _ & _ & _ & Hupd).
      cbv zeta in Hres, Htot, Hupd.
      cbn [results totalProcessed updated emptySummary app] in Hres, Htot, Hupd.
      assert (Forall (fun r => actionType (action r) <> Update)
                (fst (executeBatch env config plan w0))) as Hty.
      { pose proof (executeBatch_actions env config plan w0) as Hact.
        apply Forall_forall. intros r Hr.
        assert (In (action r) (map (actionAsExecuted config) plan)) as Hin.
        { rewrite <- Hact. apply in_map. apply list_elem_of_In. exact Hr. }
        apply in_map_iff in Hin as (a & Ea & Hin).
        rewrite <- Ea. rewrite Forall_forall in Hno.
        apply list_elem_of_In, Hno in Hin.
        unfold actionAsExecuted. destruct (actionType a) eqn:Eq;
          cbn [setStudent actionType]; congruence. }
      rewrite Hupd, Hres, Htot. split; [|split; [exact Hty|]].
      - apply countResults_none. eapply Forall_impl; [exact Hty|].
        intros r Hr. unfold succeededAs. cbv beta in Hr.
        rewrite bool_decide_eq_false_2 by exact Hr.
        apply andb_false_r.
      - pose proof (executeBatch_length env config plan w0) as Hl. lia. }
    destruct (_ <? _).
    + destruct (confirmBulkDeactivation env (trace w) _).
      * eexists _, _. split; [reflexivity|]. apply Hrun.
      * eexists _, _. split; [reflexivity|].
        cbn [updated results totalProcessed emptySummary].
        split; [reflexivity|]. split; [constructor|]. lia.
    + eexists _, _. split; [reflexivity|]. apply Hrun.
Qed.

(** X13. With a batch size of zero or less the executor never returns on a
    plan that is not empty: the index of its loop does not advance past the
    start of the array, whatever the iteration bound. A live [sync] whose
    plan is not empty and is not stopped at the confirmation prompt (the
    confirmation is not asked for, or it is asked for and granted) does not
    return either. *)
Theorem X13_no_progress_without_a_positive_batch_size
    (actions : list SyncAction) (w : World) :
  maxConcurrentRequests config <= 0 ->
  actions <> [] ->
  (forall fuel, executeActions fuel env config actions w = None)
  /\ (actions = plan ->
      dryRun config = false ->
      (requireConfirmationThreshold config
       < Z.of_nat (List.length (List.filter (isType Deactivate) plan)) ->
       confirmBulkDeactivation env (trace w)
         (Z.of_nat (List.length (List.filter (isType Deactivate) plan)))
       = true) ->
      forall fuel,
        sync fuel env config baseStudentOU now students
          (Ok (users, devices)) w = None).
Proof.
  intros Hb Hne.
  assert (forall fuel w0, executeActions fuel env config actions w0 = None)
    as Hstuck.
  { intros fuel w0. unfold executeActions.
    apply executeLoop_stuck; [exact Hb|exact Hne|lia]. }
  split; [intros fuel; apply Hstuck|].
  intros -> Edry Hgranted fuel. unfold sync. rewrite Edry. cbv zeta.
  fold plan.
  destruct (Z.ltb_spec (requireConfirmationThreshold config)
              (Z.of_nat (List.length (List.filter (isType Deactivate) plan))))
    as [Hlt|_].
  - rewrite (Hgranted Hlt). cbn [negb]. now rewrite Hstuck.
  - now rewrite Hstuck.
Qed.

End PlanExecution.

(** X8. A dry run returns at once and leaves the world as it was: no
    request, no prompt, no random draw, whether or not the directory could
    have been read. Its summary is empty but for [totalProcessed], which
    counts every roster record once and every active record with a device
    serial once more. *)
Theorem X8_dry_run_touches_nothing
    (fuel : nat) (env : Env) (config : Config) (baseStudentOU : string)
    (now : JsDate) (students : list Student)
    (fetched : Result (list GoogleUser * gmap string ChromeDevice))
    (w : World) :
  dryRun config = true ->
  exists s : SyncSummary,
    sync fuel env config baseStudentOU now students fetched w
    = Some (Ok s, w)
    /\ totalProcessed s
       = Z.of_nat (List.length students
                   + List.length
                       (List.filter (hasDeviceToSimulate now) students))
    /\ created s = 0 /\ moved s = 0 /\ deactivated s = 0 /\ updated s = 0
    /\ errors s = 0 /\ results s = [].
Proof.
  intros Edry. unfold sync. rewrite Edry. cbv zeta.
  eexists. split; [reflexivity|].
  cbn [totalProcessed created moved deactivated updated errors results
       emptySummary].
  rewrite simulateActions_length. repeat split; reflexivity.
Qed.

(** ** The further properties on the sample data *)

Lemma X10_witness :
  let call :=
    ApiMoveUserToOU "jane.roe2031@school.edu"
      "/org/student/middle/2031/jane.roe" in
  executeAction quietEnv (schoolConfig None)
    (moveAction "/org/student" september2024 janeRoe janeMisplaced)
    initialWorld
  = (resultOfReply
       (moveAction "/org/student" september2024 janeRoe janeMisplaced) None,
     afterCall initialWorld call).
Proof.
  destruct (X10_planned_account_actions_make_one_request quietEnv
              (schoolConfig None) "/org/student" september2024 smallRoster
              smallSnapshot janeDevice
              (moveAction "/org/student" september2024 janeRoe janeMisplaced)
              initialWorld)
    as (u & _ & Hc & E).
  - vm_compute. left. reflexivity.
  - left. reflexivity.
  - injection Hc as <-. exact E.
Defined.


Lemma X12_witness :
  let a :=
    moveDeviceAction "/org/student" september2024 janeRoe
      (deviceAt "CHR002345678" "/org/student") in
  executeAction quietEnv (schoolConfig None) a initialWorld
  = (resultOfReply a None,
     afterCall initialWorld
       (ApiMoveChromeDeviceToOU "id-CHR002345678"
          "/org/student/middle/2031/jane.roe")).
Proof.
  cbv zeta.
  destruct (X12_planned_device_move_names_the_device_id quietEnv
              (schoolConfig None) "/org/student" september2024 smallRoster
              smallSnapshot janeDevice
              (moveDeviceAction "/org/student" september2024 janeRoe
                 (deviceAt "CHR002345678" "/org/student"))
              initialWorld)
    as (s & d & k & _ & _ & _ & Ha & Hid & _).
  - vm_compute. do 3 right. left. reflexivity.
  - reflexivity.
  - assert (s = janeRoe /\ d = deviceAt "CHR002345678" "/org/student")
      as [-> ->] by (split; now injection Ha).
    apply (Hid "id-CHR002345678"); [reflexivity|discriminate].
Defined.

Lemma X7_witness :
  exists (s : SyncSummary) (w' : World),
    sync 7 quietEnv (schoolConfig None) "/org/student" september2024
      smallRoster (Ok (smallSnapshot, janeDevice)) initialWorld
    = Some (Ok s, w')
    /\ updated s = 0.
Proof.
  destruct (X7_sync_returns_within_a_roster_bound quietEnv
              (schoolConfig None) "/org/student" september2024 smallRoster
              smallSnapshot janeDevice 7 initialWorld)
    as (s & w' & E & Hu & _).
  - reflexivity.
  - cbn. lia.
  - exists s, w'. split; [exact E|exact Hu].
Defined.

(** X13 on a run that asks for no confirmation, and on a run whose
    confirmation is asked for and granted. *)
Lemma X13_witness :
  sync 1000 quietEnv zeroBatchConfig "/org/student" september2024
    smallRoster (Ok (smallSnapshot, janeDevice)) initialWorld
  = None
  /\ requireConfirmationThreshold zeroBatchStrictConfig
     < Z.of_nat
         (List.length
            (List.filter (isType Deactivate)
               (determineActions zeroBatchStrictConfig "/org/student"
                  september2024 [] [annAccount] ∅)))
  /\ sync 1000 consentingEnv zeroBatchStrictConfig "/org/student"
       september2024 [] (Ok ([annAccount], ∅)) initialWorld
     = None.
Proof.
  split; [|split; [vm_compute; reflexivity|]].
  - destruct (X13_no_progress_without_a_positive_batch_size quietEnv
                zeroBatchConfig "/org/student" september2024 smallRoster
                smallSnapshot janeDevice
                (determineActions zeroBatchConfig "/org/student" september2024
                   smallRoster smallSnapshot janeDevice)
                initialWorld)
      as [_ H].
    + cbn. lia.
    + vm_compute. discriminate.
    + apply H; [reflexivity|reflexivity|vm_compute; discriminate].
  - destruct (X13_no_progress_without_a_positive_batch_size consentingEnv
                zeroBatchStrictConfig "/org/student" september2024 []
                [annAccount] ∅
                (determineActions zeroBatchStrictConfig "/org/student"
                   september2024 [] [annAccount] ∅)
                initialWorld)
      as [_ H].
    + cbn. lia.
    + vm_compute. discriminate.
    + apply H; [reflexivity|reflexivity|intros _; reflexivity].
Defined.

Lemma X8_witness :
  exists s : SyncSummary,
    sync 0 quietEnv dryRunConfig "/org/student" september2024
      [janeRoe; johnEnrolled; classOf2024] (Throw "directory unreachable")
      initialWorld
    = Some (Ok s, initialWorld)
    /\ totalProcessed s = 4.
Proof.
  destruct (X8_dry_run_touches_nothing 0 quietEnv dryRunConfig "/org/student"
              september2024 [janeRoe; johnEnrolled; classOf2024]
              (Throw "directory unreachable") initialWorld)
    as (s & E & Ht & _).
  - reflexivity.
  - exists s. split; [exact E|]. rewrite Ht. reflexivity.
Defined.

(** * Passwords *)

Lemma string_append_assoc (a b c : string) :
  (a +:+ b) +:+ c = a +:+ (b +:+ c).
Proof.
  induction a as [|x a IH]; [reflexivity|].
  rewrite !append_String, IH. reflexivity.
Qed.

Lemma string_append_nil_r (a : string) : a +:+ "" = a.
Proof.
  induction a as [|x a IH]; [reflexivity|].
  rewrite append_String, IH. reflexivity.
Qed.

Lemma string_length_append (a b : string) :
  String.length (a +:+ b) = (String.length a + String.length b)%nat.
Proof.
  induction a as [|x a IH]; [reflexivity|].
  rewrite append_String. cbn [String.length]. now rewrite IH.
Qed.

Lemma string_length_zero (a : string) : String.length a = 0%nat -> a = "".
Proof. destruct a; [reflexivity|discriminate]. Qed.

Lemma charAt_member (s : string) (i : nat) :
  (i < String.length s)%nat ->
  exists c, charAt s i = String c "" /\ In c (chars s).
Proof.
  revert i. induction s as [|x s IH]; intros i Hi;
    [cbn [String.length] in Hi; lia|].
  destruct i as [|i]; cbn [charAt].
  - exists x. split; [reflexivity|now left].
  - cbn [String.length] in Hi.
    destruct (IH i) as (c & E & Hc); [lia|].
    exists c. split; [exact E|now right].
Qed.

Lemma drawChars_spec (env : Env) (set : string) (n : nat) :
  set <> "" ->
  forall (password : string) (w : World),
  exists drawn : string,
    drawChars env set n password w
    = (password +:+ drawn, mkWorld (trace w) (draws w + n))
    /\ String.length drawn = n
    /\ Forall (fun c => In c (chars set)) (chars drawn).
Proof.
  intros Hset. induction n as [|n IH]; intros password w.
  - exists "". cbn [drawChars]. rewrite string_append_nil_r, Nat.add_0_r.
    destruct w; repeat split; constructor.
  - cbn [drawChars]. cbv zeta.
    destruct (charAt_member set
                (mathRandom env (draws w) mod String.length set))
      as (c & Ec & Hc).
    { apply Nat.mod_upper_bound. intros H0.
      apply Hset, string_length_zero, H0. }
    rewrite Ec.
    destruct (IH (password +:+ String c "")
                (mkWorld (trace w) (S (draws w))))
      as (drawn & E & Hlen & Hall).
    exists (String c drawn). rewrite E. cbn [trace draws].
    rewrite string_append_assoc. cbn [String.length].
    split; [f_equal; f_equal; lia|].
    split; [now rewrite Hlen|].
    constructor; assumption.
Qed.

(** X14. When at least one character class is enabled, the random strategy
    returns a password whose characters all come from the enabled classes
    and whose length is the configured one, twelve when none or zero is
    configured; it draws one random number per character and asks nothing
    of the directory. *)
Theorem X14_random_password_length_and_alphabet
    (env : Env) (pc : PasswordConfig) (w : World) :
  buildCharacterSet pc <> "" ->
  exists password : string,
    generateRandomPassword env pc w
    = (Ok password,
       mkWorld (trace w) (draws w + String.length password))
    /\ Forall (fun c => In c (chars (buildCharacterSet pc))) (chars password)
    /\ (pwLength pc = None \/ pwLength pc = Some 0 ->
        String.length password = 12%nat)
    /\ (forall n, pwLength pc = Some n -> n <> 0 ->
        String.length password = Z.to_nat n).
Proof.
  intros Hset. unfold generateRandomPassword. cbv zeta.
  destruct (Nat.eqb_spec (String.length (buildCharacterSet pc)) 0)
    as [H0|_]; [elim Hset; apply string_length_zero, H0|].
  set (n := match pwLength pc with
            | Some n => if n =? 0 then 12 else n
            | None => 12
            end).
  destruct (drawChars_spec env (buildCharacterSet pc) (Z.to_nat n) Hset "" w)
    as (drawn & E & Hlen & Hall).
  rewrite E. change ("" +:+ drawn) with drawn.
  exists drawn. rewrite Hlen. split; [reflexivity|]. split; [exact Hall|].
  subst n. split.
  - intros [->| ->]; reflexivity.
  - intros m -> Hm. apply Z.eqb_neq in Hm. rewrite Hm. reflexivity.
Qed.

Lemma X14_witness :
  exists password : string,
    generateRandomPassword quietEnv randomSixteen initialWorld
    = (Ok password, mkWorld [] 16)
    /\ String.length password = 16%nat.
Proof.
  destruct (X14_random_password_length_and_alphabet quietEnv randomSixteen
              initialWorld)
    as (password & E & _ & _ & Hlen).
  - discriminate.
  - specialize (Hlen 16 eq_refl). rewrite Hlen in E by discriminate.
    exists password. split; [exact E|]. apply Hlen. discriminate.
Defined.

Lemma substring_split (s : string) (k : nat) :
  (k <= String.length s)%nat ->
  exists pre, s = pre +:+ substring s k /\ String.length pre = k.
Proof.
  revert s. induction k as [|k IH]; intros s Hk.
  - exists "". destruct s; split; reflexivity.
  - destruct s as [|x s]; [cbn [String.length] in Hk; lia|].
    cbn [String.length] in Hk. destruct (IH s) as (pre & E & Hl); [lia|].
    exists (String x pre). cbn [substring String.length].
    rewrite append_String, <- E, Hl. split; reflexivity.
Qed.

Lemma sliceFromEnd_split (n : nat) (s : string) :
  exists pre,
    s = pre +:+ sliceFromEnd n s
    /\ String.length (sliceFromEnd n s) = Nat.min n (String.length s).
Proof.
  unfold sliceFromEnd.
  destruct (substring_split s (String.length s - n)) as (pre & E & Hl);
    [lia|].
  exists pre. split; [exact E|].
  pose proof (f_equal String.length E) as Hlen.
  rewrite string_length_append, Hl in Hlen. lia.
Qed.

Lemma repeatChar_add (c : ascii) (m n : nat) :
  repeatChar c (m + n) = repeatChar c m +:+ repeatChar c n.
Proof.
  induction m as [|m IH]; [reflexivity|].
  cbn [Nat.add repeatChar]. rewrite append_String, IH. reflexivity.
Qed.

Lemma repeatChar_length (c : ascii) (n : nat) :
  String.length (repeatChar c n) = n.
Proof. induction n as [|n IH]; [reflexivity|]. cbn. now rewrite IH. Qed.

Lemma allChars_repeatChar (P : ascii -> bool) (c : ascii) (n : nat) :
  P c = true -> allChars P (repeatChar c n) = true.
Proof.
  intros Hc. induction n as [|n IH]; [reflexivity|].
  cbn [repeatChar allChars]. now rewrite Hc, IH.
Qed.

Lemma lastFour_spec (digits : string) :
  allChars isDigit digits = true ->
  exists pre,
    String.length (padStart 4 "0" (sliceFromEnd 4 digits)) = 4%nat
    /\ allChars isDigit (padStart 4 "0" (sliceFromEnd 4 digits)) = true
    /\ "0000" +:+ digits = pre +:+ padStart 4 "0" (sliceFromEnd 4 digits).
Proof.
  intros Hd.
  destruct (sliceFromEnd_split 4 digits) as (pre & E & Hl).
  set (t := sliceFromEnd 4 digits) in *.
  assert (allChars isDigit t = true) as Ht.
  { rewrite E, allChars_append in Hd. now apply andb_prop in Hd as [_ ?]. }
  unfold padStart.
  exists (repeatChar "0" (String.length t) +:+ pre).
  split; [|split].
  - rewrite string_length_append, repeatChar_length. lia.
  - rewrite allChars_append, Ht, allChars_repeatChar; reflexivity.
  - rewrite string_append_assoc.
    pose proof (f_equal String.length E) as Hlen.
    rewrite string_length_append in Hlen. fold t in Hlen.
    destruct (Nat.le_gt_cases 4 (String.length digits)) as [Hge|Hlt].
    + assert (String.length t = 4%nat) as H4 by lia.
      rewrite H4. change (4 - 4)%nat with 0%nat.
      change (repeatChar "0" 0 +:+ t) with t.
      rewrite <- E. reflexivity.
    + assert (pre = "") as -> by (apply string_length_zero; lia).
      change ("" +:+ (repeatChar "0" (4 - String.length t) +:+ t))
        with (repeatChar "0" (4 - String.length t) +:+ t).
      rewrite <- string_append_assoc, <- repeatChar_add.
      replace (String.length t + (4 - String.length t))%nat with 4%nat by lia.
      change ("" +:+ t) with t in E. rewrite <- E. reflexivity.
Qed.

Lemma orElse_orElse (o : option string) (d : string) :
  d <> "" -> orElse (Some (orElse o d)) d = orElse o d.
Proof.
  intros Hd. destruct o as [s|]; cbn [orElse].
  - destruct (String.eqb_spec s "") as [->|Hs].
    + now rewrite eqb_empty_false.
    + now rewrite eqb_empty_false.
  - now rewrite eqb_empty_false.
Qed.

(** X15. Unless the random or the custom strategy is configured, the
    password is the prefix followed by four decimal digits: the last four
    characters of [0000] followed by the digits of the student identifier.
    The prefix is that of the password configuration when its type is
    [prefix_studentid], and [passwordPrefix] when there is no password
    configuration or its type is unknown; an empty or missing prefix is
    [lh00]. Nothing is drawn and nothing is asked of the directory. *)
Theorem X15_prefix_password_shape
    (env : Env) (config : Config) (s : Student) (w : World)
    (prefix : option string) :
  (passwordConfig config = None /\ prefix = passwordPrefix config)
  \/ (exists pc,
        passwordConfig config = Some pc
        /\ ((passwordType pc = prefix_studentid /\ prefix = pwPrefix pc)
            \/ (exists name, passwordType pc = other_type name
                             /\ prefix = passwordPrefix config))) ->
  exists lastFour pre : string,
    generatePassword env config s w
    = (Ok (orElse prefix "lh00" +:+ lastFour), w)
    /\ String.length lastFour = 4%nat
    /\ allChars isDigit lastFour = true
    /\ "0000" +:+ keepChars isDigit (studentId s) = pre +:+ lastFour.
Proof.
  intros H.
  destruct (lastFour_spec (keepChars isDigit (studentId s))
              (allChars_keepChars isDigit _)) as (pre & Hl & Hd & E).
  exists (padStart 4 "0" (sliceFromEnd 4 (keepChars isDigit (studentId s)))),
    pre.
  split; [|auto].
  unfold generatePassword.
  destruct H as [[-> ->]|(pc & -> & [[Ht ->]|(name & Ht & ->)])];
    cbv zeta; rewrite ?Ht;
    cbn [passwordType getDefaultPasswordConfig];
    unfold generatePrefixStudentIdPassword; cbv zeta;
    cbn [pwPrefix getDefaultPasswordConfig];
    rewrite ?orElse_orElse by discriminate; reflexivity.
Qed.

Lemma X15_witness :
  exists lastFour : string,
    generatePassword quietEnv (schoolConfig None) johnDoe initialWorld
    = (Ok ("lh00" +:+ lastFour), initialWorld)
    /\ String.length lastFour = 4%nat.
Proof.
  destruct (X15_prefix_password_shape quietEnv (schoolConfig None) johnDoe
              initialWorld (Some "lh00"))
    as (lastFour & pre & E & Hl & _).
  - left. split; reflexivity.
  - exists lastFour. split; [exact E|exact Hl].
Defined.

(** * Further properties of the organisational units *)

Lemma gradeMapping_In (grade : string) (mapping : SchoolLevel * Z) :
  gradeMapping grade = Some mapping -> In (grade, mapping) gradeTable.
Proof.
  unfold gradeMapping.
  destruct (List.find _ gradeTable) as [[g m]|] eqn:E; [|discriminate].
  cbn [option_map snd]. intros [= <-].
  apply List.find_some in E as [Hin Heq]. cbn [fst] in Heq.
  apply String.eqb_eq in Heq. now subst g.
Qed.

Lemma gradeNumber_le_12 (grade : string) (mapping : SchoolLevel * Z) :
  gradeMapping grade = Some mapping -> -1 <= snd mapping <= 12.
Proof.
  intros H%gradeMapping_In. unfold gradeTable in H. cbn [In] in H.
  repeat (destruct H as [[= <- <-]|H]; [cbn [snd]; lia|]).
  destruct H.
Qed.

(** X16. For a roster record without an explicit status, the status is
    computed from the school year in progress, the one by which the school
    level is chosen: the record is active exactly when its graduation year
    is later than that school year and graduated otherwise, never
    transferred. A record whose graduation year was calculated from a grade
    code of the table on the same date is active. An explicit status is
    returned as it is. *)
Theorem X16_computed_status_follows_the_school_year
    (now : JsDate) (s : Student) :
  (status s = None ->
   (getStudentStatus now s = active
    <-> currentSchoolYear now < graduationYear s)
   /\ (getStudentStatus now s = graduated
       <-> graduationYear s <= currentSchoolYear now)
   /\ getStudentStatus now s <> transferred
   /\ (forall gradeCode,
         calculateGraduationYear gradeCode now = Ok (graduationYear s) ->
         getStudentStatus now s = active))
  /\ (forall explicit, status s = Some explicit ->
      getStudentStatus now s = explicit).
Proof.
  split.
  - intros Hs.
    assert ((getStudentStatus now s = active
             /\ currentSchoolYear now < graduationYear s)
            \/ (getStudentStatus now s = graduated
                /\ graduationYear s <= currentSchoolYear now)) as Hcases.
    { unfold getStudentStatus, currentSchoolYear. rewrite Hs. cbv zeta.
      destruct (Z.ltb_spec (graduationYear s) (getFullYear now));
        destruct (Z.eqb_spec (graduationYear s) (getFullYear now));
        destruct (Z.leb_spec 6 (getMonth now + 1));
        destruct (Z.ltb_spec (getMonth now + 1) 6);
        cbn [orb andb]; try lia; (left; split; [reflexivity|lia])
        || (right; split; [reflexivity|lia]). }
    assert (getStudentStatus now s = active
            <-> currentSchoolYear now < graduationYear s) as Hact.
    { destruct Hcases as [[-> H]|[-> H]]; split; intros; try lia;
        try reflexivity; discriminate. }
    split; [exact Hact|]. split; [|split].
    + destruct Hcases as [[-> H]|[-> H]]; split; intros; try lia;
        try reflexivity; discriminate.
    + destruct Hcases as [[-> _]|[-> _]]; discriminate.
    + intros gradeCode. unfold calculateGraduationYear.
      destruct (gradeMapping gradeCode) as [mapping|] eqn:Em; [|discriminate].
      cbv zeta. intros [= E]. apply Hact.
      pose proof (gradeNumber_le_12 _ _ Em). lia.
  - intros explicit Hs. unfold getStudentStatus. now rewrite Hs.
Qed.

Lemma parseOUPath_relative (baseStudentOU relativePath : string) :
  parseOUPath baseStudentOU (baseStudentOU +:+ relativePath)
  = match filterTruthy (split "/" relativePath) with
    | [] => emptyParsed
    | schoolLevel :: rest =>
        mkParsed
          (if isValidSchoolLevel schoolLevel then parseSchoolLevel schoolLevel
           else None)
          (match rest with
           | year :: _ => parseInt year
           | [] => None
           end)
          (match rest with
           | _ :: leaf :: _ => Some leaf
           | _ => None
           end)
    end.
Proof.
  unfold parseOUPath.
  rewrite startsWith_append, substring_append. reflexivity.
Qed.

(** X17. The paths of the containers parse back: the path of a school
    level gives that level and nothing else; the path of a graduation year
    under a level gives the level and the year, for every year that is a
    number below 10^21 in magnitude (from there on the year is printed in
    exponent notation); the root itself and the container of the hidden
    aliases parse to the empty result. *)
Theorem X17_container_paths_parse_back
    (baseStudentOU : string) (level : SchoolLevel) (year : Z) :
  parseOUPath baseStudentOU (getSchoolLevelOUPath baseStudentOU level)
  = mkParsed (Some level) None None
  /\ (Z.abs year < 10 ^ 21 -> isNumber year ->
      parseOUPath baseStudentOU
        (getGraduationYearOUPath baseStudentOU level year)
      = mkParsed (Some level) (Some year) None)
  /\ parseOUPath baseStudentOU baseStudentOU = emptyParsed
  /\ parseOUPath baseStudentOU (getHiddenAliasOUPath baseStudentOU)
     = emptyParsed.
Proof.
  assert (forall l, isValidSchoolLevel (schoolLevelString l) = true) as Hv
      by (intros []; reflexivity).
  split; [|split; [|split]].
  - unfold getSchoolLevelOUPath. rewrite parseOUPath_relative.
    change ("/" +:+ schoolLevelString level)
      with (String "/" (schoolLevelString level)).
    cbn [split]. change (Ascii.eqb "/" "/") with true. cbv iota.
    rewrite split_no_separator by apply schoolLevelString_notSlash.
    unfold filterTruthy. cbn [List.filter String.eqb negb].
    rewrite eqb_empty_false by (destruct level; discriminate).
    cbn [negb]. rewrite Hv, parseSchoolLevel_schoolLevelString. reflexivity.
  - intros Hyear Hnumber.
    unfold getGraduationYearOUPath. rewrite parseOUPath_relative.
    change ("/" +:+ schoolLevelString level +:+ "/" +:+ numberToString year)
      with (String "/" (schoolLevelString level
                          +:+ String "/" (numberToString year))).
    cbn [split]. change (Ascii.eqb "/" "/") with true. cbv iota.
    rewrite split_append by apply schoolLevelString_notSlash.
    rewrite split_no_separator by apply numberToString_notSlash.
    unfold filterTruthy. cbn [List.filter String.eqb negb].
    rewrite eqb_empty_false by (destruct level; discriminate).
    rewrite eqb_empty_false by apply numberToString_not_empty.
    cbn [negb]. rewrite Hv, parseSchoolLevel_schoolLevelString,
      (parseInt_numberToString_any year Hyear Hnumber). reflexivity.
  - rewrite <- (string_append_nil_r baseStudentOU) at 2.
    rewrite parseOUPath_relative. reflexivity.
  - unfold getHiddenAliasOUPath. rewrite parseOUPath_relative. reflexivity.
Qed.

(** X17 on the container of the class of 2031 in the middle school, and
    on the largest year that is printed in plain notation. *)
Lemma X17_witness :
  parseOUPath "/org/student"
    (getGraduationYearOUPath "/org/student" middle 2031)
  = mkParsed (Some middle) (Some 2031) None
  /\ parseOUPath "/org/student"
       (getGraduationYearOUPath "/org/student" high 999999999999999868928)
     = mkParsed (Some high) (Some 999999999999999868928) None.
Proof.
  split.
  - apply (X17_container_paths_parse_back "/org/student" middle 2031);
      vm_compute; repeat split.
  - apply (X17_container_paths_parse_back "/org/student" high
             999999999999999868928); vm_compute; repeat split.
Defined.

Lemma startsWith_split (s p : string) :
  startsWith s p = true -> exists rest, s = p +:+ rest.
Proof.
  revert s. induction p as [|c p IH]; intros s H.
  - exists s. reflexivity.
  - destruct s as [|d s]; [discriminate H|].
    cbn [startsWith] in H. apply andb_prop in H as [Hc Hs].
    apply Ascii.eqb_eq in Hc. subst d.
    destruct (IH s Hs) as (rest & ->). exists rest. reflexivity.
Qed.

Lemma startsWith_append_l (a b p : string) :
  startsWith a p = true -> startsWith (a +:+ b) p = true.
Proof.
  intros (rest & ->)%startsWith_split.
  rewrite string_append_assoc. apply startsWith_append.
Qed.

Lemma includes_append_l (a b p : string) :
  includes a p = true -> includes (a +:+ b) p = true.
Proof.
  induction a as [|c a IH].
  - cbn [includes]. rewrite orb_false_r. intros H.
    destruct p; [|destruct b; discriminate H].
    destruct b; reflexivity.
  - rewrite append_String. cbn [includes].
    intros [H|H]%orb_prop.
    + pose proof (startsWith_append_l _ b _ H) as H'.
      rewrite append_String in H'. rewrite H'. reflexivity.
    + rewrite (IH H). apply orb_true_r.
Qed.

Lemma includes_append_r (a p : string) : includes (a +:+ p) p = true.
Proof.
  induction a as [|c a IH].
  - change ("" +:+ p) with p.
    pose proof (startsWith_append p "") as Hp.
    rewrite string_append_nil_r in Hp.
    destruct p; cbn [includes]; rewrite Hp; reflexivity.
  - rewrite append_String. cbn [includes]. rewrite IH. apply orb_true_r.
Qed.

(** X18. The planner leaves alone an account that it cannot match to a
    roster record and that is not in an active student unit: no action of
    the plan is for that account. Every path under the container of the
    hidden aliases is such a place, and so is every path that does not
    start with the root. *)
Theorem X18_unmatched_accounts_outside_active_units_are_left_alone
    (config : Config) (baseStudentOU : string) (now : JsDate)
    (students : list Student) (users : list GoogleUser)
    (devices : gmap string ChromeDevice) (u : GoogleUser) :
  matchStudent (fst (indexStudents students)) (snd (indexStudents students)) u
  = None ->
  isActiveStudentOU baseStudentOU (orElse (orgUnitPath u) "") = false ->
  (forall a,
     In a (determineActions config baseStudentOU now students users devices) ->
     currentUser a <> Some u)
  /\ (forall rest,
        isActiveStudentOU baseStudentOU
          (getHiddenAliasOUPath baseStudentOU +:+ rest) = false)
  /\ (forall path,
        startsWith path baseStudentOU = false ->
        isActiveStudentOU baseStudentOU path = false).
Proof.
  intros Hm Hou. split; [|split].
  - intros a Ha Hc.
    apply In_plan in Ha as [_ Ha].
    apply In_fullPlan in Ha as [Ha|[Ha|Ha]].
    + destruct Ha as (v & Hv & Ha).
      pose proof (userActions_currentUser baseStudentOU now _ _ v a Ha)
        as [Hcv _].
      assert (v = u) as -> by congruence.
      rewrite userActions_eq, Hm, Hou in Ha. destruct Ha.
    + destruct Ha as (s & _ & ->%studentActions_In). discriminate Hc.
    + destruct Ha as (s & _ & (_ & Hn & _)%deviceActions_In). congruence.
  - intros rest. unfold isActiveStudentOU, isStudentOU, getHiddenAliasOUPath.
    rewrite string_append_assoc, startsWith_append. cbn [negb].
    rewrite <- string_append_assoc.
    rewrite (includes_append_l _ rest "hidden_aliases").
    + reflexivity.
    + change (baseStudentOU +:+ "/hidden_aliases")
        with (baseStudentOU +:+ String "/" "hidden_aliases").
      replace (baseStudentOU +:+ String "/" "hidden_aliases")
        with ((baseStudentOU +:+ "/") +:+ "hidden_aliases")
        by (rewrite string_append_assoc; reflexivity).
      apply includes_append_r.
  - intros path Hp. unfold isActiveStudentOU, isStudentOU. now rewrite Hp.
Qed.

Lemma X18_witness :
  Forall (fun a => currentUser a <> Some parkedAccount)
    (determineActions (schoolConfig None) "/org/student" september2024
       smallRoster (parkedAccount :: smallSnapshot) janeDevice).
Proof.
  destruct (X18_unmatched_accounts_outside_active_units_are_left_alone
              (schoolConfig None) "/org/student" september2024 smallRoster
              (parkedAccount :: smallSnapshot) janeDevice parkedAccount)
    as [H _].
  - reflexivity.
  - reflexivity.
  - apply Forall_forall. intros a Ha. apply H, list_elem_of_In, Ha.
Defined.

(** * The required organisational units *)

Section RequiredUnits.

Import RequiredOUs.

Lemma In_setAdd {A : Type} `{EqDecision A} (x y : A) (set : list A) :
  In x (setAdd y set) <-> x = y \/ In x set.
Proof.
  unfold setAdd. destruct (bool_decide_reflect (y ∈ set)) as [Hy|Hy].
  - apply list_elem_of_In in Hy. split; [now right|].
    intros [->|Hx]; assumption.
  - rewrite in_app_iff. cbn [In]. split.
    + intros [Hx|[<-|[]]]; [now right|now left].
    + intros [->|Hx]; [right; now left|now left].
Qed.

Lemma NoDup_setAdd {A : Type} `{EqDecision A} (y : A) (set : list A) :
  NoDup set -> NoDup (setAdd y set).
Proof.
  intros Hnd. unfold setAdd.
  destruct (bool_decide_reflect (y ∈ set)) as [Hy|Hy]; [exact Hnd|].
  apply NoDup_app. split; [exact Hnd|]. split.
  - intros x Hx ->%list_elem_of_singleton. contradiction.
  - apply NoDup_singleton.
Qed.

Lemma In_foldl_setAdd {A B : Type} `{EqDecision B} (f : A -> B)
    (l : list A) (init : list B) (x : B) :
  In x (foldl (fun acc a => setAdd (f a) acc) init l)
  <-> In x init \/ exists a, In a l /\ x = f a.
Proof.
  revert init. induction l as [|a l IH]; intros init; cbn [foldl].
  - split; [now left|]. intros [H|(a & [] & _)]. exact H.
  - rewrite IH, In_setAdd. split.
    + intros [[->|H]|(b & Hb & ->)].
      * right. exists a. split; [now left|reflexivity].
      * now left.
      * right. exists b. split; [now right|reflexivity].
    + intros [H|(b & [<-|Hb] & ->)].
      * left. now right.
      * left. now left.
      * right. exists b. split; [exact Hb|reflexivity].
Qed.

Lemma NoDup_foldl_setAdd {A B : Type} `{EqDecision B} (f : A -> B)
    (l : list A) (init : list B) :
  NoDup init -> NoDup (foldl (fun acc a => setAdd (f a) acc) init l).
Proof.
  revert init. induction l as [|a l IH]; intros init Hnd; [exact Hnd|].
  cbn [foldl]. apply IH, NoDup_setAdd, Hnd.
Qed.

Variables (baseStudentOU : string) (now : JsDate).

Lemma getSchoolLevel_valid (s : Student) :
  validGrade s <-> exists l, getSchoolLevel (grade s) = Ok l.
Proof.
  unfold validGrade, getSchoolLevel.
  destruct (gradeMapping (grade s)) as [m|]; split.
  - intros _. now exists (fst m).
  - discriminate.
  - congruence.
  - intros (l & [=]).
Qed.

Lemma getSchoolLevel_invalid (s : Student) :
  gradeMapping (grade s) = None ->
  getSchoolLevel (grade s) = Throw ("Invalid grade: " +:+ grade s).
Proof. unfold getSchoolLevel. now intros ->. Qed.

(** The first loop: what it has collected when it completes, and where it
    throws. *)
Lemma collect_spec (students seen : list Student) (st : Collected) :
  (forall p, In p (requiredOUs st)
             <-> exists s, In s seen
                           /\ p = getStudentOUPath baseStudentOU now s) ->
  (forall l, In l (schoolLevels st)
             <-> exists s, In s seen /\ getSchoolLevel (grade s) = Ok l) ->
  (forall l y, In y (yearsBySchool st l)
               <-> exists s, In s seen /\ getSchoolLevel (grade s) = Ok l
                             /\ graduationYear s = y) ->
  NoDup (requiredOUs st) ->
  match collect baseStudentOU now st students with
  | Ok st' =>
      Forall validGrade students
      /\ (forall p, In p (requiredOUs st')
                    <-> exists s, In s (seen ++ students)
                                  /\ p = getStudentOUPath baseStudentOU now s)
      /\ (forall l, In l (schoolLevels st')
                    <-> exists s, In s (seen ++ students)
                                  /\ getSchoolLevel (grade s) = Ok l)
      /\ (forall l y, In y (yearsBySchool st' l)
                      <-> exists s, In s (seen ++ students)
                                    /\ getSchoolLevel (grade s) = Ok l
                                    /\ graduationYear s = y)
      /\ NoDup (requiredOUs st')
  | Throw message =>
      exists before s after,
        students = before ++ s :: after
        /\ Forall validGrade before
        /\ gradeMapping (grade s) = None
        /\ message = "Invalid grade: " +:+ grade s
  end.
Proof.
  revert seen st. induction students as [|s rest IH];
    intros seen st Hr Hl Hy Hnd.
  - cbn [collect]. rewrite app_nil_r. auto.
  - cbn [collect]. unfold collectStep.
    destruct (gradeMapping (grade s)) as [m|] eqn:Em.
    + assert (getSchoolLevel (grade s) = Ok (fst m)) as El
          by (unfold getSchoolLevel; now rewrite Em).
      rewrite El.
      match goal with
      | |- match collect _ _ ?st1 _ with _ => _ end =>
          specialize (IH (seen ++ [s]) st1)
      end.
      cbn [requiredOUs schoolLevels yearsBySchool] in IH.
      assert (forall P : Student -> Prop,
                (exists x, In x (seen ++ [s]) /\ P x)
                <-> P s \/ exists x, In x seen /\ P x) as Hsnoc.
      { intros P. split.
        - intros (x & [Hx|[<-|[]]]%in_app_iff & HP); eauto.
        - intros [HP|(x & Hx & HP)]; [exists s|exists x];
            (split; [apply in_app_iff; cbn; auto|exact HP]). }
      destruct (collect baseStudentOU now _ rest) as [st'|message].
      * destruct IH as (Hv & Hr' & Hl' & Hy' & Hnd').
        -- intros p. rewrite In_setAdd, Hr, Hsnoc. reflexivity.
        -- intros l. rewrite In_setAdd, Hl, Hsnoc. rewrite El.
           split; (intros [H|H]; [left|now right]); congruence.
        -- intros l y. rewrite Hsnoc, El.
           destruct (bool_decide_reflect (l = fst m)) as [->|Hne].
           ++ rewrite In_setAdd, Hy. split.
              ** intros [->|H]; [now left|now right].
              ** intros [[_ <-]|H]; [now left|now right].
           ++ rewrite Hy. split; [now right|].
              intros [[[= E] _]|H]; [congruence|exact H].
        -- apply NoDup_setAdd, Hnd.
        -- rewrite <- !app_assoc in Hr', Hl', Hy'. cbn [app] in Hr', Hl', Hy'.
           split; [|auto].
           constructor; [unfold validGrade; congruence|exact Hv].
      * destruct IH as (before & x & after & -> & Hb & Hx & ->).
        -- intros p. rewrite In_setAdd, Hr, Hsnoc. reflexivity.
        -- intros l. rewrite In_setAdd, Hl, Hsnoc. rewrite El.
           split; (intros [H|H]; [left|now right]); congruence.
        -- intros l y. rewrite Hsnoc, El.
           destruct (bool_decide_reflect (l = fst m)) as [->|Hne].
           ++ rewrite In_setAdd, Hy. split.
              ** intros [->|H]; [now left|now right].
              ** intros [[_ <-]|H]; [now left|now right].
           ++ rewrite Hy. split; [now right|].
              intros [[[= E] _]|H]; [congruence|exact H].
        -- apply NoDup_setAdd, Hnd.
        -- exists (s :: before), x, after. split; [reflexivity|].
           split; [|auto].
           constructor; [unfold validGrade; congruence|exact Hb].
    + rewrite (getSchoolLevel_invalid s Em).
      exists [], s, rest. split; [reflexivity|]. split; [constructor|].
      split; [exact Em|reflexivity].
Qed.

Lemma In_addSchoolLevels (years : SchoolLevel -> list Z)
    (levels : list SchoolLevel) (required : list string) (p : string) :
  In p (foldl (addSchoolLevel baseStudentOU years) required levels)
  <-> In p required
      \/ exists l, In l levels
                   /\ (p = getSchoolLevelOUPath baseStudentOU l
                       \/ exists y, In y (years l)
                                    /\ p = getGraduationYearOUPath
                                             baseStudentOU l y).
Proof.
  revert required. induction levels as [|l levels IH]; intros required.
  - cbn [foldl]. split; [now left|]. intros [H|(l & [] & _)]. exact H.
  - cbn [foldl]. rewrite IH. unfold addSchoolLevel at 1.
    rewrite (In_foldl_setAdd (getGraduationYearOUPath baseStudentOU l)),
      In_setAdd.
    split.
    + intros [[[->|H]|(y & Hy & ->)]|(l' & Hl' & H)].
      * right. exists l. split; [now left|now left].
      * now left.
      * right. exists l. split; [now left|]. right. eauto.
      * right. exists l'. split; [now right|exact H].
    + intros [H|(l' & [<-|Hl'] & [->|(y & Hy & ->)])].
      * left. left. now right.
      * left. left. now left.
      * left. right. eauto.
      * right. exists l'. split; [exact Hl'|now left].
      * right. exists l'. split; [exact Hl'|]. right. eauto.
Qed.

Lemma NoDup_addSchoolLevels (years : SchoolLevel -> list Z)
    (levels : list SchoolLevel) (required : list string) :
  NoDup required ->
  NoDup (foldl (addSchoolLevel baseStudentOU years) required levels).
Proof.
  revert required. induction levels as [|l levels IH]; intros required Hnd;
    [exact Hnd|].
  cbn [foldl]. apply IH. unfold addSchoolLevel.
  apply (NoDup_foldl_setAdd (getGraduationYearOUPath baseStudentOU l)).
  apply NoDup_setAdd, Hnd.
Qed.

Lemma collect_start (students : list Student) :
  match collect baseStudentOU now nothingCollected students with
  | Ok st' =>
      Forall validGrade students
      /\ (forall p, In p (requiredOUs st')
                    <-> exists s, In s students
                                  /\ p = getStudentOUPath baseStudentOU now s)
      /\ (forall l, In l (schoolLevels st')
                    <-> exists s, In s students
                                  /\ getSchoolLevel (grade s) = Ok l)
      /\ (forall l y, In y (yearsBySchool st' l)
                      <-> exists s, In s students
                                    /\ getSchoolLevel (grade s) = Ok l
                                    /\ graduationYear s = y)
      /\ NoDup (requiredOUs st')
  | Throw message =>
      exists before s after,
        students = before ++ s :: after
        /\ Forall validGrade before
        /\ gradeMapping (grade s) = None
        /\ message = "Invalid grade: " +:+ grade s
  end.
Proof.
  apply (collect_spec students [] nothingCollected); cbn.
  - intros p. split; [intros []|intros (s & [] & _)].
  - intros l. split; [intros []|intros (s & [] & _)].
  - intros l y. split; [intros []|intros (s & [] & _)].
  - constructor.
Qed.

(** X19. When every grade code of the roster is in the table,
    [getRequiredOUs] returns a set, without repetition, that holds exactly:
    the derived path of every record, the container of the school level
    that the table gives for the grade code of some record, and the
    container of the graduation year of a record under the level that the
    table gives for the grade code of that record. *)
Theorem X19_required_units_of_a_roster (students : list Student) :
  Forall validGrade students ->
  exists ous : list string,
    getRequiredOUs baseStudentOU now students = Ok ous
    /\ NoDup ous
    /\ forall p,
         In p ous
         <-> exists s l,
               In s students
               /\ getSchoolLevel (grade s) = Ok l
               /\ (p = getStudentOUPath baseStudentOU now s
                   \/ p = getSchoolLevelOUPath baseStudentOU l
                   \/ p = getGraduationYearOUPath baseStudentOU l
                            (graduationYear s)).
Proof.
  intros Hvalid. unfold getRequiredOUs.
  pose proof (collect_start students) as Hc.
  destruct (collect baseStudentOU now nothingCollected students)
    as [st|message].
  - destruct Hc as (_ & Hr & Hl & Hy & Hnd).
    eexists. split; [reflexivity|].
    split; [apply NoDup_addSchoolLevels, Hnd|].
    intros p. rewrite In_addSchoolLevels, Hr. split.
    + intros [(s & Hs & ->)|(l & Hin & H)].
      * rewrite Forall_forall in Hvalid.
        destruct (proj1 (getSchoolLevel_valid s)) as (l & El);
          [apply Hvalid, list_elem_of_In, Hs|].
        exists s, l. auto.
      * destruct H as [->|(y & Hin' & ->)].
        -- apply Hl in Hin as (s & Hs & El). exists s, l. auto.
        -- apply Hy in Hin' as (s & Hs & El & <-). exists s, l. auto.
    + intros (s & l & Hs & El & [->|[->| ->]]).
      * left. eauto.
      * right. exists l. split; [apply Hl; eauto|now left].
      * right. exists l. split; [apply Hl; eauto|].
        right. exists (graduationYear s). split; [apply Hy; eauto|reflexivity].
  - destruct Hc as (before & s & after & -> & _ & Hs & _).
    apply Forall_app in Hvalid as [_ Hvalid].
    apply Forall_cons in Hvalid as [Hv _]. contradiction.
Qed.

(** X20. On a roster none of whose grade codes is a name that objects
    inherit, [getRequiredOUs] throws exactly when some grade code of the
    roster is not in the table, and the message names the grade code of the
    first such record. The grade [unknown], which the roster parser writes
    for an empty grade column, is such a code. *)
Theorem X20_required_units_reject_an_unknown_grade
    (students : list Student) :
  Forall plainGrade students ->
  (forall message,
     getRequiredOUs baseStudentOU now students = Throw message
     <-> exists before s after,
           students = before ++ s :: after
           /\ Forall validGrade before
           /\ gradeMapping (grade s) = None
           /\ message = "Invalid grade: " +:+ grade s)
  /\ ((exists s, In s students /\ grade s = "unknown") ->
      exists message,
        getRequiredOUs baseStudentOU now students = Throw message).
Proof.
  intros _.
  assert (forall message,
            getRequiredOUs baseStudentOU now students = Throw message
            <-> exists before s after,
                  students = before ++ s :: after
                  /\ Forall validGrade before
                  /\ gradeMapping (grade s) = None
                  /\ message = "Invalid grade: " +:+ grade s) as Hiff.
  { intros message. unfold getRequiredOUs.
    pose proof (collect_start students) as Hc.
    destruct (collect baseStudentOU now nothingCollected students)
      as [st|m].
    - destruct Hc as (Hvalid & _). split; [discriminate|].
      intros (before & s & after & -> & _ & Hs & _).
      apply Forall_app in Hvalid as [_ Hvalid].
      apply Forall_cons in Hvalid as [Hv _]. contradiction.
    - destruct Hc as (before & s & after & E & Hb & Hs & ->). split.
      + intros [= <-]. eauto 8.
      + intros (before' & s' & after' & E' & Hb' & Hs' & ->).
        f_equal. f_equal. f_equal.
        subst students. clear -E' Hb Hb' Hs Hs'.
        revert before' E' Hb'. induction before as [|x before IH];
          intros [|x' before'] E' Hb'; cbn [app] in E'.
        * congruence.
        * injection E' as -> _. apply Forall_cons in Hb' as [Hx _].
          contradiction.
        * injection E' as -> _. apply Forall_cons in Hb as [Hx _].
          contradiction.
        * injection E' as -> E'. apply Forall_cons in Hb as [_ Hb].
          apply Forall_cons in Hb' as [_ Hb']. exact (IH Hb before' E' Hb'). }
  split; [exact Hiff|].
  intros (s & Hs & Hg). unfold getRequiredOUs.
  pose proof (collect_start students) as Hc.
  destruct (collect baseStudentOU now nothingCollected students)
    as [st|m]; [|eauto].
  destruct Hc as (Hvalid & _). rewrite Forall_forall in Hvalid.
  apply list_elem_of_In, Hvalid in Hs. unfold validGrade in Hs.
  rewrite Hg in Hs. elim Hs. reflexivity.
Qed.

End RequiredUnits.

(** X20 on the sample roster followed by a record without a grade. *)
Lemma X20_witness :
  RequiredOUs.getRequiredOUs "/org/student" september2024
    (smallRoster ++ [ungraded])
  = Throw "Invalid grade: unknown".
Proof.
  destruct (X20_required_units_reject_an_unknown_grade "/org/student"
              september2024 (smallRoster ++ [ungraded])) as [H _].
  - repeat constructor.
  - apply H. exists smallRoster, ungraded, [].
    split; [reflexivity|]. split; [|split; reflexivity].
    repeat constructor; discriminate.
Defined.

Lemma X19_witness :
  exists ous : list string,
    RequiredOUs.getRequiredOUs "/org/student" september2024 smallRoster
    = Ok ous
    /\ NoDup ous.
Proof.
  destruct (X19_required_units_of_a_roster "/org/student" september2024
              smallRoster)
    as (ous & E & Hnd & _).
  - repeat constructor; discriminate.
  - exists ous. split; [exact E|exact Hnd].
Defined.

(** * The retry loop of the directory client *)

Section Retry.

Import GoogleAPIClient.

Context {T : Type}.

Lemma retryLoop_spec (fetch : nat -> Attempt T) (retries : Z)
    (remaining : nat) (made : nat) (slept : list (option Z)) :
  Z.of_nat remaining = retries + 1 - Z.of_nat made ->
  let e := retryLoop remaining retries (Z.of_nat made) fetch made slept in
  (made <= fetches e <= made + remaining)%nat
  /\ (forall i, (made <= i)%nat -> (S i < fetches e)%nat ->
      isSucceeded (fetch i) = false)
  /\ timeouts e
     = slept ++ omap (fun i => pauseAfter retries i (fetch i))
                  (seq made (fetches e - made))
  /\ match outcome e with
     | Ok body =>
         (made < fetches e)%nat /\ fetch (fetches e - 1)%nat = Succeeded body
     | Throw message =>
         Z.of_nat (fetches e) = retries + 1
         /\ (forall i, (made <= i < fetches e)%nat ->
             isSucceeded (fetch i) = false)
         /\ ((remaining = 0%nat /\ message = "Max retries exceeded")
             \/ ((0 < remaining)%nat
                 /\ (fetch (fetches e - 1)%nat = Failed message
                     \/ (exists header,
                           fetch (fetches e - 1)%nat = RateLimited header)
                        /\ message = "Max retries exceeded")))
     end.
Proof.
  revert made slept. induction remaining as [|remaining IH];
    intros made slept Hrem; cbv zeta.
  - cbn [retryLoop outcome fetches timeouts].
    rewrite Nat.sub_diag. cbn [seq omap list_omap]. rewrite app_nil_r.
    repeat split; try lia.
    left. split; reflexivity.
  - cbn [retryLoop].
    assert (Z.of_nat remaining = retries + 1 - Z.of_nat (S made)) as Hrem'
        by lia.
    specialize (IH (S made)).
    replace (Z.of_nat made + 1) with (Z.of_nat (S made)) by lia.
    assert (forall e : Ended T,
              (S made <= fetches e)%nat ->
              seq made (fetches e - made)
              = made :: seq (S made) (fetches e - S made)) as Hseq.
    { intros e He. replace (fetches e - made)%nat
        with (S (fetches e - S made)) by lia. reflexivity. }
    destruct (fetch made) as [header|message|body] eqn:Ef.
    + specialize (IH (slept ++ [retryAfterDelay header]) Hrem').
      cbv zeta in IH.
      set (e := retryLoop remaining retries (Z.of_nat (S made)) fetch
                  (S made) (slept ++ [retryAfterDelay header])) in *.
      destruct IH as (Hm & Hno & Ht & Ho).
      split; [lia|]. split; [|split].
      * intros i Hi Hlt. destruct (Nat.eq_dec i made) as [->|Hne].
        -- now rewrite Ef.
        -- apply Hno; lia.
      * rewrite Ht, Hseq by lia. cbn [omap list_omap]. rewrite Ef. cbn [pauseAfter].
        now rewrite <- app_assoc.
      * destruct (outcome e) as [body|message].
        -- destruct Ho as [H1 H2]. split; [lia|exact H2].
        -- destruct Ho as (H1 & H2 & H3). split; [exact H1|]. split.
           ++ intros i Hi. destruct (Nat.eq_dec i made) as [->|Hne].
              ** now rewrite Ef.
              ** apply H2; lia.
           ++ right. split; [lia|].
              destruct H3 as [[-> ->]|[Hpos H3]].
              ** right. split; [|reflexivity]. exists header.
                 replace (fetches e - 1)%nat with made by lia. exact Ef.
              ** exact H3.
    + destruct (Z.eqb_spec (Z.of_nat made) retries) as [Hlast|Hmore].
      * cbn [outcome fetches timeouts].
        replace (S made - made)%nat with 1%nat by lia. cbn [seq omap list_omap].
        rewrite Ef. cbn [pauseAfter].
        destruct (Z.eqb_spec (Z.of_nat made) retries) as [_|]; [|lia].
        rewrite app_nil_r.
        split; [lia|]. split; [intros i ? ?; lia|]. split; [reflexivity|].
        split; [lia|]. split.
        -- intros i Hi. assert (i = made) as -> by lia. now rewrite Ef.
        -- right. split; [lia|]. left.
           replace (S made - 1)%nat with made by lia. exact Ef.
      * specialize (IH (slept ++ [Some (backoffDelay (Z.of_nat made))]) Hrem').
        cbv zeta in IH.
        set (e := retryLoop remaining retries (Z.of_nat (S made)) fetch
                    (S made) _) in *.
        destruct IH as (Hm & Hno & Ht & Ho).
        split; [lia|]. split; [|split].
        -- intros i Hi Hlt. destruct (Nat.eq_dec i made) as [->|Hne].
           ++ now rewrite Ef.
           ++ apply Hno; lia.
        -- rewrite Ht, Hseq by lia. cbn [omap list_omap]. rewrite Ef. cbn [pauseAfter].
           destruct (Z.eqb_spec (Z.of_nat made) retries) as [|_]; [lia|].
           now rewrite <- app_assoc.
        -- destruct (outcome e) as [body|message'].
           ++ destruct Ho as [H1 H2]. split; [lia|exact H2].
           ++ destruct Ho as (H1 & H2 & H3). split; [exact H1|]. split.
              ** intros i Hi. destruct (Nat.eq_dec i made) as [->|Hne].
                 --- now rewrite Ef.
                 --- apply H2; lia.
              ** right. split; [lia|].
                 destruct H3 as [[-> ->]|[Hpos H3]]; [lia|exact H3].
    + cbn [outcome fetches timeouts].
      replace (S made - made)%nat with 1%nat by lia. cbn [seq omap list_omap].
      rewrite Ef. cbn [pauseAfter]. rewrite app_nil_r.
      split; [lia|]. split; [intros i ? ?; lia|]. split; [reflexivity|].
      split; [lia|].
      replace (S made - 1)%nat with made by lia. exact Ef.
Qed.

(** X21. A request is tried at most [retries + 1] times and at least once.
    It returns the body of the first attempt that succeeds, and no further
    call of [fetch] is made. When none of the [retries + 1] attempts
    succeeds it throws: the error of the last attempt, or [Max retries
    exceeded] when the last attempt was answered with status 429. An error
    response is retried like a failure of the network, after 1000 times 2
    to the power of the attempt number in milliseconds; a 429 is followed
    by the delay of its [Retry-After] header, sixty seconds by default,
    even when it was the last attempt. *)
Theorem X21_requests_are_retried (retries : Z) (fetch : nat -> Attempt T) :
  0 <= retries ->
  let e := makeAPIRequest retries fetch in
  (1 <= fetches e <= Z.to_nat retries + 1)%nat
  /\ (forall i, (S i < fetches e)%nat -> isSucceeded (fetch i) = false)
  /\ timeouts e
     = omap (fun i => pauseAfter retries i (fetch i)) (seq 0 (fetches e))
  /\ (forall body,
        outcome e = Ok body <-> fetch (fetches e - 1)%nat = Succeeded body)
  /\ (forall message,
        outcome e = Throw message ->
        fetches e = (Z.to_nat retries + 1)%nat
        /\ (forall i, (i < fetches e)%nat -> isSucceeded (fetch i) = false)
        /\ (fetch (Z.to_nat retries) = Failed message
            \/ (exists header, fetch (Z.to_nat retries) = RateLimited header)
               /\ message = "Max retries exceeded")).
Proof.
  intros Hr. unfold makeAPIRequest.
  pose proof (retryLoop_spec fetch retries (Z.to_nat (retries + 1)) 0 [])
    as H.
  cbv zeta in *. change (Z.of_nat 0) with 0 in H.
  set (e := retryLoop (Z.to_nat (retries + 1)) retries 0 fetch 0 []) in *.
  destruct H as (Hm & Hno & Ht & Ho); [lia|].
  rewrite Nat.sub_0_r in Ht. cbn [app] in Ht.
  assert (1 <= fetches e)%nat as Hone.
  { destruct (outcome e); [lia|]. destruct Ho as (H1 & _). lia. }
  split; [lia|]. split; [intros i Hi; apply Hno; lia|].
  split; [exact Ht|]. split.
  - intros body. destruct (outcome e) as [b|m].
    + destruct Ho as [_ Ho]. rewrite Ho. split; congruence.
    + destruct Ho as (_ & Hall & _). split; [discriminate|].
      intros E. specialize (Hall (fetches e - 1)%nat). rewrite E in Hall.
      discriminate Hall. lia.
  - intros message E. rewrite E in Ho. destruct Ho as (H1 & H2 & H3).
    split; [lia|]. split; [intros i Hi; apply H2; lia|].
    replace (Z.to_nat retries) with (fetches e - 1)%nat by lia.
    destruct H3 as [[H0 _]|[_ H3]]; [lia|].
    destruct H3 as [H3|[H3 ->]]; [now left|now right].
Qed.

End Retry.

Lemma X21_witness :
  let e := GoogleAPIClient.makeAPIRequest GoogleAPIClient.defaultRetries
             alwaysNotFound in
  GoogleAPIClient.fetches e = 4%nat
  /\ GoogleAPIClient.timeouts e = [Some 1000; Some 2000; Some 4000]
  /\ GoogleAPIClient.outcome e = Throw "API Error 404: Not Found".
Proof.
  pose proof (X21_requests_are_retried GoogleAPIClient.defaultRetries
                alwaysNotFound) as H.
  cbv zeta in *.
  destruct H as (_ & _ & Ht & _ & Hthrow); [discriminate|].
  destruct (Hthrow "API Error 404: Not Found" eq_refl) as (Hn & _).
  split; [exact Hn|]. split; [|reflexivity].
  rewrite Ht, Hn. reflexivity.
Defined.

(** * The roster parser *)

Section Regexes.

Import JsText.

Lemma Matches_seq (a b : Regex) (s : string) :
  Matches (Seq a b) s
  <-> exists s1 s2, s = s1 +:+ s2 /\ Matches a s1 /\ Matches b s2.
Proof.
  split.
  - intros H. inversion H; subst. eauto.
  - intros (s1 & s2 & -> & Ha & Hb). now constructor.
Qed.

Lemma Matches_nil_seq (a b : Regex) :
  Matches (Seq a b) "" <-> Matches a "" /\ Matches b "".
Proof.
  rewrite Matches_seq. split.
  - intros (s1 & s2 & E & Ha & Hb).
    destruct s1; [|discriminate]. destruct s2; [|discriminate]. auto.
  - intros [Ha Hb]. exists "", "". auto.
Qed.

Lemma nullable_spec (r : Regex) : nullable r = true <-> Matches r "".
Proof.
  induction r as [| |member|a IHa b IHb|a IHa b IHb|a IHa]; cbn [nullable].
  - split; [discriminate|]. intros H. inversion H.
  - split; [constructor|reflexivity].
  - split; [discriminate|]. intros H. inversion H.
  - rewrite andb_true_iff, IHa, IHb, Matches_nil_seq. reflexivity.
  - rewrite orb_true_iff, IHa, IHb. split.
    + intros [H|H]; [now apply MatchesAltL|now apply MatchesAltR].
    + intros H. inversion H; subst; auto.
  - split; [constructor|reflexivity].
Qed.

Lemma Matches_cons_seq (a b : Regex) (c : ascii) (s : string) :
  Matches (Seq a b) (String c s)
  <-> (exists s1 s2, s = s1 +:+ s2 /\ Matches a (String c s1)
                     /\ Matches b s2)
      \/ (Matches a "" /\ Matches b (String c s)).
Proof.
  rewrite Matches_seq. split.
  - intros (s1 & s2 & E & Ha & Hb). destruct s1 as [|c1 s1].
    + right. change ("" +:+ s2) with s2 in E. subst s2. auto.
    + left. rewrite append_String in E. injection E as <- ->. eauto.
  - intros [(s1 & s2 & -> & Ha & Hb)|[Ha Hb]].
    + exists (String c s1), s2. auto.
    + exists "", (String c s). auto.
Qed.

Lemma Matches_cons_star (a : Regex) (c : ascii) (s : string) :
  Matches (Star a) (String c s)
  <-> exists s1 s2, s = s1 +:+ s2 /\ Matches a (String c s1)
                    /\ Matches (Star a) s2.
Proof.
  split.
  - intros H. remember (Star a) as r eqn:Er.
    remember (String c s) as t eqn:Et. revert s Et.
    induction H as [| | | | | |a' s1 s2 Ha _ Hs IH]; intros s0 Et;
      try discriminate.
    injection Er as ->.
    destruct s1 as [|c1 s1].
    + change ("" +:+ s2) with s2 in Et. exact (IH eq_refl s0 Et).
    + rewrite append_String in Et. injection Et as -> <-. eauto.
  - intros (s1 & s2 & -> & Ha & Hs).
    rewrite <- append_String. now constructor.
Qed.

Lemma derivative_spec (r : Regex) (c : ascii) (s : string) :
  Matches (derivative c r) s <-> Matches r (String c s).
Proof.
  revert s.
  induction r as [| |member|a IHa b IHb|a IHa b IHb|a IHa]; intros s;
    cbn [derivative].
  - split; intros H; inversion H.
  - split; intros H; inversion H.
  - destruct (member c) eqn:Ec.
    + split; intros H; inversion H; subst; [now constructor|constructor].
    + split; intros H; inversion H; subst; congruence.
  - rewrite Matches_cons_seq.
    assert (Matches (Seq (derivative c a) b) s
            <-> exists s1 s2, s = s1 +:+ s2 /\ Matches a (String c s1)
                              /\ Matches b s2) as Hseq.
    { split.
      - intros H. inversion H; subst. do 2 eexists.
        split; [reflexivity|]. split; [now apply IHa|assumption].
      - intros (s1 & s2 & -> & Ha & Hb). constructor; [now apply IHa|exact Hb]. }
    destruct (nullable a) eqn:En.
    + split.
      * intros H. inversion H; subst.
        -- left. now apply Hseq.
        -- right. split; [now apply nullable_spec|now apply IHb].
      * intros [H|[_ H]].
        -- apply MatchesAltL. now apply Hseq.
        -- apply MatchesAltR. now apply IHb.
    + rewrite Hseq. split; [now left|].
      intros [H|[H _]]; [exact H|].
      apply nullable_spec in H. congruence.
  - split.
    + intros H. inversion H; subst.
      * apply MatchesAltL. now apply IHa.
      * apply MatchesAltR. now apply IHb.
    + intros H. inversion H; subst.
      * apply MatchesAltL. now apply IHa.
      * apply MatchesAltR. now apply IHb.
  - rewrite Matches_cons_star. split.
    + intros H. inversion H; subst. do 2 eexists.
      split; [reflexivity|]. split; [now apply IHa|assumption].
    + intros (s1 & s2 & -> & Ha & Hs). constructor; [now apply IHa|exact Hs].
Qed.

Lemma test_spec (r : Regex) (s : string) : test r s = true <-> Matches r s.
Proof.
  revert r. induction s as [|c s IH]; intros r; cbn [test].
  - apply nullable_spec.
  - rewrite IH. apply derivative_spec.
Qed.

Lemma Matches_class (member : ascii -> bool) (s : string) :
  Matches (Class member) s <-> exists c, s = String c "" /\ member c = true.
Proof.
  split.
  - intros H. inversion H; subst. eauto.
  - intros (c & -> & Hc). now constructor.
Qed.

Lemma Matches_star_class (member : ascii -> bool) (s : string) :
  Matches (Star (Class member)) s <-> allChars member s = true.
Proof.
  induction s as [|c s IH].
  - split; [reflexivity|constructor].
  - rewrite Matches_cons_star. cbn [allChars]. rewrite andb_true_iff, <- IH.
    split.
    + intros (s1 & s2 & -> & Ha & Hs).
      inversion Ha; subst. change ("" +:+ s2) with s2. auto.
    + intros [Hc Hs]. exists "", s. split; [reflexivity|].
      split; [now constructor|exact Hs].
Qed.

Lemma Matches_plus_class (member : ascii -> bool) (s : string) :
  Matches (Plus (Class member)) s <-> s <> "" /\ allChars member s = true.
Proof.
  unfold Plus. split.
  - intros H. inversion H as [| |a b s1 s2 Ha Hb| | | |]; subst.
    inversion Ha; subst. rewrite append_String.
    change ("" +:+ s2) with s2. split; [discriminate|].
    cbn [allChars]. apply andb_true_iff. split; [assumption|].
    now apply Matches_star_class.
  - intros [Hne Hall]. destruct s as [|c s]; [congruence|].
    cbn [allChars] in Hall. apply andb_true_iff in Hall as [Hc Hs].
    change (String c s) with (String c "" +:+ s).
    constructor; [now constructor|now apply Matches_star_class].
Qed.

End Regexes.

Lemma lowerChar_idempotent (c : ascii) : lowerChar (lowerChar c) = lowerChar c.
Proof. destruct c as [[] [] [] [] [] [] [] []]; reflexivity. Qed.

Lemma toLowerCase_idempotent (s : string) :
  toLowerCase (toLowerCase s) = toLowerCase s.
Proof.
  induction s as [|c s IH]; [reflexivity|].
  cbn [toLowerCase]. now rewrite lowerChar_idempotent, IH.
Qed.

Lemma emailRegex_spec (s : string) :
  JsText.test CSVParser.emailRegex s = true <-> wellFormedAddress s.
Proof.
  rewrite test_spec. unfold CSVParser.emailRegex, wellFormedAddress. split.
  - intros (a & r1 & -> & Ha & H1)%Matches_seq.
    apply Matches_seq in H1 as (at' & r2 & -> & Hat & H2).
    apply Matches_seq in H2 as (b & r3 & -> & Hb & H3).
    apply Matches_seq in H3 as (dot & c & -> & Hdot & Hc).
    apply Matches_plus_class in Ha as [Ha1 Ha2].
    apply Matches_plus_class in Hb as [Hb1 Hb2].
    apply Matches_plus_class in Hc as [Hc1 Hc2].
    apply Matches_class in Hat as (x & -> & ->%Ascii.eqb_eq).
    apply Matches_class in Hdot as (y & -> & ->%Ascii.eqb_eq).
    exists a, b, c. auto 10.
  - intros (a & b & c & -> & Ha & Hb & Hc & Ha' & Hb' & Hc').
    apply Matches_seq. exists a, ("@" +:+ b +:+ "." +:+ c).
    split; [reflexivity|]. split; [now apply Matches_plus_class|].
    apply Matches_seq. exists "@", (b +:+ "." +:+ c).
    split; [reflexivity|]. split; [now constructor|].
    apply Matches_seq. exists b, ("." +:+ c).
    split; [reflexivity|]. split; [now apply Matches_plus_class|].
    apply Matches_seq. exists ".", c.
    split; [reflexivity|]. split; [now constructor|].
    now apply Matches_plus_class.
Qed.

Lemma validateEmail_Ok (email accepted : string) :
  CSVParser.validateEmail email = Ok accepted ->
  wellFormedAddress accepted /\ toLowerCase accepted = accepted.
Proof.
  unfold CSVParser.validateEmail. cbv zeta.
  destruct (JsText.test CSVParser.emailRegex
              (toLowerCase (JsText.trim email))) eqn:Et; cbn [negb];
    [|discriminate].
  intros [= <-]. split; [now apply emailRegex_spec|].
  apply toLowerCase_idempotent.
Qed.

(** X25. [validateEmail] accepts an address exactly when, trimmed and in
    lower case, it is a local part, an at sign and a domain with a dot
    inside it, the three pieces being non-empty and free of white space and
    of at signs; it then returns the trimmed address in lower case, which
    is not empty and is its own lower case. Otherwise it throws [Invalid
    email format] with the address as given. *)
Theorem X25_accepted_addresses (email : string) :
  (forall s, JsText.test CSVParser.emailRegex s = true
             <-> wellFormedAddress s)
  /\ (forall accepted,
        CSVParser.validateEmail email = Ok accepted
        <-> accepted = toLowerCase (JsText.trim email)
            /\ wellFormedAddress accepted)
  /\ (forall accepted,
        CSVParser.validateEmail email = Ok accepted ->
        truthy (Some accepted) = true /\ toLowerCase accepted = accepted)
  /\ (forall message,
        CSVParser.validateEmail email = Throw message ->
        message = "Invalid email format: " +:+ email
        /\ ~ wellFormedAddress (toLowerCase (JsText.trim email))).
Proof.
  pose proof emailRegex_spec as Hshape.
  split; [exact Hshape|].
  unfold CSVParser.validateEmail. cbv zeta.
  destruct (JsText.test CSVParser.emailRegex
              (toLowerCase (JsText.trim email))) eqn:Et; cbn [negb].
  - apply Hshape in Et. split; [|split].
    + intros accepted. split.
      * intros [= <-]. auto.
      * intros [-> _]. reflexivity.
    + intros accepted [= <-]. split; [|apply toLowerCase_idempotent].
      destruct Et as (a & b & c & -> & Ha & _).
      destruct a; [congruence|reflexivity].
    + intros message [=].
  - split; [|split].
    + intros accepted. split; [discriminate|].
      intros [-> H%Hshape]. congruence.
    + intros accepted [=].
    + intros message [= <-]. split; [reflexivity|].
      intros H%Hshape. congruence.
Qed.

Section Lines.

Import JsText CSVParser.

Lemma parseLineFrom_plain (field rest current : string)
    (inQuotes : bool) (result : list string) :
  allChars plainChar field = true ->
  parseLineFrom (field +:+ rest) current inQuotes result
  = parseLineFrom rest (current +:+ field) inQuotes result.
Proof.
  revert current. induction field as [|c field IH]; intros current Hp.
  - now rewrite string_append_nil_r.
  - cbn [allChars] in Hp. apply andb_prop in Hp as [Hc Hf].
    unfold plainChar in Hc. apply andb_prop in Hc as [Hq Hcomma].
    apply negb_true_iff in Hq, Hcomma.
    rewrite append_String. cbn [parseLineFrom]. rewrite Hq, Hcomma.
    cbn [andb]. rewrite (IH _ Hf), string_append_assoc. reflexivity.
Qed.

Lemma parseLineFrom_open (line current : string) (result : list string) :
  parseLineFrom (String "034" line) current false result
  = parseLineFrom line current true result.
Proof. cbn [parseLineFrom]. destruct line; reflexivity. Qed.

Lemma parseLineFrom_quoted (field rest current : string)
    (result : list string) :
  rest = "" \/ (exists r, rest = String "," r) ->
  parseLineFrom (doubleQuotes field +:+ String "034" rest) current true result
  = parseLineFrom rest (current +:+ field) false result.
Proof.
  intros Hrest. revert current.
  induction field as [|c field IH]; intros current.
  - rewrite string_append_nil_r.
    change (doubleQuotes "" +:+ String "034" rest) with (String "034" rest).
    cbn [parseLineFrom].
    destruct Hrest as [->|(r & ->)]; reflexivity.
  - cbn [doubleQuotes].
    destruct (Ascii.eqb_spec c "034") as [->|Hq].
    + rewrite !append_String. cbn [parseLineFrom].
      change (Ascii.eqb "034" "034") with true. cbn [andb].
      rewrite IH, string_append_assoc. reflexivity.
    + rewrite append_String. cbn [parseLineFrom].
      apply Ascii.eqb_neq in Hq. rewrite Hq.
      rewrite andb_false_r.
      rewrite IH, string_append_assoc. reflexivity.
Qed.

Lemma parseLineFrom_comma (line current : string) (result : list string) :
  parseLineFrom (String "," line) current false result
  = parseLineFrom line "" false (result ++ [trim current]).
Proof. reflexivity. Qed.

(** X22. A line is read back field by field, each field trimmed: a line
    made of fields joined by commas, when the fields hold neither a quote
    nor a comma; and a line made of any fields, each written between
    quotes with its own quotes doubled, joined by commas. *)
Theorem X22_lines_are_read_back (fields : list string) :
  fields <> [] ->
  parseLine (join "," (map quoteField fields)) = map trim fields
  /\ (Forall (fun field => allChars plainChar field = true) fields ->
      parseLine (join "," fields) = map trim fields).
Proof.
  intros Hne. unfold parseLine. split.
  - change (map trim fields) with ([] ++ map trim fields).
    generalize (@nil string) as result.
    induction fields as [|f [|g rest] IH]; intros result; [congruence| |].
    + cbn [map join]. unfold quoteField.
      rewrite parseLineFrom_open, parseLineFrom_quoted by now left.
      reflexivity.
    + change (join "," (map quoteField (f :: g :: rest)))
        with (quoteField f +:+ "," +:+ join "," (map quoteField (g :: rest))).
      unfold quoteField at 1. rewrite append_String, parseLineFrom_open.
      rewrite string_append_assoc.
      change (String "034" "" +:+ "," +:+ ?x) with (String "034" (String "," x)).
      rewrite parseLineFrom_quoted by (right; eauto).
      rewrite parseLineFrom_comma, IH by discriminate.
      rewrite <- app_assoc. reflexivity.
  - intros Hplain. change (map trim fields) with ([] ++ map trim fields).
    generalize (@nil string) as result.
    induction fields as [|f [|g rest] IH]; intros result; [congruence| |].
    + cbn [map join]. apply Forall_cons in Hplain as [Hf _].
      rewrite <- (string_append_nil_r f) at 1.
      rewrite parseLineFrom_plain by exact Hf. reflexivity.
    + apply Forall_cons in Hplain as [Hf Hrest].
      change (join "," (f :: g :: rest))
        with (f +:+ String "," (join "," (g :: rest))).
      rewrite parseLineFrom_plain by exact Hf.
      rewrite parseLineFrom_comma, IH by (discriminate || exact Hrest).
      rewrite <- app_assoc. reflexivity.
Qed.

Lemma validateRequired_Ok (value : option string) (fieldName x : string) :
  validateRequired value fieldName = Ok x ->
  x = trim (orElse value "") /\ x <> "".
Proof.
  unfold validateRequired.
  destruct (negb (truthy value)); cbn [orb]; [discriminate|].
  destruct (String.eqb_spec (trim (orElse value "")) "") as [|Hne];
    [discriminate|].
  intros [= <-]. auto.
Qed.

Lemma parseGraduationYear_Ok (now : JsDate) (year : option string) (y : Z) :
  parseGraduationYear now year = Ok y ->
  getFullYear now <= y <= getFullYear now + 15
  /\ exists text, year = Some text /\ parseInt text = Some y.
Proof.
  unfold parseGraduationYear.
  destruct year as [text|]; [|discriminate].
  destruct (parseInt text) as [n|] eqn:Ep; [|discriminate]. cbv zeta.
  destruct (Z.ltb_spec n (getFullYear now)); cbn [orb]; [discriminate|].
  destruct (Z.ltb_spec (getFullYear now + 15) n); [discriminate|].
  intros [= <-]. split; [lia|]. exists text. auto.
Qed.

Lemma filled_trim_not_empty (cell : option string) :
  filled cell = true -> trim (orElse cell "") <> "".
Proof.
  unfold filled. intros [_ H]%andb_prop.
  apply negb_true_iff in H. now apply String.eqb_neq.
Qed.

Lemma wellFormedAddress_not_empty (e : string) :
  wellFormedAddress e -> e <> "".
Proof.
  intros (a & b & c & -> & Ha & _). destruct a; [congruence|discriminate].
Qed.

Lemma transformRow_Ok (now : JsDate) (row : list string) (s : Student) :
  transformRow now row = Ok s ->
  exists sid first last year mail,
    validateRequired (row !! STUDENT_ID) "Student ID" = Ok sid
    /\ validateRequired (row !! STU_LEGAL_FIRST) "Stu Legal First" = Ok first
    /\ validateRequired (row !! STU_LEGAL_LAST) "Stu Legal Last" = Ok last
    /\ parseGraduationYear now (row !! STU_GRAD_YR) = Ok year
    /\ ((filled (row !! SCHL_EMAIL_ADDR) = false /\ mail = None)
        \/ (filled (row !! SCHL_EMAIL_ADDR) = true
            /\ exists e,
                 validateEmail (orElse (row !! SCHL_EMAIL_ADDR) "") = Ok e
                 /\ mail = Some e))
    /\ s = recordOfRow row sid first last year mail.
Proof.
  unfold transformRow.
  destruct (validateRequired (row !! STUDENT_ID) _) as [sid|];
    cbn [bind]; [|discriminate].
  destruct (validateRequired (row !! STU_LEGAL_FIRST) _) as [first|];
    cbn [bind]; [|discriminate].
  destruct (validateRequired (row !! STU_LEGAL_LAST) _) as [last|];
    cbn [bind]; [|discriminate].
  destruct (parseGraduationYear now (row !! STU_GRAD_YR)) as [year|];
    cbn [bind]; [|discriminate].
  destruct (filled (row !! SCHL_EMAIL_ADDR)).
  - destruct (validateEmail (orElse (row !! SCHL_EMAIL_ADDR) "")) as [e|];
      cbn [bind]; [|discriminate].
    intros [= <-]. exists sid, first, last, year, (Some e).
    do 4 (split; [reflexivity|]). split; [right; eauto|reflexivity].
  - cbn [bind]. intros [= <-]. exists sid, first, last, year, None.
    do 4 (split; [reflexivity|]). split; [left; auto|reflexivity].
Qed.

(** X23. A record that [transformRow] returns has a non-empty student
    identifier, first name, last name and grade, the grade being [unknown]
    when the grade cell is missing or empty; its graduation year lies
    between the current calendar year and fifteen years later; its
    address, when it has one, is well formed and is the key under which
    the planner indexes the record; its device serial, when it has one, is
    the key under which its device is looked up; it has no parent address;
    and its status is absent or [graduated]. Without a status, the record
    counts as graduated only from June on of its graduation year. *)
Theorem X23_records_of_the_parser
    (now : JsDate) (row : list string) (s : Student) :
  transformRow now row = Ok s ->
  studentId s <> "" /\ firstName s <> "" /\ lastName s <> ""
  /\ grade s <> ""
  /\ (row !! STUDENT_GRADE = None \/ row !! STUDENT_GRADE = Some "" ->
      grade s = "unknown")
  /\ getFullYear now <= graduationYear s <= getFullYear now + 15
  /\ (forall e, email s = Some e ->
      wellFormedAddress e /\ emailKey s = Some e)
  /\ (forall d, deviceSerial s = Some d -> serialKey s = Some d)
  /\ parentEmail s = None
  /\ (status s = None \/ status s = Some graduated)
  /\ (status s = None ->
      (getStudentStatus now s = graduated
       <-> graduationYear s = getFullYear now /\ 6 <= getMonth now + 1)).
Proof.
  intros (sid & first & last & year & mail & E1 & E2 & E3 & E4 & Hmail & ->)
    %transformRow_Ok.
  apply validateRequired_Ok in E1 as [_ H1], E2 as [_ H2], E3 as [_ H3].
  apply parseGraduationYear_Ok in E4 as [H4 _].
  unfold recordOfRow.
  cbn [studentId firstName lastName grade graduationYear email
       deviceSerial parentEmail status].
  split; [exact H1|]. split; [exact H2|]. split; [exact H3|].
  split; [|split; [|split; [exact H4|split; [|split; [|split; [|split]]]]]].
  - destruct (row !! STUDENT_GRADE) as [g|]; cbn [orElse]; [|discriminate].
    destruct (String.eqb_spec g ""); [discriminate|assumption].
  - intros [->| ->]; reflexivity.
  - intros e ->.
    destruct Hmail as [[_ [=]]|(_ & e' & Ee & [= <-])].
    apply validateEmail_Ok in Ee as [Hw Hlow]. split; [exact Hw|].
    unfold emailKey. cbn [email truthy orElse].
    rewrite (eqb_empty_false e (wellFormedAddress_not_empty e Hw)).
    cbn [negb]. now rewrite Hlow.
  - intros d Hd. unfold serialKey. cbn [deviceSerial].
    destruct (filled (row !! DEVICE_SERIAL)) eqn:Ef; [|discriminate].
    injection Hd as <-. cbn [truthy].
    rewrite (eqb_empty_false _ (filled_trim_not_empty _ Ef)). reflexivity.
  - reflexivity.
  - destruct (filled (row !! GRADUATED)); [|now left].
    cbv zeta. destruct (_ || _); [now right|now left].
  - intros Hs. unfold getStudentStatus.
    cbn [status graduationYear]. rewrite Hs. cbv zeta.
    destruct (Z.ltb_spec year (getFullYear now));
      destruct (Z.eqb_spec year (getFullYear now));
      destruct (Z.leb_spec 6 (getMonth now + 1)); cbn [orb andb];
      split; try discriminate; try lia; intros; reflexivity.
Qed.

Lemma X23_witness :
  exists s : Student,
    transformRow september2024 rowWithoutGrade = Ok s
    /\ grade s = "unknown".
Proof.
  pose proof (X23_records_of_the_parser september2024 rowWithoutGrade
                (recordOfRow rowWithoutGrade "STU030" "Eve" "Moss" 2030 None)
                eq_refl) as (_ & _ & _ & _ & Hg & _).
  eexists. split; [reflexivity|]. apply Hg. right. reflexivity.
Defined.

End Lines.

Section Contents.

Import JsText CSVParser.

Lemma split_not_nil (sep : ascii) (s : string) : split sep s <> [].
Proof.
  destruct s as [|c s]; cbn [split]; [discriminate|].
  destruct (Ascii.eqb c sep); [discriminate|].
  destruct (split sep s); discriminate.
Qed.

Lemma parseRow_Throw (now : JsDate) (hasHeaders : bool) (index : nat)
    (line message : string) :
  parseRow now hasHeaders index line = Throw message ->
  exists detail,
    message
    = "Error parsing row "
        +:+ numberToString (Z.of_nat index + (if hasHeaders then 2 else 1))
        +:+ ": " +:+ detail.
Proof.
  unfold parseRow. cbv zeta.
  destruct (_ <- validateRowLength _ _ ;; _) as [s|detail]; [discriminate|].
  intros [= <-]. now exists detail.
Qed.

Lemma parseRows_spec (now : JsDate) (hasHeaders : bool)
    (dataLines : list string) (index : nat) :
  match parseRows now hasHeaders index dataLines with
  | Ok students =>
      Forall2 (fun '(i, line) student =>
                 parseRow now hasHeaders i line = Ok student)
        (zip (seq index (List.length dataLines)) dataLines) students
  | Throw message =>
      exists before line after students,
        dataLines = before ++ line :: after
        /\ Forall2 (fun '(i, line) student =>
                      parseRow now hasHeaders i line = Ok student)
             (zip (seq index (List.length before)) before) students
        /\ parseRow now hasHeaders (index + List.length before) line
           = Throw message
  end.
Proof.
  revert index. induction dataLines as [|line rest IH]; intros index.
  - cbn. constructor.
  - cbn [parseRows].
    destruct (parseRow now hasHeaders index line) as [student|message]
      eqn:Erow; cbn [bind].
    + specialize (IH (S index)).
      destruct (parseRows now hasHeaders (S index) rest)
        as [students|message]; cbn [bind].
      * cbn [List.length seq zip zip_with]. constructor; assumption.
      * destruct IH as (before & bad & after & students & -> & Hb & Hbad).
        exists (line :: before), bad, after, (student :: students).
        split; [reflexivity|]. split.
        -- cbn [List.length seq zip zip_with]. constructor; assumption.
        -- cbn [List.length]. rewrite <- Hbad. f_equal. lia.
    + exists [], line, rest, []. split; [reflexivity|].
      split; [constructor|]. cbn [List.length]. rewrite Nat.add_0_r.
      exact Erow.
Qed.

(** X24. [parseCSVContent] never throws [CSV file is empty]: splitting
    gives at least one line, so that empty content without a header row
    is read as one data row. It throws [No data rows found in CSV] exactly
    when a header row is expected and the trimmed content is a single
    line. Otherwise it returns one record per data line, in order, or
    throws for the first line that fails, the message starting with [Error
    parsing row] and the number of the line, the header counted. *)
Theorem X24_contents_of_a_roster_file
    (now : JsDate) (content : string) (hasHeaders : bool) :
  let lines := split "010" (trim content) in
  let dataLines := if hasHeaders then skipn 1 lines else lines in
  let rowOk := fun '(i, line) student =>
                 parseRow now hasHeaders i line = Ok student in
  parseCSVContent now content hasHeaders <> Throw "CSV file is empty"
  /\ (parseCSVContent now content hasHeaders
      = Throw "No data rows found in CSV"
      <-> hasHeaders = true /\ List.length lines = 1%nat)
  /\ (forall students,
        parseCSVContent now content hasHeaders = Ok students ->
        dataLines <> []
        /\ Forall2 rowOk (zip (seq 0 (List.length dataLines)) dataLines)
             students)
  /\ (forall message,
        parseCSVContent now content hasHeaders = Throw message ->
        message = "No data rows found in CSV"
        \/ exists before line after students detail,
             dataLines = before ++ line :: after
             /\ Forall2 rowOk (zip (seq 0 (List.length before)) before)
                  students
             /\ parseRow now hasHeaders (List.length before) line
                = Throw message
             /\ message
                = "Error parsing row "
                    +:+ numberToString
                          (Z.of_nat (List.length before)
                           + (if hasHeaders then 2 else 1))
                    +:+ ": " +:+ detail).
Proof.
  cbv zeta. unfold parseCSVContent. cbv zeta.
  pose proof (split_not_nil "010" (trim content)) as Hlines.
  set (lines := split "010" (trim content)) in *.
  destruct (Nat.eqb_spec (List.length lines) 0) as [H0|_];
    [destruct lines; [congruence|discriminate H0]|].
  set (dataLines := if hasHeaders then skipn 1 lines else lines).
  assert (dataLines = [] <-> hasHeaders = true /\ List.length lines = 1%nat)
    as Hnone.
  { unfold dataLines. destruct hasHeaders.
    - destruct lines as [|h [|l rest]]; [congruence| |]; cbn; split;
        try discriminate; auto.
      intros [_ [=]].
    - split; [congruence|]. intros [[=] _]. }
  pose proof (parseRows_spec now hasHeaders dataLines 0) as Hrows.
  assert (forall message,
            parseRows now hasHeaders 0 dataLines = Throw message ->
            exists (detail : string) (before : list string),
              message
              = "Error parsing row "
                  +:+ numberToString
                        (Z.of_nat (List.length before)
                         + (if hasHeaders then 2 else 1))
                  +:+ ": " +:+ detail) as Hprefix.
  { intros message E. rewrite E in Hrows.
    destruct Hrows as (before & line & after & students & _ & _ & Hbad).
    apply parseRow_Throw in Hbad as (detail & ->).
    now exists detail, before. }
  destruct (Nat.eqb_spec (List.length dataLines) 0) as [Hd0|Hd].
  - assert (dataLines = []) as Hnil by (destruct dataLines; [auto|discriminate]).
    split; [discriminate|]. split; [split; [intros _|reflexivity]|].
    + now apply Hnone.
    + split; [discriminate|]. intros message [= <-]. now left.
  - assert (dataLines <> []) as Hsome by (intros E; rewrite E in Hd; auto).
    split; [|split; [|split]].
    + intros E. destruct (Hprefix _ E) as (detail & before & [=]).
    + split.
      * intros E. destruct (Hprefix _ E) as (detail & before & [=]).
      * intros H%Hnone. contradiction.
    + intros students E. rewrite E in Hrows. auto.
    + intros message E. right. rewrite E in Hrows.
      destruct Hrows as (before & line & after & students & Hd' & Hb & Hbad).
      cbn [Nat.add] in Hbad.
      destruct (parseRow_Throw _ _ _ _ _ Hbad) as (detail & Hm).
      exists before, line, after, students, detail. auto.
Qed.

Lemma transformRow_year (now now' : JsDate) (row : list string) (s : Student) :
  transformRow now row = Ok s ->
  (exists s', transformRow now' row = Ok s')
  <-> getFullYear now' <= graduationYear s <= getFullYear now' + 15.
Proof.
  intros (sid & first & last & year & mail & E1 & E2 & E3 & E4 & Hmail & ->)
    %transformRow_Ok.
  apply parseGraduationYear_Ok in E4 as (_ & text & Et & Ep).
  unfold recordOfRow. cbn [graduationYear].
  unfold transformRow. rewrite E1, E2, E3. cbn [bind].
  unfold parseGraduationYear. rewrite Et, Ep. cbv zeta.
  destruct (Z.ltb_spec year (getFullYear now')); cbn [orb bind].
  - split; [intros (s' & [=])|lia].
  - destruct (Z.ltb_spec (getFullYear now' + 15) year); cbn [bind].
    + split; [intros (s' & [=])|lia].
    + split; [lia|]. intros _.
      destruct Hmail as [[-> _]|(-> & e & -> & _)]; cbn [bind]; eauto.
Qed.

Lemma parseRow_year (now now' : JsDate) (hasHeaders : bool) (index : nat)
    (line : string) (s : Student) :
  parseRow now hasHeaders index line = Ok s ->
  (exists s', parseRow now' hasHeaders index line = Ok s')
  <-> getFullYear now' <= graduationYear s <= getFullYear now' + 15.
Proof.
  unfold parseRow. cbv zeta.
  destruct (validateRowLength _ _) as [[]|]; cbn [bind]; [|discriminate].
  destruct (transformRow now (parseLine line)) as [s0|] eqn:E; [|discriminate].
  intros [= ->]. rewrite <- (transformRow_year now now' _ s E).
  destruct (transformRow now' (parseLine line)); split;
    intros (s' & [=]); eauto.
Qed.

(** X26. The sample file that [generateSampleCSV] writes is accepted by
    [parseCSVContent], header row included, exactly in the calendar years
    2023 to 2025: one of its records graduates in 2025, which is out of
    range from 2026 on, and one in 2038, which is out of range before
    2023. *)
Theorem X26_the_sample_file_is_accepted_in_three_years (now : JsDate) :
  (exists students,
     parseCSVContent now generateSampleCSV true = Ok students)
  <-> 2023 <= getFullYear now <= 2025.
Proof.
  unfold parseCSVContent. cbv zeta.
  assert (exists l1 l2 l3 l4 header,
            split "010" (trim generateSampleCSV) = [header; l1; l2; l3; l4]
            /\ (exists s, parseRow (mkDate 2024 0) true 0 l1 = Ok s
                          /\ graduationYear s = 2028)
            /\ (exists s, parseRow (mkDate 2024 0) true 1 l2 = Ok s
                          /\ graduationYear s = 2031)
            /\ (exists s, parseRow (mkDate 2024 0) true 2 l3 = Ok s
                          /\ graduationYear s = 2025)
            /\ (exists s, parseRow (mkDate 2024 0) true 3 l4 = Ok s
                          /\ graduationYear s = 2038))
    as (l1 & l2 & l3 & l4 & header & -> & H1 & H2 & H3 & H4).
  { do 5 eexists. split; [vm_compute; reflexivity|].
    repeat split; eexists; (split; [vm_compute; reflexivity|reflexivity]). }
  cbn [List.length Nat.eqb skipn parseRows].
  destruct H1 as (s1 & E1 & Y1), H2 as (s2 & E2 & Y2),
    H3 as (s3 & E3 & Y3), H4 as (s4 & E4 & Y4).
  pose proof (parseRow_year _ now _ _ _ _ E1) as P1.
  pose proof (parseRow_year _ now _ _ _ _ E2) as P2.
  pose proof (parseRow_year _ now _ _ _ _ E3) as P3.
  pose proof (parseRow_year _ now _ _ _ _ E4) as P4.
  rewrite Y1 in P1. rewrite Y2 in P2. rewrite Y3 in P3. rewrite Y4 in P4.
  destruct (parseRow now true 0 l1) as [r1|]; cbn [bind].
  - destruct (parseRow now true 1 l2) as [r2|]; cbn [bind].
    + destruct (parseRow now true 2 l3) as [r3|]; cbn [bind].
      * destruct (parseRow now true 3 l4) as [r4|]; cbn [bind].
        -- split; [intros _|eauto].
           assert (exists s', Ok r1 = Ok s') as Q1 by eauto.
           assert (exists s', Ok r3 = Ok s') as Q3 by eauto.
           assert (exists s', Ok r4 = Ok s') as Q4 by eauto.
           apply P1 in Q1. apply P3 in Q3. apply P4 in Q4. lia.
        -- split; [intros (x & [=])|].
           intros H. destruct (proj2 P4) as (x & [=]). lia.
      * split; [intros (x & [=])|].
        intros H. destruct (proj2 P3) as (x & [=]). lia.
    + split; [intros (x & [=])|].
      intros H. destruct (proj2 P2) as (x & [=]). lia.
  - split; [intros (x & [=])|].
    intros H. destruct (proj2 P1) as (x & [=]). lia.
Qed.

End Contents.

Lemma X22_witness :
  CSVParser.parseLine
    (JsText.join "," (map quoteField ["Doe, John"; " STU001 "; ""]))
  = ["Doe, John"; "STU001"; ""].
Proof.
  pose proof (X22_lines_are_read_back ["Doe, John"; " STU001 "; ""]) as H.
  destruct H as [H _]; [discriminate|]. exact H.
Defined.

(** * Reading the directory *)

Section Devices.

Import DirectoryClient Preparation.

Variable svc : Service.

Lemma getChromeDeviceBySerial_spec (serial : string) (log : list Request) :
  snd (getChromeDeviceBySerial svc serial log) = log ++ [deviceLookup serial]
  /\ forall d,
       fst (getChromeDeviceBySerial svc serial log) = Ok (Some d) ->
       serialNumber d = Some serial
       /\ exists listing,
            getChromeDevices svc log (Some ("id:" +:+ serial))
            = Ok (Some listing)
            /\ In d listing.
Proof.
  unfold getChromeDeviceBySerial, listChromeDevices. cbv zeta.
  change (whenTruthy (Some ("id:" +:+ serial)))
    with (Some ("id:" +:+ serial)).
  destruct (getChromeDevices svc log (Some ("id:" +:+ serial)))
    as [[listing|]|message]; cbn [fst snd]; (split; [reflexivity|]).
  - intros d [= Hfind]. apply List.find_some in Hfind as [Hin Hd].
    apply bool_decide_eq_true in Hd. eauto.
  - intros d [= [=]].
  - intros d [=].
Qed.

Lemma getBatch_lookupOne (batch : list string)
    (deviceMap : gmap string ChromeDevice) (log : list Request) :
  (foldl setFound deviceMap (zip batch (fst (getBatch svc batch log))),
   snd (getBatch svc batch log))
  = foldl (lookupOne svc) (deviceMap, log) batch.
Proof.
  revert deviceMap log. induction batch as [|serial rest IH];
    intros deviceMap log; [reflexivity|].
  cbn [getBatch foldl]. unfold lookupOne at 2. cbn [fst snd].
  destruct (getChromeDeviceBySerial svc serial log) as [found log1].
  specialize (IH (setFound deviceMap
                    (serial, match found with
                             | Ok device => device
                             | Throw _ => None
                             end)) log1).
  destruct (getBatch svc rest log1) as [results log2].
  cbn [fst snd zip zip_with foldl] in *. exact IH.
Qed.

Lemma batchLoop_lookupOne (serialNumbers : list string) (iterations : nat) :
  forall (i : Z) (deviceMap : gmap string ChromeDevice) (log : list Request),
    0 <= i ->
    Z.of_nat (List.length serialNumbers) - i <= 10 * Z.of_nat iterations ->
    batchLoop iterations svc serialNumbers i deviceMap log
    = foldl (lookupOne svc) (deviceMap, log)
        (skipn (Z.to_nat i) serialNumbers).
Proof.
  induction iterations as [|iterations IH]; intros i deviceMap log Hi Hfuel.
  - cbn [batchLoop]. rewrite skipn_all2 by lia. reflexivity.
  - cbn [batchLoop]. cbv zeta.
    destruct (Z.ltb_spec i (Z.of_nat (List.length serialNumbers)))
      as [Hlt|Hge].
    + rewrite slice_batch by lia.
      pose proof (getBatch_lookupOne
                    (firstn (Z.to_nat 10)
                       (skipn (Z.to_nat i) serialNumbers)) deviceMap log)
        as Hbatch.
      destruct (getBatch svc _ log) as [results log'].
      cbn [fst snd] in Hbatch.
      rewrite IH by lia.
      rewrite <- (firstn_skipn (Z.to_nat 10)
                    (skipn (Z.to_nat i) serialNumbers)) at 2.
      rewrite foldl_app, <- Hbatch. f_equal.
      rewrite skipn_skipn. f_equal. lia.
    + rewrite skipn_all2 by lia. reflexivity.
Qed.

Lemma serialNumbers_serialKeys (students : list Student) :
  map (fun student => orElse (deviceSerial student) "")
    (List.filter (fun student => truthy (deviceSerial student)) students)
  = serialKeys students.
Proof.
  unfold serialKeys. induction students as [|s rest IH]; [reflexivity|].
  cbn [List.filter omap list_omap]. fold (omap serialKey rest).
  destruct (truthy (deviceSerial s)) eqn:Et;
    unfold serialKey at 1; rewrite Et; [|exact IH].
  cbn [map]. rewrite IH.
  destruct (deviceSerial s) as [k|]; [|discriminate Et].
  cbn [truthy] in Et. cbn [orElse].
  apply negb_true_iff in Et. now rewrite Et.
Qed.

Lemma foldl_lookupOne_log (serials : list string)
    (st : gmap string ChromeDevice * list Request) :
  snd (foldl (lookupOne svc) st serials)
  = snd st ++ map deviceLookup serials.
Proof.
  revert st. induction serials as [|k rest IH]; intros st.
  - cbn. now rewrite app_nil_r.
  - cbn [foldl map]. rewrite IH. unfold lookupOne.
    pose proof (getChromeDeviceBySerial_spec k (snd st)) as [Hlog _].
    destruct (getChromeDeviceBySerial svc k (snd st)) as [found log'].
    cbn [snd] in *. rewrite Hlog, <- app_assoc. reflexivity.
Qed.

Lemma foldl_lookupOne_sound (serials : list string)
    (st : gmap string ChromeDevice * list Request)
    (P : string -> ChromeDevice -> Prop) :
  (forall k d history listing,
     In k serials -> serialNumber d = Some k -> k <> "" ->
     getChromeDevices svc history (Some ("id:" +:+ k)) = Ok (Some listing) ->
     In d listing -> P k d) ->
  (forall k d, fst st !! k = Some d -> P k d) ->
  forall k d, fst (foldl (lookupOne svc) st serials) !! k = Some d -> P k d.
Proof.
  revert st. induction serials as [|serial rest IH]; intros st HP Hst;
    [exact Hst|].
  cbn [foldl]. apply IH.
  - intros k d history listing Hk. apply HP. now right.
  - unfold lookupOne.
    pose proof (getChromeDeviceBySerial_spec serial (snd st)) as [_ Hfound].
    destruct (getChromeDeviceBySerial svc serial (snd st)) as [found log'].
    cbn [fst snd] in *.
    destruct found as [[device|]|message]; cbn [setFound]; try exact Hst.
    destruct (Hfound device eq_refl) as (Hserial & listing & Hl & Hin).
    rewrite Hserial. cbn [truthy].
    destruct (String.eqb_spec serial "") as [->|Hne]; cbn [negb];
      [exact Hst|].
    intros k d. destruct (decide (serial = k)) as [->|Hk].
    + rewrite lookup_insert_eq. intros [= <-].
      apply (HP k device (snd st) listing); auto. now left.
    + rewrite lookup_insert_ne by exact Hk. apply Hst.
Qed.

Lemma foldl_lookupOne_stateless (serials : list string)
    (st : gmap string ChromeDevice * list Request) :
  devicesStateless svc ->
  Forall (fun k => k <> "") serials ->
  forall k,
    fst (foldl (lookupOne svc) st serials) !! k
    = if bool_decide (k ∈ serials)
      then match knownDevice svc k with
           | Some d => Some d
           | None => fst st !! k
           end
      else fst st !! k.
Proof.
  intros Hstateless. revert st.
  induction serials as [|serial rest IH]; intros st Hne k.
  - cbn [foldl]. now rewrite bool_decide_eq_false_2 by apply not_elem_of_nil.
  - apply Forall_cons in Hne as [Hserial Hrest].
    cbn [foldl]. rewrite IH by exact Hrest.
    assert (fst (lookupOne svc st serial)
            = match knownDevice svc serial with
              | Some d => <[serial := d]> (fst st)
              | None => fst st
              end) as Hone.
    { unfold lookupOne, getChromeDeviceBySerial, listChromeDevices,
        knownDevice. cbv zeta.
      change (whenTruthy (Some ("id:" +:+ serial)))
        with (Some ("id:" +:+ serial)).
      rewrite (Hstateless (snd st)).
      destruct (getChromeDevices svc [] (Some ("id:" +:+ serial)))
        as [[listing|]|message]; cbn [fst setFound]; try reflexivity.
      destruct (List.find _ listing) as [d|] eqn:Ef; [|reflexivity].
      apply List.find_some in Ef as [_ Hd].
      apply bool_decide_eq_true in Hd. rewrite Hd. cbn [truthy].
      now rewrite (eqb_empty_false serial Hserial). }
    rewrite Hone. clear Hone.
    destruct (decide (k = serial)) as [->|Hk].
    + rewrite (bool_decide_eq_true_2 (serial ∈ serial :: rest))
        by apply list_elem_of_here.
      destruct (knownDevice svc serial) as [d|] eqn:Ekd.
      * rewrite lookup_insert_eq. now destruct (bool_decide _).
      * now destruct (bool_decide _).
    + assert (match knownDevice svc serial with
              | Some d => <[serial := d]> (fst st)
              | None => fst st
              end !! k = fst st !! k) as Hother.
      { destruct (knownDevice svc serial);
          [rewrite lookup_insert_ne by congruence|]; reflexivity. }
      rewrite Hother.
      destruct (bool_decide_reflect (k ∈ rest)) as [Hin|Hnin].
      * rewrite bool_decide_eq_true_2 by now apply list_elem_of_further.
        reflexivity.
      * rewrite bool_decide_eq_false_2; [reflexivity|].
        intros [E|E]%elem_of_cons; [congruence|contradiction].
Qed.

Lemma fetchExistingDevices_fold (students : list Student)
    (log : list Request) :
  fetchExistingDevices svc students log
  = foldl (lookupOne svc) (∅, log) (serialKeys students).
Proof.
  unfold fetchExistingDevices. cbv zeta.
  rewrite serialNumbers_serialKeys.
  destruct (serialKeys students) as [|k rest] eqn:Ek; [reflexivity|].
  cbn [List.length Nat.eqb]. unfold batchGetChromeDevices.
  rewrite batchLoop_lookupOne by lia. reflexivity.
Qed.

(** X27. [fetchExistingDevices] never throws. It looks up the non-empty
    device serials of the roster one after the other, in roster order, by
    the query [id:] and the serial, and makes no request when the roster
    names no device; the batches of ten do not show in what it asks.
    Every entry of the map that it returns is a device that the directory
    listed for that lookup and whose own serial number is the key, a
    serial of the roster. When the replies of the directory do not depend
    on what was asked before, the map holds under every serial of the
    roster exactly what the directory knows under it, and nothing else. *)
Theorem X27_devices_are_looked_up_by_serial
    (students : list Student) (log : list Request) :
  let fetched := fetchExistingDevices svc students log in
  fetched = foldl (lookupOne svc) (∅, log) (serialKeys students)
  /\ snd fetched = log ++ map deviceLookup (serialKeys students)
  /\ (forall k d,
        fst fetched !! k = Some d ->
        serialNumber d = Some k
        /\ In k (serialKeys students)
        /\ exists history listing,
             getChromeDevices svc history (Some ("id:" +:+ k))
             = Ok (Some listing)
             /\ In d listing)
  /\ (devicesStateless svc ->
      forall k,
        fst fetched !! k
        = if bool_decide (k ∈ serialKeys students)
          then knownDevice svc k else None).
Proof.
  cbv zeta. rewrite fetchExistingDevices_fold.
  split; [reflexivity|]. split; [|split].
  - apply foldl_lookupOne_log.
  - apply (foldl_lookupOne_sound (serialKeys students) (∅, log)
             (fun k d =>
                serialNumber d = Some k
                /\ In k (serialKeys students)
                /\ exists history listing,
                     getChromeDevices svc history (Some ("id:" +:+ k))
                     = Ok (Some listing)
                     /\ In d listing)).
    + intros k d history listing Hk Hd _ Hl Hin. eauto 6.
    + intros k d. cbn [fst]. rewrite lookup_empty. discriminate.
  - intros Hstateless k.
    rewrite foldl_lookupOne_stateless; [|exact Hstateless|].
    + cbn [fst]. rewrite lookup_empty.
      destruct (bool_decide _); [|reflexivity].
      now destruct (knownDevice svc k).
    + apply Forall_forall. intros x Hx.
      unfold serialKeys in Hx.
      apply list_elem_of_omap in Hx as (s & _ & Hs).
      unfold serialKey in Hs.
      destruct (deviceSerial s) as [d|]; cbn [truthy] in Hs;
        [|discriminate].
      destruct (String.eqb_spec d ""); cbn [negb] in Hs; [discriminate|].
      congruence.
Qed.

End Devices.

Section Users.

Import DirectoryClient Preparation.

Variable svc : Service.

Lemma startsWith_past_slash (q a r : string) :
  allChars notSlash q = true ->
  startsWith (a +:+ String "/" r) q = startsWith a q.
Proof.
  revert a. induction q as [|d q IH]; intros a Hq; [reflexivity|].
  cbn [allChars] in Hq. apply andb_prop in Hq as [Hd Hq].
  destruct a as [|c a].
  - change ("" +:+ String "/" r) with (String "/" r). cbn [startsWith].
    unfold notSlash in Hd. apply negb_true_iff in Hd. now rewrite Hd.
  - rewrite append_String. cbn [startsWith]. now rewrite IH.
Qed.

Lemma findFirst_suffix (q base : string) :
  allChars notSlash q = true ->
  includes base (String "/" q) = false ->
  findFirst (base +:+ String "/" q) (String "/" q) = Some (base, "").
Proof.
  intros Hq. induction base as [|c base IH]; intros Hno.
  - change ("" +:+ String "/" q) with (String "/" q).
    pose proof (startsWith_append (String "/" q) "") as Hs.
    pose proof (substring_append (String "/" q) "") as Hsub.
    rewrite string_append_nil_r in Hs, Hsub.
    unfold findFirst. rewrite Hs, Hsub. reflexivity.
  - cbn [includes] in Hno. apply orb_false_elim in Hno as [Hhere Hlater].
    rewrite append_String.
    assert (startsWith (String c (base +:+ String "/" q)) (String "/" q)
            = false) as Hs.
    { cbn [startsWith] in *. now rewrite startsWith_past_slash. }
    cbn [findFirst]. rewrite Hs, (IH Hlater). reflexivity.
Qed.

(** The loop of [listUsers] comes to one of three things: a page without
    a next page, a page that fails, or the bound on the pages. *)
Lemma listUsersFrom_spec (query : option string) (fuel : nat) :
  forall (users : list GoogleUser) (token : option string)
         (log : list Request),
    match listUsersFrom fuel svc query users token log with
    | Some (Ok result, log') =>
        exists pages,
          Paged svc (whenTruthy query) token log pages log'
          /\ result = users ++ flat_map usersOf pages
          /\ (List.length pages <= fuel)%nat
    | Some (Throw message, log') =>
        exists pages token' history,
          Turned svc (whenTruthy query) token log pages token' history
          /\ (List.length pages < fuel)%nat
          /\ getUsers svc history (whenTruthy query) (whenTruthy token')
             = Throw message
          /\ log' = history ++ [GetUsers (whenTruthy query) (whenTruthy token')]
    | None =>
        exists pages token' history,
          Turned svc (whenTruthy query) token log pages token' history
          /\ List.length pages = fuel
    end.
Proof.
  induction fuel as [|fuel IH]; intros users token log.
  { exists [], token, log. split; [constructor|reflexivity]. }
  cbn [listUsersFrom]. cbv zeta.
  destruct (getUsers svc log (whenTruthy query) (whenTruthy token))
    as [page|message] eqn:Epage.
  - destruct (truthy (nextPageToken page)) eqn:Enext.
    + specialize (IH (match pageUsers page with
                      | Some more => users ++ more
                      | None => users
                      end) (nextPageToken page)
                    (log ++ [GetUsers (whenTruthy query) (whenTruthy token)])).
      destruct (listUsersFrom fuel svc query _ _ _) as [[[result|message] log']|].
      * destruct IH as (pages & Hp & -> & Hlen).
        exists (page :: pages). split; [now apply PagedNext|].
        split; [|cbn [List.length]; lia].
        cbn [flat_map]. unfold usersOf at 2.
        destruct (pageUsers page); [now rewrite <- app_assoc|reflexivity].
      * destruct IH as (pages & token' & history & Ht & Hlen & Hm & ->).
        exists (page :: pages), token', history.
        split; [now apply TurnedPage|].
        split; [cbn [List.length]; lia|]. split; [exact Hm|reflexivity].
      * destruct IH as (pages & token' & history & Ht & Hlen).
        exists (page :: pages), token', history.
        split; [now apply TurnedPage|]. cbn [List.length]. lia.
    + exists [page]. split; [now apply PagedLast|].
      split; [|cbn [List.length]; lia].
      cbn [flat_map]. unfold usersOf. rewrite app_nil_r.
      destruct (pageUsers page); [reflexivity|now rewrite app_nil_r].
  - exists [], token, log. split; [constructor|].
    split; [cbn [List.length]; lia|]. split; [exact Epage|reflexivity].
Qed.

(** With a bound that covers the pages, the listing returns them. *)
Lemma listUsersFrom_Paged (query : option string) (token : option string)
    (log : list Request) (pages : list UsersPage) (log' : list Request) :
  Paged svc (whenTruthy query) token log pages log' ->
  forall (fuel : nat) (users : list GoogleUser),
    (List.length pages <= fuel)%nat ->
    listUsersFrom fuel svc query users token log
    = Some (Ok (users ++ flat_map usersOf pages), log').
Proof.
  induction 1 as [token log page Hpage Hlast
                 |token log page pages log' Hpage Hnext _ IH];
    intros fuel users Hfuel;
    (destruct fuel as [|fuel]; [cbn [List.length] in Hfuel; lia|]);
    cbn [listUsersFrom]; cbv zeta; rewrite Hpage.
  - rewrite Hlast. cbn [flat_map]. unfold usersOf. rewrite app_nil_r.
    destruct (pageUsers page); [reflexivity|now rewrite app_nil_r].
  - rewrite Hnext, IH by (cbn [List.length] in Hfuel; lia).
    cbn [flat_map]. unfold usersOf at 2.
    destruct (pageUsers page); [now rewrite <- app_assoc|reflexivity].
Qed.

(** The pages that are turned use up as much of the bound. *)
Lemma listUsersFrom_Turned (query : option string) (token : option string)
    (log : list Request) (pages : list UsersPage) (token' : option string)
    (history : list Request) :
  Turned svc (whenTruthy query) token log pages token' history ->
  forall (fuel : nat) (users : list GoogleUser),
    listUsersFrom (List.length pages + fuel) svc query users token log
    = listUsersFrom fuel svc query (users ++ flat_map usersOf pages) token'
        history.
Proof.
  induction 1 as [token log
                 |token log page pages token' log' Hpage Hnext _ IH];
    intros fuel users.
  - cbn [List.length flat_map Nat.add]. now rewrite app_nil_r.
  - cbn [List.length Nat.add listUsersFrom]. cbv zeta.
    rewrite Hpage, Hnext, IH. cbn [flat_map]. f_equal. unfold usersOf at 2.
    destruct (pageUsers page); [now rewrite <- app_assoc|reflexivity].
Qed.

Lemma fetchExistingUsers_query (fuel : nat) (baseStudentOU : string)
    (log : list Request) :
  includes baseStudentOU "/elementary" = false ->
  fetchExistingUsers fuel svc baseStudentOU log
  = listUsers fuel svc (Some (underRoot baseStudentOU)) log.
Proof.
  intros Hno. unfold fetchExistingUsers, underRoot. cbv zeta.
  do 3 f_equal. unfold OUManager.getSchoolLevelOUPath, replace.
  change (baseStudentOU +:+ "/" +:+ schoolLevelString elementary)
    with (baseStudentOU +:+ String "/" "elementary").
  rewrite (findFirst_suffix "elementary" baseStudentOU eq_refl Hno).
  change (getSubstitution "/elementary" baseStudentOU "" "") with "".
  now rewrite !string_append_nil_r.
Qed.

(** X28. When the root does not contain [/elementary], the accounts are
    fetched with the query [orgUnitPath='<root>']. The requests are for
    that query only, the first without a page token and each further one
    with the token of the reply before it. The listing returns exactly
    when, within the bound on the pages, a reply carries no token: it then
    returns the accounts of the pages in the order of the pages. It throws
    exactly when, within the bound, a request fails after pages that each
    carried a token: it throws the error of that request, and what the
    pages before it held is dropped. It runs into the bound exactly when
    as many pages as the bound allows each carried a token. *)
Theorem X28_accounts_are_listed_page_by_page
    (fuel : nat) (baseStudentOU : string) (log : list Request) :
  includes baseStudentOU "/elementary" = false ->
  let query := Some (underRoot baseStudentOU) in
  let run := fetchExistingUsers fuel svc baseStudentOU log in
  (forall users log',
     run = Some (Ok users, log')
     <-> exists pages,
           Paged svc query None log pages log'
           /\ users = flat_map usersOf pages
           /\ (List.length pages <= fuel)%nat)
  /\ (forall message log',
        run = Some (Throw message, log')
        <-> exists pages token history,
              Turned svc query None log pages token history
              /\ (List.length pages < fuel)%nat
              /\ getUsers svc history query (whenTruthy token)
                 = Throw message
              /\ log' = history ++ [GetUsers query (whenTruthy token)])
  /\ (run = None
      <-> exists pages token history,
            Turned svc query None log pages token history
            /\ List.length pages = fuel).
Proof.
  intros Hno. cbv zeta. rewrite (fetchExistingUsers_query fuel _ log Hno).
  unfold listUsers.
  pose proof (listUsersFrom_spec (Some (underRoot baseStudentOU)) fuel []
                None log) as H.
  assert (whenTruthy (Some (underRoot baseStudentOU))
          = Some (underRoot baseStudentOU)) as Hq by reflexivity.
  rewrite Hq in H.
  split; [|split].
  - intros users log'. split.
    + intros E. rewrite E in H. exact H.
    + intros (pages & Hp & -> & Hlen).
      rewrite <- Hq in Hp.
      apply (listUsersFrom_Paged _ _ _ _ _ Hp fuel [] Hlen).
  - intros message log'. split.
    + intros E. rewrite E in H. exact H.
    + intros (pages & token & history & Ht & Hlen & Hm & ->).
      rewrite <- Hq in Ht.
      replace fuel with (List.length pages + S (fuel - S (List.length pages)))%nat
        by lia.
      rewrite (listUsersFrom_Turned _ _ _ _ _ _ Ht).
      cbn [listUsersFrom]. cbv zeta. rewrite Hq, Hm. reflexivity.
  - split.
    + intros E. rewrite E in H. exact H.
    + intros (pages & token & history & Ht & <-).
      rewrite <- Hq in Ht.
      rewrite <- (Nat.add_0_r (List.length pages)).
      rewrite (listUsersFrom_Turned _ _ _ _ _ _ Ht). reflexivity.
Qed.

End Users.

(** X30. A live run on a roster that holds a grade code outside the table,
    and no grade code that is a name that objects inherit, does nothing to
    the directory: once the accounts are listed and the devices looked up,
    [sync] throws [Invalid grade] with the first code outside the table,
    before any organisational unit is listed or created, before the
    confirmation prompt and before any action. The roster parser writes
    such a code, [unknown], for a row whose grade cell is missing or
    empty. *)
Theorem X30_an_unknown_grade_stops_a_live_run
    (fuel : nat) (svc : DirectoryClient.Service) (env : Env)
    (config : Config) (baseStudentOU : string) (now : JsDate)
    (students : list Student) (w : World) (users : list GoogleUser)
    (log1 : list DirectoryClient.Request) :
  dryRun config = false ->
  Preparation.fetchExistingUsers fuel svc baseStudentOU []
  = Some (Ok users, log1) ->
  Forall plainGrade students ->
  (exists s, In s students /\ ~ validGrade s) ->
  (exists before s after,
     students = before ++ s :: after
     /\ Forall validGrade before /\ ~ validGrade s
     /\ Preparation.syncWithDirectory fuel svc env config baseStudentOU now
          students w
        = Some (Throw ("Invalid grade: " +:+ grade s), w,
                log1 ++ map deviceLookup (serialKeys students)))
  /\ (forall row s,
        CSVParser.transformRow now row = Ok s ->
        row !! CSVParser.STUDENT_GRADE = None
        \/ row !! CSVParser.STUDENT_GRADE = Some "" ->
        ~ validGrade s /\ plainGrade s).
Proof.
  intros Edry Eusers _ (bad & Hbad & Hinvalid). split.
  - unfold Preparation.syncWithDirectory, Preparation.prepare.
    rewrite Edry, Eusers.
    rewrite fetchExistingDevices_fold.
    pose proof (foldl_lookupOne_log svc (serialKeys students) (∅, log1))
      as Hlog.
    destruct (foldl (lookupOne svc) (∅, log1) (serialKeys students))
      as [devices log2]. cbn [snd] in Hlog. subst log2.
    unfold Preparation.ensureRequiredOUs, RequiredOUs.getRequiredOUs.
    pose proof (collect_start baseStudentOU now students) as Hc.
    destruct (RequiredOUs.collect baseStudentOU now
                RequiredOUs.nothingCollected students) as [st|message].
    + destruct Hc as (Hvalid & _). rewrite Forall_forall in Hvalid.
      elim Hinvalid. apply Hvalid, list_elem_of_In, Hbad.
    + destruct Hc as (before & s & after & -> & Hb & Hs & ->).
      exists before, s, after. split; [reflexivity|].
      split; [exact Hb|].
      split; [unfold validGrade; congruence|].
      unfold sync. rewrite Edry. reflexivity.
  - intros row s Hrow Hcell.
    apply transformRow_Ok in Hrow
      as (sid & first & last & year & mail & _ & _ & _ & _ & _ & ->).
    unfold validGrade, plainGrade, recordOfRow. cbn [grade].
    destruct Hcell as [->| ->];
      (split; [intros H; apply H; reflexivity|reflexivity]).
Qed.

Lemma X30_witness :
  Preparation.syncWithDirectory 7 smallDirectory quietEnv
    (schoolConfig None) "/org/student" september2024
    (smallRoster ++ [ungraded]) initialWorld
  = Some (Throw "Invalid grade: unknown", initialWorld,
          [DirectoryClient.GetUsers (Some "orgUnitPath='/org/student'")
             None;
           deviceLookup "CHR002345678"]).
Proof.
  destruct (X30_an_unknown_grade_stops_a_live_run 7 smallDirectory quietEnv
              (schoolConfig None) "/org/student" september2024
              (smallRoster ++ [ungraded]) initialWorld smallSnapshot
              [DirectoryClient.GetUsers (Some "orgUnitPath='/org/student'")
                 None])
    as [(before & s & after & Hs & Hb & Hbad & E) _].
  - reflexivity.
  - reflexivity.
  - repeat constructor.
  - exists ungraded. split; [right; right; now left|].
    intros H. apply H. reflexivity.
  - assert (s = ungraded) as ->; [|exact E].
    destruct before as [|b1 [|b2 [|b3 before]]].
    + injection Hs as <- _. elim Hbad. discriminate.
    + injection Hs as _ <- _. elim Hbad. discriminate.
    + injection Hs as _ _ <- _. reflexivity.
    + injection Hs as _ _ _ Hs. destruct before; discriminate Hs.
Defined.

(** X28 on a directory of two pages: with a bound of two pages both are
    listed, with a bound of one the listing does not return, and when the
    second page fails the listing throws its error. *)
Lemma X28_witness :
  let query := Some "orgUnitPath='/org/student'" in
  Preparation.fetchExistingUsers 2 (twoPages (Ok lastPage)) "/org/student" []
  = Some (Ok smallSnapshot,
          [DirectoryClient.GetUsers query None;
           DirectoryClient.GetUsers query (Some "page-2")])
  /\ Preparation.fetchExistingUsers 1 (twoPages (Ok lastPage))
       "/org/student" []
     = None
  /\ Preparation.fetchExistingUsers 2 (twoPages (Throw "Service unavailable"))
       "/org/student" []
     = Some (Throw "Service unavailable",
             [DirectoryClient.GetUsers query None;
              DirectoryClient.GetUsers query (Some "page-2")]).
Proof.
  cbv zeta. split; [|split].
  - apply (X28_accounts_are_listed_page_by_page (twoPages (Ok lastPage)) 2
             "/org/student" []); [reflexivity|].
    exists [ {| DirectoryClient.pageUsers := Some [janeMisplaced];
                DirectoryClient.nextPageToken := Some "page-2" |};
             lastPage ].
    split; [|split; [reflexivity|cbn; lia]].
    apply PagedNext; [reflexivity|reflexivity|].
    exact (PagedLast (twoPages (Ok lastPage))
             (Some "orgUnitPath='/org/student'") (Some "page-2")
             [DirectoryClient.GetUsers (Some "orgUnitPath='/org/student'")
                None]
             lastPage eq_refl eq_refl).
  - apply (X28_accounts_are_listed_page_by_page (twoPages (Ok lastPage)) 1
             "/org/student" []); [reflexivity|].
    exists [ {| DirectoryClient.pageUsers := Some [janeMisplaced];
                DirectoryClient.nextPageToken := Some "page-2" |} ],
      (Some "page-2"),
      [DirectoryClient.GetUsers (Some "orgUnitPath='/org/student'") None].
    split; [|reflexivity].
    apply TurnedPage; [reflexivity|reflexivity|].
    exact (TurnedNone _ (Some "orgUnitPath='/org/student'") (Some "page-2")
             [DirectoryClient.GetUsers (Some "orgUnitPath='/org/student'")
                None]).
  - apply (X28_accounts_are_listed_page_by_page
             (twoPages (Throw "Service unavailable")) 2 "/org/student" []);
      [reflexivity|].
    exists [ {| DirectoryClient.pageUsers := Some [janeMisplaced];
                DirectoryClient.nextPageToken := Some "page-2" |} ],
      (Some "page-2"),
      [DirectoryClient.GetUsers (Some "orgUnitPath='/org/student'") None].
    split; [|split; [cbn; lia|split; reflexivity]].
    apply TurnedPage; [reflexivity|reflexivity|].
    exact (TurnedNone _ (Some "orgUnitPath='/org/student'") (Some "page-2")
             [DirectoryClient.GetUsers (Some "orgUnitPath='/org/student'")
                None]).
Defined.

(** * Creating the organisational units *)

Section Units.

Import JsText DirectoryClient Preparation.

Lemma Forall_insertByDepth (P : string -> Prop) (path : string)
    (sorted : list string) :
  Forall P (insertByDepth path sorted) <-> P path /\ Forall P sorted.
Proof.
  induction sorted as [|other rest IH]; cbn [insertByDepth].
  - rewrite Forall_cons. reflexivity.
  - destruct (depth path <? depth other).
    + rewrite Forall_cons. reflexivity.
    + rewrite !Forall_cons, IH. tauto.
Qed.

Lemma insertByDepth_ascending (path : string) (sorted : list string) :
  ascending sorted -> ascending (insertByDepth path sorted).
Proof.
  induction sorted as [|other rest IH]; cbn [insertByDepth ascending].
  - intros _. split; [constructor|exact I].
  - intros [Hother Hrest].
    destruct (Z.ltb_spec (depth path) (depth other)) as [Hlt|Hge];
      cbn [ascending].
    + split; [|split; assumption].
      constructor; [lia|].
      eapply Forall_impl; [exact Hother|]. cbv beta. intros; lia.
    + split; [|apply IH, Hrest].
      apply Forall_insertByDepth. split; [lia|exact Hother].
Qed.

Lemma insertByDepth_Permutation (path : string) (sorted : list string) :
  Permutation (insertByDepth path sorted) (path :: sorted).
Proof.
  induction sorted as [|other rest IH]; cbn [insertByDepth]; [reflexivity|].
  destruct (depth path <? depth other); [reflexivity|].
  rewrite IH. apply perm_swap.
Qed.

Lemma sortByDepth_spec (paths : list string) :
  ascending (sortByDepth paths) /\ Permutation (sortByDepth paths) paths.
Proof.
  unfold sortByDepth.
  assert (forall sorted,
            ascending sorted ->
            ascending (foldl (fun sorted path => insertByDepth path sorted)
                         sorted paths)
            /\ Permutation
                 (foldl (fun sorted path => insertByDepth path sorted)
                    sorted paths) (sorted ++ paths)) as H.
  { induction paths as [|path rest IH]; intros sorted Hs; cbn [foldl].
    - rewrite app_nil_r. auto.
    - destruct (IH (insertByDepth path sorted)
                  (insertByDepth_ascending path sorted Hs)) as [Ha Hp].
      split; [exact Ha|]. rewrite Hp, insertByDepth_Permutation.
      cbn [app]. apply Permutation_middle. }
  apply (H [] I).
Qed.

(** A path goes behind the paths of its depth that are there already,
    and the paths of another depth stay as they are: the sort is stable. *)
Lemma insertByDepth_same_depth (d : Z) (path : string)
    (sorted : list string) :
  ascending sorted ->
  List.filter (fun other => depth other =? d) (insertByDepth path sorted)
  = List.filter (fun other => depth other =? d) sorted
    ++ (if depth path =? d then [path] else []).
Proof.
  induction sorted as [|other rest IH]; cbn [insertByDepth ascending].
  - intros _. cbn [List.filter app]. destruct (depth path =? d); reflexivity.
  - intros [Hother Hrest].
    destruct (Z.ltb_spec (depth path) (depth other)) as [Hlt|Hge].
    + cbn [List.filter].
      destruct (Z.eqb_spec (depth path) d) as [Hd|Hd].
      * assert (List.filter (fun other0 => depth other0 =? d) rest = [])
          as ->.
        { clear -Hother Hlt Hd. induction Hother as [|x rest Hx _ IH];
            [reflexivity|].
          cbn [List.filter].
          destruct (Z.eqb_spec (depth x) d); [lia|exact IH]. }
        destruct (Z.eqb_spec (depth other) d); [lia|reflexivity].
      * now rewrite app_nil_r.
    + cbn [List.filter]. rewrite (IH Hrest).
      destruct (depth other =? d); reflexivity.
Qed.

Lemma sortByDepth_stable (d : Z) (paths : list string) :
  List.filter (fun path => depth path =? d) (sortByDepth paths)
  = List.filter (fun path => depth path =? d) paths.
Proof.
  unfold sortByDepth.
  assert (forall sorted,
            ascending sorted ->
            List.filter (fun path => depth path =? d)
              (foldl (fun sorted path => insertByDepth path sorted)
                 sorted paths)
            = List.filter (fun path => depth path =? d) sorted
              ++ List.filter (fun path => depth path =? d) paths) as H.
  { induction paths as [|path rest IH]; intros sorted Hs; cbn [foldl].
    - cbn [List.filter]. now rewrite app_nil_r.
    - rewrite (IH _ (insertByDepth_ascending path sorted Hs)).
      rewrite (insertByDepth_same_depth d path sorted Hs).
      cbn [List.filter]. rewrite <- app_assoc.
      destruct (depth path =? d); reflexivity. }
  apply (H [] I).
Qed.

(** The loop over the missing units, by the replies of the directory: it
    completes when every creation is accepted, and it throws the error of
    the first creation that is rejected, after which it asks for no
    other. *)
Lemma createMissing_spec (svc : Service) (config : Config)
    (missingOUs : list string) (log : list Request) :
  dryRun config = false ->
  (accepted svc log missingOUs ->
   createMissing svc config missingOUs log
   = (Ok tt, log ++ map creationRequest missingOUs))
  /\ (forall before ouPath after message,
        missingOUs = before ++ ouPath :: after ->
        accepted svc log before ->
        creationReply svc (log ++ map creationRequest before) ouPath
        = Some message ->
        createMissing svc config missingOUs log
        = (Throw message, log ++ map creationRequest (before ++ [ouPath]))).
Proof.
  intros Edry. revert log.
  induction missingOUs as [|path rest IH]; intros log.
  - split.
    + intros _. cbn. now rewrite app_nil_r.
    + intros [|b before] ouPath after message E; discriminate E.
  - cbn [createMissing]. cbv zeta. rewrite Edry. cbn [negb].
    unfold createOrganizationalUnit. cbv zeta.
    fold (creationReply svc log path).
    change (PostOrgUnit (last (filterTruthy (split "/" path)))
              ("/" +:+ join "/" (slice (filterTruthy (split "/" path)) 0 (-1))))
      with (creationRequest path).
    destruct (IH (log ++ [creationRequest path])) as [IHok IHthrow].
    split.
    + cbn [accepted]. intros [-> Hrest]. rewrite (IHok Hrest).
      cbn [map]. now rewrite <- app_assoc.
    + intros [|b before] ouPath after message E Hacc Hreply.
      * cbn [app] in E. injection E as -> _.
        cbn [map] in Hreply. rewrite app_nil_r in Hreply. rewrite Hreply.
        reflexivity.
      * cbn [app] in E. injection E as -> ->.
        cbn [accepted] in Hacc. destruct Hacc as [-> Hacc].
        change (map creationRequest (b :: before))
          with (creationRequest b :: map creationRequest before) in Hreply.
        rewrite (IHthrow before ouPath after message eq_refl Hacc).
        -- change (map creationRequest ((b :: before) ++ [ouPath]))
             with (creationRequest b
                   :: map creationRequest (before ++ [ouPath])).
           now rewrite <- app_assoc.
        -- rewrite <- app_assoc. exact Hreply.
Qed.

(** Either every creation is accepted, or there is a first one that is
    rejected. *)
Lemma accepted_or_rejected (svc : Service) (paths : list string)
    (log : list Request) :
  accepted svc log paths
  \/ exists before ouPath after message,
       paths = before ++ ouPath :: after
       /\ accepted svc log before
       /\ creationReply svc (log ++ map creationRequest before) ouPath
          = Some message.
Proof.
  revert log. induction paths as [|path rest IH]; intros log.
  - left. exact I.
  - destruct (creationReply svc log path) as [message|] eqn:Er.
    + right. exists [], path, rest, message. cbn [map app accepted].
      rewrite app_nil_r. auto.
    + destruct (IH (log ++ [creationRequest path]))
        as [Hacc|(before & ouPath & after & message & -> & Hacc & Hr)].
      * left. split; assumption.
      * right. exists (path :: before), ouPath, after, message.
        cbn [map app accepted]. rewrite <- app_assoc in Hr.
        split; [reflexivity|]. split; [split; assumption|exact Hr].
Qed.

Lemma split_join (parts : list string) :
  Forall segment parts -> parts <> [] ->
  split "/" (join "/" parts) = parts.
Proof.
  induction parts as [|p [|q rest] IH]; intros Hseg Hne; [congruence| |].
  - apply Forall_cons in Hseg as [[_ Hp] _]. cbn [join].
    now apply split_no_separator.
  - apply Forall_cons in Hseg as [[_ Hp] Hrest].
    change (join "/" (p :: q :: rest))
      with (p +:+ String "/" (join "/" (q :: rest))).
    rewrite split_append by exact Hp. f_equal. apply IH; [exact Hrest|].
    discriminate.
Qed.

Lemma filterTruthy_segments (parts : list string) :
  Forall segment parts -> filterTruthy parts = parts.
Proof.
  unfold filterTruthy. induction parts as [|p rest IH]; [reflexivity|].
  intros [[Hp _] Hrest]%Forall_cons. cbn [List.filter].
  rewrite (eqb_empty_false p Hp). cbn [negb]. now rewrite IH.
Qed.

Lemma join_snoc (parts : list string) (x : string) :
  parts <> [] -> join "/" (parts ++ [x]) = join "/" parts +:+ "/" +:+ x.
Proof.
  induction parts as [|p [|q rest] IH]; intros Hne; [congruence| |].
  - reflexivity.
  - change (join "/" ((p :: q :: rest) ++ [x]))
      with (p +:+ "/" +:+ join "/" ((q :: rest) ++ [x])).
    rewrite IH by discriminate.
    change (join "/" (p :: q :: rest))
      with (p +:+ "/" +:+ join "/" (q :: rest)).
    now rewrite !string_append_assoc.
Qed.

Lemma creationRequest_child (parts : list string) (x : string) :
  Forall segment parts -> parts <> [] -> segment x ->
  creationRequest (pathOf parts +:+ "/" +:+ x)
  = PostOrgUnit (Some x) (pathOf parts).
Proof.
  intros Hparts Hne Hx.
  assert (pathOf parts +:+ "/" +:+ x = pathOf (parts ++ [x])) as ->.
  { unfold pathOf. rewrite join_snoc by exact Hne.
    now rewrite string_append_assoc. }
  unfold creationRequest. cbv zeta.
  assert (filterTruthy (split "/" (pathOf (parts ++ [x]))) = parts ++ [x])
    as ->.
  { unfold pathOf.
    change ("/" +:+ join "/" (parts ++ [x]))
      with (String "/" (join "/" (parts ++ [x]))).
    cbn [split]. change (Ascii.eqb "/" "/") with true. cbv iota.
    rewrite split_join.
    - unfold filterTruthy at 1. cbn [List.filter String.eqb negb].
      apply filterTruthy_segments, Forall_app. split; [exact Hparts|].
      now constructor.
    - apply Forall_app. split; [exact Hparts|]. now constructor.
    - destruct parts; discriminate. }
  rewrite last_snoc. f_equal. unfold pathOf. f_equal. f_equal.
  unfold slice, relativeIndex. cbv zeta.
  rewrite length_app. cbn [List.length].
  destruct (Z.ltb_spec 0 0) as [|_]; [lia|].
  destruct (Z.ltb_spec (-1) 0) as [_|]; [|lia].
  rewrite Z.min_l by lia. rewrite Z.max_l by lia.
  change (Z.to_nat 0) with 0%nat.
  replace (Z.to_nat (Z.of_nat (List.length parts + 1) + -1 - 0))
    with (List.length parts) by lia.
  change (skipn 0 (parts ++ [x])) with (parts ++ [x]).
  rewrite firstn_app, Nat.sub_diag, firstn_all. cbn [firstn].
  apply app_nil_r.
Qed.

Lemma numberToString_segment (n : Z) : segment (numberToString n).
Proof.
  split; [apply numberToString_not_empty|apply numberToString_notSlash].
Qed.

Lemma schoolLevelString_segment (l : SchoolLevel) :
  segment (schoolLevelString l).
Proof. split; [destruct l; discriminate|apply schoolLevelString_notSlash]. Qed.

Lemma generateStudentOUName_segment (s : Student) :
  segment (generateStudentOUName s).
Proof.
  split; [|apply generateStudentOUName_notSlash].
  unfold generateStudentOUName. cbv zeta. intros E.
  pose proof (append_String_not_empty
                (keepChars isLowerOrDigit (toLowerCase (firstName s)))
                (keepChars isLowerOrDigit (toLowerCase (lastName s))) ".")
    as H.
  change (?a +:+ "." +:+ ?b) with (a +:+ String "." b) in E.
  rewrite E in H. discriminate H.
Qed.

(** X29. In a live run, once the required units are known and the
    directory has listed its units, [ensureRequiredOUs] asks for the
    creation of the required paths that are not listed, and of no other:
    one request per path, the shallower paths first and the paths of one
    depth in the order in which they were required (the sort is stable).
    When the directory accepts every creation the step completes after the
    last one; when it rejects one, the step throws the error of the first
    creation that is rejected, right after the request for it, the
    creations before it having been accepted; and one of the two is the
    case. When the root is an absolute path of non-empty segments, the
    request for a school level names the level under the root, the request
    for a graduation year names the year under the level, and the request
    for a student names the student under the graduation year. *)
Theorem X29_missing_units_are_created_shallowest_first
    (svc : Service) (config : Config) (baseStudentOU : string)
    (now : JsDate) (students : list Student) (log : list Request)
    (required : list string) (listed : option (list (option string))) :
  dryRun config = false ->
  RequiredOUs.getRequiredOUs baseStudentOU now students = Ok required ->
  getOrgUnits svc log None = Ok listed ->
  let missing :=
    List.filter (notListed (match listed with Some ous => ous | None => [] end))
      required in
  let sorted := sortByDepth missing in
  let asked := log ++ [GetOrgUnits None] in
  let run := ensureRequiredOUs svc config baseStudentOU now students log in
  ascending sorted
  /\ Permutation sorted missing
  /\ (forall d,
        List.filter (fun path => depth path =? d) sorted
        = List.filter (fun path => depth path =? d) missing)
  /\ (accepted svc asked sorted ->
      run = (Ok tt, asked ++ map creationRequest sorted))
  /\ (forall before ouPath after message,
        sorted = before ++ ouPath :: after ->
        accepted svc asked before ->
        creationReply svc (asked ++ map creationRequest before) ouPath
        = Some message ->
        run = (Throw message,
               asked ++ map creationRequest (before ++ [ouPath])))
  /\ (accepted svc asked sorted
      \/ exists before ouPath after message,
           sorted = before ++ ouPath :: after
           /\ accepted svc asked before
           /\ creationReply svc (asked ++ map creationRequest before) ouPath
              = Some message)
  /\ (forall segments,
        baseStudentOU = pathOf segments ->
        Forall segment segments -> segments <> [] ->
        (forall level,
           creationRequest (getSchoolLevelOUPath baseStudentOU level)
           = PostOrgUnit (Some (schoolLevelString level)) baseStudentOU)
        /\ (forall level year,
              creationRequest
                (getGraduationYearOUPath baseStudentOU level year)
              = PostOrgUnit (Some (numberToString year))
                  (getSchoolLevelOUPath baseStudentOU level))
        /\ (forall s,
              creationRequest (getStudentOUPath baseStudentOU now s)
              = PostOrgUnit (Some (generateStudentOUName s))
                  (getGraduationYearOUPath baseStudentOU
                     (getSchoolLevelFromGradYear now (graduationYear s))
                     (graduationYear s)))).
Proof.
  intros Edry Ereq Elist. cbv zeta.
  set (missing :=
         List.filter
           (notListed (match listed with Some ous => ous | None => [] end))
           required).
  destruct (sortByDepth_spec missing) as [Hasc Hperm].
  split; [exact Hasc|]. split; [exact Hperm|].
  split; [intros d; apply sortByDepth_stable|].
  assert (ensureRequiredOUs svc config baseStudentOU now students log
          = createMissing svc config (sortByDepth missing)
              (log ++ [GetOrgUnits None])) as Erun.
  { unfold ensureRequiredOUs, listOrganizationalUnits. rewrite Ereq.
    cbv zeta. change (whenTruthy None) with (@None string). rewrite Elist.
    reflexivity. }
  rewrite Erun.
  destruct (createMissing_spec svc config (sortByDepth missing)
              (log ++ [GetOrgUnits None]) Edry) as [Hok Hthrow].
  split; [exact Hok|]. split; [exact Hthrow|].
  split; [apply accepted_or_rejected|].
  - intros segments -> Hseg Hne.
    split; [|split].
    + intros level. unfold getSchoolLevelOUPath.
      apply creationRequest_child; auto using schoolLevelString_segment.
    + intros level year. unfold getGraduationYearOUPath, getSchoolLevelOUPath.
      assert (pathOf segments +:+ "/" +:+ schoolLevelString level
              = pathOf (segments ++ [schoolLevelString level])) as Hlevel.
      { unfold pathOf. rewrite join_snoc by exact Hne.
        now rewrite string_append_assoc. }
      replace (pathOf segments +:+ "/" +:+ schoolLevelString level +:+ "/"
                 +:+ numberToString year)
        with (pathOf (segments ++ [schoolLevelString level]) +:+ "/"
                +:+ numberToString year)
        by (rewrite <- Hlevel, !string_append_assoc; reflexivity).
      rewrite Hlevel. apply creationRequest_child.
      * apply Forall_app. split; [exact Hseg|].
        constructor; [apply schoolLevelString_segment|constructor].
      * destruct segments; discriminate.
      * apply numberToString_segment.
    + intros s. unfold getStudentOUPath, getGraduationYearOUPath. cbv zeta.
      set (level := getSchoolLevelFromGradYear now (graduationYear s)).
      assert (pathOf segments +:+ "/" +:+ schoolLevelString level +:+ "/"
                +:+ numberToString (graduationYear s)
              = pathOf (segments ++ [schoolLevelString level;
                                     numberToString (graduationYear s)]))
        as Hyear.
      { unfold pathOf.
        change (segments ++ [schoolLevelString level;
                             numberToString (graduationYear s)])
          with (segments ++ [schoolLevelString level]
                  ++ [numberToString (graduationYear s)]).
        rewrite app_assoc, join_snoc by (destruct segments; discriminate).
        rewrite join_snoc by exact Hne.
        now rewrite !string_append_assoc. }
      replace (pathOf segments +:+ "/" +:+ schoolLevelString level +:+ "/"
                 +:+ numberToString (graduationYear s) +:+ "/"
                 +:+ generateStudentOUName s)
        with (pathOf (segments ++ [schoolLevelString level;
                                   numberToString (graduationYear s)])
                +:+ "/" +:+ generateStudentOUName s)
        by (rewrite <- Hyear, !string_append_assoc; reflexivity).
      rewrite Hyear. apply creationRequest_child.
      * apply Forall_app. split; [exact Hseg|].
        constructor; [apply schoolLevelString_segment|].
        constructor; [apply numberToString_segment|constructor].
      * destruct segments; discriminate.
      * apply generateStudentOUName_segment.
Qed.

End Units.

(** X29 on the sample roster and a directory without units: the six
    units are created, the levels first and the students last, each tier
    in the order of the required paths; and a directory that does not
    create the unit of the class of 2031 stops the step at that request. *)
Lemma X29_witness :
  Preparation.ensureRequiredOUs smallDirectory (schoolConfig None)
    "/org/student" september2024 smallRoster []
  = (Ok tt,
     DirectoryClient.GetOrgUnits None
     :: map creationRequest
          ["/org/student/middle"; "/org/student/high";
           "/org/student/middle/2031"; "/org/student/high/2028";
           "/org/student/middle/2031/jane.roe";
           "/org/student/high/2028/john.doe"])
  /\ Preparation.ensureRequiredOUs reluctantDirectory (schoolConfig None)
       "/org/student" september2024 smallRoster []
     = (Throw "Invalid name",
        DirectoryClient.GetOrgUnits None
        :: map creationRequest
             ["/org/student/middle"; "/org/student/high";
              "/org/student/middle/2031"]).
Proof.
  split.
  - pose proof (X29_missing_units_are_created_shallowest_first smallDirectory
                  (schoolConfig None) "/org/student" september2024 smallRoster
                  [] _ None eq_refl eq_refl eq_refl) as H.
    cbv zeta in H. destruct H as (_ & _ & _ & Hok & _).
    rewrite Hok; [reflexivity|]. vm_compute. repeat split.
  - pose proof (X29_missing_units_are_created_shallowest_first
                  reluctantDirectory (schoolConfig None) "/org/student"
                  september2024 smallRoster [] _ None eq_refl eq_refl
                  eq_refl) as H.
    cbv zeta in H. destruct H as (_ & _ & _ & _ & Hthrow & _).
    apply (Hthrow ["/org/student/middle"; "/org/student/high"]
             "/org/student/middle/2031"
             ["/org/student/high/2028"; "/org/student/middle/2031/jane.roe";
              "/org/student/high/2028/john.doe"]).
    + reflexivity.
    + vm_compute. repeat split.
    + reflexivity.
Defined.
